(** * C2XC-Agent: durable scheduler, ReCAP planning engine and
    ReasoningBank learn/rollback protocol.

    Shallow embedding of
      - src/storage/sqlite_store.py        (tables, claims, idempotency)
      - src/api/routers/batches.py         (create_batch)
      - src/runtime/worker.py              (batch terminal status)
      - src/runtime/reasoningbank_jobs.py  (enqueue, rollback)
      - src/runtime/reasoningbank_learn.py (learn pass)
      - src/storage/reasoningbank_store.py (memory store upsert/archive)
      - src/recap/engine.py                (ReCAP state machine)

    Conventions.  SQLite TEXT columns and Python [str] are [string],
    the bytes of their UTF-8 encoding;
    REAL timestamps produced by [time.time()] are only copied, compared
    and tested for being zero, and are represented by integers [Z];
    a table with a TEXT primary key is a [gmap string row]; Python
    [None] is [None]; identifiers drawn from [uuid4] and clock readings
    are inputs of the operation that draws them. *)

From Stdlib Require Import ZArith Ascii String.
From stdpp Require Import gmap strings list fin_maps sorting pretty.

Set Warnings "-clear-no-such-hyp".

Local Open Scope string_scope.
Local Open Scope Z_scope.

(** ** JSON documents

    Values of Python's [json] module.  A TEXT column that holds a JSON
    text ([config_json], [response_json], [ops_json], [extra_json],
    [payload_json]) is represented by the document it encodes, so
    [json.loads (json.dumps v)] is [v]; a [dict] keeps its insertion
    order. *)

#[warnings="-register-all"] Inductive JSON :=
  | JNull
  | JBool (b : bool)
  | JNum (n : Z)
  | JStr (s : string)
  | JArr (items : list JSON)
  | JObj (fields : list (string * JSON)).

(** [d.get(k)]: [None] when [d] has no key [k]. *)
Fixpoint assoc_get (k : string) (fields : list (string * JSON)) : option JSON :=
  match fields with
  | [] => None
  | (k', v) :: rest => if bool_decide (k' = k) then Some v else assoc_get k rest
  end.

Definition json_get (k : string) (d : JSON) : option JSON :=
  match d with
  | JObj fields => assoc_get k fields
  | _ => None
  end.

(** ** Rows of the SQLite schema (sqlite_store.py, [_init_schema]) *)

Record RunRow := mkRunRow {
  run_batch_id   : string;
  run_index      : Z;
  run_created_at : Z;
  run_started_at : option Z;
  run_ended_at   : option Z;
  run_status     : string;
  run_error      : option string
}.

Record BatchRow := mkBatchRow {
  batch_created_at      : Z;
  batch_started_at      : option Z;
  batch_ended_at        : option Z;
  batch_user_request    : string;
  batch_n_runs          : Z;
  batch_recipes_per_run : Z;
  batch_status          : string;
  batch_config_json     : JSON;
  batch_error           : option string
}.

Record IdemRow := mkIdemRow {
  idem_created_at    : Z;
  idem_request_hash  : string;
  idem_response_json : JSON
}.

Record RBJobRow := mkRBJobRow {
  job_run_id     : string;
  job_kind       : string;
  job_created_at : Z;
  job_started_at : option Z;
  job_ended_at   : option Z;
  job_status     : string;
  job_error      : option string;
  job_extra      : JSON
}.

Record EventRow := mkEventRow {
  ev_run_id  : string;
  ev_type    : string;
  ev_payload : JSON
}.

(** The part of the database the scheduler works on.  Every table is
    keyed by its primary key; [events] is the append-only trace. *)
Record Store := mkStore {
  runs             : gmap string RunRow;
  batches          : gmap string BatchRow;
  idempotency_keys : gmap string IdemRow;
  rb_jobs          : gmap string RBJobRow;
  events           : list EventRow
}.

Definition set_runs (f : gmap string RunRow → gmap string RunRow) (s : Store) : Store :=
  mkStore (f (runs s)) (batches s) (idempotency_keys s) (rb_jobs s) (events s).
Definition set_batches (f : gmap string BatchRow → gmap string BatchRow) (s : Store) : Store :=
  mkStore (runs s) (f (batches s)) (idempotency_keys s) (rb_jobs s) (events s).
Definition set_idempotency_keys (f : gmap string IdemRow → gmap string IdemRow) (s : Store) : Store :=
  mkStore (runs s) (batches s) (f (idempotency_keys s)) (rb_jobs s) (events s).
Definition set_rb_jobs (f : gmap string RBJobRow → gmap string RBJobRow) (s : Store) : Store :=
  mkStore (runs s) (batches s) (idempotency_keys s) (f (rb_jobs s)) (events s).

(** [append_event]: INSERT INTO events, then commit. *)
Definition append_event (run_id ev : string) (payload : JSON) (s : Store) : Store :=
  mkStore (runs s) (batches s) (idempotency_keys s) (rb_jobs s)
          (events s ++ [mkEventRow run_id ev payload]).

(** SQL [COALESCE(a, b)]. *)
Definition COALESCE {A} (a b : option A) : option A :=
  match a with Some x => Some x | None => b end.

(** [status in {"completed", "failed", "canceled"}] *)
Definition is_ended_status (st : string) : bool :=
  bool_decide (st = "completed" ∨ st = "failed" ∨ st = "canceled").

(** ** Status updates (sqlite_store.py, [update_batch_status],
       [update_run_status]) *)

Definition update_batch_row (ts : Z) (status : string) (error : option string)
    (b : BatchRow) : BatchRow :=
  let started_at := if bool_decide (status = "running") then Some ts else None in
  let ended_at := if is_ended_status status then Some ts else None in
  mkBatchRow (batch_created_at b)
             (COALESCE (batch_started_at b) started_at)
             (COALESCE (batch_ended_at b) ended_at)
             (batch_user_request b) (batch_n_runs b) (batch_recipes_per_run b)
             status (batch_config_json b)
             (COALESCE error (batch_error b)).

Definition update_batch_status (ts : Z) (batch_id status : string)
    (error : option string) (s : Store) : Store :=
  set_batches (alter (update_batch_row ts status error) batch_id) s.

Definition update_run_row (ts : Z) (status : string) (error : option string)
    (r : RunRow) : RunRow :=
  let started_at := if bool_decide (status = "running") then Some ts else None in
  let ended_at := if is_ended_status status then Some ts else None in
  mkRunRow (run_batch_id r) (run_index r) (run_created_at r)
           (COALESCE (run_started_at r) started_at)
           (COALESCE (run_ended_at r) ended_at)
           status
           (COALESCE error (run_error r)).

Definition update_run_status (ts : Z) (run_id status : string)
    (error : option string) (s : Store) : Store :=
  set_runs (alter (update_run_row ts status error) run_id) s.

(** ** Worker: batch terminal status (worker.py,
       [_update_batch_terminal_status_if_done]) *)

Definition by_run_index (a b : string * RunRow) : Prop :=
  run_index a.2 ≤ run_index b.2.

#[global] Instance by_run_index_dec a b : Decision (by_run_index a b).
Proof. unfold by_run_index. apply _. Defined.

(** [SELECT ... FROM runs WHERE batch_id = ? ORDER BY run_index] *)
Definition list_runs_for_batch_rows (s : Store) (batch_id : string)
    : list (string * RunRow) :=
  merge_sort by_run_index
    (filter (λ kv, run_batch_id kv.2 = batch_id) (map_to_list (runs s))).

(** Python [any(p(s) for s in statuses)] *)
Definition any_status (p : string → bool) (statuses : list string) : bool :=
  existsb p statuses.

(** The decision taken on the list of run statuses: [None] is the early
    [return] (nothing written), [Some st] the status handed to
    [update_batch_status]. *)
Definition batch_terminal_status (statuses : list string) : option string :=
  match statuses with
  | [] => None
  | _ =>
    if any_status (λ st, bool_decide (st = "queued" ∨ st = "running")) statuses
    then None
    else if any_status (λ st, bool_decide (st = "failed")) statuses then Some "failed"
    else if any_status (λ st, bool_decide (st = "canceled")) statuses then Some "canceled"
    else Some "completed"
  end.

Definition update_batch_terminal_status_if_done (ts : Z) (batch_id : string)
    (s : Store) : Store :=
  let rows := list_runs_for_batch_rows s batch_id in
  let statuses := (λ kv, run_status kv.2) <$> rows in
  match batch_terminal_status statuses with
  | None => s
  | Some st => update_batch_status ts batch_id st None s
  end.

(** ** Exceptions and transactions (sqlite_store.py, [transaction]) *)

Inductive Exn :=
  | ValueError (msg : string)
  | IntegrityError (table : string)
  | APIError (status_code : Z) (code : string)
  | JSONDecodeError
  | ReasoningBankError (msg : string)
  | RBLearnError (msg : string)
  | AttributeError (msg : string)
  | JSONExtractionError (msg : string)
  | RecapError (msg : string)
  | CancelledError.

Inductive Result (A : Type) :=
  | Ok (a : A)
  | Raise (e : Exn).
Arguments Ok {A} a.
Arguments Raise {A} e.

(** [with store.transaction(mode="IMMEDIATE"): body]: BEGIN IMMEDIATE,
    run the body, COMMIT when it leaves normally (also through
    [return]), ROLLBACK and re-raise when it raises. *)
Definition transaction {A} (body : Store → Result A * Store) (s : Store)
    : Result A * Store :=
  match body s with
  | (Ok a, s') => (Ok a, s')
  | (Raise e, _) => (Raise e, s)
  end.

(** ** Python [str.strip()]

    A text is the UTF-8 encoding of a Python [str].  [strip] removes
    the characters for which [str.isspace] holds: TAB, LF, VT, FF, CR,
    FS, GS, RS, US and SPACE, of one byte; U+0085 and U+00A0, of two
    bytes; U+1680, U+2000 to U+200A, U+2028, U+2029, U+202F, U+205F
    and U+3000, of three bytes. *)

Definition is_space (c : ascii) : bool :=
  let n := nat_of_ascii c in
  ((9 <=? n) && (n <=? 13) || (28 <=? n) && (n <=? 32))%nat.

(** U+0085 is [C2 85], U+00A0 is [C2 A0]. *)
Definition is_space2 (c d : ascii) : bool :=
  let c := nat_of_ascii c in
  let d := nat_of_ascii d in
  ((c =? 194) && ((d =? 133) || (d =? 160)))%nat.

(** U+1680 is [E1 9A 80]; U+2000 to U+200A are [E2 80 80] to
    [E2 80 8A], U+2028 and U+2029 are [E2 80 A8] and [E2 80 A9],
    U+202F is [E2 80 AF]; U+205F is [E2 81 9F]; U+3000 is [E3 80 80]. *)
Definition is_space3 (c d e : ascii) : bool :=
  let c := nat_of_ascii c in
  let d := nat_of_ascii d in
  let e := nat_of_ascii e in
  ((c =? 225) && (d =? 154) && (e =? 128)
   || (c =? 226) && (d =? 128)
      && ((128 <=? e) && (e <=? 138) || (e =? 168) || (e =? 169) || (e =? 175))
   || (c =? 226) && (d =? 129) && (e =? 159)
   || (c =? 227) && (d =? 128) && (e =? 128))%nat.

(** [lstrip]: drop the leading white space. *)
Fixpoint lstrip (s : string) : string :=
  match s with
  | EmptyString => EmptyString
  | String c s1 =>
    if is_space c then lstrip s1
    else
      match s1 with
      | EmptyString => s
      | String d s2 =>
        if is_space2 c d then lstrip s2
        else
          match s2 with
          | EmptyString => s
          | String e s3 => if is_space3 c d e then lstrip s3 else s
          end
      end
  end.

(** [rstrip]: drop the trailing white space, that is the longest
    suffix that is white space throughout. *)
Fixpoint rstrip (s : string) : string :=
  match s with
  | EmptyString => EmptyString
  | String c s' =>
    if bool_decide (lstrip s = EmptyString) then EmptyString
    else String c (rstrip s')
  end.

Definition strip (s : string) : string := rstrip (lstrip s).

(** ** ORDER BY ... LIMIT 1 *)

(** The first row of a result set ordered by the total preorder [le]. *)
Definition first_by {A} (le : A → A → bool) (l : list A) : option A :=
  foldr (λ x acc, match acc with
                  | None => Some x
                  | Some y => Some (if le x y then x else y)
                  end) None l.

(** ** Claiming queued runs (sqlite_store.py, [claim_next_queued_run]) *)

(** [ORDER BY created_at ASC, run_id ASC]; TEXT compares bytewise. *)
Definition run_order_le (a b : string * RunRow) : bool :=
  (run_created_at a.2 <? run_created_at b.2) ||
  ((run_created_at a.2 =? run_created_at b.2) && String.leb a.1 b.1).

Definition is_queued_run (kv : string * RunRow) : Prop := run_status kv.2 = "queued".

#[global] Instance is_queued_run_dec kv : Decision (is_queued_run kv).
Proof. unfold is_queued_run. apply _. Defined.

Definition queued_runs (s : Store) : list (string * RunRow) :=
  filter is_queued_run (map_to_list (runs s)).

(** [SELECT run_id, batch_id FROM runs WHERE status = 'queued'
     ORDER BY created_at ASC, run_id ASC LIMIT 1] *)
Definition select_next_queued_run (s : Store) : option (string * RunRow) :=
  first_by run_order_le (queued_runs s).

(** [UPDATE runs SET status = 'running',
     started_at = COALESCE(started_at, ?)
     WHERE run_id = ? AND status = 'queued']; returns [rowcount]. *)
Definition mark_run_running (ts : Z) (run_id : string) (s : Store) : nat * Store :=
  match runs s !! run_id with
  | Some r =>
    if bool_decide (run_status r = "queued") then
      (1%nat,
       set_runs (insert run_id
         (mkRunRow (run_batch_id r) (run_index r) (run_created_at r)
                   (COALESCE (run_started_at r) (Some ts))
                   (run_ended_at r) "running" (run_error r))) s)
    else (0%nat, s)
  | None => (0%nat, s)
  end.

(** [UPDATE batches SET status = 'running',
     started_at = COALESCE(started_at, ?)
     WHERE batch_id = ? AND status = 'queued'] *)
Definition mark_batch_running (ts : Z) (batch_id : string) (s : Store) : Store :=
  match batches s !! batch_id with
  | Some b =>
    if bool_decide (batch_status b = "queued") then
      set_batches (insert batch_id
        (mkBatchRow (batch_created_at b)
                    (COALESCE (batch_started_at b) (Some ts))
                    (batch_ended_at b) (batch_user_request b) (batch_n_runs b)
                    (batch_recipes_per_run b) "running" (batch_config_json b)
                    (batch_error b))) s
    else s
  | None => s
  end.

Definition get_run (s : Store) (run_id : string) : option (string * RunRow) :=
  (λ r, (run_id, r)) <$> runs s !! run_id.

Definition get_batch (s : Store) (batch_id : string) : option (string * BatchRow) :=
  (λ b, (batch_id, b)) <$> batches s !! batch_id.

(** The body runs inside one IMMEDIATE transaction and raises nothing,
    so every path commits; [ts] is the reading of [_utc_ts()]. *)
Definition claim_next_queued_run (ts : Z) (s : Store)
    : option (string * RunRow) * Store :=
  match select_next_queued_run s with
  | None => (None, s)
  | Some row =>
    let run_id := row.1 in
    let batch_id := run_batch_id row.2 in
    let '(rowcount, s1) := mark_run_running ts run_id s in
    if bool_decide (rowcount ≠ 1%nat) then (None, s1)
    else
      let s2 := mark_batch_running ts batch_id s1 in
      (get_run s2 run_id, s2)
  end.

(** A sequence of claim invocations; the IMMEDIATE transactions make
    concurrent callers take turns, [tss] are their clock readings. *)
Fixpoint claim_many (tss : list Z) (s : Store)
    : list (option (string * RunRow)) * Store :=
  match tss with
  | [] => ([], s)
  | ts :: rest =>
    let '(r, s1) := claim_next_queued_run ts s in
    let '(rs, s2) := claim_many rest s1 in
    (r :: rs, s2)
  end.

(** The run ids handed out by a sequence of claims. *)
Definition claimed_ids (results : list (option (string * RunRow))) : list string :=
  omap (λ r, fst <$> r) results.

(** ** Store operations that may raise *)

Definition M (A : Type) : Type := Store → Result A * Store.

Definition ret {A} (a : A) : M A := λ s, (Ok a, s).
Definition raise {A} (e : Exn) : M A := λ s, (Raise e, s).
Definition bind {A B} (m : M A) (k : A → M B) : M B :=
  λ s, match m s with
       | (Ok a, s') => k a s'
       | (Raise e, s') => (Raise e, s')
       end.
Definition get_store : M Store := λ s, (Ok s, s).
Definition modify_store (f : Store → Store) : M unit := λ s, (Ok tt, f s).

Declare Scope store_scope.
Delimit Scope store_scope with store.
Notation "'let!' x := m 'in' k" := (bind m (λ x, k))
  (at level 10, x pattern, m at level 200, k at level 200, only parsing)
  : store_scope.

(** ** ReasoningBank jobs (sqlite_store.py) *)

Record RBJobRecord := mkRBJobRecord {
  rec_rb_job_id  : string;
  rec_run_id     : string;
  rec_kind       : string;
  rec_created_at : Z;
  rec_status     : string
}.

(** reasoningbank_jobs.py, [_row_to_job] *)
Definition row_to_job (row : string * RBJobRow) : RBJobRecord :=
  mkRBJobRecord row.1 (job_run_id row.2) (job_kind row.2)
                (job_created_at row.2) (job_status row.2).

(** [ORDER BY created_at DESC, rb_job_id DESC] *)
Definition job_order_desc (a b : string * RBJobRow) : bool :=
  (job_created_at b.2 <? job_created_at a.2) ||
  ((job_created_at a.2 =? job_created_at b.2) && String.leb b.1 a.1).

(** The WHERE clause assembled by [get_latest_rb_job_for_run]:
    [kind] is tested when given, [statuses] when non-empty. *)
Definition job_matches (rid : string) (kind : option string)
    (statuses : list string) (kv : string * RBJobRow) : bool :=
  bool_decide (job_run_id kv.2 = rid)
  && match kind with
     | Some k => bool_decide (job_kind kv.2 = k)
     | None => true
     end
  && match statuses with
     | [] => true
     | _ => bool_decide (job_status kv.2 ∈ statuses)
     end.

Definition get_latest_rb_job_for_run (s : Store) (run_id : string)
    (kind : option string) (statuses : list string)
    : option (string * RBJobRow) :=
  let rid := strip run_id in
  if bool_decide (rid = "") then None
  else first_by job_order_desc
         (filter (λ kv, job_matches rid kind statuses kv = true)
                 (map_to_list (rb_jobs s))).

(** [create_rb_job(..., commit=False)]; [new_id] is the value of
    [_new_id("rbjob")] and [ts] of [_utc_ts()].  The INSERT violates
    the primary key when the id is taken. *)
Definition create_rb_job (new_id : string) (ts : Z) (run_id kind : string)
    (extra : JSON) : M RBJobRecord :=
  λ s,
  let rid := strip run_id in
  if bool_decide (rid = "") then (Raise (ValueError "run_id is required."), s)
  else match get_run s rid with
  | None => (Raise (ValueError "Run not found."), s)
  | Some _ =>
    let cleaned_kind := if bool_decide (strip kind = "") then "learn" else strip kind in
    match rb_jobs s !! new_id with
    | Some _ => (Raise (IntegrityError "rb_jobs"), s)
    | None =>
      (Ok (mkRBJobRecord new_id rid cleaned_kind ts "queued"),
       set_rb_jobs (insert new_id
         (mkRBJobRow rid cleaned_kind ts None None "queued" None extra)) s)
    end
  end.

(** Python [x or ""] for an optional string. *)
Definition or_empty (x : option string) : string := default "" x.

Definition json_opt_str (x : option string) : JSON :=
  match x with Some v => JStr v | None => JNull end.

(** ** Enqueueing a learn job (reasoningbank_jobs.py,
       [enqueue_rb_learn_job]) *)

(** The body of the IMMEDIATE transaction: [inl job] is the early
    [return _row_to_job(queued)], [inr (created, reason, supersedes)]
    falls through to the code after the [with] block. *)
Definition enqueue_rb_learn_job_txn (new_id : string) (ts : Z) (rid : string)
    : M (RBJobRecord + RBJobRecord * string * option string) :=
  λ s,
  match get_latest_rb_job_for_run s rid (Some "learn") ["queued"] with
  | Some queued => (Ok (inl (row_to_job queued)), s)
  | None =>
    let running := get_latest_rb_job_for_run s rid (Some "learn") ["running"] in
    let supersedes := fst <$> running in
    let reason := match running with
                  | Some _ => "latest_compensation"
                  | None => "enqueue"
                  end in
    match create_rb_job new_id ts rid "learn"
            (JObj [("enqueue_reason", JStr reason);
                   ("supersedes_rb_job_id", JStr (or_empty supersedes))]) s with
    | (Ok created, s') => (Ok (inr (created, reason, supersedes)), s')
    | (Raise e, s') => (Raise e, s')
    end
  end.

Definition enqueue_rb_learn_job (new_id : string) (ts : Z) (run_id : string)
    : M RBJobRecord :=
  λ s,
  let rid := strip run_id in
  if bool_decide (rid = "") then (Raise (ValueError "run_id is required."), s)
  else match transaction (enqueue_rb_learn_job_txn new_id ts rid) s with
  | (Raise e, s') => (Raise e, s')
  | (Ok (inl job), s') => (Ok job, s')
  | (Ok (inr (created, reason, supersedes)), s') =>
    (Ok created,
     append_event rid "rb_learn_queued"
       (JObj [("rb_job_id", JStr (rec_rb_job_id created));
              ("kind", JStr "learn");
              ("status", JStr (rec_status created));
              ("reason", JStr reason);
              ("supersedes_rb_job_id", json_opt_str supersedes)]) s')
  end.

(** Number of queued learn jobs of a run. *)
Definition queued_learn_jobs (s : Store) (rid : string) : list (string * RBJobRow) :=
  filter (λ kv, job_matches rid (Some "learn") ["queued"] kv = true)
         (map_to_list (rb_jobs s)).

(** ** Batches and runs (sqlite_store.py) *)

Record BatchRecord := mkBatchRecord {
  brec_batch_id        : string;
  brec_created_at      : Z;
  brec_user_request    : string;
  brec_n_runs          : Z;
  brec_recipes_per_run : Z;
  brec_status          : string
}.

Record RunRecord := mkRunRecord {
  rrec_run_id     : string;
  rrec_batch_id   : string;
  rrec_run_index  : Z;
  rrec_created_at : Z;
  rrec_status     : string
}.

(** [create_batch(..., commit=False)] with [batch_id = _new_id("batch")]. *)
Definition create_batch (batch_id : string) (created_at : Z)
    (user_request : string) (n_runs recipes_per_run : Z) (config : JSON)
    : M BatchRecord :=
  λ s,
  match batches s !! batch_id with
  | Some _ => (Raise (IntegrityError "batches"), s)
  | None =>
    (Ok (mkBatchRecord batch_id created_at user_request n_runs recipes_per_run "queued"),
     set_batches (insert batch_id
       (mkBatchRow created_at None None user_request n_runs recipes_per_run
                   "queued" config None)) s)
  end.

(** [create_run(..., commit=False)] with [run_id = _new_id("run")]. *)
Definition create_run (run_id : string) (created_at : Z) (batch_id : string)
    (run_index : Z) : M RunRecord :=
  λ s,
  match runs s !! run_id with
  | Some _ => (Raise (IntegrityError "runs"), s)
  | None =>
    (Ok (mkRunRecord run_id batch_id run_index created_at "queued"),
     set_runs (insert run_id
       (mkRunRow batch_id run_index created_at None None "queued" None)) s)
  end.

(** [get_idempotency] *)
Definition get_idempotency (s : Store) (key : string) : option IdemRow :=
  idempotency_keys s !! key.

(** [put_idempotency(..., commit=False)]:
    INSERT ... ON CONFLICT(key) DO NOTHING. *)
Definition put_idempotency (created_at : Z) (key request_hash : string)
    (response_json : JSON) (s : Store) : Store :=
  match idempotency_keys s !! key with
  | Some _ => s
  | None =>
    set_idempotency_keys (insert key (mkIdemRow created_at request_hash response_json)) s
  end.

(** ** POST /batches (api/routers/batches.py, [create_batch]) *)

Record CreateBatchRequest := mkCreateBatchRequest {
  req_user_request    : string;
  req_n_runs          : Z;
  req_recipes_per_run : Z;
  req_temperature     : string;   (* the JSON number, as written *)
  req_dry_run         : bool;
  req_overrides       : JSON;
  req_schema_version  : Z;
  req_extra           : JSON
}.

(** What the handler reads from outside the database: the configured
    limits, the process environment and file system (through the list
    [missing] and the config snapshot), and SHA-256 of the canonical
    JSON of the body. *)
Record ApiEnv := mkApiEnv {
  limits_n_runs_max          : Z;
  limits_recipes_per_run_max : Z;
  env_config_snapshot        : CreateBatchRequest → JSON;
  env_missing                : CreateBatchRequest → list string;
  env_request_hash           : CreateBatchRequest → string
}.

Definition default_user_request : string :=
  "Generate catalyst recipes for photocatalytic CO2 reduction/coupling. " ++
  "Primary objective: high selectivity and high activity for ethylene (C2H4). " ++
  "System is M1M2–TiO2 / Zr-BTB with fixed BTB linker; small_molecule_modifier must contain -COOH.".

(** Truth value of [idempotency_key: str | None]. *)
Definition key_given (idempotency_key : option string) : option string :=
  match idempotency_key with
  | Some k => if bool_decide (k = "") then None else Some k
  | None => None
  end.

(** [for i in range(n)]: run [i] draws [gen (S i)], its index is [i + 1]. *)
Fixpoint create_runs (gen : nat → string * Z) (batch_id : string)
    (n : nat) (i : nat) : M (list RunRecord) :=
  match n with
  | O => ret []
  | S n' =>
    (let! r := create_run (gen (S i)).1 (gen (S i)).2 batch_id (Z.of_nat i + 1) in
     let! rs := create_runs gen batch_id n' (S i) in
     ret (r :: rs))%store
  end.

Definition run_response (r : RunRecord) : JSON :=
  JObj [("run_id", JStr (rrec_run_id r));
        ("batch_id", JStr (rrec_batch_id r));
        ("run_index", JNum (rrec_run_index r));
        ("created_at", JNum (rrec_created_at r));
        ("status", JStr (rrec_status r));
        ("started_at", JNull);
        ("ended_at", JNull);
        ("error", JNull)].

Definition batch_response (batch : BatchRecord) (config_snapshot : JSON)
    (rs : list RunRecord) : JSON :=
  JObj [("batch",
         JObj [("batch_id", JStr (brec_batch_id batch));
               ("created_at", JNum (brec_created_at batch));
               ("status", JStr (brec_status batch));
               ("user_request", JStr (brec_user_request batch));
               ("n_runs", JNum (brec_n_runs batch));
               ("recipes_per_run", JNum (brec_recipes_per_run batch));
               ("started_at", JNull);
               ("ended_at", JNull);
               ("config_snapshot", config_snapshot);
               ("error", JNull)]);
        ("runs", JArr (run_response <$> rs))].

(** The body of [with store.transaction(mode="IMMEDIATE")].  Draw 0 of
    [gen] serves the batch, draws [1..n_runs] the runs and the clock of
    draw [n_runs + 1] the idempotency record. *)
Definition create_batch_txn (gen : nat → string * Z)
    (idempotency_key : option string) (request_hash user_request : string)
    (n_runs recipes_per_run : Z) (config_snapshot : JSON) : M JSON :=
  λ s,
  match (key_given idempotency_key ≫= get_idempotency s) with
  | Some existing =>
    if bool_decide (idem_request_hash existing ≠ request_hash)
    then (Raise (APIError 409 "conflict"), s)
    else (Ok (idem_response_json existing), s)
  | None =>
    (let! batch := create_batch (gen O).1 (gen O).2 user_request n_runs
                   recipes_per_run config_snapshot in
     let! rs := create_runs gen (brec_batch_id batch) (Z.to_nat n_runs) O in
     let response := batch_response batch config_snapshot rs in
     let! _ := match key_given idempotency_key with
             | Some k =>
               modify_store (put_idempotency (gen (S (Z.to_nat n_runs))).2
                               k request_hash response)
             | None => ret tt
             end in
     ret response)%store s
  end.

Definition create_batch_api (env : ApiEnv) (gen : nat → string * Z)
    (idempotency_key : option string) (body : CreateBatchRequest) : M JSON :=
  λ s,
  if (req_n_runs body <? 1) || (limits_n_runs_max env <? req_n_runs body)
  then (Raise (APIError 400 "invalid_argument"), s)
  else if (req_recipes_per_run body <? 1)
          || (limits_recipes_per_run_max env <? req_recipes_per_run body)
  then (Raise (APIError 400 "invalid_argument"), s)
  else
    let user_request :=
      if bool_decide (strip (req_user_request body) = "")
      then default_user_request else strip (req_user_request body) in
    let config_snapshot := env_config_snapshot env body in
    if negb (req_dry_run body) && negb (bool_decide (env_missing env body = []))
    then (Raise (APIError 503 "dependency_unavailable"), s)
    else
      transaction
        (create_batch_txn gen idempotency_key (env_request_hash env body)
           user_request (req_n_runs body) (req_recipes_per_run body)
           config_snapshot) s.

(** ** Sample database contents *)

(** One batch of three runs: one completed, one failed, one canceled. *)
Definition sample_store_done : Store :=
  mkStore
    (list_to_map
       [("run_a", mkRunRow "batch_1" 1 10 (Some 11) (Some 12) "completed" None);
        ("run_b", mkRunRow "batch_1" 2 10 (Some 13) (Some 14) "failed" (Some "boom"));
        ("run_c", mkRunRow "batch_1" 3 10 (Some 15) (Some 16) "canceled" None)])
    (list_to_map
       [("batch_1", mkBatchRow 10 (Some 11) None "request" 3 1 "running" (JObj []) None)])
    ∅ ∅ [].

(** Two batches; [run_b] and [run_c] are queued with the same creation
    time, [run_a] is already running. *)
Definition sample_store_queued : Store :=
  mkStore
    (list_to_map
       [("run_a", mkRunRow "batch_1" 1 10 (Some 11) None "running" None);
        ("run_c", mkRunRow "batch_2" 1 20 None None "queued" None);
        ("run_b", mkRunRow "batch_1" 2 20 None None "queued" None)])
    (list_to_map
       [("batch_1", mkBatchRow 10 (Some 11) None "request" 2 1 "running" (JObj []) None);
        ("batch_2", mkBatchRow 20 None None "request" 1 1 "queued" (JObj []) None)])
    ∅ ∅ [].

(** The ids of the runs whose status is ['queued']. *)
Definition queued_ids (s : Store) : gset string :=
  dom (filter (λ kv : string * RunRow, run_status kv.2 = "queued") (runs s)).

(** The row written by the guarded UPDATE of [claim_next_queued_run]. *)
Definition running_row (ts : Z) (r : RunRow) : RunRow :=
  mkRunRow (run_batch_id r) (run_index r) (run_created_at r)
           (COALESCE (run_started_at r) (Some ts))
           (run_ended_at r) "running" (run_error r).

(** The state written by a successful claim of [rid]. *)
Definition claimed_store (ts : Z) (rid : string) (r : RunRow) (s : Store) : Store :=
  mark_batch_running ts (run_batch_id r)
    (set_runs (insert rid (running_row ts r)) s).

(** ** Claiming and finishing learn jobs (sqlite_store.py,
       [claim_next_queued_rb_job], [update_rb_job_status], [get_rb_job]) *)

(** [ORDER BY created_at ASC, rb_job_id ASC] *)
Definition job_order_asc (a b : string * RBJobRow) : bool :=
  (job_created_at a.2 <? job_created_at b.2) ||
  ((job_created_at a.2 =? job_created_at b.2) && String.leb a.1 b.1).

Definition get_rb_job (s : Store) (rb_job_id : string) : option (string * RBJobRow) :=
  let jid := strip rb_job_id in
  if bool_decide (jid = "") then None
  else (λ r, (jid, r)) <$> rb_jobs s !! jid.

Definition claim_next_queued_rb_job (ts : Z) (s : Store)
    : option (string * RBJobRow) * Store :=
  match first_by job_order_asc
          (filter (λ kv, job_status kv.2 = "queued") (map_to_list (rb_jobs s))) with
  | None => (None, s)
  | Some row =>
    let rb_job_id := row.1 in
    match rb_jobs s !! rb_job_id with
    | Some r =>
      if bool_decide (job_status r = "queued") then
        let s1 := set_rb_jobs (insert rb_job_id
                    (mkRBJobRow (job_run_id r) (job_kind r) (job_created_at r)
                       (COALESCE (job_started_at r) (Some ts)) (job_ended_at r)
                       "running" (job_error r) (job_extra r))) s in
        (get_rb_job s1 rb_job_id, s1)
      else (None, s)
    | None => (None, s)
    end
  end.

Definition update_rb_job_status (ts : Z) (rb_job_id status : string)
    (error : option string) (s : Store) : Store :=
  set_rb_jobs (alter (λ r,
    mkRBJobRow (job_run_id r) (job_kind r) (job_created_at r)
      (COALESCE (job_started_at r)
                (if bool_decide (status = "running") then Some ts else None))
      (COALESCE (job_ended_at r)
                (if is_ended_status status then Some ts else None))
      status (COALESCE error (job_error r)) (job_extra r)) rb_job_id) s.

(** What happens to the [rb_jobs] table: feedback submissions enqueue,
    the worker claims a job and later records how it ended
    (worker.py, [_run_loop] and [_execute_rb_job]). *)
Inductive JobOp :=
  | OpEnqueue (new_id : string) (ts : Z) (run_id : string)
  | OpClaim (ts : Z)
  | OpFinish (ts : Z) (rb_job_id : string) (completed : bool).

Definition run_job_op (op : JobOp) (s : Store) : Store :=
  match op with
  | OpEnqueue new_id ts run_id => (enqueue_rb_learn_job new_id ts run_id s).2
  | OpClaim ts => (claim_next_queued_rb_job ts s).2
  | OpFinish ts rb_job_id completed =>
    if completed then update_rb_job_status ts rb_job_id "completed" None s
    else update_rb_job_status ts rb_job_id "failed" (Some "rb_learn_failed") s
  end.

Definition run_job_ops (ops : list JobOp) (s : Store) : Store :=
  foldl (λ s op, run_job_op op s) s ops.

(** No job at all, one run. *)
Definition sample_store_one_run : Store :=
  mkStore
    (list_to_map
       [("run_a", mkRunRow "batch_1" 1 10 (Some 11) (Some 12) "completed" None)])
    (list_to_map
       [("batch_1", mkBatchRow 10 (Some 11) (Some 12) "request" 1 1 "completed" (JObj []) None)])
    ∅ ∅ [].

(** A queued learn job of run [rid]. *)
Definition queued_learn (rid : string) (r : RBJobRow) : Prop :=
  job_run_id r = rid ∧ job_kind r = "learn" ∧ job_status r = "queued".

(** The [extra_json] written for a new job. *)
Definition enqueue_extra (running : option (string * RBJobRow)) : JSON :=
  JObj [("enqueue_reason",
         JStr (match running with
               | Some _ => "latest_compensation"
               | None => "enqueue"
               end));
        ("supersedes_rb_job_id", JStr (or_empty (fst <$> running)))].

(** ** Idempotent creation, as the specification words it *)

(** A request passes the checks made ahead of the transaction. *)
Definition request_valid (env : ApiEnv) (body : CreateBatchRequest) : Prop :=
  1 ≤ req_n_runs body ≤ limits_n_runs_max env ∧
  1 ≤ req_recipes_per_run body ≤ limits_recipes_per_run_max env ∧
  (req_dry_run body = true ∨ env_missing env body = []).

(** The user request stored with the batch. *)
Definition effective_user_request (body : CreateBatchRequest) : string :=
  if bool_decide (strip (req_user_request body) = "")
  then default_user_request else strip (req_user_request body).

(** The rows written for draw [j] of a batch. *)
Definition new_batch_row (env : ApiEnv) (gen : nat → string * Z)
    (body : CreateBatchRequest) : BatchRow :=
  mkBatchRow (gen O).2 None None (effective_user_request body)
             (req_n_runs body) (req_recipes_per_run body) "queued"
             (env_config_snapshot env body) None.

Definition new_run_row (gen : nat → string * Z) (j : nat) : RunRow :=
  mkRunRow (gen O).1 (Z.of_nat j + 1) (gen (S j)).2 None None "queued" None.

Definition new_run_record (gen : nat → string * Z) (batch_id : string) (j : nat)
    : RunRecord :=
  mkRunRecord (gen (S j)).1 batch_id (Z.of_nat j + 1) (gen (S j)).2 "queued".

(** "The batch and all its N runs are created and the response stored
    under the key": the state [s'] holds, on top of [s], the new batch,
    [N] new runs with distinct ids and the idempotency record. *)
Definition batch_created (env : ApiEnv) (gen : nat → string * Z) (key : string)
    (body : CreateBatchRequest) (response : JSON) (s s' : Store) : Prop :=
  let n := Z.to_nat (req_n_runs body) in
  batches s !! (gen O).1 = None ∧
  batches s' = <[(gen O).1 := new_batch_row env gen body]> (batches s) ∧
  NoDup ((λ j, (gen (S j)).1) <$> seq 0 n) ∧
  (∀ j, (j < n)%nat →
     runs s !! (gen (S j)).1 = None ∧
     runs s' !! (gen (S j)).1 = Some (new_run_row gen j)) ∧
  (∀ rid, (∀ j, (j < n)%nat → rid ≠ (gen (S j)).1) → runs s' !! rid = runs s !! rid) ∧
  idempotency_keys s' =
    <[key := mkIdemRow (gen (S n)).2 (env_request_hash env body) response]>
      (idempotency_keys s) ∧
  rb_jobs s' = rb_jobs s ∧ events s' = events s.

(** The claim, for the key [key] and the body [body] submitted in the
    state [s]. *)
Definition idempotent_create_claim (env : ApiEnv) (gen : nat → string * Z)
    (key : string) (body : CreateBatchRequest) (s : Store) : Prop :=
  let out := create_batch_api env gen (Some key) body s in
  match idempotency_keys s !! key with
  | Some stored =>
    if bool_decide (idem_request_hash stored = env_request_hash env body)
    then out = (Ok (idem_response_json stored), s)
    else out = (Raise (APIError 409 "conflict"), s)
  | None =>
    (∃ response, out.1 = Ok response ∧ batch_created env gen key body response s out.2)
    ∨ (∃ e, out = (Raise e, s))
  end.

Definition sample_env : ApiEnv :=
  mkApiEnv 5 5 (λ _, JObj []) (λ b, if req_dry_run b then [] else ["OPENAI_API_KEY"])
           (λ b, req_user_request b).

Definition sample_gen (i : nat) : string * Z :=
  ("id_" ++ pretty i, 100 + Z.of_nat i).

Definition sample_body (dry_run : bool) : CreateBatchRequest :=
  mkCreateBatchRequest "make recipes" 2 1 "0.7" dry_run (JObj []) 1 (JObj []).

(** A record stored for the key ["k1"] and the body [sample_body false]. *)
Definition sample_store_idem : Store :=
  mkStore ∅ ∅
    (list_to_map [("k1", mkIdemRow 5 "make recipes" (JObj [("batch", JNull)]))])
    ∅ [].

(* ===================================================================== *)
(** * The ReCAP engine (recap/engine.py) *)
(* ===================================================================== *)

(** ** Citation tokens (tools/citation_aliases.py)

    The two patterns are [str] patterns and are matched character by
    character; a character of a text is a UTF-8 sequence.  [[A-Z]] and
    [[0-9a-fA-F]] are the ASCII characters they list.  [\d] is every
    character of category Nd, and [\w] every character for which
    [str.isalnum] holds and the underscore: in ASCII these are [0-9]
    and [[A-Za-z0-9_]]; which characters outside ASCII they are is
    read in the Unicode database of the interpreter ([unicodedata]),
    whose two tables are inputs. *)

Record Unicode := mkUnicode {
  uc_decimal : string → bool;
  uc_alnum   : string → bool
}.

Definition is_upper (c : ascii) : bool :=
  let n := nat_of_ascii c in ((65 <=? n) && (n <=? 90))%nat.
Definition is_digit (c : ascii) : bool :=
  let n := nat_of_ascii c in ((48 <=? n) && (n <=? 57))%nat.
Definition is_lower (c : ascii) : bool :=
  let n := nat_of_ascii c in ((97 <=? n) && (n <=? 122))%nat.
Definition is_hex (c : ascii) : bool :=
  let n := nat_of_ascii c in
  (is_digit c || (65 <=? n) && (n <=? 70) || (97 <=? n) && (n <=? 102))%nat.

(** The number of bytes of the character whose first byte is [c]. *)
Definition utf8_width (c : ascii) : nat :=
  let n := nat_of_ascii c in
  if (n <? 192)%nat then 1%nat
  else if (n <? 224)%nat then 2%nat
  else if (n <? 240)%nat then 3%nat
  else 4%nat.

(** The first [n] bytes of a text, and what follows them. *)
Fixpoint split_bytes (n : nat) (s : string) : string * string :=
  match n, s with
  | S n', String c s' => let '(a, b) := split_bytes n' s' in (String c a, b)
  | _, _ => (EmptyString, s)
  end.

(** The first character of a text, and what follows it. *)
Definition next_char (s : string) : option (string * string) :=
  match s with
  | EmptyString => None
  | String c _ => Some (split_bytes (utf8_width c) s)
  end.

(** A class of characters: [p] on ASCII, [q] elsewhere. *)
Definition char_class (p : ascii → bool) (q : string → bool) (ch : string) : bool :=
  match ch with
  | String c EmptyString => if (nat_of_ascii c <? 128)%nat then p c else q ch
  | _ => q ch
  end.

(** [\d] *)
Definition is_decimal (u : Unicode) (ch : string) : bool :=
  char_class is_digit (uc_decimal u) ch.

(** [\w] *)
Definition is_word (u : Unicode) (ch : string) : bool :=
  char_class (λ c, is_upper c || is_lower c || is_digit c || bool_decide (c = "_"%char))
             (uc_alnum u) ch.

(** The longest prefix of bytes in [p], and what follows it. *)
Fixpoint span (p : ascii → bool) (s : string) : string * string :=
  match s with
  | EmptyString => (EmptyString, EmptyString)
  | String c s' =>
    if p c then let '(a, b) := span p s' in (String c a, b)
    else (EmptyString, s)
  end.

(** The longest prefix of characters in [p], and what follows it; a
    text has at most as many characters as bytes, which bounds the
    recursion. *)
Fixpoint span_chars (p : string → bool) (fuel : nat) (s : string) : string * string :=
  match fuel with
  | O => (EmptyString, s)
  | S fuel' =>
    match next_char s with
    | Some (ch, rest) =>
      if p ch then let '(a, b) := span_chars p fuel' rest in (ch ++ a, b)
      else (EmptyString, s)
    | None => (EmptyString, s)
    end
  end.

(** A match of [\[(?P<alias>[A-Z]+\d+)\]] at the head of [s]: the
    alias and the text after the match.  The two classes share no
    character and neither holds the bracket, so each repetition takes
    all it can. *)
Definition match_alias_token (u : Unicode) (s : string) : option (string * string) :=
  match s with
  | String "["%char s1 =>
    let '(letters, s2) := span is_upper s1 in
    let '(digits, s3) := span_chars (is_decimal u) (String.length s2) s2 in
    match s3 with
    | String "]"%char rest =>
      if bool_decide (letters ≠ "") && bool_decide (digits ≠ "")
      then Some (letters ++ digits, rest) else None
    | _ => None
    end
  | _ => None
  end.

(** [_ALIAS_TOKEN_RE.finditer(text)]: the matches from left to right,
    each search resuming where the previous match ended, or one
    character further when there is no match. *)
Fixpoint alias_tokens (u : Unicode) (fuel : nat) (s : string) : list string :=
  match fuel with
  | O => []
  | S fuel' =>
    match next_char s with
    | None => []
    | Some (_, s') =>
      match match_alias_token u s with
      | Some (a, rest) => a :: alias_tokens u fuel' rest
      | None => alias_tokens u fuel' s'
      end
    end
  end.

(** The [seen]/[ordered] loop: first-seen order, no duplicates. *)
Fixpoint ordered_unique (seen : gset string) (l : list string) : list string :=
  match l with
  | [] => []
  | x :: l' =>
    if bool_decide (x ∈ seen) then ordered_unique seen l'
    else x :: ordered_unique ({[x]} ∪ seen) l'
  end.

Definition extract_citation_aliases (u : Unicode) (text : string) : list string :=
  ordered_unique ∅ (alias_tokens u (String.length text) text).

(** [n] bytes of class [p] at the head of [s]. *)
Fixpoint take_class (p : ascii → bool) (n : nat) (s : string)
    : option (string * string) :=
  match n with
  | O => Some (EmptyString, s)
  | S n' =>
    match s with
    | String c s' =>
      if p c then
        match take_class p n' s' with
        | Some (a, rest) => Some (String c a, rest)
        | None => None
        end
      else None
    | EmptyString => None
    end
  end.

Definition expect_char (c : ascii) (s : string) : option string :=
  match s with
  | String c' s' => if bool_decide (c' = c) then Some s' else None
  | EmptyString => None
  end.

(** [[0-9a-fA-F]{8}-[0-9a-fA-F]{4}-[0-9a-fA-F]{4}-[0-9a-fA-F]{4}-[0-9a-fA-F]{12}] *)
Definition match_uuid (s : string) : option (string * string) :=
  '(a, s) ← take_class is_hex 8 s;  s ← expect_char "-"%char s;
  '(b, s) ← take_class is_hex 4 s;  s ← expect_char "-"%char s;
  '(c, s) ← take_class is_hex 4 s;  s ← expect_char "-"%char s;
  '(d, s) ← take_class is_hex 4 s;  s ← expect_char "-"%char s;
  '(e, s) ← take_class is_hex 12 s;
  Some (a ++ "-" ++ b ++ "-" ++ c ++ "-" ++ d ++ "-" ++ e, s).

(** A match of [\bmem:(?P<mem_id>...)\b] at the head of [s], where
    [prev] is the character in front of [s]: the pattern starts and
    ends with a word character, so [\b] asks for no word character in
    front of the match and none after it. *)
Definition match_mem_token (u : Unicode) (prev : option string) (s : string)
    : option (string * string) :=
  if match prev with Some ch => is_word u ch | None => false end then None
  else
    s ← expect_char "m"%char s; s ← expect_char "e"%char s;
    s ← expect_char "m"%char s; s ← expect_char ":"%char s;
    '(mem_id, rest) ← match_uuid s;
    match next_char rest with
    | Some (ch, _) => if is_word u ch then None else Some (mem_id, rest)
    | None => Some (mem_id, rest)
    end.

(** [_MEM_TOKEN_RE.finditer(text)]; a match ends with a hexadecimal
    digit, the character in front of the next search. *)
Fixpoint mem_tokens (u : Unicode) (fuel : nat) (prev : option string) (s : string)
    : list string :=
  match fuel with
  | O => []
  | S fuel' =>
    match next_char s with
    | None => []
    | Some (ch, s') =>
      match match_mem_token u prev s with
      | Some (m, rest) => m :: mem_tokens u fuel' (Some "0") rest
      | None => mem_tokens u fuel' (Some ch) s'
      end
    end
  end.

Definition extract_memory_ids (u : Unicode) (text : string) : list string :=
  ordered_unique ∅ (mem_tokens u (String.length text) None text).

(** [resolve_aliases]: [{a: alias_map[a] for a in aliases}], a
    [KeyError] when an alias is unknown. *)
Fixpoint resolve_aliases (aliases : list string) (alias_map : gmap string string)
    : option (list (string * string)) :=
  match aliases with
  | [] => Some []
  | a :: rest =>
    match alias_map !! a, resolve_aliases rest alias_map with
    | Some ref, Some out => Some ((a, ref) :: out)
    | _, _ => None
    end
  end.

(** ** Evidence chunks (tools/lightrag_kb.py, tools/citation_aliases.py) *)

Record KBChunk := mkKBChunk {
  chunk_ref          : string;
  chunk_content      : string;
  chunk_source       : string;
  chunk_kb_namespace : string;
  chunk_lightrag_id  : option string
}.

Record AliasedKBChunk := mkAliasedKBChunk {
  ac_alias        : string;
  ac_ref          : string;
  ac_source       : string;
  ac_content      : string;
  ac_kb_namespace : string;
  ac_lightrag_id  : option string
}.

(** ** The knowledge registry of a run

    The [kb_*] fields of [_RuntimeState]. *)
Record KBRegistry := mkKBRegistry {
  kb_alias_map           : gmap string string;          (* alias -> ref *)
  kb_ref_to_alias        : gmap string string;          (* ref -> alias *)
  kb_all_aliased_chunks  : list AliasedKBChunk;         (* first-seen order *)
  kb_alias_to_chunk      : gmap string AliasedKBChunk;
  kb_next_index          : nat;
  kb_focus_aliases       : list string;
  kb_focus_seen          : gset string;
  last_kb_search_aliases : list string
}.

(** The registry at the start of [RecapEngine.run]. *)
Definition kb_registry_init : KBRegistry :=
  mkKBRegistry ∅ ∅ [] ∅ 1 [] ∅ [].

Definition alias_of (ch : KBChunk) (alias : string) : AliasedKBChunk :=
  mkAliasedKBChunk alias (chunk_ref ch) (chunk_source ch) (chunk_content ch)
                   (chunk_kb_namespace ch) (chunk_lightrag_id ch).

(** One turn of the loop [for ch in chunks] of the [kb_search] branch:
    the registry, [aliased_for_obs] and [seen_in_obs] after the turn.
    [f"{prefix}{rt.kb_next_index}"] is [prefix ++ pretty index]. *)
Definition register_chunk (prefix : string) (ch : KBChunk)
    (st : KBRegistry * list AliasedKBChunk * gset string)
    : KBRegistry * list AliasedKBChunk * gset string :=
  let '(reg, aliased_for_obs, seen_in_obs) := st in
  let ref := chunk_ref ch in
  let '(alias, stored, reg') :=
    match kb_ref_to_alias reg !! ref with
    | None =>
      let alias := prefix ++ pretty (kb_next_index reg) in
      let stored := alias_of ch alias in
      (alias, stored,
       mkKBRegistry (<[alias := ref]> (kb_alias_map reg))
                    (<[ref := alias]> (kb_ref_to_alias reg))
                    (kb_all_aliased_chunks reg ++ [stored])
                    (<[alias := stored]> (kb_alias_to_chunk reg))
                    (S (kb_next_index reg))
                    (kb_focus_aliases reg) (kb_focus_seen reg)
                    (last_kb_search_aliases reg))
    | Some alias =>
      match kb_alias_to_chunk reg !! alias with
      | Some stored => (alias, stored, reg)
      | None =>
        let stored := alias_of ch alias in
        (alias, stored,
         mkKBRegistry (kb_alias_map reg) (kb_ref_to_alias reg)
                      (kb_all_aliased_chunks reg)
                      (<[alias := stored]> (kb_alias_to_chunk reg))
                      (kb_next_index reg)
                      (kb_focus_aliases reg) (kb_focus_seen reg)
                      (last_kb_search_aliases reg))
      end
    end in
  if bool_decide (alias ∈ seen_in_obs) then (reg', aliased_for_obs, seen_in_obs)
  else (reg', (aliased_for_obs ++ [stored])%list, {[alias]} ∪ seen_in_obs).

(** The registry part of the [kb_search] branch for the chunks returned
    by [kb.query_chunks]: the new registry and [aliased_for_obs]. *)
Definition kb_search_register (prefix : string) (chunks : list KBChunk)
    (reg : KBRegistry) : KBRegistry * list AliasedKBChunk :=
  let '(reg', aliased_for_obs, _) :=
    foldl (λ st ch, register_chunk prefix ch st) (reg, [], ∅) chunks in
  (mkKBRegistry (kb_alias_map reg') (kb_ref_to_alias reg')
                (kb_all_aliased_chunks reg') (kb_alias_to_chunk reg')
                (kb_next_index reg')
                (kb_focus_aliases reg') (kb_focus_seen reg')
                (ac_alias <$> aliased_for_obs),
   aliased_for_obs).

(** The registry after the searches of a run, in order. *)
Definition kb_searches (prefix : string) (searches : list (list KBChunk))
    (reg : KBRegistry) : KBRegistry :=
  foldl (λ reg chunks, (kb_search_register prefix chunks reg).1) reg searches.

Definition sample_chunk (ref : string) : KBChunk :=
  mkKBChunk ref "content" "doi" "kb_principles" None.

(** The registry [reg'] extends the registry [reg]: every entry of the
    three maps is kept with its value and the chunk list is extended at
    its end. *)
Definition registry_extends (reg reg' : KBRegistry) : Prop :=
  kb_alias_map reg ⊆ kb_alias_map reg' ∧
  kb_ref_to_alias reg ⊆ kb_ref_to_alias reg' ∧
  kb_alias_to_chunk reg ⊆ kb_alias_to_chunk reg' ∧
  kb_all_aliased_chunks reg `prefix_of` kb_all_aliased_chunks reg' ∧
  (kb_next_index reg ≤ kb_next_index reg')%nat.

(** Consistency of the registry maps. *)
Definition registry_inv (prefix : string) (reg : KBRegistry) : Prop :=
  (1 ≤ kb_next_index reg)%nat ∧
  (∀ a r, kb_alias_map reg !! a = Some r ↔ kb_ref_to_alias reg !! r = Some a) ∧
  (∀ a r, kb_alias_map reg !! a = Some r →
          ∃ i, (1 ≤ i < kb_next_index reg)%nat ∧ a = prefix ++ pretty i) ∧
  (∀ a ch, kb_alias_to_chunk reg !! a = Some ch →
           kb_alias_map reg !! a = Some (ac_ref ch) ∧ ac_alias ch = a) ∧
  (∀ a, is_Some (kb_alias_map reg !! a) → is_Some (kb_alias_to_chunk reg !! a)) ∧
  (∀ ch, ch ∈ kb_all_aliased_chunks reg →
         kb_alias_to_chunk reg !! ac_alias ch = Some ch).

(** The loop invariant of [for ch in chunks]. *)
Definition obs_inv (reg : KBRegistry) (obs : list AliasedKBChunk)
    (seen : gset string) : Prop :=
  (∀ x, x ∈ obs → kb_alias_to_chunk reg !! ac_alias x = Some x) ∧
  (∀ a, a ∈ seen ↔ ∃ x, x ∈ obs ∧ ac_alias x = a).

(** ** Python built-ins used by the engine

    Functions of the Python standard library, taken as given:
    [json.loads] ([None] is [json.JSONDecodeError]), [json.dumps] with
    [ensure_ascii=False], with and without [indent=2], [str()] of a
    list or dict, and [int()] of a string. *)
Record PyLib := mkPyLib {
  json_loads        : string → option JSON;
  json_dumps        : JSON → string;
  json_dumps_indent : JSON → string;
  py_repr           : JSON → string;
  int_of_str        : string → option Z;
  py_unicode        : Unicode
}.

(** [str(v)] *)
Definition py_str (py : PyLib) (v : JSON) : string :=
  match v with
  | JStr s => s
  | JNum n => pretty n
  | JBool true => "True"
  | JBool false => "False"
  | JNull => "None"
  | _ => py_repr py v
  end.

(** Truth value of a JSON value. *)
Definition truthy (v : JSON) : bool :=
  match v with
  | JNull => false
  | JBool b => b
  | JNum n => negb (n =? 0)
  | JStr s => negb (bool_decide (s = ""))
  | JArr l => negb (bool_decide (l = []))
  | JObj f => negb (bool_decide (f = []))
  end.

(** [d.get(k, dflt)] *)
Definition get_default (k : string) (dflt : JSON) (fields : list (string * JSON)) : JSON :=
  default dflt (assoc_get k fields).

(** [d.get(k) or dflt] *)
Definition get_or (k : string) (dflt : JSON) (fields : list (string * JSON)) : JSON :=
  match assoc_get k fields with
  | Some v => if truthy v then v else dflt
  | None => dflt
  end.

(** [d.get(k)] when it [is not None]. *)
Definition get_not_none (k : string) (fields : list (string * JSON)) : option JSON :=
  match assoc_get k fields with
  | Some JNull | None => None
  | Some v => Some v
  end.

(** [int(v)]; [None] stands for the exception it raises. *)
Definition py_int (py : PyLib) (v : JSON) : option Z :=
  match v with
  | JNum n => Some n
  | JBool b => Some (if b then 1 else 0)
  | JStr s => int_of_str py s
  | _ => None
  end.

(** ** utils/json_extract.py *)

Fixpoint find_char (c : ascii) (s : string) : option nat :=
  match s with
  | EmptyString => None
  | String c' s' => if bool_decide (c' = c) then Some O else S <$> find_char c s'
  end.

Fixpoint rfind_char (c : ascii) (s : string) : option nat :=
  match s with
  | EmptyString => None
  | String c' s' =>
    match rfind_char c s' with
    | Some i => Some (S i)
    | None => if bool_decide (c' = c) then Some O else None
    end
  end.

Definition extract_first_json_object (py : PyLib) (text : string) : Result JSON :=
  match find_char "{"%char text, rfind_char "}"%char text with
  | Some start, Some end_ =>
    if (end_ <=? start)%nat
    then Raise (JSONExtractionError "No JSON object found in response.")
    else
      let candidate := strip (String.substring start (end_ + 1 - start) text) in
      match json_loads py candidate with
      | Some v => Ok v
      | None => Raise (JSONExtractionError "Invalid JSON")
      end
  | _, _ => Raise (JSONExtractionError "No JSON object found in response.")
  end.

(** ** Structured subtasks (recap/engine.py, [_parse_subtask])

    The dicts returned by [_parse_subtask] have one of eight shapes. *)
Inductive Subtask :=
  | STask (role task : string)
  | SKbSearch (kb_name query : string) (top_k : option Z) (mode : option string)
  | SKbGet (alias : string)
  | SKbList (limit : option Z)
  | SMemSearch (query : string) (top_k : option Z)
               (role status mem_type : option string)
  | SMemGet (mem_id : string)
  | SMemList (limit : option Z)
  | SGenerateRecipes.

Definition _ALLOWED_ROLES : list string := ["orchestrator"; "mof_expert"; "tio2_expert"].
Definition _ALLOWED_KB_NAMES : list string := ["kb_principles"; "kb_modulation"].
Definition _ALLOWED_KB_MODES : list string := ["mix"; "local"; "global"; "hybrid"; "naive"].
Definition _ALLOWED_MEM_ROLES : list string :=
  ["global"; "orchestrator"; "mof_expert"; "tio2_expert"].
Definition _ALLOWED_MEM_STATUSES : list string := ["active"; "archived"].
Definition _ALLOWED_MEM_TYPES : list string := ["reasoningbank_item"; "manual_note"].

(** [top_k]: absent, or an integer [>= 1]. *)
Definition parse_top_k (py : PyLib) (what : string) (item : list (string * JSON))
    : Result (option Z) :=
  match get_not_none "top_k" item with
  | None => Ok None
  | Some v =>
    match py_int py v with
    | None => Raise (JSONExtractionError ("Invalid " ++ what ++ ".top_k"))
    | Some n =>
      if n <? 1 then Raise (JSONExtractionError ("Invalid " ++ what ++ ".top_k: must be >=1"))
      else Ok (Some n)
    end
  end.

Definition parse_limit (py : PyLib) (what : string) (item : list (string * JSON))
    : Result (option Z) :=
  match get_not_none "limit" item with
  | None => Ok None
  | Some v =>
    match py_int py v with
    | None => Raise (JSONExtractionError ("Invalid " ++ what ++ ".limit"))
    | Some n => Ok (Some n)
    end
  end.

(** An optional enumerated string field: absent or empty gives [None],
    a value outside [allowed] is an error. *)
Definition parse_enum (py : PyLib) (what key : string) (allowed : list string)
    (item : list (string * JSON)) : Result (option string) :=
  match get_not_none key item with
  | None => Ok None
  | Some v =>
    let x := strip (if truthy v then py_str py v else "") in
    if bool_decide (x = "") then Ok None
    else if bool_decide (x ∈ allowed) then Ok (Some x)
    else Raise (JSONExtractionError ("Invalid " ++ what ++ "." ++ key))
  end.

Definition _parse_subtask (py : PyLib) (item : JSON) : Result Subtask :=
  match item with
  | JObj f =>
    let stype := strip (py_str py (get_default "type" (JStr "") f)) in
    if bool_decide (stype = "") then
      Raise (JSONExtractionError "Invalid subtask: missing 'type'")
    else if bool_decide (stype = "task") then
      let task := strip (py_str py (get_default "task" (JStr "") f)) in
      if bool_decide (task = "") then
        Raise (JSONExtractionError "Invalid task subtask: missing non-empty 'task'")
      else
        let role := strip (py_str py
          (let v := get_default "role" (JStr "orchestrator") f in
           if truthy v then v else JStr "orchestrator")) in
        if bool_decide (role ∈ _ALLOWED_ROLES) then Ok (STask role task)
        else Raise (JSONExtractionError "Invalid task subtask: role")
    else if bool_decide (stype = "kb_search") then
      let kb_name := strip (py_str py (get_default "kb_name" (JStr "") f)) in
      if bool_decide (kb_name ∉ _ALLOWED_KB_NAMES) then
        Raise (JSONExtractionError "Invalid kb_search: kb_name")
      else
        let query := strip (py_str py (get_default "query" (JStr "") f)) in
        if bool_decide (query = "") then
          Raise (JSONExtractionError "Invalid kb_search: missing non-empty 'query'")
        else
          match parse_top_k py "kb_search" f with
          | Raise e => Raise e
          | Ok top_k =>
            match parse_enum py "kb_search" "mode" _ALLOWED_KB_MODES f with
            | Raise e => Raise e
            | Ok mode => Ok (SKbSearch kb_name query top_k mode)
            end
          end
    else if bool_decide (stype = "kb_get") then
      let alias0 := strip (py_str py (get_default "alias" (JStr "") f)) in
      let alias :=
        match alias0 with
        | String "["%char rest =>
          match String.rev rest with
          | String "]"%char r => strip (String.rev r)
          | _ => alias0
          end
        | _ => alias0
        end in
      if bool_decide (alias = "") then
        Raise (JSONExtractionError "Invalid kb_get: missing non-empty 'alias'")
      else Ok (SKbGet alias)
    else if bool_decide (stype = "kb_list") then
      match parse_limit py "kb_list" f with
      | Raise e => Raise e
      | Ok limit => Ok (SKbList limit)
      end
    else if bool_decide (stype = "mem_search") then
      let query := strip (py_str py (get_default "query" (JStr "") f)) in
      if bool_decide (query = "") then
        Raise (JSONExtractionError "Invalid mem_search: missing non-empty 'query'")
      else
        match parse_top_k py "mem_search" f with
        | Raise e => Raise e
        | Ok top_k =>
          match parse_enum py "mem_search" "role" _ALLOWED_MEM_ROLES f with
          | Raise e => Raise e
          | Ok role =>
            match parse_enum py "mem_search" "status" _ALLOWED_MEM_STATUSES f with
            | Raise e => Raise e
            | Ok status =>
              match parse_enum py "mem_search" "mem_type" _ALLOWED_MEM_TYPES f with
              | Raise e => Raise e
              | Ok mem_type => Ok (SMemSearch query top_k role status mem_type)
              end
            end
          end
        end
    else if bool_decide (stype = "mem_get") then
      let mem_id := strip (py_str py (get_default "mem_id" (JStr "") f)) in
      if bool_decide (mem_id = "") then
        Raise (JSONExtractionError "Invalid mem_get: missing non-empty 'mem_id'")
      else Ok (SMemGet mem_id)
    else if bool_decide (stype = "mem_list") then
      match parse_limit py "mem_list" f with
      | Raise e => Raise e
      | Ok limit => Ok (SMemList limit)
      end
    else if bool_decide (stype = "generate_recipes") then Ok SGenerateRecipes
    else Raise (JSONExtractionError "Invalid subtask.type")
  | _ => Raise (JSONExtractionError "Invalid subtask: expected object")
  end.

(** [_as_subtasks_list] *)
Fixpoint parse_subtasks (py : PyLib) (items : list JSON) : Result (list Subtask) :=
  match items with
  | [] => Ok []
  | item :: rest =>
    match _parse_subtask py item with
    | Raise e => Raise e
    | Ok st =>
      match parse_subtasks py rest with
      | Raise e => Raise e
      | Ok sts => Ok (st :: sts)
      end
    end
  end.

Definition _as_subtasks_list (py : PyLib) (value : JSON) : Result (list Subtask) :=
  match value with
  | JArr items => parse_subtasks py items
  | _ => Raise (JSONExtractionError "Invalid 'subtasks': expected array")
  end.

(** recap/node.py *)
Record RecapInfo := mkRecapInfo {
  info_think    : string;
  info_subtasks : list Subtask;
  info_result   : string
}.

Definition _parse_recap_info (py : PyLib) (text : string) : Result RecapInfo :=
  match extract_first_json_object py text with
  | Raise e => Raise e
  | Ok (JObj obj) =>
    let think := strip (py_str py (get_default "think" (JStr "") obj)) in
    match _as_subtasks_list py (get_default "subtasks" (JArr []) obj) with
    | Raise e => Raise e
    | Ok subtasks =>
      let raw_result := get_default "result" (JStr "") obj in
      let result :=
        match raw_result with
        | JObj _ | JArr _ => json_dumps_indent py raw_result
        | _ => strip (if truthy raw_result then py_str py raw_result else "")
        end in
      Ok (mkRecapInfo think subtasks result)
    end
  | Ok _ => Raise (AttributeError "get")
  end.

(** ** Memory items (storage/reasoningbank_store.py, [MemoryItem]) *)

Record MemoryItem := mkMemoryItem {
  mem_id             : string;
  mem_status         : string;
  mem_role           : string;
  mem_type           : string;
  mem_content        : string;
  mem_source_run_id  : option string;
  mem_created_at     : Z;
  mem_updated_at     : Z;
  mem_schema_version : Z;
  mem_extra          : JSON
}.

(** ** Run state of the engine (recap/state.py, recap/node.py,
       [_RuntimeState]) *)

Inductive RecapState := DOWN | ACTION_TAKEN | UP.

(** Nodes live in an arena; a node is referred to by its index, the
    root is node [0] and [node_parent] is the back reference. *)
Record Node := mkNode {
  node_task_name : string;
  node_role      : string;
  node_parent    : option nat;
  node_children  : list nat;
  node_info_list : list RecapInfo;
  node_obs_list  : list string
}.

(** [Node.set_info], [Node.set_obs], [Node.add_child] on node [i]. *)
Definition set_info (i : nat) (info : RecapInfo) (nodes : list Node) : list Node :=
  alter (λ n, mkNode (node_task_name n) (node_role n) (node_parent n)
                     (node_children n) (node_info_list n ++ [info])
                     (node_obs_list n)) i nodes.

Definition set_obs (i : nat) (obs : string) (nodes : list Node) : list Node :=
  alter (λ n, mkNode (node_task_name n) (node_role n) (node_parent n)
                     (node_children n) (node_info_list n)
                     (node_obs_list n ++ [obs])) i nodes.

Definition add_child (i child : nat) (nodes : list Node) : list Node :=
  alter (λ n, mkNode (node_task_name n) (node_role n) (node_parent n)
                     (node_children n ++ [child]) (node_info_list n)
                     (node_obs_list n)) i nodes.

(** [Node.get_latest_info] *)
Definition get_latest_info (n : Node) : RecapInfo :=
  default (mkRecapInfo "" [] "") (last (node_info_list n)).

(** The [mem_*] fields of [_RuntimeState]. *)
Record MemRegistry := mkMemRegistry {
  mem_all_items       : list MemoryItem;
  mem_id_to_item      : gmap string MemoryItem;
  mem_focus_ids       : list string;
  mem_focus_seen      : gset string;
  last_mem_search_ids : list string
}.

Definition mem_registry_init : MemRegistry := mkMemRegistry [] ∅ [] ∅ [].

Record RuntimeState := mkRuntimeState {
  rt_state                     : RecapState;
  rt_nodes                     : list Node;
  rt_node_ptr                  : nat;
  rt_depth                     : nat;
  rt_steps                     : nat;
  rt_latest_obs                : string;
  rt_remaining_subtasks        : list Subtask;
  rt_done_task_name            : string;
  rt_done_task_result          : string;
  rt_previous_stage_task_name  : string;
  rt_previous_stage_think      : string;
  rt_kb                        : KBRegistry;
  rt_mem                       : MemRegistry
}.

Definition rt_init : RuntimeState :=
  mkRuntimeState DOWN
    [mkNode "Generate catalyst recipe recommendations." "orchestrator" None [] [] []]
    0 0 0 "" [] "" "" "" "" kb_registry_init mem_registry_init.

(** The node [rt.node_ptr]. *)
Definition current_node (rt : RuntimeState) : Node :=
  default (mkNode "" "" None [] [] []) (rt_nodes rt !! rt_node_ptr rt).

(** ** Conversation messages and collaborators *)

Record ToolCall := mkToolCall {
  tc_id        : string;     (* [""] when the call carries no id *)
  tc_name      : string;
  tc_arguments : string      (* raw JSON text, [""] when absent *)
}.

Inductive Message :=
  | Msg (role content : string)
  | MsgToolCalls (content : string) (tool_calls : list ToolCall)
  | MsgTool (tool_call_id content : string).

Record LLMReply := mkLLMReply {
  reply_content    : string;
  reply_tool_calls : list ToolCall
}.

(** The collaborators of a run.  The chat client and the knowledge
    bases are asked with the number of LLM steps taken so far, so
    that they may answer the same question differently over time;
    [rb] is [None] when the ReasoningBank is not configured;
    [cancel_requested] is what [ctx.check_cancelled()] finds. *)
Record Collab := mkCollab {
  llm_chat_messages : nat → list Message → LLMReply;
  kb_query_chunks   : string → string → string → Z → nat → list KBChunk;
  rb_query          : option (string → Z → list string → option (list string) →
                              option (list string) → nat → list MemoryItem);
  cancel_requested  : nat → bool
}.

(** What was observed or answered, before it is put into words. *)
Inductive Obs :=
  | ObsKbSearch (kb_name query mode : string) (top_k : Z) (aliased : list AliasedKBChunk)
  | ObsUnknownKbName (kb_name : string)
  | ObsUnknownAlias (alias : string)
  | ObsKbGet (stored : AliasedKBChunk)
  | ObsKbGetLimit (opened : nat) (max_full : Z)
  | ObsKbList (total : nat) (limit : Z) (shown : list AliasedKBChunk)
  | ObsRbNotConfigured
  | ObsMemSearch (items : list MemoryItem) (n : nat)
  | ObsUnknownMemId (mem_id : string)
  | ObsMemGet (stored : MemoryItem)
  | ObsMemGetLimit (opened : nat) (max_full : Z)
  | ObsMemList (total : nat) (limit : Z) (shown : list MemoryItem)
  | ObsEmptyTask (first : Subtask)
  | ObsUnknownSubtask (first : Subtask)
  | ObsUnknownTool (name : string).

(** The corrective instructions of the final validation. *)
Inductive Correction :=
  | CorrRecapFormat (e : string)
  | CorrFormatError (e : string)
  | CorrRecipeCount
  | CorrMissingCitations
  | CorrNoCitations
  | CorrUnknownAlias
  | CorrUnknownMem (invalid_mem : list string)
  | CorrArchivedMem (archived_mem : list string).

(** The configuration of a run ([AppConfig] and the fields of
    [AgentContext] read by the engine) and the wording of prompts and
    observations: [render_template] over the configured templates and
    the f-strings of the engine. *)
Record Config := mkConfig {
  recap_max_rounds   : Z;
  recap_max_depth    : Z;
  recap_max_steps    : Z;
  kb_default_mode    : string;
  kb_default_top_k   : Z;
  alias_prefix       : string;
  max_full_chunks_in_generate_recipes   : Z;
  kb_list_default_limit  : Z;
  kb_list_max_limit      : Z;
  rb_k_role          : Z;
  rb_k_global        : Z;
  max_full_memories_in_generate_recipes : Z;
  mem_list_default_limit : Z;
  mem_list_max_limit     : Z;
  recipes_per_run    : Z;
  system_prompt      : string;
  initial_message    : string;
  down_prompt        : Node → string;
  action_taken_prompt : Node → string → string → string;
  up_prompt          : Node → string → string → string → string → string → string;
  generate_recipes_prompt : KBRegistry → MemRegistry → string;
  obs_text           : Obs → string;
  correction_text    : Correction → string
}.

(** The events written by [ctx.trace], with the fields used below. *)
Inductive TraceEvent :=
  | EvLLMRequest (recap_state : string) (attempt : nat) (steps : nat)
                 (messages : list Message)
  | EvLLMResponse (recap_state : string) (steps : nat) (content : string)
  | EvRecapInfo (info : RecapInfo) (depth steps : nat)
  | EvAction (event_type : string)
  | EvCitationsResolved (aliases : list string) (resolved : list (string * string))
  | EvMemoriesResolved (mem_ids : list string).

Definition recap_state_value (st : RecapState) : string :=
  match st with
  | DOWN => "down"
  | ACTION_TAKEN => "action_taken"
  | UP => "up"
  end.

(** [_trim_history]: the first message is pinned, then the last
    [2 * max_rounds] messages are kept. *)
Definition _trim_history (history : list Message) (max_rounds : Z) : list Message :=
  if max_rounds <=? 0 then history
  else if (length history <=? 1)%nat then history
  else
    let pinned := take 1 history in
    let tail := drop 1 history in
    let limit := Z.to_nat (max_rounds * 2) in
    if (length tail <=? limit)%nat then (pinned ++ tail)%list
    else (pinned ++ drop (length tail - limit) tail)%list.

(** [_merge_focus_aliases], [_merge_focus_mem_ids] *)
Fixpoint merge_focus (seen : gset string) (focus : list string) (xs : list string)
    : gset string * list string :=
  match xs with
  | [] => (seen, focus)
  | x :: rest =>
    let a := strip x in
    if bool_decide (a = "") then merge_focus seen focus rest
    else if bool_decide (a ∈ seen) then merge_focus seen focus rest
    else merge_focus ({[a]} ∪ seen) (focus ++ [a]) rest
  end.

Definition _merge_focus_aliases (reg : KBRegistry) (aliases : list string) : KBRegistry :=
  let '(seen, focus) := merge_focus (kb_focus_seen reg) (kb_focus_aliases reg) aliases in
  mkKBRegistry (kb_alias_map reg) (kb_ref_to_alias reg) (kb_all_aliased_chunks reg)
               (kb_alias_to_chunk reg) (kb_next_index reg) focus seen
               (last_kb_search_aliases reg).

Definition _merge_focus_mem_ids (reg : MemRegistry) (ids : list string) : MemRegistry :=
  let '(seen, focus) := merge_focus (mem_focus_seen reg) (mem_focus_ids reg) ids in
  mkMemRegistry (mem_all_items reg) (mem_id_to_item reg) focus seen
                (last_mem_search_ids reg).

(** Field updates of [_RuntimeState]. *)
Definition with_kb (f : KBRegistry → KBRegistry) (rt : RuntimeState) : RuntimeState :=
  mkRuntimeState (rt_state rt) (rt_nodes rt) (rt_node_ptr rt) (rt_depth rt)
    (rt_steps rt) (rt_latest_obs rt) (rt_remaining_subtasks rt)
    (rt_done_task_name rt) (rt_done_task_result rt)
    (rt_previous_stage_task_name rt) (rt_previous_stage_think rt)
    (f (rt_kb rt)) (rt_mem rt).

Definition with_mem (f : MemRegistry → MemRegistry) (rt : RuntimeState) : RuntimeState :=
  mkRuntimeState (rt_state rt) (rt_nodes rt) (rt_node_ptr rt) (rt_depth rt)
    (rt_steps rt) (rt_latest_obs rt) (rt_remaining_subtasks rt)
    (rt_done_task_name rt) (rt_done_task_result rt)
    (rt_previous_stage_task_name rt) (rt_previous_stage_think rt)
    (rt_kb rt) (f (rt_mem rt)).

Definition with_steps (n : nat) (rt : RuntimeState) : RuntimeState :=
  mkRuntimeState (rt_state rt) (rt_nodes rt) (rt_node_ptr rt) (rt_depth rt)
    n (rt_latest_obs rt) (rt_remaining_subtasks rt)
    (rt_done_task_name rt) (rt_done_task_result rt)
    (rt_previous_stage_task_name rt) (rt_previous_stage_think rt)
    (rt_kb rt) (rt_mem rt).

Definition with_nodes (f : list Node → list Node) (rt : RuntimeState) : RuntimeState :=
  mkRuntimeState (rt_state rt) (f (rt_nodes rt)) (rt_node_ptr rt) (rt_depth rt)
    (rt_steps rt) (rt_latest_obs rt) (rt_remaining_subtasks rt)
    (rt_done_task_name rt) (rt_done_task_result rt)
    (rt_previous_stage_task_name rt) (rt_previous_stage_think rt)
    (rt_kb rt) (rt_mem rt).

(** [rt.latest_obs = obs; rt.remaining_subtasks = rest;
     rt.state = RecapState.ACTION_TAKEN] *)
Definition action_taken (obs : string) (rest : list Subtask) (rt : RuntimeState)
    : RuntimeState :=
  mkRuntimeState ACTION_TAKEN (rt_nodes rt) (rt_node_ptr rt) (rt_depth rt)
    (rt_steps rt) obs rest
    (rt_done_task_name rt) (rt_done_task_result rt)
    (rt_previous_stage_task_name rt) (rt_previous_stage_think rt)
    (rt_kb rt) (rt_mem rt).

(** ** One planning step (recap/engine.py, the body of [while True]) *)

(** The state threaded through [RecapEngine.run]: [_RuntimeState], the
    shared conversation history and the trace written so far. *)
Record Engine := mkEngine {
  eng_rt      : RuntimeState;
  eng_history : list Message;
  eng_trace   : list TraceEvent
}.

Inductive StepOutcome :=
  | Continue (eng : Engine)
  | Finished (parsed : JSON) (citations : list (string * string))
             (used_mem_ids : list string) (eng : Engine)
  | Raised (e : Exn) (eng : Engine).

Definition nl : string := String (ascii_of_nat 10) EmptyString.

Definition missing_result_obs : string :=
  "ERROR: Task ended with empty subtasks but without a `result`." ++ nl ++
  "When subtasks=[], you MUST include a non-empty `result` summarizing the deliverable " ++
  "(and key conclusions / constraints / citations if applicable).".

Definition generate_not_root_obs : string :=
  "ERROR: generate_recipes can only be called by the orchestrator at the root task." ++ nl ++
  "If you are an expert node (MOF/TIO2) or a nested subtask, return to the parent " ++
  "by finishing your task with subtasks=[] and a `result`, then let the root orchestrator " ++
  "call generate_recipes.".

Definition opt_field (k : string) (f : option JSON) : list (string * JSON) :=
  match f with Some v => [(k, v)] | None => [] end.

(** The dict built by [_parse_subtask]. *)
Definition subtask_json (st : Subtask) : JSON :=
  match st with
  | STask role task => JObj [("type", JStr "task"); ("role", JStr role); ("task", JStr task)]
  | SKbSearch kb_name query top_k mode =>
    JObj ([("type", JStr "kb_search"); ("kb_name", JStr kb_name); ("query", JStr query)]
          ++ opt_field "top_k" (JNum <$> top_k) ++ opt_field "mode" (JStr <$> mode))
  | SKbGet alias => JObj [("type", JStr "kb_get"); ("alias", JStr alias)]
  | SKbList limit => JObj ([("type", JStr "kb_list")] ++ opt_field "limit" (JNum <$> limit))
  | SMemSearch query top_k role status mem_type =>
    JObj ([("type", JStr "mem_search"); ("query", JStr query)]
          ++ opt_field "top_k" (JNum <$> top_k) ++ opt_field "role" (JStr <$> role)
          ++ opt_field "status" (JStr <$> status)
          ++ opt_field "mem_type" (JStr <$> mem_type))
  | SMemGet mem_id => JObj [("type", JStr "mem_get"); ("mem_id", JStr mem_id)]
  | SMemList limit => JObj ([("type", JStr "mem_list")] ++ opt_field "limit" (JNum <$> limit))
  | SGenerateRecipes => JObj [("type", JStr "generate_recipes")]
  end.

Definition _format_subtasks_for_prompt (py : PyLib) (subtasks : list Subtask) : string :=
  match subtasks with
  | [] => "No remaining subtasks."
  | _ => json_dumps_indent py (JArr (subtask_json <$> subtasks))
  end.

Definition build_prompt (cfg : Config) (py : PyLib) (rt : RuntimeState) : string :=
  match rt_state rt with
  | DOWN => down_prompt cfg (current_node rt)
  | ACTION_TAKEN =>
    action_taken_prompt cfg (current_node rt) (rt_latest_obs rt)
      (_format_subtasks_for_prompt py (rt_remaining_subtasks rt))
  | UP =>
    up_prompt cfg (current_node rt) (rt_done_task_name rt) (rt_done_task_result rt)
      (rt_previous_stage_task_name rt) (rt_previous_stage_think rt)
      (_format_subtasks_for_prompt py (rt_remaining_subtasks rt))
  end.

(** [rt.steps >= int(cfg.recap.max_steps)] *)
Definition steps_exhausted (cfg : Config) (rt : RuntimeState) : bool :=
  recap_max_steps cfg <=? Z.of_nat (rt_steps rt).

(** The loop [for attempt in range(1, 4)]: [n] counts the attempts
    left, [extra] is [extra_user_messages].  The result is the reply
    and its parse, or the exception that leaves the loop; after the
    last attempt [info is None] and the [RecapError] is raised. *)
Fixpoint parse_attempts (cfg : Config) (py : PyLib) (col : Collab)
    (n attempt : nat) (base_messages extra : list Message)
    (last_parse_error : string) (eng : Engine)
    : Result (LLMReply * RecapInfo) * Engine :=
  match n with
  | O =>
    (Raise (RecapError ("Failed to obtain valid ReCAP JSON after retries. Last error: "
                        ++ last_parse_error)), eng)
  | S n' =>
    let rt := eng_rt eng in
    if cancel_requested col (rt_steps rt) then (Raise CancelledError, eng)
    else if steps_exhausted cfg rt then
      (Raise (RecapError "Exceeded recap.max_steps"), eng)
    else
      let rt1 := with_steps (S (rt_steps rt)) rt in
      let messages := (base_messages ++ extra)%list in
      let raw := llm_chat_messages col (rt_steps rt1) messages in
      let trace1 :=
        (eng_trace eng ++
         [EvLLMRequest (recap_state_value (rt_state rt)) attempt (rt_steps rt1) messages;
          EvLLMResponse (recap_state_value (rt_state rt)) (rt_steps rt1)
                        (reply_content raw)])%list in
      let eng1 := mkEngine rt1 (eng_history eng) trace1 in
      match _parse_recap_info py (reply_content raw) with
      | Ok info => (Ok (raw, info), eng1)
      | Raise (JSONExtractionError e) =>
        parse_attempts cfg py col n' (S attempt) base_messages
          [Msg "user" (correction_text cfg (CorrRecapFormat e))] e eng1
      | Raise e => (Raise e, eng1)
      end
  end.

(** From the commit of the exchange to the trace of [recap_info]. *)
Definition commit_exchange (cfg : Config) (py : PyLib) (prompt : string) (raw : LLMReply)
    (info : RecapInfo) (eng : Engine) : Engine :=
  let history :=
    _trim_history (eng_history eng ++ [Msg "user" prompt;
                                       Msg "assistant" (reply_content raw)])
                  (recap_max_rounds cfg) in
  let rt := eng_rt eng in
  let rt1 :=
    with_kb (λ kb, _merge_focus_aliases
                     (_merge_focus_aliases kb (extract_citation_aliases (py_unicode py) (info_think info)))
                     (extract_citation_aliases (py_unicode py) (info_result info))) rt in
  let rt2 :=
    with_mem (λ m, _merge_focus_mem_ids
                     (_merge_focus_mem_ids m (extract_memory_ids (py_unicode py) (info_think info)))
                     (extract_memory_ids (py_unicode py) (info_result info))) rt1 in
  let rt3 := with_nodes (set_info (rt_node_ptr rt) info) rt2 in
  mkEngine rt3 history
    (eng_trace eng ++ [EvRecapInfo info (rt_depth rt3) (rt_steps rt3)]).

(** The branch [if not info.subtasks]. *)
Definition task_done (info : RecapInfo) (eng : Engine) : StepOutcome :=
  let rt := eng_rt eng in
  let node := current_node rt in
  if bool_decide (node_parent node ≠ None)
     && bool_decide (strip (info_result info) = "")
  then
    Continue (mkEngine (action_taken missing_result_obs [] rt)
                       (eng_history eng) (eng_trace eng))
  else
    match node_parent node with
    | None => Raised (RecapError "Root task ended without generate_recipes.") eng
    | Some p =>
      let parent := default (mkNode "" "" None [] [] []) (rt_nodes rt !! p) in
      let parent_info := get_latest_info parent in
      Continue
        (mkEngine
           (mkRuntimeState UP (rt_nodes rt) p (Nat.pred (rt_depth rt)) (rt_steps rt)
              (rt_latest_obs rt) (drop 1 (info_subtasks parent_info))
              (node_task_name node) (strip (info_result info))
              (node_task_name parent) (info_think parent_info)
              (rt_kb rt) (rt_mem rt))
           (eng_history eng) (eng_trace eng))
    end.

(** ** Primitive actions *)

(** [l[:limit]] *)
Definition py_take {A} (limit : Z) (l : list A) : list A :=
  if limit <? 0 then take (length l - Z.to_nat (- limit)) l
  else take (Z.to_nat limit) l.

(** The limit of [kb_list] and [mem_list], clamped to [1..max_limit]. *)
Definition clamp_limit (limit : option Z) (default_limit max_limit : Z) : Z :=
  let l := default default_limit limit in
  let l := if l <? 1 then 1 else l in
  if max_limit <? l then max_limit else l.

(** The loop over the results of a memory search: [mem_ids] and the
    registry after it. *)
Fixpoint register_memories (results : list MemoryItem) (seen : gset string)
    (mem_ids : list string) (reg : MemRegistry) : list string * MemRegistry :=
  match results with
  | [] => (mem_ids, reg)
  | it :: rest =>
    if bool_decide (mem_id it ∈ seen) then register_memories rest seen mem_ids reg
    else
      let reg' :=
        match mem_id_to_item reg !! mem_id it with
        | Some _ => reg
        | None =>
          mkMemRegistry (mem_all_items reg ++ [it])
                        (<[mem_id it := it]> (mem_id_to_item reg))
                        (mem_focus_ids reg) (mem_focus_seen reg)
                        (last_mem_search_ids reg)
        end in
      register_memories rest ({[mem_id it]} ∪ seen) (mem_ids ++ [mem_id it]) reg'
  end.

Definition mem_search_register (results : list MemoryItem) (reg : MemRegistry)
    : list string * MemRegistry :=
  let '(mem_ids, reg') := register_memories results ∅ [] reg in
  (mem_ids,
   mkMemRegistry (mem_all_items reg') (mem_id_to_item reg')
                 (mem_focus_ids reg') (mem_focus_seen reg') mem_ids).

Definition items_of (reg : MemRegistry) (mem_ids : list string) : list MemoryItem :=
  omap (λ m, mem_id_to_item reg !! m) mem_ids.

(** [alias[1:-1].strip()] when [alias] is bracketed. *)
Definition unbracket (alias : string) : string :=
  match alias with
  | String "["%char rest =>
    match String.rev rest with
    | String "]"%char r => strip (String.rev r)
    | _ => alias
    end
  | _ => alias
  end.

(** [mem_id[4:].strip()] when [mem_id] starts with ["mem:"]. *)
Definition unprefix_mem (m : string) : string :=
  match m with
  | String "m"%char (String "e"%char (String "m"%char (String ":"%char rest))) =>
    strip rest
  | _ => m
  end.

(** The primitive actions of the planning loop, on the first subtask
    [first] with [rest = info.subtasks[1:]]. *)
Definition primitive_action (cfg : Config) (col : Collab) (first : Subtask)
    (rest : list Subtask) (eng : Engine) : StepOutcome :=
  let rt := eng_rt eng in
  let node := current_node rt in
  let done (obs : string) (rt' : RuntimeState) (evs : list TraceEvent) :=
    Continue (mkEngine (action_taken obs rest rt') (eng_history eng)
                       (eng_trace eng ++ evs)) in
  match first with
  | SKbSearch kb_name query top_k mode =>
    let top_k := default (kb_default_top_k cfg) top_k in
    let mode := default (kb_default_mode cfg) mode in
    if bool_decide (kb_name = "kb_principles" ∨ kb_name = "kb_modulation") then
      let chunks := kb_query_chunks col kb_name query mode top_k (rt_steps rt) in
      let '(kb', aliased_for_obs) :=
        kb_search_register (alias_prefix cfg) chunks (rt_kb rt) in
      let obs := obs_text cfg (ObsKbSearch kb_name query mode top_k aliased_for_obs) in
      done obs (with_nodes (set_obs (rt_node_ptr rt) obs) (with_kb (λ _, kb') rt))
           [EvAction "kb_query"]
    else done (obs_text cfg (ObsUnknownKbName kb_name)) rt []
  | SKbGet alias =>
    let alias := strip alias in
    match kb_alias_to_chunk (rt_kb rt) !! alias with
    | None => done (obs_text cfg (ObsUnknownAlias alias)) rt []
    | Some stored =>
      done (obs_text cfg (ObsKbGet stored))
           (with_kb (λ kb, _merge_focus_aliases kb [ac_alias stored]) rt)
           [EvAction "kb_get"]
    end
  | SKbList limit =>
    let limit := clamp_limit limit (kb_list_default_limit cfg) (kb_list_max_limit cfg) in
    let all := kb_all_aliased_chunks (rt_kb rt) in
    done (obs_text cfg (ObsKbList (length all) limit (py_take limit all))) rt
         [EvAction "kb_list"]
  | SMemSearch query top_k role status mem_type =>
    let status := default "active" status in
    match rb_query col with
    | None => done (obs_text cfg ObsRbNotConfigured) rt []
    | Some query_rb =>
      let ty := (λ t, [t]) <$> mem_type in
      let results :=
        match role with
        | Some role =>
          query_rb query (match top_k with
                          | Some k => if k =? 0 then 5 else k
                          | None => 5
                          end)
                   [status] (Some [role]) ty (rt_steps rt)
        | None =>
          (query_rb query (default (rb_k_role cfg) top_k) [status]
                    (Some [node_role node]) ty (rt_steps rt)
           ++ query_rb query (default (rb_k_global cfg) top_k) [status]
                       (Some ["global"]) ty (rt_steps rt))%list
        end in
      let '(mem_ids, mem') := mem_search_register results (rt_mem rt) in
      done (obs_text cfg (ObsMemSearch (items_of mem' mem_ids) (length mem_ids)))
           (with_mem (λ _, mem') rt) [EvAction "mem_search"]
    end
  | SMemGet m =>
    let m := unprefix_mem (strip m) in
    match mem_id_to_item (rt_mem rt) !! m with
    | None => done (obs_text cfg (ObsUnknownMemId m)) rt []
    | Some stored =>
      done (obs_text cfg (ObsMemGet stored))
           (with_mem (λ mem, _merge_focus_mem_ids mem [mem_id stored]) rt)
           [EvAction "mem_get"]
    end
  | SMemList limit =>
    let limit := clamp_limit limit (mem_list_default_limit cfg) (mem_list_max_limit cfg) in
    let all := mem_all_items (rt_mem rt) in
    done (obs_text cfg (ObsMemList (length all) limit (py_take limit all))) rt
         [EvAction "mem_list"]
  | STask role task =>
    let role := if bool_decide (strip role = "") then "orchestrator" else strip role in
    let task := strip task in
    if bool_decide (task = "") then done (obs_text cfg (ObsEmptyTask first)) rt []
    else if recap_max_depth cfg <? Z.of_nat (rt_depth rt) + 1 then
      Raised (RecapError "Exceeded recap.max_depth") eng
    else
      let child := length (rt_nodes rt) in
      let nodes :=
        add_child (rt_node_ptr rt) child
          (rt_nodes rt ++ [mkNode task role (Some (rt_node_ptr rt)) [] [] []]) in
      Continue
        (mkEngine
           (mkRuntimeState DOWN nodes child (S (rt_depth rt)) (rt_steps rt)
              (rt_latest_obs rt) (rt_remaining_subtasks rt)
              (rt_done_task_name rt) (rt_done_task_result rt)
              (rt_previous_stage_task_name rt) (rt_previous_stage_think rt)
              (rt_kb rt) (rt_mem rt))
           (eng_history eng) (eng_trace eng))
  | SGenerateRecipes => done (obs_text cfg (ObsUnknownSubtask first)) rt []
  end.

(** ** The final generation ([generate_recipes]) *)

(** The outcome of the checks made on a parsed final answer. *)
Inductive Verdict :=
  | Accept (citations : list (string * string)) (used_mem_ids : list string)
  | Reject (c : Correction).

(** [str(r.get("rationale") or "")] of a recipe that is a dict. *)
Definition rationale_of (py : PyLib) (recipe : list (string * JSON)) : string :=
  py_str py (get_or "rationale" (JStr "") recipe).

(** The count [missing_citations]: recipes that are not dicts are
    passed over by [continue]. *)
Definition lacks_citation (py : PyLib) (r : JSON) : bool :=
  match r with
  | JObj f =>
    bool_decide (extract_citation_aliases (py_unicode py) (rationale_of py f) = [])
    && bool_decide (extract_memory_ids (py_unicode py) (rationale_of py f) = [])
  | _ => false
  end.

Definition missing_citations (py : PyLib) (recipes : list JSON) : nat :=
  length (filter (λ r, lacks_citation py r = true) recipes).

(** Memory ids of [used_mem_ids] missing from the registry, and those
    whose item is not active. *)
Definition invalid_mem (reg : MemRegistry) (used : list string) : list string :=
  filter (λ m, mem_id_to_item reg !! m = None) used.

Definition is_archived (reg : MemRegistry) (m : string) : bool :=
  match mem_id_to_item reg !! m with
  | Some it => bool_decide (mem_status it ≠ "active")
  | None => false
  end.

Definition archived_mem (reg : MemRegistry) (used : list string) : list string :=
  filter (λ m, is_archived reg m = true) used.

(** The checks that follow a successful [extract_first_json_object],
    in the order of the source. *)
Definition validate_final (cfg : Config) (py : PyLib) (rt : RuntimeState)
    (parsed : list (string * JSON)) : Verdict :=
  match assoc_get "recipes" parsed with
  | Some (JArr recipes) =>
    if bool_decide (Z.of_nat (length recipes) ≠ recipes_per_run cfg) then Reject CorrRecipeCount
    else if negb (missing_citations py recipes =? 0)%nat then Reject CorrMissingCitations
    else
      let text_dump := json_dumps py (JObj parsed) in
      let used_aliases := extract_citation_aliases (py_unicode py) text_dump in
      let used_mem_ids := extract_memory_ids (py_unicode py) text_dump in
      if bool_decide (used_aliases = []) && bool_decide (used_mem_ids = [])
      then Reject CorrNoCitations
      else
        match resolve_aliases used_aliases (kb_alias_map (rt_kb rt)) with
        | None => Reject CorrUnknownAlias
        | Some citations =>
          if negb (bool_decide (invalid_mem (rt_mem rt) used_mem_ids = []))
          then Reject (CorrUnknownMem (invalid_mem (rt_mem rt) used_mem_ids))
          else if negb (bool_decide (archived_mem (rt_mem rt) used_mem_ids = []))
          then Reject (CorrArchivedMem (archived_mem (rt_mem rt) used_mem_ids))
          else Accept citations used_mem_ids
        end
  | _ => Reject CorrRecipeCount
  end.

(** The local state of the generation loop. *)
Record GenState := mkGenState {
  gen_eng        : Engine;
  gen_history    : list Message;
  format_errors  : nat;
  opened_aliases : gset string;
  opened_mem_ids : gset string
}.

(** The arguments of a tool call,
    [json.loads(args_raw) if args_raw.strip() else {}], and [{}] when
    [json.loads] raises: any JSON value. *)
Definition tool_args (py : PyLib) (raw : string) : JSON :=
  if bool_decide (strip raw = "") then JObj []
  else default (JObj []) (json_loads py raw).

(** [args.get]: the entries of a dict; any other value has no [get]. *)
Definition args_get (args : JSON) : Result (list (string * JSON)) :=
  match args with
  | JObj f => Ok f
  | _ => Raise (AttributeError "get")
  end.

(** [int(args.get(k)) if args.get(k) is not None else None] under
    [try ... except Exception], which also takes the [AttributeError]
    of arguments that are no dict: [None] when absent, not convertible
    or not reachable. *)
Definition arg_int (py : PyLib) (k : string) (args : JSON) : option Z :=
  match args with
  | JObj f => get_not_none k f ≫= py_int py
  | _ => None
  end.

(** One tool call of a turn: the observation and the state after it.
    The branches of [kb_get], [mem_search] (with a ReasoningBank) and
    [mem_get] call [args.get] unguarded and raise when the arguments
    are no dict; the branches of [kb_list] and [mem_list] and the one
    of an unknown name do not. *)
Definition run_tool (cfg : Config) (py : PyLib) (col : Collab) (name : string)
    (args : JSON) (gs : GenState) : Result string * GenState :=
  let eng := gen_eng gs in
  let rt := eng_rt eng in
  let upd (rt' : RuntimeState) (evs : list TraceEvent)
          (oa om : gset string) : GenState :=
    mkGenState (mkEngine rt' (eng_history eng) (eng_trace eng ++ evs))
               (gen_history gs) (format_errors gs) oa om in
  if bool_decide (name = "kb_get") then
    match args_get args with
    | Raise e => (Raise e, gs)
    | Ok f =>
      let alias := unbracket (strip (py_str py (get_or "alias" (JStr "") f))) in
      match kb_alias_to_chunk (rt_kb rt) !! alias with
      | None => (Ok (obs_text cfg (ObsUnknownAlias alias)), gs)
      | Some stored =>
        if bool_decide (alias ∉ opened_aliases gs)
           && (max_full_chunks_in_generate_recipes cfg
               <=? Z.of_nat (size (opened_aliases gs)))
        then (Ok (obs_text cfg (ObsKbGetLimit (size (opened_aliases gs))
                                  (max_full_chunks_in_generate_recipes cfg))), gs)
        else
          (Ok (obs_text cfg (ObsKbGet stored)),
           upd (with_kb (λ kb, _merge_focus_aliases kb [ac_alias stored]) rt)
               [EvAction "kb_get"] ({[alias]} ∪ opened_aliases gs) (opened_mem_ids gs))
      end
    end
  else if bool_decide (name = "kb_list") then
    let limit := clamp_limit (arg_int py "limit" args) (kb_list_default_limit cfg)
                             (kb_list_max_limit cfg) in
    let all := kb_all_aliased_chunks (rt_kb rt) in
    (Ok (obs_text cfg (ObsKbList (length all) limit (py_take limit all))),
     upd rt [EvAction "kb_list"] (opened_aliases gs) (opened_mem_ids gs))
  else if bool_decide (name = "mem_search") then
    match rb_query col with
    | None => (Ok (obs_text cfg ObsRbNotConfigured), gs)
    | Some query_rb =>
      match args_get args with
      | Raise e => (Raise e, gs)
      | Ok f =>
        let query := strip (py_str py (get_or "query" (JStr "") f)) in
        let results :=
          match arg_int py "top_k" args with
          | Some k =>
            if 0 <? k then query_rb query k ["active"] None None (rt_steps rt)
            else
              (query_rb query (rb_k_role cfg) ["active"]
                        (Some [node_role (current_node rt)]) None (rt_steps rt)
               ++ query_rb query (rb_k_global cfg) ["active"] (Some ["global"]) None
                           (rt_steps rt))%list
          | None =>
            (query_rb query (rb_k_role cfg) ["active"]
                      (Some [node_role (current_node rt)]) None (rt_steps rt)
             ++ query_rb query (rb_k_global cfg) ["active"] (Some ["global"]) None
                         (rt_steps rt))%list
          end in
        let '(mem_ids, mem') := mem_search_register results (rt_mem rt) in
        (Ok (obs_text cfg (ObsMemSearch (items_of mem' mem_ids) (length mem_ids))),
         upd (with_mem (λ _, mem') rt) [EvAction "mem_search"]
             (opened_aliases gs) (opened_mem_ids gs))
      end
    end
  else if bool_decide (name = "mem_get") then
    match args_get args with
    | Raise e => (Raise e, gs)
    | Ok f =>
      let m := unprefix_mem (strip (py_str py (get_or "mem_id" (JStr "") f))) in
      match mem_id_to_item (rt_mem rt) !! m with
      | None => (Ok (obs_text cfg (ObsUnknownMemId m)), gs)
      | Some stored =>
        if bool_decide (m ∉ opened_mem_ids gs)
           && (max_full_memories_in_generate_recipes cfg
               <=? Z.of_nat (size (opened_mem_ids gs)))
        then (Ok (obs_text cfg (ObsMemGetLimit (size (opened_mem_ids gs))
                                  (max_full_memories_in_generate_recipes cfg))), gs)
        else
          (Ok (obs_text cfg (ObsMemGet stored)),
           upd (with_mem (λ mem, _merge_focus_mem_ids mem [mem_id stored]) rt)
               [EvAction "mem_get"] (opened_aliases gs) ({[m]} ∪ opened_mem_ids gs))
      end
    end
  else if bool_decide (name = "mem_list") then
    let limit := clamp_limit (arg_int py "limit" args) (mem_list_default_limit cfg)
                             (mem_list_max_limit cfg) in
    let all := mem_all_items (rt_mem rt) in
    (Ok (obs_text cfg (ObsMemList (length all) limit (py_take limit all))),
     upd rt [EvAction "mem_list"] (opened_aliases gs) (opened_mem_ids gs))
  else (Ok (obs_text cfg (ObsUnknownTool name)), gs).

(** [for tc in gen_raw.tool_calls]: every call appends its observation
    to [gen_history]; an exception raised by a call leaves the loop. *)
Fixpoint run_tool_calls (cfg : Config) (py : PyLib) (col : Collab) (turn : nat)
    (calls : list ToolCall) (gs : GenState) : Result unit * GenState :=
  match calls with
  | [] => (Ok tt, gs)
  | tc :: rest =>
    let tc_id := if bool_decide (tc_id tc = "")
                 then "tool_call_" ++ pretty turn else tc_id tc in
    let args := tool_args py (tc_arguments tc) in
    match run_tool cfg py col (strip (tc_name tc)) args gs with
    | (Raise e, gs1) => (Raise e, gs1)
    | (Ok tool_obs, gs1) =>
      run_tool_calls cfg py col turn rest
        (mkGenState (gen_eng gs1) (gen_history gs1 ++ [MsgTool tc_id tool_obs])
                    (format_errors gs1) (opened_aliases gs1) (opened_mem_ids gs1))
    end
  end.

Definition final_instruction : Message :=
  Msg "user" "Now return the final answer as a single JSON object ONLY. No extra text.".

Definition gen_step (gs : GenState) (rt : RuntimeState) (evs : list TraceEvent)
    (msgs : list Message) (errs : nat) : GenState :=
  mkGenState (mkEngine rt (eng_history (gen_eng gs)) (eng_trace (gen_eng gs) ++ evs))
             (gen_history gs ++ msgs) errs (opened_aliases gs) (opened_mem_ids gs).

(** [for turn in range(1, 21)], with [n] turns left; leaving the loop
    without a [return] raises the final [RecapError]. *)
Fixpoint generate_turns (cfg : Config) (py : PyLib) (col : Collab)
    (n turn : nat) (gs : GenState) : StepOutcome :=
  match n with
  | O =>
    Raised (RecapError
      "generate_recipes exceeded maximum turns without producing a valid final output.")
      (gen_eng gs)
  | S n' =>
    let rt := eng_rt (gen_eng gs) in
    if cancel_requested col (rt_steps rt) then Raised CancelledError (gen_eng gs)
    else if steps_exhausted cfg rt then
      Raised (RecapError "Exceeded recap.max_steps") (gen_eng gs)
    else
      let rt1 := with_steps (S (rt_steps rt)) rt in
      let gen_messages := Msg "system" (system_prompt cfg) :: gen_history gs in
      let gen_raw := llm_chat_messages col (rt_steps rt1) gen_messages in
      let gs1 := gen_step gs rt1
                   [EvLLMRequest "generate_recipes" turn (rt_steps rt1) gen_messages;
                    EvLLMResponse "generate_recipes" (rt_steps rt1) (reply_content gen_raw)]
                   [] (format_errors gs) in
      match reply_tool_calls gen_raw with
      | _ :: _ =>
        let gs2 := gen_step gs1 rt1 []
                     [MsgToolCalls (reply_content gen_raw) (reply_tool_calls gen_raw)]
                     (format_errors gs1) in
        match run_tool_calls cfg py col turn (reply_tool_calls gen_raw) gs2 with
        | (Raise e, gs3) => Raised e (gen_eng gs3)
        | (Ok _, gs3) => generate_turns cfg py col n' (S turn) gs3
        end
      | [] =>
        if steps_exhausted cfg rt1 then
          Raised (RecapError "Exceeded recap.max_steps") (gen_eng gs1)
        else
          let rt2 := with_steps (S (rt_steps rt1)) rt1 in
          let final_messages :=
            (Msg "system" (system_prompt cfg) :: gen_history gs1
             ++ [final_instruction])%list in
          let final_raw := llm_chat_messages col (rt_steps rt2) final_messages in
          let gs2 := gen_step gs1 rt2
                       [EvLLMRequest "generate_recipes.final" turn (rt_steps rt2)
                                     final_messages;
                        EvLLMResponse "generate_recipes.final" (rt_steps rt2)
                                      (reply_content final_raw)]
                       [] (format_errors gs1) in
          match extract_first_json_object py (reply_content final_raw) with
          | Raise (JSONExtractionError e) =>
            if (3 <=? S (format_errors gs2))%nat then
              Raised (RecapError
                ("generate_recipes final output is not valid JSON after retries: " ++ e))
                (gen_eng gs2)
            else
              generate_turns cfg py col n' (S turn)
                (gen_step gs2 rt2 []
                   [Msg "user" (correction_text cfg (CorrFormatError e))]
                   (S (format_errors gs2)))
          | Raise e => Raised e (gen_eng gs2)
          | Ok (JObj parsed) =>
            match validate_final cfg py rt2 parsed with
            | Reject c =>
              generate_turns cfg py col n' (S turn)
                (gen_step gs2 rt2 [] [Msg "user" (correction_text cfg c)]
                          (format_errors gs2))
            | Accept citations used_mem_ids =>
              Finished (JObj parsed) citations used_mem_ids
                (mkEngine rt2 (eng_history (gen_eng gs2))
                   (eng_trace (gen_eng gs2)
                    ++ [EvCitationsResolved
                          (extract_citation_aliases (py_unicode py) (json_dumps py (JObj parsed)))
                          citations;
                        EvMemoriesResolved used_mem_ids]))
            end
          | Ok _ => Raised (AttributeError "get") (gen_eng gs2)
          end
      end
  end.

(** The branch [stype == "generate_recipes"]. *)
Definition generate_recipes (cfg : Config) (py : PyLib) (col : Collab)
    (rest : list Subtask) (eng : Engine) : StepOutcome :=
  let rt := eng_rt eng in
  let node := current_node rt in
  if bool_decide (node_role node ≠ "orchestrator")
     || bool_decide (node_parent node ≠ None)
  then Continue (mkEngine (action_taken generate_not_root_obs rest rt)
                          (eng_history eng) (eng_trace eng))
  else if bool_decide (kb_all_aliased_chunks (rt_kb rt) = [])
          && bool_decide (mem_all_items (rt_mem rt) = [])
  then Raised (RecapError
         ("generate_recipes requires prior evidence: run kb_search (KB literature) and/or "
          ++ "mem_search (ReasoningBank) first.")) eng
  else
    generate_turns cfg py col 20 1
      (mkGenState eng
         (eng_history eng
          ++ [Msg "user" (generate_recipes_prompt cfg (rt_kb rt) (rt_mem rt))])
         0 ∅ ∅).

(** What follows the commit of the exchange: the decision on the first
    subtask. *)
Definition dispatch (cfg : Config) (py : PyLib) (col : Collab) (info : RecapInfo)
    (eng : Engine) : StepOutcome :=
  match info_subtasks info with
  | [] => task_done info eng
  | SGenerateRecipes :: rest => generate_recipes cfg py col rest eng
  | first :: rest => primitive_action cfg col first rest eng
  end.

(** One turn of [while True]. *)
Definition plan_step (cfg : Config) (py : PyLib) (col : Collab) (eng : Engine)
    : StepOutcome :=
  let rt := eng_rt eng in
  if cancel_requested col (rt_steps rt) then Raised CancelledError eng
  else
    let prompt := build_prompt cfg py rt in
    let base_messages :=
      (Msg "system" (system_prompt cfg) :: eng_history eng ++ [Msg "user" prompt])%list in
    match parse_attempts cfg py col 3 1 base_messages [] "" eng with
    | (Raise e, eng1) => Raised e eng1
    | (Ok (raw, info), eng1) =>
      dispatch cfg py col info (commit_exchange cfg py prompt raw info eng1)
    end.

(** [RecapEngine.run] after its set-up: the loop, for at most [fuel]
    turns.  Every turn that does not end the run takes at least one
    LLM step, so [recap.max_steps + 1] turns are always enough. *)
Fixpoint run_loop (cfg : Config) (py : PyLib) (col : Collab) (fuel : nat)
    (eng : Engine) : option StepOutcome :=
  match fuel with
  | O => None
  | S fuel' =>
    match plan_step cfg py col eng with
    | Continue eng' => run_loop cfg py col fuel' eng'
    | out => Some out
    end
  end.

Definition engine_init (cfg : Config) : Engine :=
  mkEngine rt_init [Msg "user" (initial_message cfg)] [].

(** ** A sample run environment *)

Definition dq : string := String (ascii_of_nat 34) EmptyString.

Definition join_with (sep : string) (l : list string) : string :=
  match l with
  | [] => ""
  | x :: rest => foldl (λ acc y, acc ++ sep ++ y) x rest
  end.

(** The escapes of [json.dumps] for the quotation mark, the backslash,
    the line feed, the carriage return and the tab. *)
Definition bs : string := String (ascii_of_nat 92) EmptyString.

Fixpoint json_escape (s : string) : string :=
  match s with
  | EmptyString => EmptyString
  | String c s' =>
    let n := nat_of_ascii c in
    (if (n =? 34)%nat then bs ++ dq
     else if (n =? 92)%nat then bs ++ bs
     else if (n =? 10)%nat then bs ++ "n"
     else if (n =? 13)%nat then bs ++ "r"
     else if (n =? 9)%nat then bs ++ "t"
     else String c EmptyString) ++ json_escape s'
  end.

(** [json.dumps(v, ensure_ascii=False)] for documents whose strings
    hold no other control character. *)
Fixpoint plain_dumps (v : JSON) : string :=
  match v with
  | JNull => "null"
  | JBool true => "true"
  | JBool false => "false"
  | JNum n => pretty n
  | JStr s => dq ++ json_escape s ++ dq
  | JArr items => "[" ++ join_with ", " (map plain_dumps items) ++ "]"
  | JObj fields =>
    "{" ++ join_with ", "
             (map (λ kv, dq ++ json_escape (fst kv) ++ dq ++ ": " ++ plain_dumps (snd kv))
                  fields)
        ++ "}"
  end.

(** A sample of the Unicode database: the Arabic-Indic digits U+0660
    to U+0669 ([D9 A0] to [D9 A9]) are decimal digits; they and the
    letter U+00E9 ([C3 A9]) are alphanumeric. *)
Definition arabic_indic_digit (ch : string) : bool :=
  match ch with
  | String c (String d EmptyString) =>
    ((nat_of_ascii c =? 217) && (160 <=? nat_of_ascii d) && (nat_of_ascii d <=? 169))%nat
  | _ => false
  end.

Definition sample_unicode : Unicode :=
  mkUnicode arabic_indic_digit
    (λ ch, arabic_indic_digit ch
           || bool_decide (ch = String (ascii_of_nat 195)
                                   (String (ascii_of_nat 169) EmptyString))).

(** A memory id nothing was ever stored under. *)
Definition unknown_mem_id : string := "123e4567-e89b-12d3-a456-426614174000".

(** The texts the sample model answers with, and their JSON. *)
Definition reply_done : string := "{done}".
Definition reply_final_bare : string := "{final bare}".
Definition reply_search : string := "{search}".
Definition reply_generate : string := "{generate}".
Definition reply_final_good : string := "{final good}".
Definition reply_final_hidden : string := "{final hidden}".

Definition sample_loads (text : string) : option JSON :=
  if bool_decide (text = reply_done) then
    Some (JObj [("think", JStr "finished"); ("subtasks", JArr []);
                ("result", JStr "summary [C1]")])
  else if bool_decide (text = reply_search) then
    Some (JObj [("think", JStr "look up"); 
                ("subtasks", JArr [JObj [("type", JStr "kb_search");
                                         ("kb_name", JStr "kb_principles");
                                         ("query", JStr "CO2")];
                                   JObj [("type", JStr "generate_recipes")]])])
  else if bool_decide (text = reply_generate) then
    Some (JObj [("think", JStr "write"); 
                ("subtasks", JArr [JObj [("type", JStr "generate_recipes")]])])
  else if bool_decide (text = reply_final_bare) then
    Some (JObj [("recipes", JArr [JNum 5]); ("overall_notes", JStr "see [C1]")])
  else if bool_decide (text = reply_final_good) then
    Some (JObj [("recipes", JArr [JObj [("rationale", JStr "as shown in [C1]")]])])
  else if bool_decide (text = reply_final_hidden) then
    Some (JObj [("recipes",
                 JArr [JObj [("rationale",
                              JStr ("as shown in [C1] and in" ++ nl
                                    ++ "mem:" ++ unknown_mem_id))]])])
  else None.

Definition sample_py : PyLib :=
  mkPyLib sample_loads plain_dumps plain_dumps plain_dumps (λ _, None) sample_unicode.

Definition sample_cfg : Config :=
  mkConfig 2 3 50 "mix" 5 "C" 2 5 10 2 2 2 5 10 1
    "system" "User request"
    (λ node, "DOWN " ++ node_task_name node)
    (λ node obs rest, "ACTION_TAKEN " ++ obs)
    (λ node done_name done_result prev_name prev_think rest, "UP " ++ done_result)
    (λ kb mem, "GENERATE")
    (λ _, "observation")
    (λ c, match c with
          | CorrRecapFormat e => "FORMAT ERROR: " ++ e
          | CorrFormatError e => "FORMAT ERROR: " ++ e
          | _ => "ERROR"
          end).

(** The model answers with [script steps] to its [steps]-th call; the
    knowledge bases return one chunk; no ReasoningBank; no cancel. *)
Definition sample_col (script : nat → LLMReply) : Collab :=
  mkCollab (λ steps _, script steps)
           (λ kb_name query mode top_k _, [sample_chunk "kb:a"])
           None (λ _, false).

Definition text_reply (text : string) : LLMReply := mkLLMReply text [].

(** Three answers that are not JSON, then a valid one. *)
Definition script_bad3 (steps : nat) : LLMReply :=
  if (steps <=? 3)%nat then text_reply "oops" else text_reply reply_done.

(** A search, then the final generation answered by a bare number as
    the only recipe. *)
Definition script_bare (steps : nat) : LLMReply :=
  if (steps =? 1)%nat then text_reply reply_search
  else if (steps =? 2)%nat then text_reply reply_generate
  else text_reply reply_final_bare.

(** A root that planned two subtasks and a child working on the first. *)
Definition sample_rt_child : RuntimeState :=
  mkRuntimeState DOWN
    [mkNode "Generate catalyst recipe recommendations." "orchestrator" None [1%nat]
            [mkRecapInfo "plan" [STask "mof_expert" "study MOF"; SKbList None] ""] [];
     mkNode "study MOF" "mof_expert" (Some 0%nat) [] [] []]
    1 1 1 "" [] "" "" "" "" kb_registry_init mem_registry_init.

Definition sample_eng_child : Engine :=
  mkEngine sample_rt_child [Msg "user" "User request"] [].

(** ** Observables of a step *)

(** The LLM requests recorded in a trace: attempt (or turn) number and
    messages sent. *)
Definition llm_requests (trace : list TraceEvent) : list (nat * list Message) :=
  omap (λ ev, match ev with
              | EvLLMRequest _ attempt _ msgs => Some (attempt, msgs)
              | _ => None
              end) trace.

Definition outcome_engine (out : StepOutcome) : Engine :=
  match out with
  | Continue eng => eng
  | Finished _ _ _ eng => eng
  | Raised _ eng => eng
  end.

(** The correction sent after a reply that failed to parse with [e]. *)
Definition recap_correction (cfg : Config) (e : string) : Message :=
  Msg "user" (correction_text cfg (CorrRecapFormat e)).

(** The retry loop as the specification words it: the call and up to
    three retries. *)
Definition claimed_parse_attempts (cfg : Config) (py : PyLib) (col : Collab)
    (base_messages : list Message) (eng : Engine)
    : Result (LLMReply * RecapInfo) * Engine :=
  parse_attempts cfg py col (1 + 3) 1 base_messages [] "" eng.

(** ** Observables of the final generation *)

(** The final-answer requests recorded in a trace: turn number and
    messages sent. *)
Definition final_requests (trace : list TraceEvent) : list (nat * list Message) :=
  omap (λ ev, match ev with
              | EvLLMRequest st turn _ msgs =>
                if bool_decide (st = "generate_recipes.final")
                then Some (turn, msgs) else None
              | _ => None
              end) trace.

(** A text holds a citation token, a knowledge alias or a memory id. *)
Definition has_citation (py : PyLib) (text : string) : bool :=
  negb (bool_decide (extract_citation_aliases (py_unicode py) text = [])
        && bool_decide (extract_memory_ids (py_unicode py) text = [])).

(** The state of the generation loop after a turn whose final answer
    was refused: the two LLM steps are counted, [msgs] are appended to
    the local history and the count of format errors is [errs]. *)
Definition after_turn (cfg : Config) (col : Collab) (turn : nat) (gs : GenState)
    (msgs : list Message) (errs : nat) : GenState :=
  let rt := eng_rt (gen_eng gs) in
  let s := rt_steps rt in
  let gen_messages := Msg "system" (system_prompt cfg) :: gen_history gs in
  let final_messages := (gen_messages ++ [final_instruction])%list in
  mkGenState
    (mkEngine (with_steps (S (S s)) rt) (eng_history (gen_eng gs))
       (eng_trace (gen_eng gs)
        ++ [EvLLMRequest "generate_recipes" turn (S s) gen_messages;
            EvLLMResponse "generate_recipes" (S s)
              (reply_content (llm_chat_messages col (S s) gen_messages));
            EvLLMRequest "generate_recipes.final" turn (S (S s)) final_messages;
            EvLLMResponse "generate_recipes.final" (S (S s))
              (reply_content (llm_chat_messages col (S (S s)) final_messages))]))
    (gen_history gs ++ msgs) errs (opened_aliases gs) (opened_mem_ids gs).

(** The acceptance condition as the specification words it: exactly
    [recipes_per_run] recipes, every recipe with a rationale that holds
    a citation token, every cited alias in the alias map, every cited
    memory id in the memory registry and active. *)
Definition claimed_recipe_cited (py : PyLib) (r : JSON) : bool :=
  match r with
  | JObj f => has_citation py (rationale_of py f)
  | _ => false
  end.

(** The citation tokens an answer holds: those of its serialisation
    and those of the rationales of its recipes. *)
Definition rationales (py : PyLib) (recipes : list JSON) : list string :=
  omap (λ r, match r with
             | JObj f => Some (rationale_of py f)
             | _ => None
             end) recipes.

Definition cited_aliases (py : PyLib) (parsed : JSON) (recipes : list JSON)
    : list string :=
  (extract_citation_aliases (py_unicode py) (json_dumps py parsed)
   ++ (rationales py recipes ≫= extract_citation_aliases (py_unicode py)))%list.

Definition cited_mem_ids (py : PyLib) (parsed : JSON) (recipes : list JSON)
    : list string :=
  (extract_memory_ids (py_unicode py) (json_dumps py parsed)
   ++ (rationales py recipes ≫= extract_memory_ids (py_unicode py)))%list.

Definition claimed_acceptable (cfg : Config) (py : PyLib) (rt : RuntimeState)
    (parsed : JSON) : Prop :=
  ∃ fields recipes,
    parsed = JObj fields ∧
    assoc_get "recipes" fields = Some (JArr recipes) ∧
    Z.of_nat (length recipes) = recipes_per_run cfg ∧
    (∀ r, r ∈ recipes → claimed_recipe_cited py r = true) ∧
    (∀ a, a ∈ cited_aliases py parsed recipes →
          is_Some (kb_alias_map (rt_kb rt) !! a)) ∧
    (∀ m, m ∈ cited_mem_ids py parsed recipes →
          ∃ it, mem_id_to_item (rt_mem rt) !! m = Some it ∧ mem_status it = "active").

(** A search, then a final answer whose rationale cites, at the start
    of a line, a memory the run never retrieved. *)
Definition script_hidden (steps : nat) : LLMReply :=
  if (steps =? 1)%nat then text_reply reply_search
  else if (steps =? 2)%nat then text_reply reply_generate
  else text_reply reply_final_hidden.

(** The same memory, archived, in the registry of a run. *)
Definition archived_registry : MemRegistry :=
  let it := mkMemoryItem unknown_mem_id "archived" "global" "reasoningbank_item"
              "Use anatase TiO2." None 1 2 1 (JObj []) in
  mkMemRegistry [it] {[unknown_mem_id := it]} [] ∅ [].

(** A search and the call of the final generation, then answers that
    are not JSON until the ninth call of the model. *)
Definition script_nojson (steps : nat) : LLMReply :=
  if (steps =? 1)%nat then text_reply reply_search
  else if (steps =? 2)%nat then text_reply reply_generate
  else if (steps <=? 8)%nat then text_reply "oops"
  else text_reply reply_final_good.

(** A search, then the final generation answered well. *)
Definition script_good (steps : nat) : LLMReply :=
  if (steps =? 1)%nat then text_reply reply_search
  else if (steps =? 2)%nat then text_reply reply_generate
  else text_reply reply_final_good.

(** The sample run under a script of model answers, the engine it ends
    with, and a state of the generation loop at its first turn. *)
Definition sample_run (script : nat → LLMReply) : option StepOutcome :=
  run_loop sample_cfg sample_py (sample_col script) 5 (engine_init sample_cfg).

Definition sample_final_engine (script : nat → LLMReply) : Engine :=
  match sample_run script with
  | Some out => outcome_engine out
  | None => engine_init sample_cfg
  end.

Definition sample_gen_state : GenState :=
  mkGenState (engine_init sample_cfg) [Msg "user" "GENERATE"] 0 ∅ ∅.

(** ** The ReasoningBank store (storage/reasoningbank_store.py)

    The Chroma collection holds, for every id, a document (the content
    of the memory) and the metadata written by [_item_to_metadata].
    The column [extra_json] is represented by the JSON document it
    encodes. *)

Record MemMeta := mkMemMeta {
  meta_status         : string;
  meta_role           : string;
  meta_type           : string;
  meta_source_run_id  : string;
  meta_created_at     : Z;
  meta_updated_at     : Z;
  meta_schema_version : Z;
  meta_extra_json     : JSON
}.

Abbreviation Collection := (gmap string (string * MemMeta)).

(** Sequencing of computations that may raise. *)
Definition rbind {A B} (r : Result A) (k : A → Result B) : Result B :=
  match r with
  | Ok a => k a
  | Raise e => Raise e
  end.

Declare Scope result_scope.
Delimit Scope result_scope with result.
Notation "'let?' x := r 'in' k" := (rbind r (λ x, k))
  (at level 10, x pattern, r at level 200, k at level 200, only parsing)
  : result_scope.

Definition _RB_ROLES : list string :=
  ["global"; "orchestrator"; "mof_expert"; "tio2_expert"].
Definition _RB_STATUSES : list string := ["active"; "archived"].
Definition _RB_TYPES : list string := ["reasoningbank_item"; "manual_note"].

(** [_parse_role], [_parse_status], [_parse_type]: the stripped value
    when it is one of the allowed ones; the message of the error holds
    the [repr] of the stripped value. *)
Definition _parse_role (py : PyLib) (value : string) : Result string :=
  let s := strip value in
  if bool_decide (s ∈ _RB_ROLES) then Ok s
  else Raise (ReasoningBankError ("Invalid RB role: " ++ py_repr py (JStr s))).

Definition _parse_status (py : PyLib) (value : string) : Result string :=
  let s := strip value in
  if bool_decide (s ∈ _RB_STATUSES) then Ok s
  else Raise (ReasoningBankError ("Invalid RB status: " ++ py_repr py (JStr s))).

Definition _parse_type (py : PyLib) (value : string) : Result string :=
  let s := strip value in
  if bool_decide (s ∈ _RB_TYPES) then Ok s
  else Raise (ReasoningBankError ("Invalid RB type: " ++ py_repr py (JStr s))).

(** Python [s or dflt] for a string. *)
Definition or_str (s dflt : string) : string :=
  if bool_decide (s = "") then dflt else s.

(** Python [d or {}] for a JSON value. *)
Definition or_empty_dict (v : JSON) : JSON :=
  if truthy v then v else JObj [].

(** [_metadata_to_item]: the arguments of [MemoryItem(...)] are
    evaluated in the order status, role, type. *)
Definition _metadata_to_item (py : PyLib) (id doc : string) (meta : MemMeta)
    : Result MemoryItem :=
  let extra := match meta_extra_json meta with
               | JObj f => JObj f
               | _ => JObj []
               end in
  let raw_source := strip (meta_source_run_id meta) in
  let source_run_id :=
    if bool_decide (strip raw_source = "") then None else Some (strip raw_source) in
  (let? status := _parse_status py (or_str (meta_status meta) "active") in
   let? role := _parse_role py (or_str (meta_role meta) "global") in
   let? type := _parse_type py (or_str (meta_type meta) "manual_note") in
   Ok (mkMemoryItem id status role type doc source_run_id
         (meta_created_at meta) (meta_updated_at meta)
         (if meta_schema_version meta =? 0 then 1 else meta_schema_version meta)
         extra))%result.

(** [_item_to_metadata] *)
Definition _item_to_metadata (item : MemoryItem) : MemMeta :=
  mkMemMeta (mem_status item) (mem_role item) (mem_type item)
    (or_empty (mem_source_run_id item))
    (mem_created_at item) (mem_updated_at item) (mem_schema_version item)
    (or_empty_dict (mem_extra item)).

(** [ReasoningBankStore.get] *)
Definition rb_get (py : PyLib) (c : Collection) (id : string)
    : Result (option MemoryItem) :=
  let mid := strip id in
  if bool_decide (mid = "") then Ok None
  else match c !! mid with
       | None => Ok None
       | Some (doc, meta) =>
         (let? item := _metadata_to_item py mid doc meta in Ok (Some item))%result
       end.

(** [ReasoningBankStore.upsert]; [utc_ts] is the value [_utc_ts()]
    would give and [new_uuid] the value of [_new_uuid()].  The result
    is the item written and the collection after the call; nothing is
    written when the call raises. *)
Definition rb_upsert (py : PyLib) (utc_ts : Z) (new_uuid : string)
    (id : option string) (status role type content : string)
    (source_run_id : option string) (schema_version : Z) (extra : JSON)
    (now_ts : option Z) (preserve_created_at : bool) (c : Collection)
    : Result MemoryItem * Collection :=
  let now := default utc_ts now_ts in
  let mid := or_str (strip (or_empty id)) new_uuid in
  match rb_get py c mid with
  | Raise e => (Raise e, c)
  | Ok existing =>
    let created_at :=
      match existing with
      | Some ex => if preserve_created_at then mem_created_at ex else now
      | None => now
      end in
    match (let? status := _parse_status py status in
           let? role := _parse_role py role in
           let? type := _parse_type py type in
           Ok (mkMemoryItem mid status role type (strip content)
                 (strip <$> source_run_id) created_at now schema_version
                 (or_empty_dict extra)))%result with
    | Raise e => (Raise e, c)
    | Ok item =>
      if bool_decide (mem_content item = "")
      then (Raise (ReasoningBankError "content cannot be empty."), c)
      else (Ok item, <[mem_id item := (mem_content item, _item_to_metadata item)]> c)
    end
  end.

(** [ReasoningBankStore.archive] *)
Definition rb_archive (py : PyLib) (utc_ts : Z) (new_uuid : string)
    (id : string) (now_ts : option Z) (c : Collection)
    : Result MemoryItem * Collection :=
  match rb_get py c id with
  | Raise e => (Raise e, c)
  | Ok None => (Raise (ReasoningBankError "Memory not found."), c)
  | Ok (Some existing) =>
    if bool_decide (mem_status existing = "archived") then (Ok existing, c)
    else rb_upsert py utc_ts new_uuid (Some (mem_id existing)) "archived"
           (mem_role existing) (mem_type existing) (mem_content existing)
           (mem_source_run_id existing) (mem_schema_version existing)
           (mem_extra existing) now_ts true c
  end.

(** What [get] reads back of an item after [_item_to_metadata] wrote
    it: a source run id that is blank is read as [None], a schema
    version 0 as 1, an [extra] that is not a dict as the empty dict. *)
Definition stored_view (item : MemoryItem) : MemoryItem :=
  mkMemoryItem (mem_id item) (mem_status item) (mem_role item) (mem_type item)
    (mem_content item)
    (match mem_source_run_id item with
     | Some s => if bool_decide (strip s = "") then None else Some (strip s)
     | None => None
     end)
    (mem_created_at item) (mem_updated_at item)
    (if mem_schema_version item =? 0 then 1 else mem_schema_version item)
    (match mem_extra item with
     | JObj f => JObj f
     | _ => JObj []
     end).

(** A collection holding one active memory. *)
Definition sample_collection : Collection :=
  (rb_upsert sample_py 100 "mem-0" (Some "mem-1") "active" "global" "manual_note"
     "Use anatase TiO2." (Some "run-1") 1 (JObj [("tags", JArr [JStr "tio2"])])
     None true ∅).2.

(** ** ReasoningBank deltas, edit log and browse index (sqlite_store.py)

    The tables [rb_deltas], [mem_edit_log] and [rb_mem_index], keyed by
    their primary keys, next to the tables of [Store] and to the Chroma
    collection.  [w_calls] counts the calls made so far to the clock
    and to the id generators, whose answers are inputs. *)

Record RBDeltaRow := mkRBDeltaRow {
  delta_run_id             : string;
  delta_created_at         : Z;
  delta_status             : string;
  delta_rolled_back_at     : option Z;
  delta_rolled_back_reason : option string;
  delta_ops_json           : JSON;
  delta_schema_version     : Z;
  delta_extra_json         : JSON
}.

Record MemEditRow := mkMemEditRow {
  edit_mem_id         : string;
  edit_created_at     : Z;
  edit_actor          : string;
  edit_reason         : option string;
  edit_before_json    : JSON;
  edit_after_json     : JSON;
  edit_schema_version : Z;
  edit_extra_json     : JSON
}.

Record MemIndexRow := mkMemIndexRow {
  idx_created_at     : Z;
  idx_updated_at     : Z;
  idx_status         : string;
  idx_role           : string;
  idx_type           : string;
  idx_source_run_id  : option string;
  idx_schema_version : Z
}.

Record RBWorld := mkRBWorld {
  w_store        : Store;
  w_rb_deltas    : gmap string RBDeltaRow;
  w_mem_edit_log : gmap string MemEditRow;
  w_rb_mem_index : gmap string MemIndexRow;
  w_rb           : Collection;
  w_calls        : nat
}.

(** The clock [_utc_ts()] and the id generators [_new_id(prefix)] and
    [_new_uuid()], asked for the [n]-th time. *)
Record RBEnv := mkRBEnv {
  env_utc_ts   : nat → Z;
  env_new_id   : string → nat → string;
  env_new_uuid : nat → string
}.

(** Python conversions taken as given: [float(s)] of a string and
    [dict(v)] of a value that is not a dict. *)
Record PyConv := mkPyConv {
  float_of_str  : string → option Z;
  dict_of_other : JSON → Result JSON
}.

(** Computations on the world that may raise. *)
Definition W (A : Type) : Type := RBWorld → Result A * RBWorld.

Definition wret {A} (a : A) : W A := λ w, (Ok a, w).
Definition wraise {A} (e : Exn) : W A := λ w, (Raise e, w).
Definition wbind {A B} (m : W A) (k : A → W B) : W B :=
  λ w, match m w with
       | (Ok a, w') => k a w'
       | (Raise e, w') => (Raise e, w')
       end.
Definition wlift {A} (r : Result A) : W A := λ w, (r, w).

Declare Scope world_scope.
Delimit Scope world_scope with world.
Notation "'let!' x := m 'in' k" := (wbind m (λ x, k))
  (at level 10, x pattern, m at level 200, k at level 200, only parsing)
  : world_scope.

(** One more call of the clock or of an id generator: its number. *)
Definition next_call : W nat :=
  λ w, (Ok (w_calls w),
        mkRBWorld (w_store w) (w_rb_deltas w) (w_mem_edit_log w) (w_rb_mem_index w)
                  (w_rb w) (S (w_calls w))).

Definition set_w_store (f : Store → Store) (w : RBWorld) : RBWorld :=
  mkRBWorld (f (w_store w)) (w_rb_deltas w) (w_mem_edit_log w) (w_rb_mem_index w)
            (w_rb w) (w_calls w).

Definition set_w_rb_deltas (f : gmap string RBDeltaRow → gmap string RBDeltaRow)
    (w : RBWorld) : RBWorld :=
  mkRBWorld (w_store w) (f (w_rb_deltas w)) (w_mem_edit_log w) (w_rb_mem_index w)
            (w_rb w) (w_calls w).

Definition set_w_mem_edit_log (f : gmap string MemEditRow → gmap string MemEditRow)
    (w : RBWorld) : RBWorld :=
  mkRBWorld (w_store w) (w_rb_deltas w) (f (w_mem_edit_log w)) (w_rb_mem_index w)
            (w_rb w) (w_calls w).

Definition set_w_rb_mem_index (f : gmap string MemIndexRow → gmap string MemIndexRow)
    (w : RBWorld) : RBWorld :=
  mkRBWorld (w_store w) (w_rb_deltas w) (w_mem_edit_log w) (f (w_rb_mem_index w))
            (w_rb w) (w_calls w).

Definition set_w_rb (c : Collection) (w : RBWorld) : RBWorld :=
  mkRBWorld (w_store w) (w_rb_deltas w) (w_mem_edit_log w) (w_rb_mem_index w)
            c (w_calls w).

(** [store.append_event] *)
Definition w_append_event (run_id ev : string) (payload : JSON) : W unit :=
  λ w, (Ok tt, set_w_store (append_event run_id ev payload) w).

(** [rb.get], [rb.upsert], [rb.archive] on the collection of the world. *)
Definition w_rb_get (py : PyLib) (id : string) : W (option MemoryItem) :=
  λ w, (rb_get py (w_rb w) id, w).

Definition w_rb_upsert (py : PyLib) (env : RBEnv)
    (id : option string) (status role type content : string)
    (source_run_id : option string) (schema_version : Z) (extra : JSON)
    (now_ts : option Z) (preserve_created_at : bool) : W MemoryItem :=
  (let! n := next_call in
   λ w, let '(r, c') :=
          rb_upsert py (env_utc_ts env n) (env_new_uuid env n) id status role type
            content source_run_id schema_version extra now_ts preserve_created_at
            (w_rb w) in
        (r, set_w_rb c' w))%world.

Definition w_rb_archive (py : PyLib) (env : RBEnv) (id : string) : W MemoryItem :=
  (let! n := next_call in
   λ w, let '(r, c') :=
          rb_archive py (env_utc_ts env n) (env_new_uuid env n) id None (w_rb w) in
        (r, set_w_rb c' w))%world.

(** Python [str(x or "") or None] for an optional string. *)
Definition none_if_empty (x : option string) : option string :=
  match x with
  | Some s => if bool_decide (s = "") then None else Some s
  | None => None
  end.

(** [create_rb_delta]: a new row with status [applied]. *)
Definition create_rb_delta (env : RBEnv) (run_id : string) (ops : list JSON)
    (schema_version : Z) (extra : JSON) : W string :=
  let rid := strip run_id in
  if bool_decide (rid = "") then wraise (ValueError "run_id is required.")
  else
    (λ w,
     match get_run (w_store w) rid with
     | None => (Raise (ValueError "Run not found."), w)
     | Some _ =>
       (let! n := next_call in
        λ w1,
        let delta_id := env_new_id env "rbd" n in
        match w_rb_deltas w1 !! delta_id with
        | Some _ => (Raise (IntegrityError "rb_deltas"), w1)
        | None =>
          (Ok delta_id,
           set_w_rb_deltas
             (insert delta_id
                (mkRBDeltaRow rid (env_utc_ts env n) "applied" None None (JArr ops)
                   schema_version (or_empty_dict extra))) w1)
        end)%world w
     end).

(** [get_rb_delta] *)
Definition get_rb_delta (w : RBWorld) (delta_id : string)
    : option (string * RBDeltaRow) :=
  let did := strip delta_id in
  if bool_decide (did = "") then None
  else (λ r, (did, r)) <$> w_rb_deltas w !! did.

(** [ORDER BY created_at DESC, delta_id DESC] *)
Definition by_delta_newest (a b : string * RBDeltaRow) : Prop :=
  delta_created_at b.2 < delta_created_at a.2
  ∨ (delta_created_at a.2 = delta_created_at b.2 ∧ String.leb b.1 a.1 = true).

#[global] Instance by_delta_newest_dec a b : Decision (by_delta_newest a b).
Proof. unfold by_delta_newest. apply _. Defined.

(** [list_rb_deltas_for_run]: the deltas of the run, newest first. *)
Definition list_rb_deltas_for_run (w : RBWorld) (run_id : string)
    : list (string * RBDeltaRow) :=
  let rid := strip run_id in
  if bool_decide (rid = "") then []
  else merge_sort by_delta_newest
         (filter (λ kv, delta_run_id kv.2 = rid) (map_to_list (w_rb_deltas w))).

(** [mark_rb_delta_rolled_back] *)
Definition mark_rb_delta_rolled_back (env : RBEnv) (delta_id : string)
    (reason : option string) : W unit :=
  (let! n := next_call in
   let did := strip delta_id in
   if bool_decide (did = "") then wraise (ValueError "delta_id is required.")
   else
     λ w, (Ok tt,
           set_w_rb_deltas
             (alter (λ r,
                mkRBDeltaRow (delta_run_id r) (delta_created_at r) "rolled_back"
                  (COALESCE (delta_rolled_back_at r) (Some (env_utc_ts env n)))
                  (COALESCE (delta_rolled_back_reason r) (none_if_empty reason))
                  (delta_ops_json r) (delta_schema_version r) (delta_extra_json r))
                did) w))%world.

(** [append_mem_edit_log] *)
Definition append_mem_edit_log (env : RBEnv) (id actor : string)
    (reason : option string) (before after : JSON) (extra : JSON) : W string :=
  let mid := strip id in
  if bool_decide (mid = "") then wraise (ValueError "mem_id is required.")
  else
    (let! n := next_call in
     λ w,
     let edit_id := env_new_id env "memedit" n in
     match w_mem_edit_log w !! edit_id with
     | Some _ => (Raise (IntegrityError "mem_edit_log"), w)
     | None =>
       (Ok edit_id,
        set_w_mem_edit_log
          (insert edit_id
             (mkMemEditRow mid (env_utc_ts env n) (or_str (strip actor) "unknown")
                (none_if_empty reason) before after 1 (or_empty_dict extra))) w)
     end)%world.

(** [upsert_rb_mem_index] and [_sync_rb_mem_index] *)
Definition upsert_rb_mem_index (id : string) (row : MemIndexRow) : W unit :=
  let mid := strip id in
  if bool_decide (mid = "") then wraise (ValueError "mem_id is required.")
  else λ w, (Ok tt, set_w_rb_mem_index (insert mid row) w).

Definition _sync_rb_mem_index (item : MemoryItem) : W unit :=
  upsert_rb_mem_index (mem_id item)
    (mkMemIndexRow (mem_created_at item) (mem_updated_at item) (mem_status item)
       (mem_role item) (mem_type item) (none_if_empty (mem_source_run_id item))
       (mem_schema_version item)).

(** ** Rollback of a delta (runtime/reasoningbank_jobs.py) *)

(** [_memory_to_dict] *)
Definition _memory_to_dict (item : MemoryItem) : JSON :=
  JObj [("mem_id", JStr (mem_id item));
        ("status", JStr (mem_status item));
        ("role", JStr (mem_role item));
        ("type", JStr (mem_type item));
        ("content", JStr (mem_content item));
        ("source_run_id", json_opt_str (mem_source_run_id item));
        ("created_at", JNum (mem_created_at item));
        ("updated_at", JNum (mem_updated_at item));
        ("schema_version", JNum (mem_schema_version item));
        ("extra", mem_extra item)].

(** [float(v)]; timestamps are integers here. *)
Definition py_float (conv : PyConv) (v : JSON) : Result Z :=
  match v with
  | JNum n => Ok n
  | JBool b => Ok (if b then 1 else 0)
  | JStr s => match float_of_str conv s with
              | Some n => Ok n
              | None => Raise (ValueError "could not convert string to float")
              end
  | _ => Raise (ValueError "float() argument must be a string or a real number")
  end.

(** [dict(v)] *)
Definition py_dict (conv : PyConv) (v : JSON) : Result JSON :=
  match v with
  | JObj f => Ok (JObj f)
  | _ => dict_of_other conv v
  end.

(** [_restore_snapshot]: the arguments of [rb.upsert] are evaluated in
    the order schema_version, extra, now_ts. *)
Definition _restore_snapshot (py : PyLib) (conv : PyConv) (env : RBEnv)
    (snapshot : list (string * JSON)) (actor reason : string) : W MemoryItem :=
  let id := strip (py_str py (get_or "mem_id" (JStr "") snapshot)) in
  if bool_decide (id = "")
  then wraise (ReasoningBankError "Invalid snapshot: missing mem_id")
  else
    (let! before := w_rb_get py id in
     let! schema_version :=
       wlift (match py_int py (get_or "schema_version" (JNum 1) snapshot) with
              | Some n => Ok n
              | None => Raise (ValueError "invalid literal for int()")
              end) in
     let! extra := wlift (py_dict conv (get_or "extra" (JObj []) snapshot)) in
     let! updated_at := wlift (py_float conv (get_or "updated_at" (JNum 0) snapshot)) in
     let! restored :=
       w_rb_upsert py env (Some id)
         (py_str py (get_or "status" (JStr "active") snapshot))
         (py_str py (get_or "role" (JStr "global") snapshot))
         (py_str py (get_or "type" (JStr "manual_note") snapshot))
         (py_str py (get_or "content" (JStr "") snapshot))
         (none_if_empty
            (Some (strip (py_str py (get_or "source_run_id" (JStr "") snapshot)))))
         schema_version extra
         (if updated_at =? 0 then None else Some updated_at) true in
     let! _ :=
       append_mem_edit_log env (mem_id restored) actor (Some reason)
         (match before with
          | Some b => _memory_to_dict b
          | None => JObj []
          end)
         (_memory_to_dict restored) JNull in
     let! _ := _sync_rb_mem_index restored in
     wret restored)%world.

(** The body of [for op in reversed(ops)]. *)
Definition rollback_op (py : PyLib) (conv : PyConv) (env : RBEnv)
    (rollback_reason : string) (op : JSON) : W unit :=
  match op with
  | JObj fields =>
    let op_type := strip (py_str py (get_or "op" (JStr "") fields)) in
    let id := strip (py_str py (get_or "mem_id" (JStr "") fields)) in
    if bool_decide (id = "") then wret tt
    else if bool_decide (op_type = "add") then
      (let! before := w_rb_get py id in
       match before with
       | None => wret tt
       | Some b =>
         let! after := w_rb_archive py env id in
         let! _ := append_mem_edit_log env id "rb_rollback" (Some rollback_reason)
                     (_memory_to_dict b) (_memory_to_dict after) JNull in
         _sync_rb_mem_index after
       end)%world
    else if bool_decide (op_type = "update") || bool_decide (op_type = "archive") then
      match assoc_get "before" fields with
      | Some (JObj snap) =>
        (let! _ := _restore_snapshot py conv env snap "rb_rollback" rollback_reason in
         wret tt)%world
      | _ =>
        (let! before := w_rb_get py id in
         match before with
         | None => wret tt
         | Some b =>
           if bool_decide (op_type = "archive")
              && bool_decide (mem_status b = "archived") then
             let! restored :=
               w_rb_upsert py env (Some (mem_id b)) "active" (mem_role b) (mem_type b)
                 (mem_content b) (mem_source_run_id b) (mem_schema_version b)
                 (mem_extra b) None true in
             let! _ := append_mem_edit_log env id "rb_rollback" (Some rollback_reason)
                         (_memory_to_dict b) (_memory_to_dict restored) JNull in
             _sync_rb_mem_index restored
           else wret tt
         end)%world
      end
    else wret tt
  | _ => wret tt
  end.

(** The inverse ops, applied in reverse order. *)
Fixpoint rollback_ops (py : PyLib) (conv : PyConv) (env : RBEnv)
    (rollback_reason : string) (reversed_ops : list JSON) : W unit :=
  match reversed_ops with
  | [] => wret tt
  | op :: rest =>
    (let! _ := rollback_op py conv env rollback_reason op in
     rollback_ops py conv env rollback_reason rest)%world
  end.

(** The ops of a delta row: [json.loads(ops_json)] when it is a list. *)
Definition delta_ops (row : RBDeltaRow) : list JSON :=
  match delta_ops_json row with
  | JArr ops => ops
  | _ => []
  end.

(** The choice of the delta to roll back: the one named, or the
    newest applied one of the run. *)
Definition choose_delta (w : RBWorld) (rid : string) (delta_id : option string)
    : Result (string * RBDeltaRow) :=
  match none_if_empty delta_id with
  | Some d =>
    match get_rb_delta w d with
    | None => Raise (ValueError "delta not found")
    | Some row =>
      if bool_decide (delta_run_id row.2 ≠ rid)
      then Raise (ValueError "delta does not belong to run")
      else Ok row
    end
  | None =>
    match filter (λ kv, delta_status kv.2 = "applied")
                 (list_rb_deltas_for_run w rid) with
    | [] => Raise (ValueError "no applied delta to rollback")
    | newest :: _ =>
      match get_rb_delta w newest.1 with
      | None => Raise (ValueError "delta not found")
      | Some row => Ok row
      end
    end
  end.

(** [rollback_rb_delta] *)
Definition rollback_rb_delta (py : PyLib) (conv : PyConv) (env : RBEnv)
    (run_id : string) (delta_id : option string) (reason : option string)
    : W string :=
  let rid := strip run_id in
  if bool_decide (rid = "") then wraise (ValueError "run_id is required.")
  else
    (let! delta_row := (λ w, (choose_delta w rid delta_id, w)) in
     let did := delta_row.1 in
     if bool_decide (delta_status delta_row.2 = "rolled_back") then wret did
     else
       let ops := delta_ops delta_row.2 in
       let! _ := w_append_event rid "rb_rollback_started"
                   (JObj [("delta_id", JStr did);
                          ("reason", json_opt_str (none_if_empty reason));
                          ("n_ops", JNum (Z.of_nat (length ops)))]) in
       let! _ := rollback_ops py conv env ("rollback_delta:" ++ did) (reverse ops) in
       let! _ := mark_rb_delta_rolled_back env did (none_if_empty reason) in
       let! _ := w_append_event rid "rb_rollback_completed"
                   (JObj [("delta_id", JStr did); ("status", JStr "rolled_back")]) in
       wret did)%world.

(** ** Observables of a rollback *)

(** What no step of a rollback changes: the table of deltas and the
    tables of [Store]; and no entry leaves the collection. *)
Definition rb_frame (w w' : RBWorld) : Prop :=
  w_rb_deltas w' = w_rb_deltas w
  ∧ w_store w' = w_store w
  ∧ ∀ k, is_Some (w_rb w !! k) → is_Some (w_rb w' !! k).

(** The fields of the snapshot [_memory_to_dict] makes of an item. *)
Definition memory_fields (item : MemoryItem) : list (string * JSON) :=
  match _memory_to_dict item with
  | JObj fields => fields
  | _ => []
  end.

(** An item as [upsert] writes it and [get] reads it: a stripped id
    that is not empty, an allowed status, role and type, a stripped
    content that is not empty, a source run id that is absent or
    stripped and not empty, a time of update and a schema version that
    are not 0, a dict for [extra]. *)
Definition wf_item (item : MemoryItem) : Prop :=
  strip (mem_id item) = mem_id item ∧ mem_id item ≠ ""
  ∧ mem_status item ∈ _RB_STATUSES
  ∧ mem_role item ∈ _RB_ROLES
  ∧ mem_type item ∈ _RB_TYPES
  ∧ strip (mem_content item) = mem_content item ∧ mem_content item ≠ ""
  ∧ match mem_source_run_id item with
    | Some s => strip s = s ∧ s ≠ ""
    | None => True
    end
  ∧ mem_updated_at item ≠ 0
  ∧ mem_schema_version item ≠ 0
  ∧ ∃ f, mem_extra item = JObj f.

(** An item with another time of creation. *)
Definition with_created_at (t : Z) (item : MemoryItem) : MemoryItem :=
  mkMemoryItem (mem_id item) (mem_status item) (mem_role item) (mem_type item)
    (mem_content item) (mem_source_run_id item) t (mem_updated_at item)
    (mem_schema_version item) (mem_extra item).

(** ** A sample ReasoningBank *)

(** The clock advances by one at every call; ids are numbered. *)
Definition sample_rb_env : RBEnv :=
  mkRBEnv (λ n, 1000 + Z.of_nat n)
          (λ prefix n, prefix ++ "_" ++ pretty n)
          (λ n, "mem-u" ++ pretty n).

(** No string is a number; [dict()] of what is not a dict raises. *)
Definition sample_conv : PyConv :=
  mkPyConv (λ _, None) (λ _, Raise (ValueError "dict() argument")).

(** The memory of [sample_collection], as [get] reads it. *)
Definition sample_item : MemoryItem :=
  mkMemoryItem "mem-1" "active" "global" "manual_note" "Use anatase TiO2."
    (Some "run-1") 100 100 1 (JObj [("tags", JArr [JStr "tio2"])]).

Definition sample_world0 : RBWorld :=
  mkRBWorld sample_store_done ∅ ∅ ∅ sample_collection 0.

(** Run [run_a] rewrites the memory and adds one of its own; both
    changes are recorded in one delta. *)
Definition sample_apply : W string :=
  (let! after1 :=
     w_rb_upsert sample_py sample_rb_env (Some "mem-1") "active" "global" "manual_note"
       "Use rutile TiO2." (Some "run-1") 1 (JObj [("tags", JArr [JStr "tio2"])])
       None true in
   let! after2 :=
     w_rb_upsert sample_py sample_rb_env None "active" "orchestrator"
       "reasoningbank_item" "Check the band gap first." (Some "run_a") 1 (JObj [])
       None true in
   create_rb_delta sample_rb_env "run_a"
     [JObj [("op", JStr "update"); ("mem_id", JStr (mem_id after1));
            ("before", _memory_to_dict sample_item);
            ("after", _memory_to_dict after1)];
      JObj [("op", JStr "add"); ("mem_id", JStr (mem_id after2));
            ("after", _memory_to_dict after2)]]
     1 (JObj []))%world.

Definition sample_world : RBWorld := (sample_apply sample_world0).2.

(** Later the rewritten memory is edited by hand and archived. *)
Definition sample_world_edited : RBWorld :=
  (w_rb_upsert sample_py sample_rb_env (Some "mem-1") "archived" "global" "manual_note"
     "Edited by hand." (Some "run-1") 1 (JObj [("edited", JBool true)]) None true
     sample_world).2.

(** ** Learning from a run (runtime/reasoningbank_learn.py) *)

(** *** Python dicts and the lists they share

    [extra] of a [MemoryItem] is a dict whose values are held by
    reference.  Of these values only lists are mutated in place by the
    code below, so a dict is a table from keys to values that are
    either plain JSON or a reference to a list object of the heap.
    [dict(d)] copies the table, not the list objects. *)

Inductive PyVal :=
  | PyPlain (v : JSON)
  | PyListRef (r : nat).

Definition PyDict : Type := list (string * PyVal).
Definition PyHeap : Type := list (list JSON).

(** A dict freshly made by [json.loads]: every list under a key is a
    list object of its own. *)
Fixpoint py_load (fields : list (string * JSON)) (h : PyHeap) : PyDict * PyHeap :=
  match fields with
  | [] => ([], h)
  | (k, JArr items) :: rest =>
    let '(d, h') := py_load rest (h ++ [items])%list in
    ((k, PyListRef (length h)) :: d, h')
  | (k, v) :: rest =>
    let '(d, h') := py_load rest h in
    ((k, PyPlain v) :: d, h')
  end.

(** The JSON a dict stands for, read through the heap. *)
Definition py_dump (h : PyHeap) (d : PyDict) : list (string * JSON) :=
  map (λ kv, (kv.1, match kv.2 with
                    | PyPlain v => v
                    | PyListRef r => JArr (default [] (h !! r))
                    end)) d.

(** [dict(d)]: a new table holding the same values. *)
Definition py_dict_copy (d : PyDict) : PyDict := d.

Fixpoint py_dict_get (k : string) (d : PyDict) : option PyVal :=
  match d with
  | [] => None
  | (k', v) :: rest => if bool_decide (k' = k) then Some v else py_dict_get k rest
  end.

(** [d.setdefault(k, []).append(x)]: the list under [k], a new empty
    one put under [k] when there is none, gets [x] appended in place;
    [None] stands for the [AttributeError] raised when the value
    under [k] is not a list. *)
Definition py_setdefault_append (k : string) (x : JSON) (d : PyDict) (h : PyHeap)
    : option (PyDict * PyHeap) :=
  match py_dict_get k d with
  | Some (PyListRef r) => Some (d, alter (λ l, l ++ [x])%list r h)
  | Some (PyPlain _) => None
  | None => Some ((d ++ [(k, PyListRef (length h))])%list, (h ++ [[x]])%list)
  end.

(** *** Inputs of a learn pass *)

(** The chat client, as far as the memory is concerned: the dialogue
    that extracts the proposals gives the events it wrote to the trace
    and the final content, or the error that ended it; a merge request
    gives the events it wrote and the content of the reply. *)
Record LearnLLM := mkLearnLLM {
  llm_extract : RBWorld → list EventRow * Result string;
  llm_merge   : MemoryItem → JSON → list EventRow * string
}.

(** A hit of [rb.query]: id, document and metadata, whether the
    similarity [1 - distance] reaches
    [cfg.reasoningbank.near_duplicate_threshold] ([None] when the
    distance is [None]), and the dict [dup_debug] made of the
    distance. *)
Record QueryHit := mkQueryHit {
  hit_id      : string;
  hit_doc     : string;
  hit_meta    : MemMeta;
  hit_similar : option bool;
  hit_debug   : JSON
}.

(** What a learn pass reads from its surroundings: the switch
    [C2XC_RB_LEARN_DRY_RUN], [cfg.reasoningbank.strategy_version], the
    feedback of a run ([store.get_feedback_for_run]), the payload of
    the snapshot event, the chat client if there is one, and the hits
    of [rb.query] among the active memories of a role and type for a
    content. *)
Record LearnEnv := mkLearnEnv {
  learn_dry_run          : bool;
  learn_strategy_version : JSON;
  learn_feedback         : string → option JSON;
  learn_snapshot_payload : string → string → JSON;
  learn_llm              : option LearnLLM;
  learn_query            : Collection → string → string → string → list QueryHit
}.

(** [_dry_run_extract_items]; the dash of the source is written
    with its three bytes. *)
Definition em_dash : string :=
  String (ascii_of_nat 226) (String (ascii_of_nat 128)
    (String (ascii_of_nat 148) EmptyString)).

Definition _dry_run_extract_items (run_id : string) : list JSON :=
  [JObj [("role", JStr "global");
         ("type", JStr "reasoningbank_item");
         ("content", JStr ("DRY RUN " ++ em_dash ++ " synthetic ReasoningBank memory item."
                           ++ nl ++ "Purpose: validate RB browse/learn/rollback pipeline."
                           ++ nl ++ "source_run_id=" ++ run_id));
         ("extra", JObj [("dry_run", JBool true); ("confidence", JNum 0);
                         ("tags", JArr [JStr "dry_run"])])];
   JObj [("role", JStr "orchestrator");
         ("type", JStr "reasoningbank_item");
         ("content", JStr ("DRY RUN " ++ em_dash ++ " synthetic orchestrator memory."
                           ++ nl ++ "Do not use for science."));
         ("extra", JObj [("dry_run", JBool true); ("confidence", JNum 0);
                         ("tags", JArr [JStr "dry_run"])])]].

(** [_ensure_dict] *)
Definition _ensure_dict (v : option JSON) : list (string * JSON) :=
  match v with
  | Some (JObj f) => f
  | _ => []
  end.

(** [d[k] = v] on a dict: the value is replaced where the key is,
    else the pair is added at the end. *)
Fixpoint dict_set (k : string) (v : JSON) (d : list (string * JSON))
    : list (string * JSON) :=
  match d with
  | [] => [(k, v)]
  | (k', v') :: rest =>
    if bool_decide (k' = k) then (k, v) :: rest else (k', v') :: dict_set k v rest
  end.

(** [d.update(other)] *)
Definition dict_update (d other : list (string * JSON)) : list (string * JSON) :=
  foldl (λ acc kv, dict_set kv.1 kv.2 acc) d other.

(** [len(s)] of a text: the bytes that start a character of UTF-8. *)
Fixpoint py_len (s : string) : nat :=
  match s with
  | EmptyString => 0
  | String c rest =>
    let n := nat_of_ascii c in
    if ((128 <=? n) && (n <? 192))%nat then py_len rest else S (py_len rest)
  end.

(** Appending the events written by a collaborator. *)
Definition w_append_events (evs : list EventRow) : W unit :=
  λ w, (Ok tt,
        set_w_store (λ s, mkStore (runs s) (batches s) (idempotency_keys s) (rb_jobs s)
                                  (events s ++ evs)) w).

(** An item with another [extra]. *)
Definition with_extra (extra : JSON) (item : MemoryItem) : MemoryItem :=
  mkMemoryItem (mem_id item) (mem_status item) (mem_role item) (mem_type item)
    (mem_content item) (mem_source_run_id item) (mem_created_at item)
    (mem_updated_at item) (mem_schema_version item) extra.

(** The merge asked of the chat client: the content to write, whether
    the merge was used, and the [extra] of the reply. *)
Definition llm_merge_step (py : PyLib) (lenv : LearnEnv)
    (proposal : list (string * JSON)) (content : string)
    (chosen_existing : MemoryItem)
    : W (string * bool * list (string * JSON)) :=
  match learn_llm lenv with
  | Some llm =>
    if learn_dry_run lenv then wret (content, false, [])
    else
      let '(evs, reply) := llm_merge llm chosen_existing (JObj proposal) in
      (let! _ := w_append_events evs in
       match extract_first_json_object py reply with
       | Ok (JObj merged_obj) =>
         let c := strip (py_str py (get_or "content" (JStr "") merged_obj)) in
         let c := if bool_decide (c = "") then content else c in
         let extra := _ensure_dict (assoc_get "extra" merged_obj) in
         if bool_decide (c = "NOT_DUPLICATE") then wret (content, false, extra)
         else wret (c, true, extra)
       | Ok _ => wraise (AttributeError "get")
       | Raise (JSONExtractionError _) => wret (content, false, [])
       | Raise e => wraise e
       end)%world
  | None => wret (content, false, [])
  end.

(** The merge of a proposal into the near duplicate [chosen_existing]:
    the content and the extra to write, whether the merge of the chat
    client was used, and [chosen_existing.extra] as it is afterwards. *)
Definition merge_proposal (py : PyLib) (lenv : LearnEnv) (rid : string)
    (proposal : list (string * JSON)) (content : string)
    (chosen_existing : MemoryItem)
    : W (string * JSON * bool * JSON) :=
  let existing_fields := match or_empty_dict (mem_extra chosen_existing) with
                         | JObj f => f
                         | _ => []
                         end in
  let '(existing_extra, h0) := py_load existing_fields [] in
  (let! step := llm_merge_step py lenv proposal content chosen_existing in
   let '(merged_content, merge_used, reply_extra) := step in
   if merge_used then
     wret (merged_content,
           JObj (dict_update (py_dump h0 (py_dict_copy existing_extra)) reply_extra),
           true, JObj (py_dump h0 existing_extra))
   else
     let merged_content :=
       if (py_len content <=? py_len (strip (mem_content chosen_existing)))%nat
       then mem_content chosen_existing else merged_content in
     match py_setdefault_append "merged_from"
             (JObj [("source_run_id", JStr rid); ("proposal", JStr content)])
             (py_dict_copy existing_extra) h0 with
     | None => wraise (AttributeError "append")
     | Some (merged_extra, h1) =>
       wret (merged_content, JObj (py_dump h1 merged_extra), false,
             JObj (py_dump h1 existing_extra))
     end)%world.

(** The items of the hits of [rb.query], built in order by
    [_metadata_to_item]. *)
Fixpoint query_items (py : PyLib) (hits : list QueryHit)
    : Result (list (MemoryItem * QueryHit)) :=
  match hits with
  | [] => Ok []
  | hit :: rest =>
    (let? item := _metadata_to_item py (hit_id hit) (hit_doc hit) (hit_meta hit) in
     let? items := query_items py rest in
     Ok ((item, hit) :: items))%result
  end.

(** [{**extra, "source_run_id": rid, "strategy_version": v}] *)
Definition added_extra (lenv : LearnEnv) (rid : string) (extra : list (string * JSON))
    : JSON :=
  JObj (dict_set "strategy_version" (learn_strategy_version lenv)
          (dict_set "source_run_id" (JStr rid) extra)).

(** One proposal of the consolidation loop: the op recorded for it, if
    there is one. *)
Definition consolidate_proposal (py : PyLib) (env : RBEnv) (lenv : LearnEnv)
    (rid rb_job_id : string) (proposal : JSON) : W (option JSON) :=
  match proposal with
  | JObj fields =>
    let role := or_str (strip (py_str py (get_or "role" (JStr "") fields))) "global" in
    let typ := or_str (strip (py_str py (get_or "type" (JStr "") fields)))
                      "reasoningbank_item" in
    let content := strip (py_str py (get_or "content" (JStr "") fields)) in
    let extra := _ensure_dict (assoc_get "extra" fields) in
    if bool_decide (content = "") then wret None
    else
      (let! dup_candidates :=
         (λ w, (query_items py (learn_query lenv (w_rb w) content role typ), w)) in
       let dup_debug :=
         match dup_candidates with
         | (_, hit) :: _ =>
           match hit_similar hit with
           | Some _ => hit_debug hit
           | None => JNull
           end
         | [] => JNull
         end in
       match dup_candidates with
       | (chosen_existing, mkQueryHit _ _ _ (Some true) _) :: _ =>
         let! merged := merge_proposal py lenv rid fields content chosen_existing in
         let '(merged_content, merged_extra, merge_used, before_extra) := merged in
         let before := with_extra before_extra chosen_existing in
         let! after :=
           w_rb_upsert py env (Some (mem_id chosen_existing))
             (mem_status chosen_existing) (mem_role chosen_existing)
             (mem_type chosen_existing) merged_content
             (mem_source_run_id chosen_existing)
             (mem_schema_version chosen_existing) merged_extra None true in
         let! _ := _sync_rb_mem_index after in
         let! _ :=
           append_mem_edit_log env (mem_id after) "rb_learn"
             (Some ("learn_merge:" ++ rb_job_id))
             (_memory_to_dict before) (_memory_to_dict after)
             (JObj [("near_duplicate", dup_debug); ("merge_used", JBool merge_used)]) in
         wret (Some (JObj [("op", JStr "update");
                           ("mem_id", JStr (mem_id after));
                           ("before", _memory_to_dict before);
                           ("after", _memory_to_dict after);
                           ("near_duplicate", dup_debug);
                           ("merge_used", JBool merge_used)]))
       | _ =>
         let! after :=
           w_rb_upsert py env None "active" role typ content (Some rid) 1
             (added_extra lenv rid extra) None true in
         let! _ := _sync_rb_mem_index after in
         let! _ :=
           append_mem_edit_log env (mem_id after) "rb_learn"
             (Some ("learn_add:" ++ rb_job_id))
             (JObj []) (_memory_to_dict after)
             (JObj [("near_duplicate_checked", dup_debug)]) in
         wret (Some (JObj [("op", JStr "add");
                           ("mem_id", JStr (mem_id after));
                           ("after", _memory_to_dict after);
                           ("near_duplicate_checked", dup_debug)]))
       end)%world
  | _ => wret None
  end.

(** [for proposal in extracted_items]: the ops recorded, in order. *)
Fixpoint consolidate (py : PyLib) (env : RBEnv) (lenv : LearnEnv)
    (rid rb_job_id : string) (proposals : list JSON) : W (list JSON) :=
  match proposals with
  | [] => wret []
  | proposal :: rest =>
    (let! op := consolidate_proposal py env lenv rid rb_job_id proposal in
     let! ops := consolidate py env lenv rid rb_job_id rest in
     wret (match op with
           | Some o => o :: ops
           | None => ops
           end))%world
  end.

(** [for did in applied_delta_ids: rollback_rb_delta(...)] *)
Fixpoint rollback_deltas (py : PyLib) (conv : PyConv) (env : RBEnv)
    (rid : string) (delta_ids : list string) : W unit :=
  match delta_ids with
  | [] => wret tt
  | did :: rest =>
    (let! _ := rollback_rb_delta py conv env rid (Some did)
                 (Some "auto_rollback_before_relearn") in
     rollback_deltas py conv env rid rest)%world
  end.

(** The ids of the applied deltas of a run, newest first. *)
Definition applied_delta_ids (w : RBWorld) (rid : string) : list string :=
  (filter (λ kv, delta_status kv.2 = "applied") (list_rb_deltas_for_run w rid)).*1.

(** The proposals of a pass: those of the dry run, or the [items] of
    the JSON object the chat client ends its dialogue with. *)
Definition extract_items (py : PyLib) (lenv : LearnEnv) (rid : string)
    : W (list JSON) :=
  if learn_dry_run lenv then wret (_dry_run_extract_items rid)
  else
    match learn_llm lenv with
    | None =>
      wraise (RBLearnError
        "LLM is required for RB learn (set C2XC_RB_LEARN_DRY_RUN=1 for dry-run mode).")
    | Some llm =>
      (λ w,
       let '(evs, raw) := llm_extract llm w in
       (let! _ := w_append_events evs in
        match raw with
        | Raise e => wraise e
        | Ok raw_content =>
          match extract_first_json_object py raw_content with
          | Raise (JSONExtractionError e) =>
            wraise (RBLearnError ("RB extract output is not valid JSON: " ++ e))
          | Raise e => wraise e
          | Ok (JObj obj) =>
            match assoc_get "items" obj with
            | Some (JArr items) => wret items
            | _ => wret []
            end
          | Ok _ => wret []
          end
        end)%world w)
    end.

(** What follows the rollback in a pass: extraction, consolidation,
    the record of the delta and the closing event. *)
Definition learn_apply (py : PyLib) (env : RBEnv) (lenv : LearnEnv)
    (rid rb_job_id : string) : W string :=
  (let! extracted_items := extract_items py lenv rid in
   let! ops := consolidate py env lenv rid rb_job_id extracted_items in
   let! delta_id :=
     create_rb_delta env rid ops 1
       (JObj [("rb_job_id", JStr rb_job_id);
              ("strategy_version", learn_strategy_version lenv);
              ("dry_run", JBool (learn_dry_run lenv))]) in
   let! _ := w_append_event rid "rb_learn_completed"
               (JObj [("rb_job_id", JStr rb_job_id);
                      ("delta_id", JStr delta_id);
                      ("n_ops", JNum (Z.of_nat (length ops)));
                      ("dry_run", JBool (learn_dry_run lenv))]) in
   wret delta_id)%world.

(** The rollback of the applied deltas of the run, as they are listed
    when it starts. *)
Definition learn_rollback (py : PyLib) (conv : PyConv) (env : RBEnv) (rid : string)
    : W unit :=
  λ w, rollback_deltas py conv env rid (applied_delta_ids w rid) w.

(** [learn_reasoningbank_for_run] *)
Definition learn_reasoningbank_for_run (py : PyLib) (conv : PyConv) (env : RBEnv)
    (lenv : LearnEnv) (run_id rb_job_id : string) : W string :=
  let rid := strip run_id in
  if bool_decide (rid = "") then wraise (RBLearnError "run_id is required.")
  else
    (λ w,
     match get_run (w_store w) rid with
     | None => (Raise (RBLearnError "Run not found."), w)
     | Some _ =>
       match learn_feedback lenv rid with
       | None => (Raise (RBLearnError "Feedback not found (required for RB learn)."), w)
       | Some _ =>
         (let! _ := w_append_event rid "rb_learn_snapshot"
                      (learn_snapshot_payload lenv rid rb_job_id) in
          let! _ := learn_rollback py conv env rid in
          learn_apply py env lenv rid rb_job_id)%world w
       end
     end).

(** How the table of deltas may change in a pass: no row appears or
    disappears, and a row keeps its run, its time of creation and its
    ops; its status stays or becomes [rolled_back]. *)
Definition deltas_evolve (D D' : gmap string RBDeltaRow) : Prop :=
  ∀ k, match D !! k with
       | None => D' !! k = None
       | Some r =>
         ∃ r', D' !! k = Some r'
               ∧ delta_run_id r' = delta_run_id r
               ∧ delta_created_at r' = delta_created_at r
               ∧ delta_ops_json r' = delta_ops_json r
               ∧ (delta_status r' = delta_status r ∨ delta_status r' = "rolled_back")
       end.

(** ** A sample learn pass *)

(** A store of memories that finds exact duplicates: the hits for a
    content are the active memories of the role and type whose
    document is that content, at distance 0. *)
Definition sample_query (c : Collection) (content role typ : string) : list QueryHit :=
  omap (λ kv : string * (string * MemMeta),
          let '(id, (doc, meta)) := kv in
          if bool_decide (meta_status meta = "active")
             && bool_decide (meta_role meta = role)
             && bool_decide (meta_type meta = typ)
             && bool_decide (doc = content)
          then Some (mkQueryHit id doc meta (Some true)
                       (JObj [("candidate_mem_id", JStr id); ("distance", JNum 0)]))
          else None)
       (map_to_list c).

(** Dry-run learning: no chat client, every run has feedback. *)
Definition sample_learn_env : LearnEnv :=
  mkLearnEnv true (JStr "v1") (λ _, Some (JObj [("feedback", JObj [])]))
    (λ rid rb_job_id, JObj [("rb_job_id", JStr rb_job_id)]) None sample_query.

(** A chat client whose dialogue ends with [reply]; it is never asked
    to merge. *)
Definition sample_llm (reply : string) : LearnLLM :=
  mkLearnLLM (λ _, ([], Ok reply)) (λ _ _, ([], "")).

Definition sample_llm_env (reply : string) : LearnEnv :=
  mkLearnEnv false (JStr "v1") (λ _, Some (JObj [("feedback", JObj [])]))
    (λ rid rb_job_id, JObj [("rb_job_id", JStr rb_job_id)])
    (Some (sample_llm reply)) sample_query.

(** The world with three finished runs and no memory. *)
Definition sample_world_empty : RBWorld :=
  mkRBWorld sample_store_done ∅ ∅ ∅ ∅ 0.

Definition sample_learn (run_id rb_job_id : string) : W string :=
  learn_reasoningbank_for_run sample_py sample_conv sample_rb_env sample_learn_env
    run_id rb_job_id.

(** Three dry-run passes, one for each finished run, and the
    rollback of the last. *)
Definition sample_world_a : RBWorld := (sample_learn "run_a" "job_a" sample_world_empty).2.
Definition sample_world_b : RBWorld := (sample_learn "run_b" "job_b" sample_world_a).2.
Definition sample_world_c : RBWorld := (sample_learn "run_c" "job_c" sample_world_b).2.
Definition sample_world_c_rolled_back : RBWorld :=
  (rollback_rb_delta sample_py sample_conv sample_rb_env "run_c" None None
     sample_world_c).2.

(** The texts a sample chat client ends its dialogue with: a memory
    and then one with a role that does not exist; and no memory. *)
Definition reply_items_bad_role : string := "{items bad role}".
Definition reply_items_none : string := "{items none}".

Definition sample_py_learn : PyLib :=
  mkPyLib
    (λ text,
       if bool_decide (text = reply_items_bad_role) then
         Some (JObj [("items",
                      JArr [JObj [("role", JStr "global");
                                  ("type", JStr "reasoningbank_item");
                                  ("content", JStr "Calcine at 450 C.")];
                            JObj [("role", JStr "chemist");
                                  ("content", JStr "Dope with nitrogen.")]])])
       else if bool_decide (text = reply_items_none) then
         Some (JObj [("items", JArr [])])
       else None)
    plain_dumps plain_dumps
    (λ v, match v with
          | JStr s => "'" ++ s ++ "'"
          | _ => plain_dumps v
          end)
    (λ _, None) sample_unicode.

Definition sample_llm_learn (reply run_id rb_job_id : string) : W string :=
  learn_reasoningbank_for_run sample_py_learn sample_conv sample_rb_env
    (sample_llm_env reply) run_id rb_job_id.

(** ** Runs left running by a stopped process (sqlite_store.py,
       [reconcile_running_runs]) *)

(** [UPDATE runs SET status = 'failed', ended_at = COALESCE(ended_at, ?),
     error = COALESCE(error, ?) WHERE run_id = ? AND status = 'running'] *)
Definition fail_running_row (ts : Z) (reason : string) (r : RunRow) : RunRow :=
  if bool_decide (run_status r = "running") then
    mkRunRow (run_batch_id r) (run_index r) (run_created_at r) (run_started_at r)
             (COALESCE (run_ended_at r) (Some ts)) "failed"
             (COALESCE (run_error r) (Some reason))
  else r.

(** The ids of the rows of [SELECT run_id FROM runs WHERE status = 'running']. *)
Definition running_run_ids (s : Store) : list string :=
  (filter (λ kv : string * RunRow, run_status kv.2 = "running")
          (map_to_list (runs s))).*1.

(** [reconcile_running_runs]: every run found [running] is set to
    [failed] and gets a [run_failed] event; the number of runs found
    is returned. *)
Definition reconcile_running_runs (ts : Z) (reason : string) (s : Store)
    : nat * Store :=
  let run_ids := running_run_ids s in
  (length run_ids,
   foldl (λ s run_id,
            append_event run_id "run_failed" (JObj [("error", JStr reason)])
              (set_runs (alter (fail_running_row ts reason) run_id) s))
         s run_ids).

(** ** Cancellation requests (sqlite_store.py, [request_cancel],
       [is_cancel_requested], [acknowledge_cancel]) *)

Record CancelRow := mkCancelRow {
  cancel_created_at  : Z;
  cancel_target_type : string;
  cancel_target_id   : string;
  cancel_status      : string;
  cancel_reason      : option string
}.

(** The table [cancel_requests], keyed by [cancel_id]. *)
Abbreviation CancelTable := (gmap string CancelRow).

(** [target_type not in {"batch", "run"}] raises. *)
Definition check_target_type (py : PyLib) (target_type : string) : Result unit :=
  if bool_decide (target_type = "batch" ∨ target_type = "run") then Ok tt
  else Raise (ValueError ("Invalid target_type: " ++ py_repr py (JStr target_type))).

(** [request_cancel]; [cancel_id] and [ts] are the readings of
    [_new_id("cancel")] and [_utc_ts()]. *)
Definition request_cancel (py : PyLib) (cancel_id : string) (ts : Z)
    (target_type target_id : string) (reason : option string) (t : CancelTable)
    : Result string * CancelTable :=
  match check_target_type py target_type with
  | Raise e => (Raise e, t)
  | Ok _ =>
    match t !! cancel_id with
    | Some _ => (Raise (IntegrityError "cancel_requests"), t)
    | None =>
      (Ok cancel_id,
       <[cancel_id := mkCancelRow ts target_type target_id "requested" reason]> t)
    end
  end.

(** The rows a cancellation query looks at. *)
Definition cancel_targets (target_type target_id : string) (row : CancelRow) : Prop :=
  cancel_target_type row = target_type ∧ cancel_target_id row = target_id.

#[global] Instance cancel_targets_dec target_type target_id row :
  Decision (cancel_targets target_type target_id row).
Proof. unfold cancel_targets. apply _. Defined.

(** [is_cancel_requested] *)
Definition is_cancel_requested (py : PyLib) (target_type target_id : string)
    (t : CancelTable) : Result bool :=
  match check_target_type py target_type with
  | Raise e => Raise e
  | Ok _ =>
    Ok (bool_decide
          (filter (λ kv : string * CancelRow,
                     cancel_targets target_type target_id kv.2
                     ∧ (cancel_status kv.2 = "requested"
                        ∨ cancel_status kv.2 = "acknowledged"))
                  (map_to_list t) ≠ []))
  end.

(** [acknowledge_cancel] *)
Definition acknowledge_cancel (py : PyLib) (target_type target_id : string)
    (t : CancelTable) : Result unit * CancelTable :=
  match check_target_type py target_type with
  | Raise e => (Raise e, t)
  | Ok _ =>
    (Ok tt,
     (λ row,
        if bool_decide (cancel_targets target_type target_id row
                        ∧ cancel_status row = "requested")
        then mkCancelRow (cancel_created_at row) (cancel_target_type row)
               (cancel_target_id row) "acknowledged" (cancel_reason row)
        else row) <$> t)
  end.

(** What the API and the workers do to the table. *)
Inductive CancelOp :=
  | OpRequest (cancel_id : string) (ts : Z) (target_type target_id : string)
              (reason : option string)
  | OpAcknowledge (target_type target_id : string).

Definition run_cancel_op (py : PyLib) (op : CancelOp) (t : CancelTable) : CancelTable :=
  match op with
  | OpRequest cancel_id ts target_type target_id reason =>
    (request_cancel py cancel_id ts target_type target_id reason t).2
  | OpAcknowledge target_type target_id =>
    (acknowledge_cancel py target_type target_id t).2
  end.

Definition run_cancel_ops (py : PyLib) (ops : list CancelOp) (t : CancelTable)
    : CancelTable :=
  foldl (λ t op, run_cancel_op py op t) t ops.

(** Two queued learn jobs, for [run_a] and then for [run_b]. *)
Definition sample_store_jobs : Store :=
  run_job_ops [OpEnqueue "rbjob_1" 50 "run_a"; OpEnqueue "rbjob_2" 51 "run_b"]
    sample_store_done.

(** Two runs caught running by a restart, one of them already with an
    error on record, and a finished run. *)
Definition sample_store_stuck : Store :=
  mkStore
    (list_to_map
       [("run_a", mkRunRow "batch_1" 1 10 (Some 11) None "running" None);
        ("run_b", mkRunRow "batch_1" 2 10 (Some 13) None "running" (Some "warn"));
        ("run_c", mkRunRow "batch_1" 3 10 (Some 15) (Some 16) "completed" None)])
    (list_to_map
       [("batch_1", mkBatchRow 10 (Some 11) None "request" 3 1 "running" (JObj []) None)])
    ∅ ∅ [].

(** What a match of the citation pattern is: capital letters of ASCII
    followed by decimal digits, at least one of each. *)
Definition is_alias (u : Unicode) (a : string) : Prop :=
  ∃ letters (digits : list string),
    a = letters ++ foldr String.append "" digits
    ∧ letters ≠ "" ∧ digits ≠ []
    ∧ (∀ c, c ∈ list_ascii_of_string letters → is_upper c = true)
    ∧ (∀ ch, ch ∈ digits → is_decimal u ch = true ∧ next_char ch = Some (ch, "")).

(** ** The worker (runtime/worker.py, [_execute_one], [_run_loop]) *)

(** The database as the worker uses it: the tables of [Store] and
    [cancel_requests]. *)
Record WorkerDB := mkWorkerDB {
  db_store  : Store;
  db_cancel : CancelTable
}.

(** [append_event] for a run that may be missing: the foreign key of
    [events] on [runs] makes the INSERT raise. *)
Definition append_event_fk (run_id ev : string) (payload : JSON) (db : WorkerDB)
    : Result unit * WorkerDB :=
  match runs (db_store db) !! run_id with
  | Some _ =>
    (Ok tt, mkWorkerDB (append_event run_id ev payload (db_store db)) (db_cancel db))
  | None => (Raise (IntegrityError "events"), db)
  end.

(** The cancellation check of [_execute_one] for one target:
    [Ok true] when the run was canceled for it. *)
Definition cancel_check (py : PyLib) (ts : Z) (target_type target_id reason run_id : string)
    (db : WorkerDB) : Result bool * WorkerDB :=
  match is_cancel_requested py target_type target_id (db_cancel db) with
  | Raise e => (Raise e, db)
  | Ok false => (Ok false, db)
  | Ok true =>
    match acknowledge_cancel py target_type target_id (db_cancel db) with
    | (Raise e, t) => (Raise e, mkWorkerDB (db_store db) t)
    | (Ok _, t) =>
      match append_event_fk run_id "run_canceled" (JObj [("reason", JStr reason)])
              (mkWorkerDB (db_store db) t) with
      | (Raise e, db1) => (Raise e, db1)
      | (Ok _, db1) =>
        (Ok true,
         mkWorkerDB (update_run_status ts run_id "canceled" None (db_store db1))
                    (db_cancel db1))
      end
    end
  end.

(** [_execute_one] up to the cancellation checks; [body] is what
    follows them (the [run_started] event, the agents, the final
    output and the status of the run). *)
Definition _execute_one (py : PyLib) (ts : Z)
    (body : string → string → WorkerDB → Result unit * WorkerDB)
    (run_id batch_id : string) (db : WorkerDB) : Result unit * WorkerDB :=
  match get_run (db_store db) run_id, get_batch (db_store db) batch_id with
  | Some _, Some _ =>
    match cancel_check py ts "batch" batch_id "batch_cancel_requested" run_id db with
    | (Raise e, db1) => (Raise e, db1)
    | (Ok true, db1) => (Ok tt, db1)
    | (Ok false, db1) =>
      match cancel_check py ts "run" run_id "cancel_requested" run_id db1 with
      | (Raise e, db2) => (Raise e, db2)
      | (Ok true, db2) => (Ok tt, db2)
      | (Ok false, db2) => body run_id batch_id db2
      end
    end
  | _, _ =>
    match append_event_fk run_id "run_failed"
            (JObj [("error", JStr "Missing run/batch record in DB.")]) db with
    | (Raise e, db1) => (Raise e, db1)
    | (Ok _, db1) =>
      (Ok tt,
       mkWorkerDB (update_run_status ts run_id "failed"
                     (Some "Missing run/batch record") (db_store db1))
                  (db_cancel db1))
    end
  end.

(** One turn of the loop of [_run_loop] when a run is queued: claim,
    execute, record a failure that escaped [_execute_one], settle the
    status of the batch.  [exn_str e] and [exn_traceback e] are
    [str(e)] and [traceback.format_exc()]; with no run queued the
    worker turns to the learn jobs ([idle]). *)
Definition run_loop_turn (py : PyLib) (ts_claim ts_exec ts_fail ts_batch : Z)
    (exn_str exn_traceback : Exn → string)
    (body : string → string → WorkerDB → Result unit * WorkerDB)
    (idle : WorkerDB → Result unit * WorkerDB)
    (db : WorkerDB) : Result unit * WorkerDB :=
  match claim_next_queued_run ts_claim (db_store db) with
  | (None, s1) => idle (mkWorkerDB s1 (db_cancel db))
  | (Some claimed, s1) =>
    let run_id := claimed.1 in
    let batch_id := run_batch_id claimed.2 in
    let settle (db2 : WorkerDB) :=
      (Ok tt,
       mkWorkerDB (update_batch_terminal_status_if_done ts_batch batch_id (db_store db2))
                  (db_cancel db2)) in
    match _execute_one py ts_exec body run_id batch_id (mkWorkerDB s1 (db_cancel db)) with
    | (Ok _, db1) => settle db1
    | (Raise e, db1) =>
      match append_event_fk run_id "run_failed"
              (JObj [("error", JStr ("worker_unhandled_exception: " ++ exn_str e));
                     ("traceback", JStr (exn_traceback e))]) db1 with
      | (Raise e', db2) => (Raise e', db2)
      | (Ok _, db2) =>
        settle (mkWorkerDB (update_run_status ts_fail run_id "failed"
                              (Some (exn_str e)) (db_store db2))
                           (db_cancel db2))
      end
    end
  end.

(** A batch of two runs, one finished and one queued, and a request to
    cancel the batch. *)
Definition sample_db_cancel : WorkerDB :=
  mkWorkerDB
    (mkStore
       (list_to_map
          [("run_a", mkRunRow "batch_1" 1 10 (Some 11) (Some 12) "completed" None);
           ("run_b", mkRunRow "batch_1" 2 10 None None "queued" None)])
       (list_to_map
          [("batch_1", mkBatchRow 10 (Some 11) None "request" 2 1 "running" (JObj []) None)])
       ∅ ∅ [])
    (request_cancel sample_py "cancel_1" 20 "batch" "batch_1" None ∅).2.

(** The database after a run was canceled for a target. *)
Definition canceled_db (py : PyLib) (ts : Z) (target_type target_id reason run_id : string)
    (db : WorkerDB) : WorkerDB :=
  mkWorkerDB
    (update_run_status ts run_id "canceled" None
       (append_event run_id "run_canceled" (JObj [("reason", JStr reason)])
          (db_store db)))
    (acknowledge_cancel py target_type target_id (db_cancel db)).2.

(** ** Learn jobs in the worker (runtime/reasoningbank_learn.py,
       [safe_execute_rb_learn_job]; runtime/worker.py,
       [_execute_rb_job], [_run_loop]) *)

(** [store.append_event] for a run that may be missing: the foreign
    key of [events] on [runs] makes the INSERT raise. *)
Definition w_append_event_fk (run_id ev : string) (payload : JSON) : W unit :=
  λ w, match runs (w_store w) !! run_id with
       | Some _ => (Ok tt, set_w_store (append_event run_id ev payload) w)
       | None => (Raise (IntegrityError "events"), w)
       end.

(** [store.update_rb_job_status] *)
Definition w_update_rb_job_status (env : RBEnv) (rb_job_id status : string)
    (error : option string) : W unit :=
  (let! n := next_call in
   λ w, (Ok tt,
         set_w_store (update_rb_job_status (env_utc_ts env n) rb_job_id status error) w))%world.

(** What the worker reads from outside the database when it runs a
    learn job: the payload of the [rb_job_started] event, or the
    exception raised while the configuration of the run is read;
    what [ReasoningBankStore.from_config] raises, if it raises; the
    field [missing] of a [ReasoningBankDependencyError]; [str(e)] and
    [traceback.format_exc()] of an exception; and the surroundings of
    the learn pass. *)
Record JobEnv := mkJobEnv {
  job_started_payload : Store → string * RBJobRow → Result JSON;
  job_rb_from_config  : option Exn;
  job_exn_missing     : Exn → list (string * JSON);
  job_exn_str         : Exn → string;
  job_exn_traceback   : Exn → string;
  job_learn_env       : LearnEnv
}.

(** [safe_execute_rb_learn_job]: the delta id of the pass, or [None]
    with an [rb_learn_failed] event when the pass raised. *)
Definition safe_execute_rb_learn_job (py : PyLib) (conv : PyConv) (env : RBEnv)
    (jenv : JobEnv) (run_id rb_job_id : string) : W (option string) :=
  λ w,
  match learn_reasoningbank_for_run py conv env (job_learn_env jenv) run_id rb_job_id w with
  | (Ok delta_id, w') => (Ok (Some delta_id), w')
  | (Raise e, w') =>
    (let! _ := w_append_event_fk run_id "rb_learn_failed"
                 (JObj [("rb_job_id", JStr rb_job_id);
                        ("error", JStr (job_exn_str jenv e));
                        ("traceback", JStr (job_exn_traceback jenv e))]) in
     wret None)%world w'
  end.

(** [_execute_rb_job] on a claimed job row. *)
Definition _execute_rb_job (py : PyLib) (conv : PyConv) (env : RBEnv) (jenv : JobEnv)
    (job : string * RBJobRow) : W unit :=
  let rb_job_id := job.1 in
  let run_id := job_run_id job.2 in
  let kind := job_kind job.2 in
  λ w,
  match job_started_payload jenv (w_store w) job with
  | Raise e => (Raise e, w)
  | Ok started =>
    (let! _ := w_append_event_fk run_id "rb_job_started" started in
     if bool_decide (kind ≠ "learn") then
       let! _ := w_append_event_fk run_id "rb_job_failed"
                   (JObj [("rb_job_id", JStr rb_job_id); ("kind", JStr kind);
                          ("error", JStr ("Unknown RB job kind: "
                                          ++ py_repr py (JStr kind)))]) in
       w_update_rb_job_status env rb_job_id "failed" (Some ("Unknown kind: " ++ kind))
     else
       match job_rb_from_config jenv with
       | Some (ReasoningBankError msg) =>
         let e := ReasoningBankError msg in
         let! _ := w_append_event_fk run_id "rb_job_failed"
                     (JObj ([("rb_job_id", JStr rb_job_id); ("kind", JStr kind);
                             ("error", JStr (job_exn_str jenv e))]
                            ++ job_exn_missing jenv e)%list) in
         w_update_rb_job_status env rb_job_id "failed" (Some (job_exn_str jenv e))
       | Some e => wraise e
       | None =>
         let! delta_id := safe_execute_rb_learn_job py conv env jenv run_id rb_job_id in
         match delta_id with
         | None =>
           w_update_rb_job_status env rb_job_id "failed" (Some "rb_learn_failed")
         | Some d =>
           let! _ := w_append_event_fk run_id "rb_job_completed"
                       (JObj [("rb_job_id", JStr rb_job_id); ("kind", JStr kind);
                              ("delta_id", JStr d)]) in
           w_update_rb_job_status env rb_job_id "completed" None
         end
       end)%world w
  end.

(** The turn of [_run_loop] for a claimed learn job: what escapes
    [_execute_rb_job] is recorded and the job is set to [failed]. *)
Definition rb_job_turn (py : PyLib) (conv : PyConv) (env : RBEnv) (jenv : JobEnv)
    (job : string * RBJobRow) : W unit :=
  λ w,
  match _execute_rb_job py conv env jenv job w with
  | (Ok _, w') => (Ok tt, w')
  | (Raise e, w') =>
    (let! _ := w_append_event_fk (job_run_id job.2) "rb_job_failed"
                 (JObj [("error", JStr ("rb_job_unhandled_exception: "
                                        ++ job_exn_str jenv e));
                        ("traceback", JStr (job_exn_traceback jenv e))]) in
     w_update_rb_job_status env job.1 "failed" (Some (job_exn_str jenv e)))%world w'
  end.

(** The tables of [Store] other than the trace. *)
Definition rows_kept (w w' : RBWorld) : Prop :=
  runs (w_store w') = runs (w_store w)
  ∧ batches (w_store w') = batches (w_store w)
  ∧ idempotency_keys (w_store w') = idempotency_keys (w_store w)
  ∧ rb_jobs (w_store w') = rb_jobs (w_store w).

(** A learn job for [run_a], running since its claim, in the world
    left by the dry-run pass for [run_a]. *)
Definition sample_job : string * RBJobRow :=
  ("rbjob_1", mkRBJobRow "run_a" "learn" 50 (Some 60) None "running" None (JObj [])).

Definition sample_job_world : RBWorld :=
  set_w_store (set_rb_jobs (insert sample_job.1 sample_job.2)) sample_world_a.

Definition sample_job_env (lenv : LearnEnv) : JobEnv :=
  mkJobEnv (λ _ job, Ok (JObj [("rb_job_id", JStr job.1)])) None (λ _, [])
    (λ _, "error") (λ _, "traceback") lenv.

(* ===================================================================== *)
(** * Properties *)
(* ===================================================================== *)

(** ** Batch terminal status *)

Section BatchTerminalStatus.

Lemma any_status_elem (p : string → bool) (l : list string) :
  any_status p l = true ↔ ∃ st, st ∈ l ∧ p st = true.
Proof.
  unfold any_status. rewrite existsb_exists.
  split; intros (st & Hin & Hp); exists st; split; auto;
    by apply list_elem_of_In.
Qed.

Lemma any_status_perm (p : string → bool) (l l' : list string) :
  l ≡ₚ l' → any_status p l = any_status p l'.
Proof.
  intros Hperm. apply eq_true_iff_eq. rewrite !any_status_elem.
  by setoid_rewrite Hperm.
Qed.

Lemma batch_terminal_status_perm (l l' : list string) :
  l ≡ₚ l' → batch_terminal_status l = batch_terminal_status l'.
Proof.
  intros Hperm. unfold batch_terminal_status.
  destruct l as [|a l], l' as [|a' l'].
  - done.
  - by apply Permutation_nil_cons in Hperm.
  - symmetry in Hperm. by apply Permutation_nil_cons in Hperm.
  - by rewrite !(any_status_perm _ _ _ Hperm).
Qed.

Lemma any_status_eq (x : string) (l : list string) :
  any_status (λ st, bool_decide (st = x)) l = bool_decide (x ∈ l).
Proof.
  apply eq_true_iff_eq. rewrite any_status_elem, bool_decide_eq_true.
  split.
  - intros (st & Hin & Hp). apply bool_decide_eq_true in Hp. by subst.
  - intros Hin. exists x. split; [done|]. by apply bool_decide_eq_true.
Qed.

Lemma batch_terminal_status_done (l : list string) :
  l ≠ [] →
  Forall (λ st, st ≠ "queued" ∧ st ≠ "running") l →
  batch_terminal_status l =
    Some (if bool_decide ("failed" ∈ l) then "failed"
          else if bool_decide ("canceled" ∈ l) then "canceled"
          else "completed").
Proof.
  intros Hne Hall. unfold batch_terminal_status.
  destruct l as [|a l]; [done|].
  assert (any_status (λ st, bool_decide (st = "queued" ∨ st = "running"))
            (a :: l) = false) as ->.
  { apply not_true_is_false. rewrite any_status_elem.
    intros (st & Hin & Hp). apply bool_decide_eq_true in Hp.
    rewrite Forall_forall in Hall. destruct (Hall st Hin). tauto. }
  rewrite !any_status_eq.
  by repeat case_bool_decide.
Qed.

Lemma batch_terminal_status_pending (l : list string) :
  Exists (λ st, st = "queued" ∨ st = "running") l →
  batch_terminal_status l = None.
Proof.
  intros Hex. unfold batch_terminal_status.
  destruct l as [|a l]; [done|].
  assert (any_status (λ st, bool_decide (st = "queued" ∨ st = "running"))
            (a :: l) = true) as ->; [|done].
  apply any_status_elem. apply Exists_exists in Hex as (st & Hin & Hst).
  exists st. split; [done|]. by apply bool_decide_eq_true.
Qed.

(** C9. Once every run of a batch is terminal (and there is at least
    one run), the worker sets the batch status to [failed] if some run
    failed, else to [canceled] if some run was canceled, else to
    [completed]; while a run is still queued or running it writes
    nothing; and the decision depends only on the multiset of the run
    statuses, which is the multiset of the statuses of the rows of the
    batch in the [runs] table. *)
Theorem batch_terminal_status_derivation (ts : Z) (batch_id : string) (s : Store) :
  let statuses := (λ kv, run_status kv.2) <$> list_runs_for_batch_rows s batch_id in
  let s' := update_batch_terminal_status_if_done ts batch_id s in
  let derived := if bool_decide ("failed" ∈ statuses) then "failed"
                 else if bool_decide ("canceled" ∈ statuses) then "canceled"
                 else "completed" in
  (statuses ≠ [] →
   Forall (λ st, st ≠ "queued" ∧ st ≠ "running") statuses →
     s' = update_batch_status ts batch_id derived None s
     ∧ batch_status <$> batches s' !! batch_id
       = (λ _, derived) <$> batches s !! batch_id)
  ∧ (Exists (λ st, st = "queued" ∨ st = "running") statuses → s' = s)
  ∧ (statuses ≡ₚ
       (λ kv, run_status kv.2) <$>
         filter (λ kv, run_batch_id kv.2 = batch_id) (map_to_list (runs s)))
  ∧ (∀ l l' : list string,
       l ≡ₚ l' → batch_terminal_status l = batch_terminal_status l').
Proof.
  intros statuses s' derived. repeat split.
  - subst s'. unfold update_batch_terminal_status_if_done.
    fold statuses. by rewrite (batch_terminal_status_done _ H H0).
  - subst s'. unfold update_batch_terminal_status_if_done.
    fold statuses. rewrite (batch_terminal_status_done _ H H0).
    fold derived. unfold update_batch_status, set_batches. simpl.
    rewrite lookup_alter_eq. by destruct (batches s !! batch_id).
  - intros Hex. subst s'. unfold update_batch_terminal_status_if_done.
    fold statuses. by rewrite (batch_terminal_status_pending _ Hex).
  - subst statuses. unfold list_runs_for_batch_rows.
    by rewrite merge_sort_Permutation.
  - apply batch_terminal_status_perm.
Qed.

End BatchTerminalStatus.

Lemma batch_terminal_status_derivation_witness :
  batch_status <$>
    batches (update_batch_terminal_status_if_done 20 "batch_1" sample_store_done)
      !! "batch_1" = Some "failed".
Proof.
  destruct (batch_terminal_status_derivation 20 "batch_1" sample_store_done)
    as (Hdone & _).
  destruct Hdone as [_ ->].
  - vm_compute. discriminate.
  - apply (bool_decide_unpack _). vm_compute. exact I.
  - vm_compute. reflexivity.
Defined.

(** ** ORDER BY ... LIMIT 1 returns a least row *)

Section FirstBy.
Context {A : Type} (le : A → A → bool).
Hypothesis le_total : ∀ x y, le x y = true ∨ le y x = true.
Hypothesis le_trans : ∀ x y z, le x y = true → le y z = true → le x z = true.

Lemma first_by_cons (x : A) (l : list A) :
  first_by le (x :: l) =
    match first_by le l with
    | None => Some x
    | Some y => Some (if le x y then x else y)
    end.
Proof. reflexivity. Qed.

Lemma first_by_None (l : list A) : first_by le l = None ↔ l = [].
Proof.
  destruct l as [|x l]; [done|]. rewrite first_by_cons.
  by destruct (first_by le l).
Qed.

Lemma first_by_Some (l : list A) (x : A) :
  first_by le l = Some x → x ∈ l ∧ ∀ y, y ∈ l → le x y = true.
Proof.
  revert x. induction l as [|a l IH]; intros x; [done|].
  rewrite first_by_cons.
  destruct (first_by le l) as [m|] eqn:Hm.
  - destruct (IH m eq_refl) as [Hin Hmin].
    destruct (le a m) eqn:Ham; intros [= <-].
    + split; [left|]. intros y [->|Hy]%elem_of_cons.
      * destruct (le_total a a); done.
      * eauto.
    + split; [by right|]. intros y [->|Hy]%elem_of_cons; [|eauto].
      destruct (le_total m a); [done|congruence].
  - apply first_by_None in Hm as ->. intros [= <-].
    split; [left|]. intros y [->|Hy]%elem_of_cons.
    + destruct (le_total a a); done.
    + by apply elem_of_nil in Hy.
Qed.
End FirstBy.

(** ** Bytewise order on TEXT *)

Lemma ascii_compare_trans (c : comparison) (a1 a2 a3 : ascii) :
  Ascii.compare a1 a2 = c → Ascii.compare a2 a3 = c → Ascii.compare a1 a3 = c.
Proof.
  unfold Ascii.compare. destruct c.
  - rewrite !N.compare_eq_iff. congruence.
  - rewrite !N.compare_lt_iff. lia.
  - rewrite !N.compare_gt_iff. lia.
Qed.

Lemma string_compare_trans (c : comparison) (s1 s2 s3 : string) :
  String.compare s1 s2 = c → String.compare s2 s3 = c → String.compare s1 s3 = c.
Proof.
  revert s2 s3. induction s1 as [|a1 s1 IH]; intros [|a2 s2] [|a3 s3]; simpl;
    try congruence.
  destruct (Ascii.compare a1 a2) eqn:H12, (Ascii.compare a2 a3) eqn:H23;
    try congruence.
  - apply Ascii.compare_eq_iff in H12, H23. subst.
    assert (Ascii.compare a3 a3 = Eq) as ->.
    { unfold Ascii.compare. apply N.compare_refl. }
    apply IH.
  - apply Ascii.compare_eq_iff in H12. subst. by rewrite H23.
  - apply Ascii.compare_eq_iff in H12. subst. by rewrite H23.
  - apply Ascii.compare_eq_iff in H23. subst. by rewrite H12.
  - by rewrite (ascii_compare_trans Lt a1 a2 a3).
  - apply Ascii.compare_eq_iff in H23. subst. by rewrite H12.
  - by rewrite (ascii_compare_trans Gt a1 a2 a3).
Qed.

Lemma string_leb_trans (s1 s2 s3 : string) :
  String.leb s1 s2 = true → String.leb s2 s3 = true → String.leb s1 s3 = true.
Proof.
  unfold String.leb.
  destruct (String.compare s1 s2) eqn:H12; [| |done].
  - apply String.compare_eq_iff in H12. by subst.
  - destruct (String.compare s2 s3) eqn:H23; [| |done].
    + apply String.compare_eq_iff in H23. subst. by rewrite H12.
    + by rewrite (string_compare_trans Lt s1 s2 s3).
Qed.

Lemma string_leb_refl (s : string) : String.leb s s = true.
Proof. destruct (String.leb_total s s); done. Qed.

Lemma run_order_le_total (a b : string * RunRow) :
  run_order_le a b = true ∨ run_order_le b a = true.
Proof.
  unfold run_order_le.
  destruct (Z.ltb_spec (run_created_at a.2) (run_created_at b.2)); [by left|].
  destruct (Z.ltb_spec (run_created_at b.2) (run_created_at a.2)); [by right|].
  assert (run_created_at a.2 = run_created_at b.2) as -> by lia.
  rewrite Z.eqb_refl. simpl. apply String.leb_total.
Qed.

Lemma run_order_le_trans (a b c : string * RunRow) :
  run_order_le a b = true → run_order_le b c = true → run_order_le a c = true.
Proof.
  unfold run_order_le.
  rewrite !orb_true_iff, !andb_true_iff, !Z.ltb_lt, !Z.eqb_eq.
  intros [?|[? ?]] [?|[? ?]]; try (left; lia).
  right. split; [lia|]. by eapply string_leb_trans.
Qed.

(** Two rows that precede each other have the same primary key. *)
Lemma run_order_le_antisym (a b : string * RunRow) :
  run_order_le a b = true → run_order_le b a = true → a.1 = b.1.
Proof.
  unfold run_order_le.
  rewrite !orb_true_iff, !andb_true_iff, !Z.ltb_lt, !Z.eqb_eq.
  intros [?|[? ?]] [?|[? ?]]; try lia.
  by apply String.leb_antisym.
Qed.

(** ** Claiming queued runs *)

Section ClaimNextQueuedRun.

Lemma elem_of_queued_runs (s : Store) (rid : string) (r : RunRow) :
  (rid, r) ∈ queued_runs s ↔ runs s !! rid = Some r ∧ run_status r = "queued".
Proof.
  unfold queued_runs. rewrite list_elem_of_filter, elem_of_map_to_list.
  unfold is_queued_run. simpl. tauto.
Qed.

Lemma elem_of_queued_ids (s : Store) (rid : string) :
  rid ∈ queued_ids s ↔ ∃ r, runs s !! rid = Some r ∧ run_status r = "queued".
Proof.
  unfold queued_ids. rewrite elem_of_dom. unfold is_Some.
  by setoid_rewrite map_lookup_filter_Some.
Qed.

Lemma select_next_queued_run_None (s : Store) :
  select_next_queued_run s = None ↔ queued_ids s = ∅.
Proof.
  unfold select_next_queued_run. rewrite first_by_None. split.
  - intros Hnil. apply set_eq. intros rid.
    rewrite elem_of_queued_ids. split; [|set_solver].
    intros (r & Hr & Hq).
    assert ((rid, r) ∈ queued_runs s) as Hin by by apply elem_of_queued_runs.
    rewrite Hnil in Hin. by apply elem_of_nil in Hin.
  - intros Hempty. destruct (queued_runs s) as [|[rid r] l] eqn:Hl; [done|].
    assert ((rid, r) ∈ queued_runs s) as Hin by (rewrite Hl; left).
    apply elem_of_queued_runs in Hin as [Hr Hq].
    assert (rid ∈ queued_ids s) as Hid by (apply elem_of_queued_ids; eauto).
    set_solver.
Qed.

Lemma select_next_queued_run_Some (s : Store) (rid : string) (r : RunRow) :
  select_next_queued_run s = Some (rid, r) →
  runs s !! rid = Some r ∧ run_status r = "queued" ∧
  ∀ rid' r', runs s !! rid' = Some r' → run_status r' = "queued" →
             run_order_le (rid, r) (rid', r') = true.
Proof.
  intros Hsel.
  apply (first_by_Some _ run_order_le_total run_order_le_trans) in Hsel
    as [Hin Hmin].
  apply elem_of_queued_runs in Hin as [Hr Hq]. repeat split; [done..|].
  intros rid' r' Hr' Hq'. apply Hmin. by apply elem_of_queued_runs.
Qed.

(** The guarded UPDATE changes exactly one row when the run is queued
    and none otherwise. *)
Lemma mark_run_running_queued (ts : Z) (s : Store) (rid : string) (r : RunRow) :
  runs s !! rid = Some r → run_status r = "queued" →
  mark_run_running ts rid s
    = (1%nat, set_runs (insert rid (running_row ts r)) s).
Proof.
  intros Hr Hq. unfold mark_run_running. rewrite Hr.
  by rewrite bool_decide_eq_true_2.
Qed.

Lemma mark_run_running_not_queued (ts : Z) (s : Store) (rid : string) :
  rid ∉ queued_ids s → mark_run_running ts rid s = (0%nat, s).
Proof.
  intros Hnq. unfold mark_run_running.
  destruct (runs s !! rid) as [r|] eqn:Hr; [|done].
  case_bool_decide; [|done].
  exfalso. apply Hnq. apply elem_of_queued_ids. eauto.
Qed.

Lemma runs_mark_batch_running (ts : Z) (bid : string) (s : Store) :
  runs (mark_batch_running ts bid s) = runs s.
Proof.
  unfold mark_batch_running.
  destruct (batches s !! bid); [|done]. by case_bool_decide.
Qed.

Lemma claim_next_queued_run_Some (ts : Z) (s : Store) (rid : string) (r : RunRow) :
  select_next_queued_run s = Some (rid, r) →
  claim_next_queued_run ts s
    = (Some (rid, running_row ts r), claimed_store ts rid r s).
Proof.
  intros Hsel. unfold claim_next_queued_run. rewrite Hsel. simpl.
  destruct (select_next_queued_run_Some _ _ _ Hsel) as (Hr & Hq & _).
  rewrite (mark_run_running_queued _ _ _ _ Hr Hq).
  rewrite bool_decide_eq_false_2 by (intros ?; done).
  unfold claimed_store, get_run. rewrite runs_mark_batch_running. simpl.
  by rewrite lookup_insert_eq.
Qed.

Lemma claim_next_queued_run_None (ts : Z) (s : Store) :
  select_next_queued_run s = None →
  claim_next_queued_run ts s = (None, s).
Proof. intros Hsel. unfold claim_next_queued_run. by rewrite Hsel. Qed.

Lemma queued_ids_claimed_store (ts : Z) (s : Store) (rid : string) (r : RunRow) :
  queued_ids (claimed_store ts rid r s) = queued_ids s ∖ {[rid]}.
Proof.
  apply set_eq. intros x.
  rewrite elem_of_difference, !elem_of_queued_ids, not_elem_of_singleton.
  unfold claimed_store. rewrite runs_mark_batch_running. simpl.
  destruct (decide (x = rid)) as [->|Hne].
  - rewrite lookup_insert_eq. split.
    + by intros (r' & [= <-] & Hq).
    + tauto.
  - rewrite lookup_insert_ne by done. tauto.
Qed.

(** One invocation, as a relation between the states before and after. *)
Lemma claim_next_queued_run_cases (ts : Z) (s : Store) :
  (queued_ids s = ∅ ∧ claim_next_queued_run ts s = (None, s))
  ∨ (∃ rid r,
       runs s !! rid = Some r ∧ run_status r = "queued" ∧
       (∀ rid' r', runs s !! rid' = Some r' → run_status r' = "queued" →
                   run_order_le (rid, r) (rid', r') = true) ∧
       claim_next_queued_run ts s
         = (Some (rid, running_row ts r), claimed_store ts rid r s)).
Proof.
  destruct (select_next_queued_run s) as [[rid r]|] eqn:Hsel.
  - right. exists rid, r.
    destruct (select_next_queued_run_Some _ _ _ Hsel) as (Hr & Hq & Hmin).
    repeat split; [done..|]. by apply claim_next_queued_run_Some.
  - left. split.
    + by apply select_next_queued_run_None.
    + by apply claim_next_queued_run_None.
Qed.

(** Every claim in a sequence hands out a run that was queued and has
    not been handed out before; enough claims hand out every queued
    run. *)
Lemma claim_many_exclusive (tss : list Z) (s : Store) :
  let ids := claimed_ids (claim_many tss s).1 in
  NoDup ids
  ∧ (∀ rid, rid ∈ ids → rid ∈ queued_ids s)
  ∧ queued_ids (claim_many tss s).2 = queued_ids s ∖ list_to_set ids
  ∧ ((size (queued_ids s) ≤ length tss)%nat → ∀ rid, rid ∈ queued_ids s → rid ∈ ids).
Proof.
  revert s. induction tss as [|ts tss IH]; intros s; simpl.
  - repeat split.
    + constructor.
    + intros rid Hin. by apply elem_of_nil in Hin.
    + set_solver.
    + intros Hsz rid Hin. exfalso.
      assert (size (queued_ids s) = 0%nat) as Hz by lia.
      apply size_empty_inv in Hz. set_solver.
  - destruct (claim_next_queued_run_cases ts s)
      as [[Hempty ->]|(rid & r & Hr & Hq & _ & ->)].
    + specialize (IH s). destruct (claim_many tss s) as [rs s2] eqn:Hcm.
      simpl in *. destruct IH as (Hnd & Hsub & Hrest & Hall).
      repeat split; try done.
      intros _ rid Hin. set_solver.
    + specialize (IH (claimed_store ts rid r s)).
      destruct (claim_many tss (claimed_store ts rid r s)) as [rs s2] eqn:Hcm.
      simpl in *. destruct IH as (Hnd & Hsub & Hrest & Hall).
      rewrite queued_ids_claimed_store in *.
      assert (rid ∈ queued_ids s) as Hrid by (apply elem_of_queued_ids; eauto).
      repeat split.
      * constructor; [|done]. intros Hin. apply Hsub in Hin. set_solver.
      * intros x [->|Hx]%elem_of_cons; [done|]. apply Hsub in Hx. set_solver.
      * rewrite Hrest. set_solver.
      * intros Hsz x Hx. destruct (decide (x = rid)) as [->|Hne]; [left|].
        right. apply Hall; [|set_solver].
        rewrite size_difference by set_solver. rewrite size_singleton. lia.
Qed.

(** A claim leaves the rows of the runs that are not queued alone. *)
Lemma claim_next_queued_run_frame (ts : Z) (s : Store) (rid : string) :
  rid ∉ queued_ids s →
  runs (claim_next_queued_run ts s).2 !! rid = runs s !! rid.
Proof.
  intros Hnq.
  destruct (claim_next_queued_run_cases ts s)
    as [[_ ->]|(rid' & r & Hr & Hq & _ & ->)]; [done|].
  simpl. unfold claimed_store. rewrite runs_mark_batch_running. simpl.
  apply lookup_insert_ne. intros ->. apply Hnq, elem_of_queued_ids. eauto.
Qed.

Lemma claim_many_frame (tss : list Z) (s : Store) (rid : string) :
  rid ∉ queued_ids s →
  runs (claim_many tss s).2 !! rid = runs s !! rid.
Proof.
  revert s. induction tss as [|ts tss IH]; intros s Hnq; [done|]. simpl.
  pose proof (claim_next_queued_run_frame ts s rid Hnq) as Hstep.
  assert (rid ∉ queued_ids (claim_next_queued_run ts s).2) as Hnq'.
  { destruct (claim_next_queued_run_cases ts s)
      as [[_ ->]|(rid' & r & _ & _ & _ & ->)]; [done|].
    simpl. rewrite queued_ids_claimed_store. set_solver. }
  destruct (claim_next_queued_run ts s) as [res s1]. simpl in *.
  specialize (IH s1 Hnq').
  destruct (claim_many tss s1) as [rs s2]. simpl in *. congruence.
Qed.

Lemma claim_many_running (tss : list Z) (s : Store) (rid : string) :
  rid ∈ claimed_ids (claim_many tss s).1 →
  ∃ r, runs (claim_many tss s).2 !! rid = Some r ∧ run_status r = "running".
Proof.
  revert s. induction tss as [|ts tss IH]; intros s; simpl.
  - intros Hin. by apply elem_of_nil in Hin.
  - destruct (claim_next_queued_run_cases ts s)
      as [[Hempty ->]|(rid' & r & Hr & Hq & _ & ->)].
    + specialize (IH s). destruct (claim_many tss s) as [rs s2]. simpl in *. done.
    + pose proof (claim_many_frame tss (claimed_store ts rid' r s) rid') as Hfr.
      specialize (IH (claimed_store ts rid' r s)).
      destruct (claim_many tss (claimed_store ts rid' r s)) as [rs s2].
      simpl in *. intros [->|Hin]%elem_of_cons; [|by apply IH].
      rewrite Hfr by (rewrite queued_ids_claimed_store; set_solver).
      unfold claimed_store. rewrite runs_mark_batch_running. simpl.
      rewrite lookup_insert_eq. eauto.
Qed.

(** C1. [claim_next_queued_run] returns [None] and changes nothing when
    no run is queued.  Otherwise it selects the queued run that is
    least for (created_at, run_id), sets that run to [running], sets its
    batch to [running] only if the batch is still [queued], leaves every
    other table alone and returns the claimed row.  Over any sequence of
    claim invocations every run is handed out at most once, only runs
    that were queued are handed out, each of them is [running]
    afterwards, enough invocations hand out every queued run (so
    exactly one invocation receives it), and the guarded UPDATE changes
    no row for a run that is no longer queued. *)
Theorem claim_next_queued_run_exclusive (tss : list Z) (ts : Z) (s : Store) :
  (queued_ids s = ∅ → claim_next_queued_run ts s = (None, s))
  ∧ (queued_ids s ≠ ∅ →
     ∃ rid r,
       runs s !! rid = Some r ∧ run_status r = "queued" ∧
       (∀ rid' r', runs s !! rid' = Some r' → run_status r' = "queued" →
          run_created_at r < run_created_at r' ∨
          (run_created_at r = run_created_at r' ∧ String.leb rid rid' = true)) ∧
       let s' := (claim_next_queued_run ts s).2 in
       (claim_next_queued_run ts s).1 = Some (rid, running_row ts r) ∧
       get_run s' rid = Some (rid, running_row ts r) ∧
       runs s' = <[rid := running_row ts r]> (runs s) ∧
       batches s' =
         match batches s !! run_batch_id r with
         | Some b =>
           if bool_decide (batch_status b = "queued")
           then <[run_batch_id r :=
                    mkBatchRow (batch_created_at b)
                      (COALESCE (batch_started_at b) (Some ts))
                      (batch_ended_at b) (batch_user_request b) (batch_n_runs b)
                      (batch_recipes_per_run b) "running" (batch_config_json b)
                      (batch_error b)]> (batches s)
           else batches s
         | None => batches s
         end ∧
       idempotency_keys s' = idempotency_keys s ∧
       rb_jobs s' = rb_jobs s ∧
       events s' = events s)
  ∧ (let ids := claimed_ids (claim_many tss s).1 in
     NoDup ids
     ∧ (∀ rid, rid ∈ ids →
          rid ∈ queued_ids s ∧
          ∃ r, runs (claim_many tss s).2 !! rid = Some r ∧ run_status r = "running")
     ∧ ((size (queued_ids s) ≤ length tss)%nat →
          ∀ rid, rid ∈ queued_ids s → rid ∈ ids))
  ∧ (∀ rid ts', rid ∉ queued_ids s → mark_run_running ts' rid s = (0%nat, s)).
Proof.
  split; [|split; [|split]].
  - intros Hempty. apply claim_next_queued_run_None.
    by apply select_next_queued_run_None.
  - intros Hne.
    destruct (claim_next_queued_run_cases ts s)
      as [[Hempty _]|(rid & r & Hr & Hq & Hmin & ->)]; [done|].
    exists rid, r. split; [done|]. split; [done|]. split.
    { intros rid' r' Hr' Hq'. specialize (Hmin rid' r' Hr' Hq').
      unfold run_order_le in Hmin. simpl in Hmin.
      apply orb_true_iff in Hmin as [Hlt|[Heq Hleb]%andb_true_iff]; [left|right].
      - by apply Z.ltb_lt.
      - split; [by apply Z.eqb_eq|done]. }
    simpl. unfold claimed_store, get_run.
    rewrite runs_mark_batch_running. simpl. rewrite lookup_insert_eq.
    split; [done|]. split; [done|]. split; [done|].
    unfold mark_batch_running. simpl.
    destruct (batches s !! run_batch_id r) as [b|]; [|done].
    by case_bool_decide.
  - destruct (claim_many_exclusive tss s) as (Hnd & Hsub & _ & Hall).
    simpl. split; [done|]. split; [|done].
    intros rid Hin. split; [by apply Hsub|]. by apply claim_many_running.
  - intros rid ts'. apply mark_run_running_not_queued.
Qed.

Lemma claim_next_queued_run_exclusive_witness :
  claimed_ids (claim_many [30; 31; 32] sample_store_queued).1 = ["run_b"; "run_c"]
  ∧ "run_b" ∈ claimed_ids (claim_many [30; 31; 32] sample_store_queued).1
  ∧ claim_next_queued_run 40 (claim_many [30; 31; 32] sample_store_queued).2
    = (None, (claim_many [30; 31; 32] sample_store_queued).2).
Proof.
  split; [vm_compute; reflexivity|].
  destruct (claim_next_queued_run_exclusive [30; 31; 32] 40 sample_store_queued)
    as (_ & _ & (_ & _ & Hall) & _).
  destruct (claim_next_queued_run_exclusive [] 40
              (claim_many [30; 31; 32] sample_store_queued).2)
    as (Hnone & _).
  split.
  - apply Hall.
    + vm_compute. lia.
    + apply (bool_decide_unpack _). vm_compute. exact I.
  - apply Hnone. apply (bool_decide_unpack _). vm_compute. exact I.
Defined.

End ClaimNextQueuedRun.

(** ** [str.strip] is idempotent *)

Section Strip.

(** One step of [lstrip]. *)
Lemma lstrip_unfold (s : string) :
  lstrip s
  = match s with
    | EmptyString => EmptyString
    | String c s1 =>
      if is_space c then lstrip s1
      else
        match s1 with
        | EmptyString => s
        | String d s2 =>
          if is_space2 c d then lstrip s2
          else
            match s2 with
            | EmptyString => s
            | String e s3 => if is_space3 c d e then lstrip s3 else s
            end
        end
    end.
Proof. by destruct s. Qed.

Lemma rstrip_cons (c : ascii) (s : string) :
  rstrip (String c s)
  = if bool_decide (lstrip (String c s) = EmptyString) then EmptyString
    else String c (rstrip s).
Proof. reflexivity. Qed.

(** Induction on a text by the characters [lstrip] looks at. *)
Lemma string_ind3 (P : string → Prop) :
  P EmptyString →
  (∀ c, P (String c EmptyString)) →
  (∀ c d, P EmptyString → P (String d EmptyString) → P (String c (String d EmptyString))) →
  (∀ c d e s, P s → P (String e s) → P (String d (String e s)) →
              P (String c (String d (String e s)))) →
  ∀ s, P s.
Proof.
  intros H0 H1 H2 H3 s.
  remember (String.length s) as n eqn:Hn. revert s Hn.
  induction (lt_wf n) as [n _ IH]. intros s ->.
  destruct s as [|c [|d [|e s]]]; [done|done|..].
  - apply H2; [done|apply H1].
  - apply H3; (eapply IH; [|reflexivity]); cbn [String.length]; lia.
Qed.

(** What [lstrip] leaves does not start with white space. *)
Lemma lstrip_idemp (s : string) : lstrip (lstrip s) = lstrip s.
Proof.
  induction s as [|c|c d IH0 IH1|c d e s IH0 IH1 IH2] using string_ind3.
  - done.
  - cbn [lstrip]. destruct (is_space c) eqn:Hc; [done|]. cbn [lstrip]. by rewrite Hc.
  - rewrite (lstrip_unfold (String c (String d EmptyString))).
    destruct (is_space c) eqn:Hc; [done|].
    destruct (is_space2 c d) eqn:Hcd; [done|].
    rewrite lstrip_unfold. by rewrite Hc, Hcd.
  - rewrite (lstrip_unfold (String c (String d (String e s)))).
    destruct (is_space c) eqn:Hc; [done|].
    destruct (is_space2 c d) eqn:Hcd; [done|].
    destruct (is_space3 c d e) eqn:Hcde; [done|].
    rewrite lstrip_unfold. by rewrite Hc, Hcd, Hcde.
Qed.

Lemma lstrip_length (s : string) : (String.length (lstrip s) ≤ String.length s)%nat.
Proof.
  induction s as [|a|a b IH0 IH1|a b e x IH0 IH1 IH2] using string_ind3;
    rewrite lstrip_unfold; cbn [String.length lstrip] in *;
    repeat match goal with |- context [if ?b then _ else _] => destruct b end;
    cbn [String.length lstrip] in *; lia.
Qed.

(** White space throughout, followed by a text. *)
Lemma lstrip_app (p u : string) :
  lstrip p = EmptyString → lstrip (p ++ u) = lstrip u.
Proof.
  induction p as [|c|c d IH0 IH1|c d e s IH0 IH1 IH2] using string_ind3.
  - done.
  - rewrite (lstrip_unfold (String c EmptyString)).
    destruct (is_space c) eqn:Hc; [|done]. intros _.
    change (String c EmptyString ++ u) with (String c u).
    rewrite (lstrip_unfold (String c u)). by rewrite Hc.
  - rewrite (lstrip_unfold (String c (String d EmptyString))).
    change (String c (String d EmptyString) ++ u) with (String c (String d u)).
    rewrite (lstrip_unfold (String c (String d u))).
    destruct (is_space c) eqn:Hc.
    { intros Hd. by apply (IH1 Hd). }
    destruct (is_space2 c d) eqn:Hcd; [done|]. done.
  - rewrite (lstrip_unfold (String c (String d (String e s)))).
    change (String c (String d (String e s)) ++ u)
      with (String c (String d (String e (s ++ u)))).
    rewrite (lstrip_unfold (String c (String d (String e (s ++ u))))).
    destruct (is_space c) eqn:Hc.
    { intros Hd. by apply (IH2 Hd). }
    destruct (is_space2 c d) eqn:Hcd.
    { intros Hd. by apply (IH1 Hd). }
    destruct (is_space3 c d e) eqn:Hcde; [|done].
    intros Hd. by apply (IH0 Hd).
Qed.

(** What [rstrip] drops is white space throughout. *)
Lemma rstrip_split (s : string) :
  ∃ u, s = rstrip s ++ u ∧ lstrip u = EmptyString.
Proof.
  induction s as [|c s (u & Hs & Hu)]; [by exists EmptyString|].
  rewrite rstrip_cons. case_bool_decide as Hall.
  - by exists (String c s).
  - exists u. split; [|done]. change (String c (rstrip s) ++ u) with (String c (rstrip s ++ u)).
    by rewrite <- Hs.
Qed.

Lemma rstrip_idemp (s : string) : rstrip (rstrip s) = rstrip s.
Proof.
  induction s as [|c s IH]; [done|].
  rewrite rstrip_cons. case_bool_decide as Hall; [done|].
  rewrite rstrip_cons, IH. rewrite bool_decide_eq_false_2; [done|].
  intros Hall'. apply Hall.
  destruct (rstrip_split s) as (u & Hs & Hu).
  rewrite Hs at 1. change (String c (rstrip s ++ u)) with (String c (rstrip s) ++ u).
  by rewrite lstrip_app.
Qed.

(** A text that does not start with white space keeps its start
    under [rstrip]. *)
Lemma lstrip_rstrip (t : string) : lstrip t = t → lstrip (rstrip t) = rstrip t.
Proof.
  intros Ht. destruct (rstrip_split t) as (u & Hs & Hu).
  destruct (rstrip t) as [|c p] eqn:Hp; [done|].
  rewrite Hs in Ht.
  change (String c p ++ u) with (String c (p ++ u)) in Ht.
  rewrite lstrip_unfold in Ht. rewrite lstrip_unfold. cbv beta iota in Ht.
  pose proof lstrip_length as Hlen.
  destruct (is_space c) eqn:Hc.
  { pose proof (Hlen (p ++ u)) as Hl. rewrite Ht in Hl. cbn [String.length] in Hl. lia. }
  destruct p as [|d p].
  { done. }
  change (String d p ++ u) with (String d (p ++ u)) in Ht. cbv beta iota in Ht.
  destruct (is_space2 c d) eqn:Hcd.
  { pose proof (Hlen (p ++ u)) as Hl. rewrite Ht in Hl. cbn [String.length] in Hl. lia. }
  destruct p as [|e p].
  { done. }
  change (String e p ++ u) with (String e (p ++ u)) in Ht. cbv beta iota in Ht.
  destruct (is_space3 c d e) eqn:Hcde; [|done].
  pose proof (Hlen (p ++ u)) as Hl. rewrite Ht in Hl. cbn [String.length] in Hl. lia.
Qed.

Lemma strip_idemp (s : string) : strip (strip s) = strip s.
Proof.
  unfold strip. rewrite (lstrip_rstrip (lstrip s)) by apply lstrip_idemp.
  apply rstrip_idemp.
Qed.

(** A text between two characters of ASCII that are not white space
    is left as it is. *)
Lemma lstrip_ascii_head (c : ascii) (s : string) :
  is_space c = false → (nat_of_ascii c < 128)%nat → lstrip (String c s) = String c s.
Proof.
  intros Hc Hlt. rewrite lstrip_unfold, Hc.
  assert (∀ d, is_space2 c d = false) as H2.
  { intros d. unfold is_space2. destruct (Nat.eqb_spec (nat_of_ascii c) 194); [lia|done]. }
  assert (∀ d e, is_space3 c d e = false) as H3.
  { intros d e. unfold is_space3.
    destruct (Nat.eqb_spec (nat_of_ascii c) 225); [lia|].
    destruct (Nat.eqb_spec (nat_of_ascii c) 226); [lia|].
    destruct (Nat.eqb_spec (nat_of_ascii c) 227); [lia|]. done. }
  destruct s as [|d [|e s]]; [done|by rewrite H2|by rewrite H2, H3].
Qed.

Lemma lstrip_ascii_last (s : string) (c : ascii) :
  is_space c = false → (nat_of_ascii c < 128)%nat →
  lstrip (s ++ String c EmptyString) ≠ EmptyString.
Proof.
  intros Hc Hlt.
  assert (∀ a, is_space2 a c = false) as H2.
  { intros a. unfold is_space2.
    destruct (Nat.eqb_spec (nat_of_ascii c) 133); [lia|].
    destruct (Nat.eqb_spec (nat_of_ascii c) 160); [lia|]. by rewrite andb_false_r. }
  assert (∀ a b, is_space3 a b c = false) as H3.
  { intros a b. unfold is_space3.
    destruct (Nat.eqb_spec (nat_of_ascii c) 128); [lia|].
    destruct (Nat.eqb_spec (nat_of_ascii c) 168); [lia|].
    destruct (Nat.eqb_spec (nat_of_ascii c) 169); [lia|].
    destruct (Nat.eqb_spec (nat_of_ascii c) 175); [lia|].
    destruct (Nat.eqb_spec (nat_of_ascii c) 159); [lia|].
    destruct (Nat.leb_spec 128 (nat_of_ascii c)); [lia|].
    by rewrite !andb_false_r. }
  assert (∀ a b, is_space3 a c b = false) as H3'.
  { intros a b. unfold is_space3.
    destruct (Nat.eqb_spec (nat_of_ascii c) 154); [lia|].
    destruct (Nat.eqb_spec (nat_of_ascii c) 128); [lia|].
    destruct (Nat.eqb_spec (nat_of_ascii c) 129); [lia|].
    by rewrite !andb_false_r. }
  induction s as [|a|a b IH0 IH1|a b e s IH0 IH1 IH2] using string_ind3.
  - change (EmptyString ++ String c EmptyString) with (String c EmptyString).
    rewrite lstrip_unfold. by rewrite Hc.
  - change (String a EmptyString ++ String c EmptyString)
      with (String a (String c EmptyString)).
    rewrite lstrip_unfold. destruct (is_space a); [apply IH0 || (cbn; by rewrite Hc)|].
    by rewrite H2.
  - change (String a (String b EmptyString) ++ String c EmptyString)
      with (String a (String b (String c EmptyString))).
    rewrite lstrip_unfold. destruct (is_space a); [exact IH1|].
    destruct (is_space2 a b); [exact IH0|]. by rewrite H3.
  - change (String a (String b (String e s)) ++ String c EmptyString)
      with (String a (String b (String e (s ++ String c EmptyString)))).
    rewrite lstrip_unfold. destruct (is_space a); [exact IH2|].
    destruct (is_space2 a b); [exact IH1|].
    destruct (is_space3 a b e); [exact IH0|]. done.
Qed.

Lemma rstrip_snoc (s : string) (c : ascii) :
  is_space c = false → (nat_of_ascii c < 128)%nat →
  rstrip (s ++ String c EmptyString) = s ++ String c EmptyString.
Proof.
  intros Hc Hlt. induction s as [|a s IH].
  - change (EmptyString ++ String c EmptyString) with (String c EmptyString).
    rewrite rstrip_cons. rewrite bool_decide_eq_false_2; [done|].
    apply (lstrip_ascii_last EmptyString c Hc Hlt).
  - change (String a s ++ String c EmptyString) with (String a (s ++ String c EmptyString)).
    rewrite rstrip_cons, IH. rewrite bool_decide_eq_false_2; [done|].
    apply (lstrip_ascii_last (String a s) c Hc Hlt).
Qed.

End Strip.

(** ** At most one queued learn job per run *)

Section EnqueueLearnJob.

Lemma filter_map_to_list_length_le_1 {V} (P : string * V → Prop)
    `{!∀ x, Decision (P x)} (m : gmap string V) :
  (length (filter P (map_to_list m)) ≤ 1)%nat ↔
  ∀ k1 v1 k2 v2, m !! k1 = Some v1 → P (k1, v1) →
                 m !! k2 = Some v2 → P (k2, v2) → k1 = k2.
Proof.
  split.
  - intros Hlen k1 v1 k2 v2 H1 P1 H2 P2.
    assert ((k1, v1) ∈ filter P (map_to_list m)) as Hin1.
    { apply list_elem_of_filter. split; [done|]. by apply elem_of_map_to_list. }
    assert ((k2, v2) ∈ filter P (map_to_list m)) as Hin2.
    { apply list_elem_of_filter. split; [done|]. by apply elem_of_map_to_list. }
    destruct (filter P (map_to_list m)) as [|a [|b l]]; simpl in Hlen; [| |lia].
    + by apply elem_of_nil in Hin1.
    + apply list_elem_of_singleton in Hin1, Hin2. congruence.
  - intros Huniq.
    pose proof (NoDup_filter P _ (NoDup_map_to_list m)) as Hnd.
    destruct (filter P (map_to_list m)) as [|[k1 v1] [|[k2 v2] l]] eqn:Hl;
      simpl; [lia..|exfalso].
    assert ((k1, v1) ∈ filter P (map_to_list m)) as Hin1 by (rewrite Hl; left).
    assert ((k2, v2) ∈ filter P (map_to_list m)) as Hin2
      by (rewrite Hl; right; left).
    apply list_elem_of_filter in Hin1 as [P1 H1%elem_of_map_to_list].
    apply list_elem_of_filter in Hin2 as [P2 H2%elem_of_map_to_list].
    assert (k1 = k2) as -> by eauto.
    assert (v1 = v2) as -> by congruence.
    apply NoDup_cons in Hnd as [Hnotin _]. apply Hnotin. left.
Qed.

Lemma job_matches_queued_learn (rid : string) (kv : string * RBJobRow) :
  job_matches rid (Some "learn") ["queued"] kv = true ↔ queued_learn rid kv.2.
Proof.
  unfold job_matches, queued_learn.
  rewrite !andb_true_iff, !bool_decide_eq_true, list_elem_of_singleton. tauto.
Qed.

Lemma elem_of_queued_learn_jobs (s : Store) (rid j : string) (r : RBJobRow) :
  (j, r) ∈ queued_learn_jobs s rid ↔ rb_jobs s !! j = Some r ∧ queued_learn rid r.
Proof.
  unfold queued_learn_jobs.
  rewrite list_elem_of_filter, elem_of_map_to_list, job_matches_queued_learn.
  simpl. tauto.
Qed.

Lemma queued_learn_jobs_le_1 (s : Store) (rid : string) :
  (length (queued_learn_jobs s rid) ≤ 1)%nat ↔
  ∀ j1 r1 j2 r2, rb_jobs s !! j1 = Some r1 → queued_learn rid r1 →
                 rb_jobs s !! j2 = Some r2 → queued_learn rid r2 → j1 = j2.
Proof.
  unfold queued_learn_jobs. rewrite filter_map_to_list_length_le_1.
  by setoid_rewrite job_matches_queued_learn.
Qed.

Lemma queued_learn_jobs_nil (s : Store) (rid : string) :
  queued_learn_jobs s rid = [] ↔
  ∀ j r, rb_jobs s !! j = Some r → ¬ queued_learn rid r.
Proof.
  split.
  - intros Hnil j r Hj Hq.
    assert ((j, r) ∈ queued_learn_jobs s rid) as Hin
      by by apply elem_of_queued_learn_jobs.
    rewrite Hnil in Hin. by apply elem_of_nil in Hin.
  - intros Hnone. destruct (queued_learn_jobs s rid) as [|[j r] l] eqn:Hl; [done|].
    assert ((j, r) ∈ queued_learn_jobs s rid) as Hin by (rewrite Hl; left).
    apply elem_of_queued_learn_jobs in Hin as [Hj Hq]. by destruct (Hnone j r).
Qed.

Lemma job_order_desc_total (a b : string * RBJobRow) :
  job_order_desc a b = true ∨ job_order_desc b a = true.
Proof.
  unfold job_order_desc.
  destruct (Z.ltb_spec (job_created_at b.2) (job_created_at a.2)); [by left|].
  destruct (Z.ltb_spec (job_created_at a.2) (job_created_at b.2)); [by right|].
  assert (job_created_at a.2 = job_created_at b.2) as -> by lia.
  rewrite Z.eqb_refl. simpl.
  destruct (String.leb_total a.1 b.1); auto.
Qed.

Lemma job_order_desc_trans (a b c : string * RBJobRow) :
  job_order_desc a b = true → job_order_desc b c = true → job_order_desc a c = true.
Proof.
  unfold job_order_desc.
  rewrite !orb_true_iff, !andb_true_iff, !Z.ltb_lt, !Z.eqb_eq.
  intros [?|[? ?]] [?|[? ?]]; try (left; lia).
  right. split; [lia|]. by eapply string_leb_trans.
Qed.

(** What the dedupe query of [enqueue_rb_learn_job] finds. *)
Lemma get_latest_queued_learn_None (s : Store) (run_id : string) :
  strip run_id ≠ "" →
  get_latest_rb_job_for_run s (strip run_id) (Some "learn") ["queued"] = None ↔
  queued_learn_jobs s (strip run_id) = [].
Proof.
  intros Hne. unfold get_latest_rb_job_for_run. rewrite strip_idemp.
  rewrite bool_decide_eq_false_2 by done. apply first_by_None.
Qed.

Lemma get_latest_queued_learn_Some (s : Store) (run_id : string)
    (row : string * RBJobRow) :
  get_latest_rb_job_for_run s (strip run_id) (Some "learn") ["queued"] = Some row →
  row ∈ queued_learn_jobs s (strip run_id)
  ∧ ∀ row', row' ∈ queued_learn_jobs s (strip run_id) →
            job_order_desc row row' = true.
Proof.
  unfold get_latest_rb_job_for_run. rewrite strip_idemp.
  case_bool_decide; [done|].
  apply (first_by_Some _ job_order_desc_total job_order_desc_trans).
Qed.

Lemma strip_learn : strip "learn" = "learn".
Proof. reflexivity. Qed.

Lemma create_rb_job_learn (new_id : string) (ts : Z) (run_id : string)
    (extra : JSON) (s : Store) :
  strip run_id ≠ "" →
  create_rb_job new_id ts (strip run_id) "learn" extra s =
    match get_run s (strip run_id), rb_jobs s !! new_id with
    | None, _ => (Raise (ValueError "Run not found."), s)
    | Some _, Some _ => (Raise (IntegrityError "rb_jobs"), s)
    | Some _, None =>
      (Ok (mkRBJobRecord new_id (strip run_id) "learn" ts "queued"),
       set_rb_jobs (insert new_id
         (mkRBJobRow (strip run_id) "learn" ts None None "queued" None extra)) s)
    end.
Proof.
  intros Hne. unfold create_rb_job. rewrite strip_idemp, strip_learn.
  rewrite bool_decide_eq_false_2 by done.
  destruct (get_run s (strip run_id)); [|done].
  rewrite (bool_decide_eq_false_2 ("learn" = "")) by done. done.
Qed.

(** Every outcome of [enqueue_rb_learn_job]. *)
Lemma enqueue_rb_learn_job_cases (new_id : string) (ts : Z) (run_id : string)
    (s : Store) :
  let rid := strip run_id in
  let running := get_latest_rb_job_for_run s rid (Some "learn") ["running"] in
  (∃ e, enqueue_rb_learn_job new_id ts run_id s = (Raise e, s))
  ∨ (∃ queued, rid ≠ "" ∧
       get_latest_rb_job_for_run s rid (Some "learn") ["queued"] = Some queued ∧
       enqueue_rb_learn_job new_id ts run_id s = (Ok (row_to_job queued), s))
  ∨ (rid ≠ "" ∧ queued_learn_jobs s rid = [] ∧ is_Some (runs s !! rid) ∧
     rb_jobs s !! new_id = None ∧
     ∃ s', enqueue_rb_learn_job new_id ts run_id s
             = (Ok (mkRBJobRecord new_id rid "learn" ts "queued"), s') ∧
           runs s' = runs s ∧
           rb_jobs s' =
             <[new_id := mkRBJobRow rid "learn" ts None None "queued" None
                           (enqueue_extra running)]> (rb_jobs s) ∧
           events s' = (events s ++
             [mkEventRow rid "rb_learn_queued"
                (JObj [("rb_job_id", JStr new_id); ("kind", JStr "learn");
                       ("status", JStr "queued");
                       ("reason", JStr (match running with
                                        | Some _ => "latest_compensation"
                                        | None => "enqueue"
                                        end));
                       ("supersedes_rb_job_id", json_opt_str (fst <$> running))])])%list).
Proof.
  intros rid running. unfold enqueue_rb_learn_job. fold rid.
  case_bool_decide as Hrid; [left; eauto|].
  unfold transaction, enqueue_rb_learn_job_txn.
  destruct (get_latest_rb_job_for_run s rid (Some "learn") ["queued"])
    as [queued|] eqn:Hq.
  { right. left. eauto. }
  apply get_latest_queued_learn_None in Hq; [|done].
  fold running. subst rid.
  rewrite create_rb_job_learn by done. unfold get_run.
  destruct (runs s !! strip run_id) as [r|] eqn:Hr; simpl; [|left; eauto].
  destruct (rb_jobs s !! new_id) as [j|] eqn:Hj; [left; eauto|].
  right. right. repeat split; [done..|eauto|].
  eexists. split; [reflexivity|]. simpl. unfold enqueue_extra.
  by destruct running.
Qed.

(** The queued learn jobs of a state whose queued rows all come, under
    the same id, from queued rows of the state before. *)
Lemma at_most_one_queued_shrink (s s' : Store) (rid : string) :
  (∀ j r', rb_jobs s' !! j = Some r' → queued_learn rid r' →
           ∃ r, rb_jobs s !! j = Some r ∧ queued_learn rid r) →
  (length (queued_learn_jobs s rid) ≤ 1)%nat →
  (length (queued_learn_jobs s' rid) ≤ 1)%nat.
Proof.
  rewrite !queued_learn_jobs_le_1. intros Hsub Huniq j1 r1 j2 r2 H1 Q1 H2 Q2.
  destruct (Hsub _ _ H1 Q1) as (r1' & ? & ?).
  destruct (Hsub _ _ H2 Q2) as (r2' & ? & ?). eauto.
Qed.

Lemma enqueue_preserves_at_most_one (new_id : string) (ts : Z) (run_id : string)
    (s : Store) (r : string) :
  (length (queued_learn_jobs s r) ≤ 1)%nat →
  (length (queued_learn_jobs (enqueue_rb_learn_job new_id ts run_id s).2 r) ≤ 1)%nat.
Proof.
  intros Hinv.
  destruct (enqueue_rb_learn_job_cases new_id ts run_id s)
    as [[e ->]|[(q & _ & _ & ->)|(Hrid & Hnil & _ & Hfresh & s' & -> & _ & Hjobs & _)]];
    [done..|].
  simpl. revert Hinv. rewrite !queued_learn_jobs_le_1, Hjobs.
  rewrite queued_learn_jobs_nil in Hnil.
  intros Huniq j1 r1 j2 r2 H1 Q1 H2 Q2.
  destruct (decide (j1 = new_id)) as [->|Hn1], (decide (j2 = new_id)) as [->|Hn2];
    [done| | |].
  - exfalso. rewrite lookup_insert_eq in H1. rewrite lookup_insert_ne in H2 by done.
    injection H1 as <-. destruct Q1 as [Hr _]; simpl in Hr. subst r.
    by apply (Hnil j2 r2).
  - exfalso. rewrite lookup_insert_eq in H2. rewrite lookup_insert_ne in H1 by done.
    injection H2 as <-. destruct Q2 as [Hr _]; simpl in Hr. subst r.
    by apply (Hnil j1 r1).
  - rewrite lookup_insert_ne in H1, H2 by done. eauto.
Qed.

Lemma claim_job_preserves_at_most_one (ts : Z) (s : Store) (r : string) :
  (length (queued_learn_jobs s r) ≤ 1)%nat →
  (length (queued_learn_jobs (claim_next_queued_rb_job ts s).2 r) ≤ 1)%nat.
Proof.
  unfold claim_next_queued_rb_job.
  destruct (first_by job_order_asc _) as [row|]; [|done].
  destruct (rb_jobs s !! row.1) as [r0|] eqn:Hrow; [|done].
  case_bool_decide; [|done]. simpl.
  apply at_most_one_queued_shrink. simpl. intros j r' Hj Hq.
  destruct (decide (j = row.1)) as [->|Hne].
  - rewrite lookup_insert_eq in Hj. injection Hj as <-.
    by destruct Hq as (_ & _ & ?).
  - rewrite lookup_insert_ne in Hj by done. eauto.
Qed.

Lemma finish_preserves_at_most_one (ts : Z) (jid st : string)
    (err : option string) (s : Store) (r : string) :
  st ≠ "queued" →
  (length (queued_learn_jobs s r) ≤ 1)%nat →
  (length (queued_learn_jobs (update_rb_job_status ts jid st err s) r) ≤ 1)%nat.
Proof.
  intros Hst. apply at_most_one_queued_shrink.
  unfold update_rb_job_status. simpl. intros j r' Hj Hq.
  destruct (decide (j = jid)) as [->|Hne].
  - rewrite lookup_alter_eq in Hj.
    destruct (rb_jobs s !! jid); simplify_eq/=.
    by destruct Hq as (_ & _ & ?).
  - rewrite lookup_alter_ne in Hj by done. eauto.
Qed.

Lemma run_job_op_preserves_at_most_one (op : JobOp) (s : Store) :
  (∀ r, (length (queued_learn_jobs s r) ≤ 1)%nat) →
  ∀ r, (length (queued_learn_jobs (run_job_op op s) r) ≤ 1)%nat.
Proof.
  intros Hinv r. destruct op as [new_id ts run_id|ts|ts jid [|]]; simpl.
  - by apply enqueue_preserves_at_most_one.
  - by apply claim_job_preserves_at_most_one.
  - by apply finish_preserves_at_most_one.
  - by apply finish_preserves_at_most_one.
Qed.

Lemma run_job_ops_preserve_at_most_one (ops : list JobOp) (s : Store) :
  (∀ r, (length (queued_learn_jobs s r) ≤ 1)%nat) →
  ∀ r, (length (queued_learn_jobs (run_job_ops ops s) r) ≤ 1)%nat.
Proof.
  revert s. induction ops as [|op ops IH]; intros s Hinv; [done|].
  simpl. apply IH. by apply run_job_op_preserves_at_most_one.
Qed.


(** C10. [enqueue_rb_learn_job] looks, inside one IMMEDIATE transaction,
    for a queued learn job of the run: when there is one it returns the
    latest such job, that is the record made of the id, run id, kind,
    creation time and status [queued] of a row of [rb_jobs] of the run,
    and neither inserts a job nor appends an event; a job is inserted
    only when none is queued, as one new [queued] row whose
    [extra_json] records whether it supersedes the latest running learn
    job, followed by one [rb_learn_queued] event; that insertion does
    take place when the run exists and the drawn id is fresh; and over
    any sequence of enqueues, worker claims and job completions no run
    ever has more than one queued learn job. *)
Theorem enqueue_rb_learn_job_at_most_one_queued (new_id : string) (ts : Z)
    (run_id : string) (ops : list JobOp) (s : Store) :
  let rid := strip run_id in
  let running := get_latest_rb_job_for_run s rid (Some "learn") ["running"] in
  (rid ≠ "" →
   ∀ jid row,
     get_latest_rb_job_for_run s rid (Some "learn") ["queued"] = Some (jid, row) →
     rb_jobs s !! jid = Some row ∧
     job_run_id row = rid ∧ job_kind row = "learn" ∧ job_status row = "queued" ∧
     enqueue_rb_learn_job new_id ts run_id s
       = (Ok (mkRBJobRecord jid rid "learn" (job_created_at row) "queued"), s))
  ∧ (rid ≠ "" → queued_learn_jobs s rid ≠ [] →
     ∃ jid row,
       rb_jobs s !! jid = Some row ∧
       job_run_id row = rid ∧ job_kind row = "learn" ∧ job_status row = "queued" ∧
       (∀ j r, rb_jobs s !! j = Some r → queued_learn rid r →
               job_created_at r < job_created_at row
               ∨ (job_created_at r = job_created_at row ∧ String.leb j jid = true)) ∧
       enqueue_rb_learn_job new_id ts run_id s
         = (Ok (mkRBJobRecord jid rid "learn" (job_created_at row) "queued"), s))
  ∧ (∀ job s',
       enqueue_rb_learn_job new_id ts run_id s = (Ok job, s') →
       rb_jobs s' ≠ rb_jobs s →
       queued_learn_jobs s rid = [] ∧
       rb_jobs s !! new_id = None ∧
       job = mkRBJobRecord new_id rid "learn" ts "queued" ∧
       rb_jobs s' =
         <[new_id := mkRBJobRow rid "learn" ts None None "queued" None
                       (enqueue_extra running)]> (rb_jobs s))
  ∧ (rid ≠ "" → queued_learn_jobs s rid = [] → is_Some (runs s !! rid) →
     rb_jobs s !! new_id = None →
     ∃ s', enqueue_rb_learn_job new_id ts run_id s
             = (Ok (mkRBJobRecord new_id rid "learn" ts "queued"), s') ∧
           length (queued_learn_jobs s' rid) = 1%nat)
  ∧ ((∀ r, (length (queued_learn_jobs s r) ≤ 1)%nat) →
     ∀ r, (length (queued_learn_jobs (run_job_ops ops s) r) ≤ 1)%nat).
Proof.
  intros rid running. subst rid running.
  pose proof (enqueue_rb_learn_job_cases new_id ts run_id s) as Hcases.
  cbv zeta in Hcases.
  assert (∀ jid row,
            strip run_id ≠ "" →
            get_latest_rb_job_for_run s (strip run_id) (Some "learn") ["queued"]
              = Some (jid, row) →
            rb_jobs s !! jid = Some row ∧
            job_run_id row = strip run_id ∧ job_kind row = "learn" ∧
            job_status row = "queued" ∧
            enqueue_rb_learn_job new_id ts run_id s
              = (Ok (mkRBJobRecord jid (strip run_id) "learn"
                       (job_created_at row) "queued"), s)) as Hdedupe.
  { intros jid row Hrid Hq.
    pose proof Hq as Hin. apply get_latest_queued_learn_Some in Hin as [Hin _].
    apply elem_of_queued_learn_jobs in Hin as (Hrow & Hr & Hk & Hst).
    split; [done|]. split; [done|]. split; [done|]. split; [done|].
    unfold enqueue_rb_learn_job.
    rewrite bool_decide_eq_false_2 by done.
    unfold transaction, enqueue_rb_learn_job_txn. rewrite Hq.
    unfold row_to_job. simpl. by rewrite Hr, Hk, Hst. }
  split; [|split; [|split; [|split]]].
  - intros Hrid jid row Hq. by apply Hdedupe.
  - intros Hrid Hsome.
    destruct (get_latest_rb_job_for_run s (strip run_id) (Some "learn") ["queued"])
      as [[jid row]|] eqn:Hq.
    + exists jid, row.
      destruct (Hdedupe jid row Hrid eq_refl) as (Hrow & Hr & Hk & Hst & He).
      split; [done|]. split; [done|]. split; [done|]. split; [done|].
      split; [|done].
      intros j r Hj Hqr.
      apply get_latest_queued_learn_Some in Hq as [_ Hmax].
      assert ((j, r) ∈ queued_learn_jobs s (strip run_id)) as Hin
        by by apply elem_of_queued_learn_jobs.
      apply Hmax in Hin. unfold job_order_desc in Hin. simpl in Hin.
      apply orb_true_iff in Hin as [Hlt%Z.ltb_lt|[Heq%Z.eqb_eq Hle]%andb_true_iff].
      * by left.
      * right. by split.
    + apply get_latest_queued_learn_None in Hq; done.
  - intros job s' He Hchg.
    destruct Hcases as [[e He']|[(q & _ & _ & He')|(_ & Hnil & _ & Hfresh & s2 & He' & _ & Hjobs & _)]].
    + congruence.
    + rewrite He' in He. by simplify_eq.
    + rewrite He' in He. by simplify_eq.
  - intros Hrid Hnil Hrun Hfresh.
    destruct Hcases as [[e He]|[(q & _ & Hq & He)|(_ & _ & _ & _ & s2 & He & _ & Hjobs & _)]].
    + exfalso. unfold enqueue_rb_learn_job in He.
      rewrite bool_decide_eq_false_2 in He by done.
      unfold transaction, enqueue_rb_learn_job_txn in He.
      apply get_latest_queued_learn_None in Hnil; [|done].
      rewrite Hnil in He.
      rewrite create_rb_job_learn in He by done. unfold get_run in He.
      destruct Hrun as [r Hr]. rewrite Hr, Hfresh in He. simpl in He. done.
    + apply get_latest_queued_learn_None in Hnil; [|done]. congruence.
    + exists s2. split; [done|].
      apply Nat.le_antisymm.
      * apply queued_learn_jobs_le_1. rewrite Hjobs.
        rewrite queued_learn_jobs_nil in Hnil.
        intros j1 r1 j2 r2 H1 Q1 H2 Q2.
        destruct (decide (j1 = new_id)) as [->|Hn1],
                 (decide (j2 = new_id)) as [->|Hn2]; [done| | |].
        -- rewrite lookup_insert_ne in H2 by done. by destruct (Hnil j2 r2).
        -- rewrite lookup_insert_ne in H1 by done. by destruct (Hnil j1 r1).
        -- rewrite lookup_insert_ne in H1 by done. by destruct (Hnil j1 r1).
      * assert (∃ row, (new_id, row) ∈ queued_learn_jobs s2 (strip run_id))
          as [row Hin].
        { eexists. apply elem_of_queued_learn_jobs.
          rewrite Hjobs, lookup_insert_eq. by repeat split. }
        destruct (queued_learn_jobs s2 (strip run_id));
          [by apply elem_of_nil in Hin|].
        simpl. lia.
  - apply run_job_ops_preserve_at_most_one.
Qed.

(** A second submission for a run (its id given between a no-break
    space U+00A0 and a space) gets the job queued by the first and
    leaves the tables as they are; the first one, on a run with no
    learn job, gets a new queued job; and after four submissions with
    a worker claim in between one job is queued. *)
Lemma enqueue_rb_learn_job_at_most_one_queued_witness :
  enqueue_rb_learn_job "rbjob_2" 51
    (String (ascii_of_nat 194) (String (ascii_of_nat 160) "run_a "))
    (run_job_ops [OpEnqueue "rbjob_1" 50 " run_a "] sample_store_one_run)
  = (Ok (mkRBJobRecord "rbjob_1" "run_a" "learn" 50 "queued"),
     run_job_ops [OpEnqueue "rbjob_1" 50 " run_a "] sample_store_one_run)
  ∧ (∃ s', enqueue_rb_learn_job "rbjob_1" 50 " run_a " sample_store_one_run
           = (Ok (mkRBJobRecord "rbjob_1" "run_a" "learn" 50 "queued"), s') ∧
           length (queued_learn_jobs s' "run_a") = 1%nat)
  ∧ length (queued_learn_jobs
            (run_job_ops [OpEnqueue "rbjob_1" 50 " run_a "; OpEnqueue "rbjob_2" 51 "run_a";
                          OpClaim 52; OpEnqueue "rbjob_3" 53 "run_a";
                          OpEnqueue "rbjob_4" 54 "run_a"]
               sample_store_one_run) "run_a") = 1%nat
  ∧ (length (queued_learn_jobs
               (run_job_ops [OpEnqueue "rbjob_1" 50 " run_a "; OpEnqueue "rbjob_2" 51 "run_a";
                             OpClaim 52; OpEnqueue "rbjob_3" 53 "run_a";
                             OpEnqueue "rbjob_4" 54 "run_a"]
                  sample_store_one_run) "run_a") ≤ 1)%nat.
Proof.
  split; [|split; [|split; [vm_compute; reflexivity|]]].
  - destruct (enqueue_rb_learn_job_at_most_one_queued "rbjob_2" 51
                (String (ascii_of_nat 194) (String (ascii_of_nat 160) "run_a "))
                []
                (run_job_ops [OpEnqueue "rbjob_1" 50 " run_a "] sample_store_one_run))
      as (Hdedupe & _).
    destruct (Hdedupe ltac:(vm_compute; discriminate) "rbjob_1"
                (mkRBJobRow "run_a" "learn" 50 None None "queued" None
                   (JObj [("enqueue_reason", JStr "enqueue");
                          ("supersedes_rb_job_id", JStr "")]))
                ltac:(vm_compute; reflexivity)) as (_ & _ & _ & _ & He).
    exact He.
  - destruct (enqueue_rb_learn_job_at_most_one_queued "rbjob_1" 50 " run_a " []
                sample_store_one_run) as (_ & _ & _ & Hnew & _).
    apply Hnew.
    + vm_compute. discriminate.
    + vm_compute. reflexivity.
    + vm_compute. eauto.
    + vm_compute. reflexivity.
  - destruct (enqueue_rb_learn_job_at_most_one_queued "rbjob_0" 0 "run_a"
                [OpEnqueue "rbjob_1" 50 " run_a "; OpEnqueue "rbjob_2" 51 "run_a";
                 OpClaim 52; OpEnqueue "rbjob_3" 53 "run_a";
                 OpEnqueue "rbjob_4" 54 "run_a"] sample_store_one_run)
      as (_ & _ & _ & _ & Hinv).
    apply Hinv. intros r. vm_compute. lia.
Defined.

End EnqueueLearnJob.

(** ** Idempotent batch creation *)

Section IdempotentCreate.

Lemma create_runs_Ok (gen : nat → string * Z) (bid : string) (n i : nat)
    (s s' : Store) (rs : list RunRecord) :
  create_runs gen bid n i s = (Ok rs, s') →
  rs = new_run_record gen bid <$> seq i n ∧
  batches s' = batches s ∧ idempotency_keys s' = idempotency_keys s ∧
  rb_jobs s' = rb_jobs s ∧ events s' = events s ∧
  NoDup ((λ j, (gen (S j)).1) <$> seq i n) ∧
  (∀ j, (i ≤ j < i + n)%nat →
     runs s !! (gen (S j)).1 = None ∧
     runs s' !! (gen (S j)).1 =
       Some (mkRunRow bid (Z.of_nat j + 1) (gen (S j)).2 None None "queued" None)) ∧
  (∀ rid, (∀ j, (i ≤ j < i + n)%nat → rid ≠ (gen (S j)).1) →
     runs s' !! rid = runs s !! rid).
Proof.
  revert i s s' rs. induction n as [|n IH]; intros i s s' rs; simpl.
  - unfold ret. intros [= <- <-]. repeat split; try done.
    + constructor.
    + lia.
    + lia.
  - unfold bind at 1. unfold create_run at 1.
    destruct (runs s !! (gen (S i)).1) eqn:Hfresh; [done|].
    unfold bind at 1.
    destruct (create_runs gen bid n (S i) _) as [[rs'|e] s2] eqn:Hrec; [|done].
    unfold ret. intros [= <- <-].
    apply IH in Hrec as (-> & Hb & Hk & Hj & He & Hnd & Hnew & Hold).
    simpl in *.
    assert (∀ j, (S i ≤ j < S i + n)%nat → (gen (S j)).1 ≠ (gen (S i)).1) as Hne.
    { intros j Hj' Heq. destruct (Hnew j Hj') as [Hnone _].
      rewrite Heq, lookup_insert_eq in Hnone. done. }
    repeat split; try done.
    + constructor; [|done]. intros Hin.
      apply list_elem_of_fmap in Hin as (j & Heq & Hin).
      apply elem_of_seq in Hin. by apply (Hne j).
    + destruct (decide (j = i)) as [->|Hji]; [done|].
      destruct (Hnew j ltac:(lia)) as [Hnone _].
      rewrite lookup_insert_ne in Hnone; [done|]. apply not_eq_sym, Hne. lia.
    + destruct (decide (j = i)) as [->|Hji].
      * rewrite Hold; [by rewrite lookup_insert_eq|].
        intros j Hj'. by apply not_eq_sym, Hne.
      * by destruct (Hnew j ltac:(lia)) as [_ ?].
    + intros rid Hrid. rewrite Hold.
      * apply lookup_insert_ne. apply not_eq_sym, Hrid. lia.
      * intros j Hj'. apply Hrid. lia.
Qed.

Lemma create_runs_fresh (gen : nat → string * Z) (bid : string) (n i : nat)
    (s : Store) :
  NoDup ((λ j, (gen (S j)).1) <$> seq i n) →
  (∀ j, (i ≤ j < i + n)%nat → runs s !! (gen (S j)).1 = None) →
  ∃ rs s', create_runs gen bid n i s = (Ok rs, s').
Proof.
  revert i s. induction n as [|n IH]; intros i s Hnd Hfresh; simpl.
  - unfold ret. eauto.
  - unfold bind at 1. unfold create_run at 1.
    rewrite Hfresh by lia. unfold bind at 1. simpl in Hnd.
    apply NoDup_cons in Hnd as [Hnotin Hnd].
    edestruct (IH (S i)) as (rs & s' & ->); [done| |unfold ret; eauto].
    intros j Hj. simpl. rewrite lookup_insert_ne.
    + apply Hfresh. lia.
    + intros Heq. apply Hnotin. apply list_elem_of_fmap. exists j.
      split; [done|]. apply elem_of_seq. lia.
Qed.

(** Whatever the key and the body, a request that raises leaves the
    database as it was. *)
Lemma create_batch_api_atomic (env : ApiEnv) (gen : nat → string * Z)
    (ikey : option string) (body : CreateBatchRequest) (s s' : Store) (e : Exn) :
  create_batch_api env gen ikey body s = (Raise e, s') → s' = s.
Proof.
  unfold create_batch_api.
  repeat (match goal with |- context [if ?b then _ else _] =>
            destruct b; [by intros [= _ <-]|] end).
  unfold transaction.
  destruct (create_batch_txn _ _ _ _ _ _ _ s) as [[r|e'] s2]; [done|].
  by intros [= _ <-].
Qed.

Lemma create_batch_api_valid (env : ApiEnv) (gen : nat → string * Z)
    (ikey : option string) (body : CreateBatchRequest) (s : Store) :
  request_valid env body →
  create_batch_api env gen ikey body s =
    transaction
      (create_batch_txn gen ikey (env_request_hash env body)
         (effective_user_request body) (req_n_runs body)
         (req_recipes_per_run body) (env_config_snapshot env body)) s.
Proof.
  intros ([Hn1 Hn2] & [Hr1 Hr2] & Hdeps). unfold create_batch_api.
  rewrite (proj2 (Z.ltb_ge _ _) Hn1), (proj2 (Z.ltb_ge _ _) Hn2).
  rewrite (proj2 (Z.ltb_ge _ _) Hr1), (proj2 (Z.ltb_ge _ _) Hr2). simpl.
  assert (negb (req_dry_run body)
          && negb (bool_decide (env_missing env body = [])) = false) as ->.
  { destruct Hdeps as [->| ->]; [done|]. by rewrite andb_false_r. }
  done.
Qed.

(** The transaction when no record is stored under a given key. *)
Lemma create_batch_txn_new (env : ApiEnv) (gen : nat → string * Z) (key : string)
    (body : CreateBatchRequest) (s : Store) :
  key ≠ "" → idempotency_keys s !! key = None →
  let out := transaction
      (create_batch_txn gen (Some key) (env_request_hash env body)
         (effective_user_request body) (req_n_runs body)
         (req_recipes_per_run body) (env_config_snapshot env body)) s in
  (∃ response, out.1 = Ok response ∧ batch_created env gen key body response s out.2)
  ∨ (∃ e, out = (Raise e, s)).
Proof.
  intros Hkey Hnone. simpl. unfold transaction, create_batch_txn. simpl.
  rewrite bool_decide_eq_false_2 by done. simpl.
  unfold get_idempotency. rewrite Hnone.
  cbv [bind create_batch modify_store ret].
  destruct (batches s !! (gen O).1) eqn:Hb; [right; eauto|]. simpl.
  match goal with |- context [create_runs ?g ?b ?n ?i ?st] =>
    destruct (create_runs g b n i st) as [[rs|e] s2] eqn:Hruns end;
    [|right; eauto].
  apply create_runs_Ok in Hruns as (-> & Hb2 & Hk2 & Hj2 & He2 & Hnd & Hnew & Hold).
  simpl in *.
  left. eexists. split; [reflexivity|].
  unfold batch_created, put_idempotency. simpl. rewrite Hk2, Hnone. simpl.
  repeat split; try done.
  - by destruct (Hnew j ltac:(lia)).
  - by destruct (Hnew j ltac:(lia)).
  - intros rid Hrid. apply Hold. intros j Hj. apply Hrid. lia.
  - by rewrite Hk2.
Qed.

(** The transaction when a record is stored under the key. *)
Lemma create_batch_txn_stored (gen : nat → string * Z) (key hash ur : string)
    (n rpr : Z) (cfg : JSON) (stored : IdemRow) (s : Store) :
  key ≠ "" → idempotency_keys s !! key = Some stored →
  transaction (create_batch_txn gen (Some key) hash ur n rpr cfg) s =
    if bool_decide (idem_request_hash stored = hash)
    then (Ok (idem_response_json stored), s)
    else (Raise (APIError 409 "conflict"), s).
Proof.
  intros Hkey Hstored. unfold transaction, create_batch_txn. simpl.
  rewrite bool_decide_eq_false_2 by done. simpl.
  unfold get_idempotency. rewrite Hstored.
  case_bool_decide; case_bool_decide; done.
Qed.




End IdempotentCreate.

(** ** Alias stability of the evidence registry *)

Section AliasStability.
Context (prefix : string).

Lemma alias_fresh (reg : KBRegistry) :
  registry_inv prefix reg →
  kb_alias_map reg !! (prefix ++ pretty (kb_next_index reg)) = None.
Proof.
  intros (_ & _ & Hidx & _).
  destruct (kb_alias_map reg !! (prefix ++ pretty (kb_next_index reg)))
    as [r|] eqn:Hr; [|done].
  destruct (Hidx _ _ Hr) as (i & Hi & Heq).
  apply (inj (String.app prefix)) in Heq. apply (inj pretty) in Heq. lia.
Qed.

Global Instance registry_extends_refl : Reflexive registry_extends.
Proof. intros reg. by repeat split. Qed.

Global Instance registry_extends_trans : Transitive registry_extends.
Proof.
  intros r1 r2 r3 (?&?&?&?&?) (?&?&?&?&?).
  repeat split; first [by etrans | lia].
Qed.

Lemma registry_inv_init : registry_inv prefix kb_registry_init.
Proof.
  unfold registry_inv, kb_registry_init. simpl.
  split; [lia|]. split; [|split; [|split; [|split]]].
  - intros a r. by rewrite !lookup_empty.
  - intros a r. by rewrite lookup_empty.
  - intros a ch. by rewrite lookup_empty.
  - intros a [r Hr]. by rewrite lookup_empty in Hr.
  - intros ch Hin. by apply elem_of_nil in Hin.
Qed.

Lemma register_chunk_spec (ch : KBChunk) (reg : KBRegistry)
    (obs : list AliasedKBChunk) (seen : gset string) :
  registry_inv prefix reg → obs_inv reg obs seen →
  let '(reg', obs', seen') := register_chunk prefix ch (reg, obs, seen) in
  registry_inv prefix reg' ∧ registry_extends reg reg' ∧ obs_inv reg' obs' seen' ∧
  obs `prefix_of` obs' ∧
  ∃ x, x ∈ obs' ∧ ac_ref x = chunk_ref ch ∧
       kb_ref_to_alias reg' !! chunk_ref ch = Some (ac_alias x) ∧
       (kb_ref_to_alias reg !! chunk_ref ch = None →
        ac_alias x = prefix ++ pretty (kb_next_index reg)).
Proof.
  intros Hinv Hobs.
  pose proof Hinv as (Hpos & Hbij & Hidx & Hchunk & Hdom & Hall).
  destruct Hobs as [Hobs Hseen]. unfold register_chunk.
  destruct (kb_ref_to_alias reg !! chunk_ref ch) as [alias|] eqn:Hra.
  - (* the reference is known *)
    apply Hbij in Hra as Har.
    destruct (Hdom alias ltac:(eauto)) as [stored Hst]. rewrite Hst.
    destruct (Hchunk _ _ Hst) as [Href Halias].
    assert (ac_ref stored = chunk_ref ch) as Hrefeq by congruence.
    case_bool_decide as Hin.
    + split; [done|]. split; [done|]. split; [done|]. split; [done|].
      apply Hseen in Hin as (x & Hx & Hxa).
      assert (x = stored) as -> by (apply Hobs in Hx; congruence).
      exists stored. repeat split; try done.
      rewrite Halias. by apply Hbij.
    + split; [done|]. split; [done|]. split; [|split].
      * split.
        -- intros x [Hx| ->%list_elem_of_singleton]%elem_of_app; [eauto|congruence].
        -- intros a. rewrite elem_of_union, elem_of_singleton, Hseen.
           setoid_rewrite elem_of_app. setoid_rewrite list_elem_of_singleton.
           split.
           ++ intros [->|(x & Hx & Hxa)]; eauto.
           ++ intros (x & [Hx| ->] & Hxa); [eauto|left; congruence].
      * by apply prefix_app_r.
      * exists stored. repeat split; try done.
        -- apply elem_of_app. right. by apply list_elem_of_singleton.
        -- rewrite Halias. by apply Hbij.
  - (* first time the reference is seen *)
    pose proof (alias_fresh reg Hinv) as Hfresh.
    set (alias := prefix ++ pretty (kb_next_index reg)) in *.
    assert (kb_alias_to_chunk reg !! alias = None) as Hnochunk.
    { destruct (kb_alias_to_chunk reg !! alias) as [c|] eqn:Hc; [|done].
      apply Hchunk in Hc as [Hc _]. congruence. }
    assert (alias ∉ seen) as Hnotseen.
    { intros (x & Hx & Hxa)%Hseen. apply Hobs in Hx. congruence. }
    rewrite bool_decide_eq_false_2 by done.
    assert (registry_inv prefix
              (mkKBRegistry (<[alias := chunk_ref ch]> (kb_alias_map reg))
                 (<[chunk_ref ch := alias]> (kb_ref_to_alias reg))
                 (kb_all_aliased_chunks reg ++ [alias_of ch alias])
                 (<[alias := alias_of ch alias]> (kb_alias_to_chunk reg))
                 (S (kb_next_index reg)) (kb_focus_aliases reg)
                 (kb_focus_seen reg) (last_kb_search_aliases reg))) as Hinv'.
    { unfold registry_inv. simpl. split; [lia|].
      split; [|split; [|split; [|split]]].
      - intros a r. rewrite !lookup_insert_Some, Hbij. split.
        + intros [[<- <-]|[Hne Har]]; [by left|]. right. split; [|done].
          intros <-. congruence.
        + intros [[<- <-]|[Hne Har]]; [by left|]. right. split; [|done].
          intros <-. apply Hbij in Har. congruence.
      - intros a r [[<- <-]|[Hne Har]]%lookup_insert_Some.
        + exists (kb_next_index reg). split; [lia|done].
        + destruct (Hidx _ _ Har) as (i & Hi & ->). exists i. split; [lia|done].
      - intros a c [[<- <-]|[Hne Hc]]%lookup_insert_Some.
        + simpl. by rewrite lookup_insert_eq.
        + destruct (Hchunk _ _ Hc) as [? ?]. by rewrite lookup_insert_ne.
      - intros a. rewrite !lookup_insert_is_Some'. intros [->|Ha]; [by left|].
        right. by apply Hdom.
      - intros c [Hc| ->%list_elem_of_singleton]%elem_of_app.
        + rewrite lookup_insert_ne; [by apply Hall|].
          intros Heq. apply Hall in Hc. congruence.
        + simpl. by rewrite lookup_insert_eq. }
    split; [done|]. split; [|split; [|split]].
    + unfold registry_extends. simpl. repeat split.
      * by apply insert_subseteq.
      * by apply insert_subseteq.
      * by apply insert_subseteq.
      * by apply prefix_app_r.
      * lia.
    + split; simpl.
      * intros x [Hx| ->%list_elem_of_singleton]%elem_of_app.
        -- rewrite lookup_insert_ne; [by apply Hobs|].
           intros Heq. apply Hobs in Hx. congruence.
        -- simpl. by rewrite lookup_insert_eq.
      * intros a. rewrite elem_of_union, elem_of_singleton, Hseen.
        setoid_rewrite elem_of_app. setoid_rewrite list_elem_of_singleton.
        split.
        -- intros [->|(x & Hx & Hxa)]; eauto.
        -- intros (x & [Hx| ->] & Hxa); [eauto|left; simpl in *; congruence].
    + by apply prefix_app_r.
    + exists (alias_of ch alias). simpl. repeat split.
      * apply elem_of_app. right. by apply list_elem_of_singleton.
      * by rewrite lookup_insert_eq.
Qed.

Lemma register_chunks_spec (chunks : list KBChunk) (reg : KBRegistry)
    (obs : list AliasedKBChunk) (seen : gset string) :
  registry_inv prefix reg → obs_inv reg obs seen →
  let '(reg', obs', seen') :=
    foldl (λ st ch, register_chunk prefix ch st) (reg, obs, seen) chunks in
  registry_inv prefix reg' ∧ registry_extends reg reg' ∧ obs_inv reg' obs' seen' ∧
  obs `prefix_of` obs' ∧
  ∀ ch, ch ∈ chunks →
    ∃ x, x ∈ obs' ∧ ac_ref x = chunk_ref ch ∧
         kb_ref_to_alias reg' !! chunk_ref ch = Some (ac_alias x).
Proof.
  revert reg obs seen. induction chunks as [|ch chunks IH]; intros reg obs seen Hinv Hobs.
  - simpl. split; [done|]. split; [done|]. split; [done|]. split; [done|].
    intros ch Hin. by apply elem_of_nil in Hin.
  - cbn [foldl]. pose proof (register_chunk_spec ch reg obs seen Hinv Hobs) as Hstep.
    destruct (register_chunk prefix ch (reg, obs, seen)) as [[reg1 obs1] seen1].
    destruct Hstep as (Hinv1 & Hext1 & Hobs1 & Hpre1 & x & Hx & Hxr & Hxa & _).
    specialize (IH reg1 obs1 seen1 Hinv1 Hobs1).
    destruct (foldl _ (reg1, obs1, seen1) chunks) as [[reg2 obs2] seen2].
    destruct IH as (Hinv2 & Hext2 & Hobs2 & Hpre2 & Hall).
    split; [done|]. split; [by etrans|]. split; [done|]. split; [by etrans|].
    intros ch' [->|Hin]%elem_of_cons; [|by apply Hall].
    exists x. split; [|split; [done|]].
    + destruct Hpre2 as [k ->]. apply elem_of_app. by left.
    + destruct Hext2 as (_ & Hsub & _).
      by eapply lookup_weaken.
Qed.

Lemma kb_search_register_spec (chunks : list KBChunk) (reg : KBRegistry) :
  registry_inv prefix reg →
  let reg' := (kb_search_register prefix chunks reg).1 in
  let obs := (kb_search_register prefix chunks reg).2 in
  registry_inv prefix reg' ∧ registry_extends reg reg' ∧
  (∀ x, x ∈ obs → kb_ref_to_alias reg' !! ac_ref x = Some (ac_alias x)) ∧
  (∀ ch, ch ∈ chunks →
     ∃ x, x ∈ obs ∧ ac_ref x = chunk_ref ch ∧
          kb_ref_to_alias reg' !! chunk_ref ch = Some (ac_alias x)).
Proof.
  intros Hinv. unfold kb_search_register.
  pose proof (register_chunks_spec chunks reg [] ∅ Hinv) as Hspec.
  destruct (foldl _ (reg, [], ∅) chunks) as [[reg1 obs1] seen1].
  destruct Hspec as (Hinv1 & Hext1 & [Hobs1 Hseen1] & _ & Hall).
  { split; [intros x Hx; by apply elem_of_nil in Hx|].
    intros a. split; [set_solver|]. intros (x & Hx & _). by apply elem_of_nil in Hx. }
  simpl. split; [done|]. split; [done|]. split; [|done].
  intros x Hx. apply Hobs1 in Hx.
  destruct Hinv1 as (_ & Hbij & _ & Hchunk & _).
  apply Hchunk in Hx as [Hx _]. by apply Hbij.
Qed.

Lemma kb_searches_spec (searches : list (list KBChunk)) (reg : KBRegistry) :
  registry_inv prefix reg →
  registry_inv prefix (kb_searches prefix searches reg) ∧
  registry_extends reg (kb_searches prefix searches reg).
Proof.
  revert reg. induction searches as [|chunks searches IH]; intros reg Hinv.
  - done.
  - simpl. destruct (kb_search_register_spec chunks reg Hinv) as (Hinv1 & Hext1 & _).
    destruct (IH _ Hinv1) as [Hinv2 Hext2]. split; [done|by etrans].
Qed.

(** C3. Take any searches [before], one more search returning [chunks],
    and any searches [after], all within one run.  Every reference
    returned by the search has an alias afterwards and is shown under
    that alias; if the reference had an alias before the search it is
    the same alias, and if it had none it is assigned one by this first
    retrieval.  Two references never share an alias.  The maps alias ->
    ref, ref -> alias and alias -> chunk only gain entries (none is
    removed or overwritten) and the alias list is only extended at its
    end, here and in every later search. *)
Theorem alias_stability (before after : list (list KBChunk)) (chunks : list KBChunk) :
  let reg1 := kb_searches prefix before kb_registry_init in
  let reg2 := (kb_search_register prefix chunks reg1).1 in
  let obs := (kb_search_register prefix chunks reg1).2 in
  let reg3 := kb_searches prefix after reg2 in
  (∀ ch, ch ∈ chunks →
     ∃ x, x ∈ obs ∧ ac_ref x = chunk_ref ch ∧
          kb_ref_to_alias reg2 !! chunk_ref ch = Some (ac_alias x) ∧
          kb_ref_to_alias reg3 !! chunk_ref ch = Some (ac_alias x) ∧
          (∀ a0, kb_ref_to_alias reg1 !! chunk_ref ch = Some a0 → ac_alias x = a0))
  ∧ (∀ x, x ∈ obs → kb_ref_to_alias reg2 !! ac_ref x = Some (ac_alias x))
  ∧ (∀ r1 r2 a,
       kb_ref_to_alias reg3 !! r1 = Some a →
       kb_ref_to_alias reg3 !! r2 = Some a → r1 = r2)
  ∧ (∀ a r, kb_alias_map reg3 !! a = Some r ↔ kb_ref_to_alias reg3 !! r = Some a)
  ∧ registry_extends reg1 reg2
  ∧ registry_extends reg2 reg3.
Proof.
  intros reg1 reg2 obs reg3.
  destruct (kb_searches_spec before kb_registry_init registry_inv_init)
    as [Hinv1 _]. fold reg1 in Hinv1.
  destruct (kb_search_register_spec chunks reg1 Hinv1)
    as (Hinv2 & Hext12 & Hobs & Hall). fold reg2 obs in Hinv2, Hext12, Hobs, Hall.
  destruct (kb_searches_spec after reg2 Hinv2) as [Hinv3 Hext23].
  fold reg3 in Hinv3, Hext23.
  split; [|split; [done|split; [|split; [|done]]]].
  - intros ch Hin. destruct (Hall ch Hin) as (x & Hx & Hr & Ha).
    exists x. split; [done|]. split; [done|]. split; [done|]. split.
    + destruct Hext23 as (_ & Hsub & _). by eapply lookup_weaken.
    + intros a0 Ha0. destruct Hext12 as (_ & Hsub & _).
      eapply lookup_weaken in Ha0; [|done]. congruence.
  - intros r1 r2 a H1 H2. destruct Hinv3 as (_ & Hbij & _).
    apply Hbij in H1, H2. congruence.
  - by destruct Hinv3 as (_ & Hbij & _).
Qed.

End AliasStability.

Lemma alias_stability_witness :
  (ac_alias <$> (kb_search_register "C" [sample_chunk "kb:b"; sample_chunk "kb:c"]
      (kb_searches "C" [[sample_chunk "kb:a"; sample_chunk "kb:b"]]
         kb_registry_init)).2) = ["C2"; "C3"]
  ∧ ∃ x, ac_ref x = "kb:b" ∧
         kb_ref_to_alias
           (kb_searches "C" [[sample_chunk "kb:a"; sample_chunk "kb:b"]]
              kb_registry_init) !! "kb:b" = Some (ac_alias x).
Proof.
  split; [vm_compute; reflexivity|].
  destruct (alias_stability "C" [] [] [sample_chunk "kb:a"; sample_chunk "kb:b"])
    as (Hall & _).
  destruct (Hall (sample_chunk "kb:b")) as (x & _ & Hr & Ha & _).
  - apply elem_of_cons. right. apply elem_of_cons. by left.
  - exists x. split; [done|]. exact Ha.
Defined.

(** ** The empty-subtasks rule of a planning step *)

Section EmptySubtasks.
Context (cfg : Config) (py : PyLib) (col : Collab).

Lemma current_node_lookup (rt : RuntimeState) (node : Node) :
  rt_nodes rt !! rt_node_ptr rt = Some node → current_node rt = node.
Proof. intros H. unfold current_node. by rewrite H. Qed.

(** C7. Let the parsed response [info] have no subtasks, and let [node]
    be the active node.  If [node] is the root and the result is empty
    the run fails with a planning error (it does so for a root node
    whatever the result).  If [node] is not the root and the result is
    empty (white space only, Unicode white space included), nothing is
    accepted: the step continues on the same node in state
    ACTION_TAKEN, the observation is the error text
    "ERROR: Task ended with empty subtasks but without a `result`. ..."
    and every other field of the state is as before.  If [node] is
    not the root and the result is not empty, the step continues in
    state UP on the parent, carrying the name of the finished task and
    its result, with the remaining subtasks equal to all but the first
    of the parent's last recorded subtask list. *)
Theorem empty_subtasks_rule (info : RecapInfo) (eng : Engine) (node : Node) :
  info_subtasks info = [] →
  rt_nodes (eng_rt eng) !! rt_node_ptr (eng_rt eng) = Some node →
  let rt := eng_rt eng in
  (node_parent node = None → strip (info_result info) = "" →
   dispatch cfg py col info eng
     = Raised (RecapError "Root task ended without generate_recipes.") eng)
  ∧ (node_parent node = None →
     dispatch cfg py col info eng
       = Raised (RecapError "Root task ended without generate_recipes.") eng)
  ∧ (∀ p, node_parent node = Some p → strip (info_result info) = "" →
     dispatch cfg py col info eng
       = Continue
           (mkEngine
              (mkRuntimeState ACTION_TAKEN (rt_nodes rt) (rt_node_ptr rt)
                 (rt_depth rt) (rt_steps rt)
                 ("ERROR: Task ended with empty subtasks but without a `result`."
                  ++ String (ascii_of_nat 10)
                 ("When subtasks=[], you MUST include a non-empty `result` "
                  ++ "summarizing the deliverable "
                  ++ "(and key conclusions / constraints / citations if applicable)."))
                 []
                 (rt_done_task_name rt) (rt_done_task_result rt)
                 (rt_previous_stage_task_name rt) (rt_previous_stage_think rt)
                 (rt_kb rt) (rt_mem rt))
              (eng_history eng) (eng_trace eng)))
  ∧ (∀ p parent, node_parent node = Some p → rt_nodes rt !! p = Some parent →
     strip (info_result info) ≠ "" →
     ∃ rt',
       dispatch cfg py col info eng
         = Continue (mkEngine rt' (eng_history eng) (eng_trace eng)) ∧
       rt_state rt' = UP ∧
       rt_node_ptr rt' = p ∧
       rt_nodes rt' = rt_nodes rt ∧
       rt_depth rt' = Nat.pred (rt_depth rt) ∧
       rt_done_task_name rt' = node_task_name node ∧
       rt_done_task_result rt' = strip (info_result info) ∧
       rt_previous_stage_task_name rt' = node_task_name parent ∧
       rt_previous_stage_think rt' = info_think (get_latest_info parent) ∧
       rt_remaining_subtasks rt'
         = drop 1 (info_subtasks (get_latest_info parent)) ∧
       rt_kb rt' = rt_kb rt ∧ rt_mem rt' = rt_mem rt).
Proof.
  intros Hsub Hnode rt. unfold dispatch. rewrite Hsub. unfold task_done.
  rewrite (current_node_lookup _ _ Hnode). fold rt.
  split; [|split; [|split]].
  - intros Hroot _. rewrite Hroot. case_bool_decide as H; [by destruct H|done].
  - intros Hroot. rewrite Hroot. case_bool_decide as H; [by destruct H|done].
  - intros p Hp Hempty. rewrite Hp, Hempty.
    rewrite !bool_decide_eq_true_2 by done. reflexivity.
  - intros p parent Hp Hparent Hres. rewrite Hp.
    rewrite (bool_decide_eq_false_2 (strip (info_result info) = "")) by done.
    rewrite andb_false_r. rewrite Hparent. simpl.
    eexists. split; [reflexivity|]. by repeat split.
Qed.

End EmptySubtasks.

(** A child that ends with a result of white space only (a line feed,
    a no-break space U+00A0 and an ideographic space U+3000) is asked
    again; a child that ends with a summary hands it to its parent;
    the root that ends is an error. *)
Lemma empty_subtasks_rule_witness :
  (∃ rt',
     dispatch sample_cfg sample_py (sample_col script_bad3)
       (mkRecapInfo "finished" []
          (String (ascii_of_nat 10)
             (String (ascii_of_nat 194) (String (ascii_of_nat 160)
                (String (ascii_of_nat 227) (String (ascii_of_nat 128)
                   (String (ascii_of_nat 128) EmptyString)))))))
       sample_eng_child
       = Continue (mkEngine rt' [Msg "user" "User request"] []) ∧
     rt_state rt' = ACTION_TAKEN ∧ rt_node_ptr rt' = 1%nat ∧
     rt_depth rt' = 1%nat ∧
     substring 0 6 (rt_latest_obs rt') = "ERROR:" ∧
     rt_remaining_subtasks rt' = [])
  ∧ (∃ rt',
     dispatch sample_cfg sample_py (sample_col script_bad3)
       (mkRecapInfo "finished" [] "summary") sample_eng_child
       = Continue (mkEngine rt' [Msg "user" "User request"] []) ∧
     rt_state rt' = UP ∧ rt_node_ptr rt' = 0%nat ∧
     rt_done_task_result rt' = "summary" ∧
     rt_remaining_subtasks rt' = [SKbList None])
  ∧ dispatch sample_cfg sample_py (sample_col script_bad3)
      (mkRecapInfo "finished" [] "summary")
      (mkEngine rt_init [] [])
    = Raised (RecapError "Root task ended without generate_recipes.")
        (mkEngine rt_init [] []).
Proof.
  split; [|split].
  - pose proof (empty_subtasks_rule sample_cfg sample_py (sample_col script_bad3)
                  (mkRecapInfo "finished" []
                     (String (ascii_of_nat 10)
                        (String (ascii_of_nat 194) (String (ascii_of_nat 160)
                           (String (ascii_of_nat 227) (String (ascii_of_nat 128)
                              (String (ascii_of_nat 128) EmptyString)))))))
                  sample_eng_child
                  (mkNode "study MOF" "mof_expert" (Some 0%nat) [] [] [])
                  eq_refl eq_refl) as (_ & _ & Hrej & _).
    eexists. split; [exact (Hrej 0%nat eq_refl eq_refl)|]. by repeat split.
  - destruct (empty_subtasks_rule sample_cfg sample_py (sample_col script_bad3)
                (mkRecapInfo "finished" [] "summary") sample_eng_child
                (mkNode "study MOF" "mof_expert" (Some 0%nat) [] [] [])
                eq_refl eq_refl) as (_ & _ & _ & Hpop).
    destruct (Hpop 0%nat
                (mkNode "Generate catalyst recipe recommendations." "orchestrator"
                   None [1%nat]
                   [mkRecapInfo "plan" [STask "mof_expert" "study MOF"; SKbList None] ""]
                   []) eq_refl eq_refl)
      as (rt' & Hd & Hst & Hptr & _ & _ & _ & Hres & _ & _ & Hrem & _).
    + vm_compute. discriminate.
    + exists rt'. split; [exact Hd|]. split; [exact Hst|]. split; [exact Hptr|].
      split; [exact Hres|exact Hrem].
  - pose proof (empty_subtasks_rule sample_cfg sample_py (sample_col script_bad3)
                  (mkRecapInfo "finished" [] "summary") (mkEngine rt_init [] [])
                  (mkNode "Generate catalyst recipe recommendations." "orchestrator"
                     None [] [] [])
                  eq_refl eq_refl) as (_ & Hroot & _).
    exact (Hroot eq_refl).
Defined.

(** ** Parse retries and the commit of the exchange *)

Section ParseRetry.
Context (cfg : Config) (py : PyLib) (col : Collab).

Lemma llm_requests_app (t1 t2 : list TraceEvent) :
  llm_requests (t1 ++ t2) = (llm_requests t1 ++ llm_requests t2)%list.
Proof. unfold llm_requests. apply omap_app. Qed.

(** What the retry loop does to the engine state: the shared history
    is not touched, at most [n] requests are traced, the first with
    [extra] and every later one with exactly one correction, and a
    returned reply is one that parses. *)
Lemma parse_attempts_spec (n attempt : nat) (base extra : list Message)
    (err : string) (eng : Engine) :
  let out := parse_attempts cfg py col n attempt base extra err eng in
  eng_history out.2 = eng_history eng ∧
  (∃ new,
     eng_trace out.2 = (eng_trace eng ++ new)%list ∧
     (length (llm_requests new) ≤ n)%nat ∧
     rt_steps (eng_rt out.2)
       = (rt_steps (eng_rt eng) + length (llm_requests new))%nat ∧
     (∀ i a msgs, llm_requests new !! i = Some (a, msgs) →
        a = (attempt + i)%nat ∧
        ((i = 0%nat ∧ msgs = (base ++ extra)%list) ∨
         (i ≠ 0%nat ∧ ∃ e, msgs = (base ++ [recap_correction cfg e])%list)))) ∧
  (∀ raw info, out.1 = Ok (raw, info) →
     _parse_recap_info py (reply_content raw) = Ok info).
Proof.
  revert attempt extra err eng.
  induction n as [|n IH]; intros attempt extra err eng; simpl.
  - split; [done|]. split; [|done].
    exists []. rewrite app_nil_r. repeat split; try done; simpl; lia.
  - destruct (cancel_requested col (rt_steps (eng_rt eng))).
    { simpl. split; [done|]. split; [|done].
      exists []. rewrite app_nil_r. repeat split; try done; simpl; lia. }
    destruct (steps_exhausted cfg (eng_rt eng)).
    { simpl. split; [done|]. split; [|done].
      exists []. rewrite app_nil_r. repeat split; try done; simpl; lia. }
    set (raw := llm_chat_messages col _ _).
    set (eng1 := mkEngine _ _ _).
    assert (∀ r : Result (LLMReply * RecapInfo),
              (∀ raw' info, r = Ok (raw', info) →
                 _parse_recap_info py (reply_content raw') = Ok info) →
              let out := (r, eng1) in
              eng_history out.2 = eng_history eng ∧
              (∃ new,
                 eng_trace out.2 = (eng_trace eng ++ new)%list ∧
                 (length (llm_requests new) ≤ S n)%nat ∧
                 rt_steps (eng_rt out.2)
                   = (rt_steps (eng_rt eng) + length (llm_requests new))%nat ∧
                 (∀ i a msgs, llm_requests new !! i = Some (a, msgs) →
                    a = (attempt + i)%nat ∧
                    ((i = 0%nat ∧ msgs = (base ++ extra)%list) ∨
                     (i ≠ 0%nat ∧
                      ∃ e, msgs = (base ++ [recap_correction cfg e])%list)))) ∧
              (∀ raw' info, out.1 = Ok (raw', info) →
                 _parse_recap_info py (reply_content raw') = Ok info)) as Hstop.
    { intros r Hr. simpl. split; [done|]. split; [|done].
      eexists. split; [reflexivity|]. simpl. split; [lia|]. split; [lia|].
      intros [|i] a msgs; simpl; [|done]. intros [= <- <-].
      split; [lia|]. by left. }
    destruct (_parse_recap_info py (reply_content raw)) as [info|e] eqn:Hparse.
    { apply Hstop. by intros raw' info' [= <- <-]. }
    destruct e; try (apply Hstop; done).
    specialize (IH (S attempt)
                  [Msg "user" (correction_text cfg (CorrRecapFormat msg))] msg eng1).
    simpl in IH. destruct IH as (Hh & (new & Ht & Hlen & Hsteps & Hshape) & Hok).
    split; [by rewrite Hh|]. split; [|done].
    exists ([EvLLMRequest (recap_state_value (rt_state (eng_rt eng))) attempt
               (S (rt_steps (eng_rt eng))) (base ++ extra);
             EvLLMResponse (recap_state_value (rt_state (eng_rt eng)))
               (S (rt_steps (eng_rt eng))) (reply_content raw)] ++ new)%list.
    split; [|split; [|split]].
    + rewrite Ht. subst eng1. simpl. by rewrite <- !app_assoc.
    + rewrite llm_requests_app. simpl. lia.
    + rewrite Hsteps. rewrite llm_requests_app. subst eng1. simpl. lia.
    + rewrite llm_requests_app. simpl. intros [|i] a msgs; simpl.
      * intros [= <- <-]. split; [lia|]. by left.
      * intros Hi. destruct (Hshape i a msgs Hi) as [-> Hmsgs].
        split; [lia|]. right. split; [done|].
        destruct Hmsgs as [[_ ->]|[_ [e ->]]]; eauto.
Qed.

(** [_trim_history] after a commit keeps the committed exchange at the
    end of the history and adds nothing else. *)
Lemma trim_history_commit (h : list Message) (x y : Message) (k : Z) :
  let h' := _trim_history (h ++ [x; y]) k in
  [x; y] `suffix_of` h' ∧ (∀ m, m ∈ h' → m ∈ h ∨ m = x ∨ m = y).
Proof.
  simpl. unfold _trim_history.
  assert (∀ m, m ∈ (h ++ [x; y])%list → m ∈ h ∨ m = x ∨ m = y) as Hmem.
  { intros m [?|Hm]%elem_of_app; [by left|]. right.
    apply elem_of_cons in Hm as [->|Hm]; [by left|].
    apply list_elem_of_singleton in Hm. by right. }
  destruct (Z.leb_spec k 0) as [Hk|Hk].
  { split; [by apply suffix_app_r|done]. }
  destruct (Nat.leb_spec (length (h ++ [x; y])) 1) as [Hlen|Hlen].
  { rewrite length_app in Hlen. simpl in Hlen. lia. }
  destruct (Nat.leb_spec (length (drop 1 (h ++ [x; y]))) (Z.to_nat (k * 2)))
    as [Hshort|Hlong].
  { rewrite take_drop. split; [by apply suffix_app_r|done]. }
  rewrite drop_drop. rewrite length_drop, length_app in *. simpl in *.
  rewrite drop_app_le by lia. split.
  - rewrite app_assoc. by apply suffix_app_r.
  - intros m [Hm|Hm]%elem_of_app.
    + apply Hmem. by eapply subseteq_take.
    + apply elem_of_app in Hm as [Hm|Hm].
      * left. by eapply subseteq_drop.
      * apply Hmem. apply elem_of_app. by right.
Qed.

(** No branch of a step touches the shared history after the commit. *)
Lemma run_tool_history (name : string) (args : JSON) (gs : GenState) :
  eng_history (gen_eng (run_tool cfg py col name args gs).2)
    = eng_history (gen_eng gs).
Proof.
  unfold run_tool.
  repeat first
    [ done
    | case_bool_decide
    | match goal with
      | |- context [match ?x with _ => _ end] => destruct x eqn:?
      | |- context [if ?b then _ else _] => destruct b eqn:?
      end ]; simpl; try done.
Qed.

Lemma run_tool_calls_history (turn : nat) (calls : list ToolCall) (gs : GenState) :
  eng_history (gen_eng (run_tool_calls cfg py col turn calls gs).2)
    = eng_history (gen_eng gs).
Proof.
  revert gs. induction calls as [|tc calls IH]; intros gs; simpl; [done|].
  pose proof (run_tool_history (strip (tc_name tc))
                (tool_args py (tc_arguments tc)) gs) as Htool.
  destruct (run_tool cfg py col (strip (tc_name tc)) _ gs) as [[obs|e] gs1];
    [|done].
  rewrite IH. simpl in *. done.
Qed.

Lemma generate_turns_history (n turn : nat) (gs : GenState) :
  eng_history (outcome_engine (generate_turns cfg py col n turn gs))
    = eng_history (gen_eng gs).
Proof.
  revert turn gs. induction n as [|n IH]; intros turn gs; simpl; [done|].
  destruct (cancel_requested col _); [done|].
  destruct (steps_exhausted cfg (eng_rt (gen_eng gs))); [done|].
  destruct (reply_tool_calls _) as [|tc calls] eqn:Hcalls.
  - destruct (steps_exhausted cfg _); [done|].
    destruct (extract_first_json_object py _) as [[]|[]]; simpl; try done.
    + destruct (validate_final cfg py _ _); simpl; [done|].
      by rewrite IH.
    + match goal with |- context [if ?b then _ else _] => destruct b end;
        simpl; [done|]. by rewrite IH.
  - match goal with |- context [run_tool_calls ?a ?b ?c ?d ?e ?f] =>
      pose proof (run_tool_calls_history d e f) as Hcallsh;
      destruct (run_tool_calls a b c d e f) as [[u|e'] gs3] end; simpl in *.
    + by rewrite IH.
    + done.
Qed.

Lemma dispatch_history (info : RecapInfo) (eng : Engine) :
  eng_history (outcome_engine (dispatch cfg py col info eng)) = eng_history eng.
Proof.
  unfold dispatch. destruct (info_subtasks info) as [|first rest].
  - unfold task_done.
    destruct (_ && _); [done|]. by destruct (node_parent _).
  - assert (eng_history (outcome_engine (primitive_action cfg col first rest eng))
            = eng_history eng) as Hprim.
    { unfold primitive_action.
      repeat first
        [ done
        | case_bool_decide
        | match goal with
          | |- context [match ?x with _ => _ end] => destruct x eqn:?
          | |- context [if ?b then _ else _] => destruct b eqn:?
          end ]; simpl; try done. }
    destruct first; try exact Hprim.
    unfold generate_recipes.
    destruct (_ || _); [done|]. destruct (_ && _); [done|].
    by rewrite generate_turns_history.
Qed.

Lemma commit_exchange_history (prompt : string) (raw : LLMReply) (info : RecapInfo)
    (eng : Engine) :
  eng_history (commit_exchange cfg py prompt raw info eng)
    = _trim_history (eng_history eng
                     ++ [Msg "user" prompt; Msg "assistant" (reply_content raw)])
                    (recap_max_rounds cfg).
Proof. reflexivity. Qed.

(** C8 (amended). In one planning step the model is called at most
    three times in all, the first call and up to two retries: the first
    request carries the system prompt, the shared history and the
    prompt, every retry carries these and exactly one correction
    instruction, and the retry loop leaves the shared history as it
    was.  Three replies that fail to parse make the step raise the
    planning error.  When the step fails in the loop nothing is
    committed; when a reply parses, the committed history is the
    trimmed old history followed by exactly the prompt and that reply,
    so that no failed reply and no correction instruction is in it. *)
Theorem parse_retry_commit (eng : Engine) :
  let prompt := build_prompt cfg py (eng_rt eng) in
  let base := (Msg "system" (system_prompt cfg) :: eng_history eng
               ++ [Msg "user" prompt])%list in
  let attempts := parse_attempts cfg py col 3 1 base [] "" eng in
  let s := rt_steps (eng_rt eng) in
  (∃ new,
     eng_trace attempts.2 = (eng_trace eng ++ new)%list ∧
     (length (llm_requests new) ≤ 3)%nat ∧
     ∀ i a msgs, llm_requests new !! i = Some (a, msgs) →
       a = (1 + i)%nat ∧
       ((i = 0%nat ∧ msgs = base) ∨
        (i ≠ 0%nat ∧ ∃ e, msgs = (base ++ [recap_correction cfg e])%list)))
  ∧ eng_history attempts.2 = eng_history eng
  ∧ (∀ e1 e2 e3,
       cancel_requested col s = false →
       cancel_requested col (S s) = false →
       cancel_requested col (S (S s)) = false →
       Z.of_nat (S (S s)) < recap_max_steps cfg →
       _parse_recap_info py (reply_content (llm_chat_messages col (S s) base))
         = Raise (JSONExtractionError e1) →
       _parse_recap_info py
         (reply_content (llm_chat_messages col (S (S s))
                           (base ++ [recap_correction cfg e1])))
         = Raise (JSONExtractionError e2) →
       _parse_recap_info py
         (reply_content (llm_chat_messages col (S (S (S s)))
                           (base ++ [recap_correction cfg e2])))
         = Raise (JSONExtractionError e3) →
       plan_step cfg py col eng
         = Raised (RecapError
             ("Failed to obtain valid ReCAP JSON after retries. Last error: " ++ e3))
             attempts.2
       ∧ length (llm_requests (eng_trace attempts.2))
         = (length (llm_requests (eng_trace eng)) + 3)%nat)
  ∧ (cancel_requested col s = false →
     match attempts.1 with
     | Raise e => plan_step cfg py col eng = Raised e attempts.2
     | Ok (raw, info) =>
       let exchange := [Msg "user" prompt; Msg "assistant" (reply_content raw)] in
       let h' := eng_history (outcome_engine (plan_step cfg py col eng)) in
       _parse_recap_info py (reply_content raw) = Ok info ∧
       h' = _trim_history (eng_history eng ++ exchange) (recap_max_rounds cfg) ∧
       exchange `suffix_of` h' ∧
       ∀ m, m ∈ h' →
         m ∈ eng_history eng ∨ m = Msg "user" prompt
         ∨ m = Msg "assistant" (reply_content raw)
     end).
Proof.
  intros prompt base attempts s.
  pose proof (parse_attempts_spec 3 1 base [] "" eng) as Hspec.
  cbv zeta in Hspec. fold attempts in Hspec.
  destruct Hspec as (Hhist & (new & Htrace & Hlen & Hsteps & Hshape) & Hok).
  split; [|split; [done|split]].
  - exists new. split; [done|]. split; [done|].
    intros i a msgs Hi. destruct (Hshape i a msgs Hi) as [-> Hm].
    split; [done|]. rewrite app_nil_r in Hm. done.
  - intros e1 e2 e3 Hc1 Hc2 Hc3 Hbudget H1 H2 H3.
    assert (steps_exhausted cfg (eng_rt eng) = false) as Hb1.
    { unfold steps_exhausted. apply Z.leb_gt. fold s. lia. }
    assert (attempts =
            (Raise (RecapError
               ("Failed to obtain valid ReCAP JSON after retries. Last error: " ++ e3)),
             attempts.2)
            ∧ length (llm_requests (eng_trace attempts.2))
              = (length (llm_requests (eng_trace eng)) + 3)%nat) as [Hatt Hcount].
    { subst attempts. cbn [parse_attempts]. fold s.
      rewrite Hc1, Hb1. cbn [with_steps rt_steps eng_rt].
      rewrite app_nil_r. fold s. rewrite H1.
      unfold steps_exhausted. cbn [with_steps rt_steps eng_rt]. fold s.
      rewrite Hc2. rewrite (proj2 (Z.leb_gt _ _)) by lia.
      unfold recap_correction in H2, H3. rewrite H2.
      cbn [with_steps rt_steps eng_rt]. rewrite Hc3.
      rewrite (proj2 (Z.leb_gt _ _)) by lia. rewrite H3.
      cbn [fst snd eng_trace]. split; [done|].
      rewrite !llm_requests_app, !length_app. simpl. lia. }
    split; [|done].
    unfold plan_step. fold s. rewrite Hc1. fold prompt base attempts.
    by rewrite Hatt.
  - intros Hc. unfold plan_step. fold s. rewrite Hc. fold prompt base attempts.
    destruct attempts as [[[raw info]|e] eng1] eqn:Hatt; simpl in *; [|done].
    split; [by apply Hok|].
    rewrite dispatch_history, commit_exchange_history, Hhist.
    split; [done|]. apply trim_history_commit.
Qed.

End ParseRetry.

Lemma parse_retry_commit_witness :
  plan_step sample_cfg sample_py (sample_col script_bad3) (engine_init sample_cfg)
  = Raised (RecapError
      ("Failed to obtain valid ReCAP JSON after retries. Last error: "
       ++ "No JSON object found in response."))
      (parse_attempts sample_cfg sample_py (sample_col script_bad3) 3 1
         [Msg "system" "system"; Msg "user" "User request";
          Msg "user" "DOWN Generate catalyst recipe recommendations."]
         [] "" (engine_init sample_cfg)).2.
Proof.
  destruct (parse_retry_commit sample_cfg sample_py (sample_col script_bad3)
              (engine_init sample_cfg)) as (_ & _ & Hfatal & _).
  destruct (Hfatal "No JSON object found in response."
              "No JSON object found in response."
              "No JSON object found in response.") as [Hstep _].
  - reflexivity.
  - reflexivity.
  - reflexivity.
  - vm_compute. reflexivity.
  - vm_compute. reflexivity.
  - vm_compute. reflexivity.
  - vm_compute. reflexivity.
  - exact Hstep.
Defined.

(** C8 as stated fails: the loop of the source gives up after the third
    reply that does not parse, where a call retried up to three times
    would make a fourth call and, with a model that answers well the
    fourth time, succeed. *)
Lemma parse_retry_counterexample :
  let base := [Msg "system" "system"; Msg "user" "User request";
               Msg "user" "DOWN Generate catalyst recipe recommendations."] in
  (parse_attempts sample_cfg sample_py (sample_col script_bad3) 3 1 base [] ""
     (engine_init sample_cfg)).1
  = Raise (RecapError
      ("Failed to obtain valid ReCAP JSON after retries. Last error: "
       ++ "No JSON object found in response."))
  ∧ (claimed_parse_attempts sample_cfg sample_py (sample_col script_bad3) base
       (engine_init sample_cfg)).1
    = Ok (text_reply reply_done, mkRecapInfo "finished" [] "summary [C1]")
  ∧ length (llm_requests
      (eng_trace (outcome_engine
         (plan_step sample_cfg sample_py (sample_col script_bad3)
            (engine_init sample_cfg))))) = 3%nat.
Proof. vm_compute. done. Qed.

(** ** Final-answer acceptance *)

Section FinalAcceptance.
Context (cfg : Config) (py : PyLib) (col : Collab).

Lemma resolve_aliases_Some (aliases : list string) (m : gmap string string)
    (out : list (string * string)) :
  resolve_aliases aliases m = Some out →
  out.*1 = aliases ∧ ∀ a ref, (a, ref) ∈ out → m !! a = Some ref.
Proof.
  revert out. induction aliases as [|a rest IH]; intros out; simpl.
  - intros [= <-]. split; [done|]. intros a ref Hin. by apply elem_of_nil in Hin.
  - destruct (m !! a) as [ref|] eqn:Ha; [|done].
    destruct (resolve_aliases rest m) as [out'|]; [|done].
    intros [= <-]. destruct (IH out' eq_refl) as [Hfst Hall].
    split; [by rewrite fmap_cons, Hfst|].
    intros a' ref' [Heq|Hin]%elem_of_cons; [by simplify_eq|by apply Hall].
Qed.

Lemma has_citation_false (text : string) :
  has_citation py text = false ↔
  extract_citation_aliases (py_unicode py) text = [] ∧ extract_memory_ids (py_unicode py) text = [].
Proof.
  unfold has_citation. rewrite negb_false_iff, andb_true_iff.
  by rewrite !bool_decide_eq_true.
Qed.

Lemma lacks_citation_obj (f : list (string * JSON)) :
  lacks_citation py (JObj f) = negb (has_citation py (rationale_of py f)).
Proof. unfold has_citation. by rewrite negb_involutive. Qed.

Lemma missing_citations_0 (recipes : list JSON) :
  missing_citations py recipes = 0%nat ↔
  ∀ f, JObj f ∈ recipes → has_citation py (rationale_of py f) = true.
Proof.
  unfold missing_citations. rewrite length_zero_iff_nil. split.
  - intros Hnil f Hin. destruct (has_citation py (rationale_of py f)) eqn:Hc; [done|].
    assert (JObj f ∈ filter (λ r, lacks_citation py r = true) recipes) as Hf.
    { apply list_elem_of_filter. split; [|done].
      by rewrite lacks_citation_obj, Hc. }
    rewrite Hnil in Hf. by apply elem_of_nil in Hf.
  - intros Hall.
    destruct (filter (λ r, lacks_citation py r = true) recipes) as [|r rest] eqn:Hf;
      [done|].
    assert (r ∈ filter (λ r, lacks_citation py r = true) recipes) as Hin
      by (rewrite Hf; left).
    apply list_elem_of_filter in Hin as [Hl Hin].
    destruct r as [| | | | |f]; try discriminate Hl.
    rewrite lacks_citation_obj, (Hall f Hin) in Hl. discriminate Hl.
Qed.

(** What an accepted final answer is known to satisfy. *)
Lemma validate_final_Accept (rt : RuntimeState) (parsed : list (string * JSON))
    (citations : list (string * string)) (used_mem_ids : list string) :
  validate_final cfg py rt parsed = Accept citations used_mem_ids →
  let text_dump := json_dumps py (JObj parsed) in
  ∃ recipes,
    assoc_get "recipes" parsed = Some (JArr recipes) ∧
    Z.of_nat (length recipes) = recipes_per_run cfg ∧
    (∀ f, JObj f ∈ recipes → has_citation py (rationale_of py f) = true) ∧
    has_citation py text_dump = true ∧
    used_mem_ids = extract_memory_ids (py_unicode py) text_dump ∧
    citations.*1 = extract_citation_aliases (py_unicode py) text_dump ∧
    (∀ a, a ∈ extract_citation_aliases (py_unicode py) text_dump →
          ∃ ref, kb_alias_map (rt_kb rt) !! a = Some ref ∧ (a, ref) ∈ citations) ∧
    (∀ m, m ∈ used_mem_ids →
          ∃ it, mem_id_to_item (rt_mem rt) !! m = Some it ∧ mem_status it = "active").
Proof.
  intros Hv. cbv zeta. unfold validate_final in Hv.
  set (text_dump := json_dumps py (JObj parsed)) in *.
  destruct (assoc_get "recipes" parsed) as [[| | | |recipes|]|]; try discriminate Hv.
  case_bool_decide as Hlen; [discriminate Hv|].
  destruct (missing_citations py recipes =? 0)%nat eqn:Hmiss; [|discriminate Hv].
  simpl in Hv.
  destruct (bool_decide (extract_citation_aliases (py_unicode py) text_dump = [])
            && bool_decide (extract_memory_ids (py_unicode py) text_dump = [])) eqn:Hany;
    [discriminate Hv|].
  destruct (resolve_aliases _ _) as [cit|] eqn:Hres; [|discriminate Hv].
  case_bool_decide as Hinv; [|discriminate Hv]. simpl in Hv.
  case_bool_decide as Harch; [|discriminate Hv]. simpl in Hv.
  injection Hv as <- <-.
  exists recipes. split; [done|].
  split.
  { destruct (decide (Z.of_nat (length recipes) = recipes_per_run cfg));
      [done|by destruct Hlen]. }
  split; [by apply missing_citations_0, Nat.eqb_eq|].
  split; [unfold has_citation; by rewrite Hany|].
  split; [done|].
  destruct (resolve_aliases_Some _ _ _ Hres) as [Hfst Hall].
  split; [done|]. split.
  - intros a Ha. rewrite <- Hfst in Ha.
    apply list_elem_of_fmap in Ha as [[a' ref] [-> Hin]].
    exists ref. split; [by apply Hall|done].
  - intros m Hm.
    destruct (mem_id_to_item (rt_mem rt) !! m) as [it|] eqn:Hit.
    + exists it. split; [done|].
      destruct (decide (mem_status it = "active")) as [|Hne]; [done|].
      assert (m ∈ archived_mem (rt_mem rt) (extract_memory_ids (py_unicode py) text_dump)) as Hin.
      { apply list_elem_of_filter. split; [|done].
        unfold is_archived. rewrite Hit. by apply bool_decide_eq_true. }
      rewrite Harch in Hin. by apply elem_of_nil in Hin.
    + assert (m ∈ invalid_mem (rt_mem rt) (extract_memory_ids (py_unicode py) text_dump)) as Hin.
      { by apply list_elem_of_filter. }
      rewrite Hinv in Hin. by apply elem_of_nil in Hin.
Qed.

Lemma validate_final_with_steps (k : nat) (rt : RuntimeState)
    (parsed : list (string * JSON)) :
  validate_final cfg py (with_steps k rt) parsed = validate_final cfg py rt parsed.
Proof. reflexivity. Qed.

(** A turn that ends with a refused final answer. *)
Lemma generate_turns_refused (n turn : nat) (gs : GenState) :
  let rt := eng_rt (gen_eng gs) in
  let s := rt_steps rt in
  let gen_messages := Msg "system" (system_prompt cfg) :: gen_history gs in
  let final_messages := (gen_messages ++ [final_instruction])%list in
  let final_raw := llm_chat_messages col (S (S s)) final_messages in
  cancel_requested col s = false →
  Z.of_nat (S s) < recap_max_steps cfg →
  reply_tool_calls (llm_chat_messages col (S s) gen_messages) = [] →
  match extract_first_json_object py (reply_content final_raw) with
  | Ok (JObj parsed) =>
    match validate_final cfg py rt parsed with
    | Reject c =>
      generate_turns cfg py col (S n) turn gs
      = generate_turns cfg py col n (S turn)
          (after_turn cfg col turn gs [Msg "user" (correction_text cfg c)]
                      (format_errors gs))
    | Accept citations used_mem_ids =>
      ∃ eng', generate_turns cfg py col (S n) turn gs
              = Finished (JObj parsed) citations used_mem_ids eng'
    end
  | Raise (JSONExtractionError e) =>
    if (format_errors gs <? 2)%nat then
      generate_turns cfg py col (S n) turn gs
      = generate_turns cfg py col n (S turn)
          (after_turn cfg col turn gs [Msg "user" (correction_text cfg (CorrFormatError e))]
                      (S (format_errors gs)))
    else
      generate_turns cfg py col (S n) turn gs
      = Raised (RecapError
          ("generate_recipes final output is not valid JSON after retries: " ++ e))
          (gen_eng (after_turn cfg col turn gs [] (format_errors gs)))
  | _ => True
  end.
Proof.
  intros rt s gen_messages final_messages final_raw Hcancel Hbudget Hcalls.
  set (r := extract_first_json_object py (reply_content final_raw)).
  cbn [generate_turns]. fold rt s. rewrite Hcancel.
  unfold steps_exhausted. fold s.
  rewrite (proj2 (Z.leb_gt _ _)) by lia.
  cbn [with_steps rt_steps eng_rt gen_eng gen_step]. fold gen_messages.
  rewrite Hcalls.
  cbn [with_steps rt_steps eng_rt gen_eng gen_step gen_history format_errors].
  fold s. rewrite (proj2 (Z.leb_gt _ _)) by lia.
  rewrite !app_nil_r.
  change (extract_first_json_object py _) with r.
  unfold after_turn. fold rt s gen_messages final_messages final_raw.
  cbn [eng_history eng_trace gen_eng opened_aliases opened_mem_ids gen_history
       format_errors].
  rewrite <- !app_assoc. cbn [app].
  clearbody r. destruct r as [[| | | | |parsed]|[]]; try done.
  - set (v := validate_final cfg py rt parsed).
    change (validate_final cfg py _ parsed) with v. clearbody v.
    destruct v as [cit mems|c]; [by eexists|].
    f_equal. unfold gen_step.
    cbn [eng_history eng_trace gen_eng opened_aliases opened_mem_ids gen_history
         format_errors].
    by rewrite !app_nil_r, <- !app_assoc.
  - destruct (format_errors gs) as [|[|k]]; cbn [Nat.leb Nat.ltb];
      f_equal; unfold gen_step;
      cbn [eng_history eng_trace gen_eng opened_aliases opened_mem_ids gen_history
           format_errors];
      by rewrite ?app_nil_r, <- ?app_assoc.
Qed.

(** The generation loop returns only what the checks accepted, and
    never hands the run back to the planning loop. *)
Lemma generate_turns_Finished (n turn : nat) (gs : GenState) (parsed : JSON)
    (citations : list (string * string)) (used_mem_ids : list string) (eng' : Engine) :
  generate_turns cfg py col n turn gs = Finished parsed citations used_mem_ids eng' →
  ∃ f, parsed = JObj f ∧
       validate_final cfg py (eng_rt eng') f = Accept citations used_mem_ids.
Proof.
  revert turn gs. induction n as [|n IH]; intros turn gs; simpl; [done|].
  destruct (cancel_requested col _); [done|].
  destruct (steps_exhausted cfg (eng_rt (gen_eng gs))); [done|].
  destruct (reply_tool_calls _) as [|tc calls] eqn:Hcalls.
  - destruct (steps_exhausted cfg _); [done|].
    destruct (extract_first_json_object py _) as [[| | | | |f]|[]]; simpl; try done.
    + destruct (validate_final cfg py _ f) as [cit mems|c] eqn:Hv; simpl.
      * intros [= <- <- <- <-]. exists f. split; [done|]. exact Hv.
      * apply IH.
    + match goal with |- context [if ?b then _ else _] => destruct b end;
        simpl; [done|]. apply IH.
  - match goal with |- context [run_tool_calls ?a ?b ?c ?d ?e ?f] =>
      destruct (run_tool_calls a b c d e f) as [[u|e'] gs3] end; simpl.
    + apply IH.
    + done.
Qed.

Lemma generate_turns_not_Continue (n turn : nat) (gs : GenState) (eng' : Engine) :
  generate_turns cfg py col n turn gs ≠ Continue eng'.
Proof.
  revert turn gs. induction n as [|n IH]; intros turn gs; simpl; [done|].
  destruct (cancel_requested col _); [done|].
  destruct (steps_exhausted cfg (eng_rt (gen_eng gs))); [done|].
  destruct (reply_tool_calls _) as [|tc calls] eqn:Hcalls.
  - destruct (steps_exhausted cfg _); [done|].
    destruct (extract_first_json_object py _) as [[| | | | |f]|[]]; simpl; try done.
    + destruct (validate_final cfg py _ f) as [cit mems|c] eqn:Hv; simpl; [done|].
      apply IH.
    + match goal with |- context [if ?b then _ else _] => destruct b end;
        simpl; [done|]. apply IH.
  - match goal with |- context [run_tool_calls ?a ?b ?c ?d ?e ?f] =>
      destruct (run_tool_calls a b c d e f) as [[u|e'] gs3] end; simpl.
    + apply IH.
    + done.
Qed.

Lemma primitive_action_not_Finished (first : Subtask) (rest : list Subtask)
    (eng : Engine) (parsed : JSON) (citations : list (string * string))
    (used_mem_ids : list string) (eng' : Engine) :
  primitive_action cfg col first rest eng ≠ Finished parsed citations used_mem_ids eng'.
Proof.
  unfold primitive_action.
  repeat first
    [ done
    | case_bool_decide
    | match goal with
      | |- context [match ?x with _ => _ end] => destruct x eqn:?
      | |- context [if ?b then _ else _] => destruct b eqn:?
      end ]; simpl; try done.
Qed.

Lemma plan_step_Finished (eng : Engine) (parsed : JSON)
    (citations : list (string * string)) (used_mem_ids : list string) (eng' : Engine) :
  plan_step cfg py col eng = Finished parsed citations used_mem_ids eng' →
  ∃ f, parsed = JObj f ∧
       validate_final cfg py (eng_rt eng') f = Accept citations used_mem_ids.
Proof.
  unfold plan_step. destruct (cancel_requested col _); [done|].
  destruct (parse_attempts _ _ _ _ _ _ _ _ _) as [[[raw info]|e] eng1]; [|done].
  unfold dispatch. destruct (info_subtasks info) as [|first rest].
  - unfold task_done. destruct (_ && _); [done|]. by destruct (node_parent _).
  - destruct first;
      try (intros Hp; by apply primitive_action_not_Finished in Hp).
    unfold generate_recipes.
    destruct (_ || _); [done|]. destruct (_ && _); [done|].
    apply generate_turns_Finished.
Qed.

Lemma run_loop_Finished (fuel : nat) (eng : Engine) (parsed : JSON)
    (citations : list (string * string)) (used_mem_ids : list string) (eng' : Engine) :
  run_loop cfg py col fuel eng = Some (Finished parsed citations used_mem_ids eng') →
  ∃ f, parsed = JObj f ∧
       validate_final cfg py (eng_rt eng') f = Accept citations used_mem_ids.
Proof.
  revert eng. induction fuel as [|fuel IH]; intros eng; simpl; [done|].
  destruct (plan_step cfg py col eng) as [eng1|p c m eng1|e eng1] eqn:Hstep.
  - apply IH.
  - intros [= <- <- <- <-]. by eapply plan_step_Finished.
  - done.
Qed.

(** The trace of a generation: at most one final answer is asked for
    in each turn. *)
Lemma final_requests_app (t1 t2 : list TraceEvent) :
  final_requests (t1 ++ t2) = (final_requests t1 ++ final_requests t2)%list.
Proof. apply omap_app. Qed.

Lemma run_tool_trace (name : string) (args : JSON) (gs : GenState) :
  ∃ evs, eng_trace (gen_eng (run_tool cfg py col name args gs).2)
         = (eng_trace (gen_eng gs) ++ evs)%list ∧ final_requests evs = [].
Proof.
  unfold run_tool.
  repeat first
    [ by (exists []; rewrite app_nil_r)
    | by (eexists [_])
    | case_bool_decide
    | match goal with
      | |- context [match ?x with _ => _ end] => destruct x eqn:?
      | |- context [if ?b then _ else _] => destruct b eqn:?
      end ]; simpl.
Qed.

Lemma run_tool_calls_trace (turn : nat) (calls : list ToolCall) (gs : GenState) :
  ∃ evs, eng_trace (gen_eng (run_tool_calls cfg py col turn calls gs).2)
         = (eng_trace (gen_eng gs) ++ evs)%list ∧ final_requests evs = [].
Proof.
  revert gs. induction calls as [|tc calls IH]; intros gs; simpl.
  { exists []. by rewrite app_nil_r. }
  destruct (run_tool_trace (strip (tc_name tc))
              (tool_args py (tc_arguments tc)) gs) as (evs1 & Ht1 & Hf1).
  destruct (run_tool cfg py col (strip (tc_name tc)) _ gs) as [[obs|e] gs1];
    simpl in Ht1; [|by exists evs1].
  match goal with |- context [run_tool_calls _ _ _ _ _ ?g] =>
    destruct (IH g) as (evs2 & Ht2 & Hf2) end.
  simpl in Ht2. exists (evs1 ++ evs2)%list. split.
  - by rewrite Ht2, Ht1, app_assoc.
  - by rewrite final_requests_app, Hf1, Hf2.
Qed.

Lemma generate_turns_final_requests (n turn : nat) (gs : GenState) :
  ∃ new, eng_trace (outcome_engine (generate_turns cfg py col n turn gs))
         = (eng_trace (gen_eng gs) ++ new)%list
         ∧ (length (final_requests new) ≤ n)%nat.
Proof.
  revert turn gs. induction n as [|n IH]; intros turn gs.
  { exists []. simpl. by rewrite app_nil_r. }
  assert (∀ evs (g : GenState),
            eng_trace (gen_eng g) = (eng_trace (gen_eng gs) ++ evs)%list →
            (length (final_requests evs) ≤ 1)%nat →
            ∃ new, eng_trace (outcome_engine (generate_turns cfg py col n (S turn) g))
                   = (eng_trace (gen_eng gs) ++ new)%list
                   ∧ (length (final_requests new) ≤ S n)%nat) as Hnext.
  { intros evs g Hg Hevs. destruct (IH (S turn) g) as (new & Hnew & Hlen).
    exists (evs ++ new)%list. split.
    - by rewrite Hnew, Hg, app_assoc.
    - rewrite final_requests_app, length_app. lia. }
  assert (∀ evs (t : list TraceEvent),
            t = (eng_trace (gen_eng gs) ++ evs)%list →
            (length (final_requests evs) ≤ 1)%nat →
            ∃ new, t = (eng_trace (gen_eng gs) ++ new)%list
                   ∧ (length (final_requests new) ≤ S n)%nat) as Hstop.
  { intros evs e He Hevs. exists evs. split; [done|lia]. }
  cbn [generate_turns].
  destruct (cancel_requested col _).
  { simpl. apply (Hstop []); simpl; [by rewrite app_nil_r|lia]. }
  destruct (steps_exhausted cfg (eng_rt (gen_eng gs))).
  { simpl. apply (Hstop []); simpl; [by rewrite app_nil_r|lia]. }
  destruct (reply_tool_calls _) as [|tc calls] eqn:Hcalls.
  - destruct (steps_exhausted cfg _).
    { simpl. eapply Hstop; [done|]. simpl. lia. }
    destruct (extract_first_json_object py _) as [[| | | | |f]|[]]; simpl;
      try (eapply Hstop; [by rewrite <- ?app_assoc|simpl; lia]).
    + destruct (validate_final cfg py _ f) as [cit mems|c]; simpl.
      * eapply Hstop; [by rewrite <- ?app_assoc|simpl; lia].
      * eapply Hnext; simpl; [by rewrite <- ?app_assoc|simpl; lia].
    + match goal with |- context [if ?b then _ else _] => destruct b end; simpl.
      * eapply Hstop; [by rewrite <- ?app_assoc|simpl; lia].
      * eapply Hnext; simpl; [by rewrite <- ?app_assoc|simpl; lia].
  - match goal with |- context [run_tool_calls ?a ?b ?c ?d ?e ?f] =>
      destruct (run_tool_calls_trace d e f) as (evs & Ht & Hf);
      destruct (run_tool_calls a b c d e f) as [[u|e'] gs3] end; simpl in Ht.
    + eapply Hnext; [rewrite Ht; by rewrite <- ?app_assoc|].
      rewrite !final_requests_app, Hf. simpl. lia.
    + simpl. eapply Hstop; [rewrite Ht; by rewrite <- ?app_assoc|].
      rewrite !final_requests_app, Hf. simpl. lia.
Qed.

Lemma generate_recipes_final_requests (rest : list Subtask) (eng : Engine) :
  ∃ new, eng_trace (outcome_engine (generate_recipes cfg py col rest eng))
         = (eng_trace eng ++ new)%list
         ∧ (length (final_requests new) ≤ 20)%nat.
Proof.
  unfold generate_recipes.
  destruct (_ || _). { exists []. simpl. split; [by rewrite app_nil_r|lia]. }
  destruct (_ && _). { exists []. simpl. split; [by rewrite app_nil_r|lia]. }
  apply generate_turns_final_requests.
Qed.

(** C4. Final-answer acceptance, as the code makes it.  A parsed final
    answer is accepted only if its recipes are a list of exactly
    [recipes_per_run] entries, every recipe that is an object has a
    rationale holding a citation token, the serialised answer
    ([json.dumps]) holds a citation token, every alias found in the
    serialised answer is in the alias map of the run and every memory
    id found in the serialised answer is in the memory registry of the
    run with status active; the tokens are those of the serialised
    answer, not those of the rationales.  A run ends with a final
    answer only when that answer is an object that passed these
    checks.  A turn whose final
    answer is refused by the checks appends the corrective instruction
    and asks again, so do the first and the second answer that is not
    JSON, and the third answer that is not JSON raises the error of
    the run at once.  The generation asks for at most 20 final
    answers, never hands the run back to the planning loop, and with no
    turn left it raises the error of the run. *)
Theorem final_acceptance (n turn : nat) (gs : GenState) :
  let rt := eng_rt (gen_eng gs) in
  let s := rt_steps rt in
  let gen_messages := Msg "system" (system_prompt cfg) :: gen_history gs in
  let final_messages := (gen_messages ++ [final_instruction])%list in
  let final_raw := llm_chat_messages col (S (S s)) final_messages in
  (∀ parsed citations used_mem_ids,
     validate_final cfg py rt parsed = Accept citations used_mem_ids →
     let text_dump := json_dumps py (JObj parsed) in
     ∃ recipes,
       assoc_get "recipes" parsed = Some (JArr recipes) ∧
       Z.of_nat (length recipes) = recipes_per_run cfg ∧
       (∀ f, JObj f ∈ recipes → has_citation py (rationale_of py f) = true) ∧
       has_citation py text_dump = true ∧
       used_mem_ids = extract_memory_ids (py_unicode py) text_dump ∧
       citations.*1 = extract_citation_aliases (py_unicode py) text_dump ∧
       (∀ a, a ∈ extract_citation_aliases (py_unicode py) text_dump →
             ∃ ref, kb_alias_map (rt_kb rt) !! a = Some ref ∧ (a, ref) ∈ citations) ∧
       (∀ m, m ∈ used_mem_ids →
             ∃ it, mem_id_to_item (rt_mem rt) !! m = Some it
                   ∧ mem_status it = "active"))
  ∧ (∀ fuel eng parsed citations used_mem_ids eng',
       run_loop cfg py col fuel eng
         = Some (Finished parsed citations used_mem_ids eng') →
       ∃ f, parsed = JObj f ∧
            validate_final cfg py (eng_rt eng') f = Accept citations used_mem_ids)
  ∧ (cancel_requested col s = false →
     Z.of_nat (S s) < recap_max_steps cfg →
     reply_tool_calls (llm_chat_messages col (S s) gen_messages) = [] →
     match extract_first_json_object py (reply_content final_raw) with
     | Ok (JObj parsed) =>
       match validate_final cfg py rt parsed with
       | Reject c =>
         generate_turns cfg py col (S n) turn gs
         = generate_turns cfg py col n (S turn)
             (after_turn cfg col turn gs [Msg "user" (correction_text cfg c)]
                         (format_errors gs))
       | Accept citations used_mem_ids =>
         ∃ eng', generate_turns cfg py col (S n) turn gs
                 = Finished (JObj parsed) citations used_mem_ids eng'
       end
     | Raise (JSONExtractionError e) =>
       if (format_errors gs <? 2)%nat then
         generate_turns cfg py col (S n) turn gs
         = generate_turns cfg py col n (S turn)
             (after_turn cfg col turn gs
                [Msg "user" (correction_text cfg (CorrFormatError e))]
                (S (format_errors gs)))
       else
         generate_turns cfg py col (S n) turn gs
         = Raised (RecapError
             ("generate_recipes final output is not valid JSON after retries: " ++ e))
             (gen_eng (after_turn cfg col turn gs [] (format_errors gs)))
     | _ => True
     end)
  ∧ generate_turns cfg py col 0 turn gs
    = Raised (RecapError
        "generate_recipes exceeded maximum turns without producing a valid final output.")
        (gen_eng gs)
  ∧ (∀ eng', generate_turns cfg py col n turn gs ≠ Continue eng')
  ∧ (∀ rest eng,
       ∃ new, eng_trace (outcome_engine (generate_recipes cfg py col rest eng))
              = (eng_trace eng ++ new)%list
              ∧ (length (final_requests new) ≤ 20)%nat).
Proof.
  intros rt s gen_messages final_messages final_raw.
  split; [|split; [|split; [|split; [|split]]]].
  - intros parsed citations used_mem_ids. apply validate_final_Accept.
  - intros fuel eng parsed citations used_mem_ids eng'. apply run_loop_Finished.
  - apply generate_turns_refused.
  - reflexivity.
  - intros eng'. apply generate_turns_not_Continue.
  - apply generate_recipes_final_requests.
Qed.

End FinalAcceptance.

Lemma final_acceptance_witness :
  (∃ f,
     JObj [("recipes", JArr [JObj [("rationale", JStr "as shown in [C1]")]])] = JObj f
     ∧ validate_final sample_cfg sample_py (eng_rt (sample_final_engine script_good)) f
       = Accept [("C1", "kb:a")] [])
  ∧ generate_turns sample_cfg sample_py (sample_col (λ _, text_reply "oops")) 20 1
      sample_gen_state
    = generate_turns sample_cfg sample_py (sample_col (λ _, text_reply "oops")) 19 2
        (after_turn sample_cfg (sample_col (λ _, text_reply "oops")) 1 sample_gen_state
           [Msg "user" "FORMAT ERROR: No JSON object found in response."] 1).
Proof.
  split.
  - destruct (final_acceptance sample_cfg sample_py (sample_col script_good) 0 0
                sample_gen_state) as (_ & Hdone & _).
    apply (Hdone 5%nat (engine_init sample_cfg)).
    vm_compute. reflexivity.
  - destruct (final_acceptance sample_cfg sample_py
                (sample_col (λ _, text_reply "oops")) 19 1 sample_gen_state)
      as (_ & _ & Hturn & _).
    assert (Z.of_nat (S (rt_steps (eng_rt (gen_eng sample_gen_state))))
            < recap_max_steps sample_cfg) as Hbudget by (vm_compute; reflexivity).
    pose proof (Hturn eq_refl Hbudget eq_refl) as Hstep.
    vm_compute in Hstep. vm_compute. exact Hstep.
Defined.

(** C4, the answer that gets through.  The rationale of the only
    recipe cites [C1] and, at the start of its second line, a memory
    id.  The check of the rationales reads the rationale itself and
    finds the two tokens.  The checks of the citations read the
    serialised answer, where the line feed in front of [mem:] is
    written as a backslash and the letter n: no word boundary is left
    in front of [mem:], the memory id is not found, and it is never
    looked up.  The run ends with this answer although the memory is
    not in the registry of the run, and the answer is accepted as well
    when the registry holds the memory as archived. *)
Lemma final_acceptance_counterexample :
  let rationale := "as shown in [C1] and in" ++ nl ++ "mem:" ++ unknown_mem_id in
  let fields := [("recipes", JArr [JObj [("rationale", JStr rationale)]])] in
  let rt_archived :=
    with_mem (λ _, archived_registry) (eng_rt (sample_final_engine script_good)) in
  extract_memory_ids sample_unicode rationale = [unknown_mem_id]
  ∧ extract_memory_ids sample_unicode (json_dumps sample_py (JObj fields)) = []
  ∧ (∃ eng',
       run_loop sample_cfg sample_py (sample_col script_hidden) 5
         (engine_init sample_cfg)
         = Some (Finished (JObj fields) [("C1", "kb:a")] [] eng')
       ∧ mem_id_to_item (rt_mem (eng_rt eng')) !! unknown_mem_id = None
       ∧ ¬ claimed_acceptable sample_cfg sample_py (eng_rt eng') (JObj fields))
  ∧ validate_final sample_cfg sample_py rt_archived fields = Accept [("C1", "kb:a")] []
  ∧ mem_status <$> mem_id_to_item (rt_mem rt_archived) !! unknown_mem_id
    = Some "archived"
  ∧ ¬ claimed_acceptable sample_cfg sample_py rt_archived (JObj fields).
Proof.
  intros rationale fields rt_archived.
  assert (∀ rt, claimed_acceptable sample_cfg sample_py rt (JObj fields) →
                ∃ it, mem_id_to_item (rt_mem rt) !! unknown_mem_id = Some it
                      ∧ mem_status it = "active") as Hclaimed.
  { intros rt (f & rs & Hf & Hrec & _ & _ & _ & Hmem).
    injection Hf as <-. vm_compute in Hrec. injection Hrec as <-.
    apply Hmem. vm_compute. left. }
  split; [vm_compute; reflexivity|].
  split; [vm_compute; reflexivity|].
  split.
  { eexists. split; [vm_compute; reflexivity|].
    split; [vm_compute; reflexivity|].
    intros (it & Hit & _)%Hclaimed. vm_compute in Hit. discriminate Hit. }
  split; [vm_compute; reflexivity|].
  split; [vm_compute; reflexivity|].
  intros (it & Hit & Hst)%Hclaimed.
  vm_compute in Hit. injection Hit as <-. vm_compute in Hst. discriminate Hst.
Qed.

(** Two more turns of the generation.  A recipe that is not an object
    has no rationale and is passed over by the check of the
    rationales: a run ends with the answer whose only recipe is the
    number 5.  And the third final answer that is not JSON ends the
    run with an error at once, with no corrective instruction and
    seventeen turns left, although the model would answer well at its
    next call. *)
Lemma final_answer_passed_over :
  (∃ eng',
     run_loop sample_cfg sample_py (sample_col script_bare) 5 (engine_init sample_cfg)
       = Some (Finished
                 (JObj [("recipes", JArr [JNum 5]); ("overall_notes", JStr "see [C1]")])
                 [("C1", "kb:a")] [] eng')
     ∧ ¬ claimed_acceptable sample_cfg sample_py (eng_rt eng')
           (JObj [("recipes", JArr [JNum 5]); ("overall_notes", JStr "see [C1]")]))
  ∧ (∃ eng',
       run_loop sample_cfg sample_py (sample_col script_nojson) 5
         (engine_init sample_cfg)
         = Some (Raised (RecapError
                   ("generate_recipes final output is not valid JSON after retries: "
                    ++ "No JSON object found in response.")) eng')
       ∧ (final_requests (eng_trace eng')).*1 = [1; 2; 3]%nat
       ∧ script_nojson (S (rt_steps (eng_rt eng'))) = text_reply reply_final_good).
Proof.
  split.
  - eexists. split; [vm_compute; reflexivity|].
    intros (f & rs & Hf & Hrec & _ & Hall & _).
    injection Hf as <-. vm_compute in Hrec. injection Hrec as <-.
    specialize (Hall (JNum 5) (list_elem_of_here _ _)). discriminate Hall.
  - eexists. split; [vm_compute; reflexivity|]. split; vm_compute; reflexivity.
Qed.

(** ** The ReasoningBank store *)

Section MemoryStore.
Context (py : PyLib).

Lemma parse_status_Ok (value s : string) :
  _parse_status py value = Ok s → s = strip value ∧ s ∈ _RB_STATUSES.
Proof. unfold _parse_status. case_bool_decide; [|done]. by intros [= <-]. Qed.

Lemma parse_role_Ok (value s : string) :
  _parse_role py value = Ok s → s = strip value ∧ s ∈ _RB_ROLES.
Proof. unfold _parse_role. case_bool_decide; [|done]. by intros [= <-]. Qed.

Lemma parse_type_Ok (value s : string) :
  _parse_type py value = Ok s → s = strip value ∧ s ∈ _RB_TYPES.
Proof. unfold _parse_type. case_bool_decide; [|done]. by intros [= <-]. Qed.

Lemma parse_status_fix (s : string) :
  s ∈ _RB_STATUSES → _parse_status py (or_str s "active") = Ok s.
Proof.
  unfold _RB_STATUSES. rewrite !elem_of_cons, elem_of_nil.
  intros [->|[->|[]]]; reflexivity.
Qed.

Lemma parse_role_fix (s : string) :
  s ∈ _RB_ROLES → _parse_role py (or_str s "global") = Ok s.
Proof.
  unfold _RB_ROLES. rewrite !elem_of_cons, elem_of_nil.
  intros [->|[->|[->|[->|[]]]]]; reflexivity.
Qed.

Lemma parse_type_fix (s : string) :
  s ∈ _RB_TYPES → _parse_type py (or_str s "manual_note") = Ok s.
Proof.
  unfold _RB_TYPES. rewrite !elem_of_cons, elem_of_nil.
  intros [->|[->|[]]]; reflexivity.
Qed.

(** What a successful [upsert] returns and writes. *)
Lemma rb_upsert_Ok (utc_ts : Z) (new_uuid : string) (id : option string)
    (status role type content : string) (source_run_id : option string)
    (schema_version : Z) (extra : JSON) (now_ts : option Z) (preserve : bool)
    (c c' : Collection) (item : MemoryItem) :
  rb_upsert py utc_ts new_uuid id status role type content source_run_id
    schema_version extra now_ts preserve c = (Ok item, c') →
  ∃ existing,
    rb_get py c (mem_id item) = Ok existing ∧
    mem_id item = or_str (strip (or_empty id)) new_uuid ∧
    mem_status item = strip status ∧ mem_status item ∈ _RB_STATUSES ∧
    mem_role item = strip role ∧ mem_role item ∈ _RB_ROLES ∧
    mem_type item = strip type ∧ mem_type item ∈ _RB_TYPES ∧
    mem_content item = strip content ∧ mem_content item ≠ "" ∧
    mem_source_run_id item = strip <$> source_run_id ∧
    mem_updated_at item = default utc_ts now_ts ∧
    mem_created_at item
      = match existing with
        | Some ex => if preserve then mem_created_at ex else default utc_ts now_ts
        | None => default utc_ts now_ts
        end ∧
    mem_schema_version item = schema_version ∧
    mem_extra item = or_empty_dict extra ∧
    c' = <[mem_id item := (mem_content item, _item_to_metadata item)]> c.
Proof.
  unfold rb_upsert.
  destruct (rb_get py c _) as [existing|e] eqn:Hget; [|done].
  destruct (_parse_status py status) as [st|e] eqn:Hst; [|done].
  destruct (_parse_role py role) as [ro|e] eqn:Hro; [|done].
  destruct (_parse_type py type) as [ty|e] eqn:Hty; [|done].
  cbn [rbind mem_content mem_id].
  case_bool_decide as Hc; [done|].
  intros [= <- <-]. cbn.
  apply parse_status_Ok in Hst as [-> ?].
  apply parse_role_Ok in Hro as [-> ?].
  apply parse_type_Ok in Hty as [-> ?].
  exists existing. repeat split; done.
Qed.

(** A call of [upsert] that raises writes nothing. *)
Lemma rb_upsert_Raise (utc_ts : Z) (new_uuid : string) (id : option string)
    (status role type content : string) (source_run_id : option string)
    (schema_version : Z) (extra : JSON) (now_ts : option Z) (preserve : bool)
    (c c' : Collection) (e : Exn) :
  rb_upsert py utc_ts new_uuid id status role type content source_run_id
    schema_version extra now_ts preserve c = (Raise e, c') →
  c' = c.
Proof.
  unfold rb_upsert.
  destruct (rb_get py c _) as [existing|e0]; [|by intros [= _ <-]].
  destruct (_parse_status py status) as [st|e1]; [|by intros [= _ <-]].
  destruct (_parse_role py role) as [ro|e1]; [|by intros [= _ <-]].
  destruct (_parse_type py type) as [ty|e1]; [|by intros [= _ <-]].
  cbn [rbind mem_content]. case_bool_decide; [by intros [= _ <-]|done].
Qed.

Lemma rb_get_insert (item : MemoryItem) (c : Collection) :
  strip (mem_id item) = mem_id item → mem_id item ≠ "" →
  mem_status item ∈ _RB_STATUSES → mem_role item ∈ _RB_ROLES →
  mem_type item ∈ _RB_TYPES →
  rb_get py (<[mem_id item := (mem_content item, _item_to_metadata item)]> c)
    (mem_id item) = Ok (Some (stored_view item)).
Proof.
  intros Hid Hne Hst Hro Hty. unfold rb_get. rewrite Hid.
  rewrite bool_decide_eq_false_2 by done.
  rewrite lookup_insert_eq. unfold _metadata_to_item.
  cbn [_item_to_metadata meta_status meta_role meta_type meta_source_run_id
       meta_created_at meta_updated_at meta_schema_version meta_extra_json].
  rewrite (parse_status_fix _ Hst), (parse_role_fix _ Hro), (parse_type_fix _ Hty).
  cbn [rbind]. unfold stored_view. do 2 f_equal. f_equal.
  - destruct (mem_source_run_id item) as [s|]; cbn [or_empty default].
    + by rewrite !strip_idemp.
    + done.
  - unfold or_empty_dict. destruct (mem_extra item) as [| | | | |f]; try done.
    + by destruct b.
    + simpl. by destruct (_ =? _).
    + simpl. by case_bool_decide.
    + simpl. by case_bool_decide.
    + simpl. case_bool_decide as Hf; [|done]. simpl.
      destruct f; [done|]. by destruct Hf.
Qed.

Lemma rb_get_insert_ne (k id : string) (v : string * MemMeta) (c : Collection) :
  strip k ≠ id → rb_get py (<[id := v]> c) k = rb_get py c k.
Proof.
  intros Hne. unfold rb_get. case_bool_decide; [done|].
  by rewrite lookup_insert_ne.
Qed.

Lemma rb_get_Some (c : Collection) (id : string) (item : MemoryItem) :
  rb_get py c id = Ok (Some item) →
  mem_id item = strip id ∧ strip id ≠ "" ∧ is_Some (c !! strip id) ∧
  mem_status item ∈ _RB_STATUSES ∧ mem_role item ∈ _RB_ROLES ∧
  mem_type item ∈ _RB_TYPES.
Proof.
  unfold rb_get. case_bool_decide as Hid; [done|].
  destruct (c !! strip id) as [[doc meta]|] eqn:Hc; [|done].
  unfold _metadata_to_item.
  destruct (_parse_status py _) as [st|e] eqn:Hst; [|done].
  destruct (_parse_role py _) as [ro|e] eqn:Hro; [|done].
  destruct (_parse_type py _) as [ty|e] eqn:Hty; [|done].
  cbn [rbind]. intros [= <-]. cbn.
  apply parse_status_Ok in Hst as [_ ?].
  apply parse_role_Ok in Hro as [_ ?].
  apply parse_type_Ok in Hty as [_ ?].
  done.
Qed.

(** An item written by [upsert] is read back by [get] as it was
    written, up to the reading conventions of the metadata; the other
    items of the collection are read as before. *)
Theorem rb_upsert_get_round_trip (utc_ts : Z) (new_uuid : string) (id : option string)
    (status role type content : string) (source_run_id : option string)
    (schema_version : Z) (extra : JSON) (now_ts : option Z) (preserve : bool)
    (c c' : Collection) (item : MemoryItem) :
  strip new_uuid = new_uuid → new_uuid ≠ "" →
  rb_upsert py utc_ts new_uuid id status role type content source_run_id
    schema_version extra now_ts preserve c = (Ok item, c') →
  rb_get py c' (mem_id item) = Ok (Some (stored_view item))
  ∧ mem_content (stored_view item) = strip content
  ∧ mem_updated_at (stored_view item) = default utc_ts now_ts
  ∧ (∀ k, strip k ≠ mem_id item → rb_get py c' k = rb_get py c k).
Proof.
  intros Hu Hune Hup.
  apply rb_upsert_Ok in Hup
    as (existing & _ & Hid & _ & Hst & _ & Hro & _ & Hty & Hc & _ & _ & Hupd & _ & _ & _ & ->).
  assert (strip (mem_id item) = mem_id item ∧ mem_id item ≠ "") as [Hs Hne].
  { rewrite Hid. unfold or_str. case_bool_decide as Hb; [done|].
    by rewrite strip_idemp. }
  split; [by apply rb_get_insert|].
  split; [done|]. split; [done|].
  intros k Hk. by apply rb_get_insert_ne.
Qed.

(** [upsert] refuses a status, role or type that is not an allowed
    one and a content that is blank; a call that raises writes
    nothing. *)
Theorem rb_upsert_validation (utc_ts : Z) (new_uuid : string) (id : option string)
    (status role type content : string) (source_run_id : option string)
    (schema_version : Z) (extra : JSON) (now_ts : option Z) (preserve : bool)
    (c : Collection) :
  (strip status ∉ _RB_STATUSES ∨ strip role ∉ _RB_ROLES ∨ strip type ∉ _RB_TYPES
   ∨ strip content = "" →
   ∃ e, rb_upsert py utc_ts new_uuid id status role type content source_run_id
          schema_version extra now_ts preserve c = (Raise e, c))
  ∧ (∀ e c', rb_upsert py utc_ts new_uuid id status role type content source_run_id
               schema_version extra now_ts preserve c = (Raise e, c') → c' = c).
Proof.
  split; [|intros e c'; apply rb_upsert_Raise].
  intros Hbad. unfold rb_upsert.
  destruct (rb_get py c _) as [existing|e0]; [|by eexists].
  unfold _parse_status, _parse_role, _parse_type.
  case_bool_decide as Hst; [|by eexists]. cbn [rbind].
  case_bool_decide as Hro; [|by eexists]. cbn [rbind].
  case_bool_decide as Hty; [|by eexists]. cbn [rbind mem_content].
  case_bool_decide as Hc; [by eexists|].
  by destruct Hbad as [?|[?|[?|?]]].
Qed.

Lemma is_Some_insert_existing {V} (k k' : string) (v : V) (m : gmap string V) :
  is_Some (m !! k) → (is_Some (<[k := v]> m !! k') ↔ is_Some (m !! k')).
Proof.
  intros Hk. destruct (decide (k = k')) as [<-|Hne].
  - rewrite lookup_insert_eq. split; [done|by eexists].
  - by rewrite lookup_insert_ne.
Qed.

Lemma rb_get_extra (c : Collection) (id : string) (item : MemoryItem) :
  rb_get py c id = Ok (Some item) → or_empty_dict (mem_extra item) = mem_extra item.
Proof.
  unfold rb_get. case_bool_decide as Hid; [done|].
  destruct (c !! strip id) as [[doc meta]|] eqn:Hc; [|done].
  unfold _metadata_to_item.
  destruct (_parse_status py _) as [st|e]; [|done].
  destruct (_parse_role py _) as [ro|e]; [|done].
  destruct (_parse_type py _) as [ty|e]; [|done].
  cbn [rbind]. intros [= <-]. cbn [mem_extra].
  unfold or_empty_dict.
  destruct (meta_extra_json meta) as [| | | | |[|kv f]]; done.
Qed.

Lemma strip_allowed (s : string) :
  s ∈ _RB_STATUSES ∨ s ∈ _RB_ROLES ∨ s ∈ _RB_TYPES → strip s = s.
Proof.
  unfold _RB_STATUSES, _RB_ROLES, _RB_TYPES.
  rewrite !elem_of_cons, !elem_of_nil.
  intros [[->|[->|[]]]|[[->|[->|[->|[->|[]]]]]|[->|[->|[]]]]]; reflexivity.
Qed.

(** [archive] is a soft delete: the archived item keeps its identity,
    role, type, creation time and extra, its content up to blanks at
    its ends; no entry of the collection appears or disappears, the
    other items are read as before, an item that is archived already
    is returned as it is with nothing written, and archiving again
    writes nothing. *)
Theorem rb_archive_soft_delete (utc_ts utc_ts' : Z) (new_uuid new_uuid' id : string)
    (now_ts now_ts' : option Z) (c c' : Collection) (item : MemoryItem) :
  rb_archive py utc_ts new_uuid id now_ts c = (Ok item, c') →
  (∃ existing,
     rb_get py c id = Ok (Some existing) ∧
     mem_id item = mem_id existing ∧
     mem_status item = "archived" ∧
     mem_role item = mem_role existing ∧
     mem_type item = mem_type existing ∧
     mem_created_at item = mem_created_at existing ∧
     mem_extra item = mem_extra existing ∧
     (mem_status existing = "archived" → item = existing ∧ c' = c) ∧
     (mem_status existing ≠ "archived" →
      mem_content item = strip (mem_content existing) ∧
      mem_updated_at item = default utc_ts now_ts))
  ∧ (∀ k, is_Some (c' !! k) ↔ is_Some (c !! k))
  ∧ (∀ k, strip k ≠ strip id → rb_get py c' k = rb_get py c k)
  ∧ (∃ item', rb_archive py utc_ts' new_uuid' id now_ts' c' = (Ok item', c')
              ∧ mem_status item' = "archived").
Proof.
  unfold rb_archive at 1.
  destruct (rb_get py c id) as [[existing|]|e] eqn:Hget; [|done|done].
  pose proof (rb_get_Some _ _ _ Hget) as (Hid & Hne & Hin & Hst & Hro & Hty).
  case_bool_decide as Harch.
  - intros [= <- <-]. split; [|split; [done|split; [done|]]].
    + exists existing. repeat split; done.
    + exists existing. unfold rb_archive. rewrite Hget.
      by rewrite bool_decide_eq_true_2.
  - intros Hup.
    apply rb_upsert_Ok in Hup
      as (ex' & Hget' & Hmid & Hs1 & Hs2 & Hr1 & Hr2 & Ht1 & Ht2 & Hc1 & Hc2 & Hsrc
          & Hupd & Hcre & Hsch & Hext & ->).
    assert (mem_id item = strip id) as Hitem.
    { rewrite Hmid. cbv [or_empty default from_option Datatypes.id].
      rewrite Hid, strip_idemp.
      unfold or_str. by rewrite bool_decide_eq_false_2. }
    assert (ex' = Some existing) as ->.
    { rewrite Hitem in Hget'. unfold rb_get in Hget', Hget.
      rewrite strip_idemp in Hget'. congruence. }
    split; [|split; [|split]].
    + exists existing. split; [done|]. split; [congruence|].
      split; [done|].
      split; [rewrite Hr1; apply strip_allowed; auto|].
      split; [rewrite Ht1; apply strip_allowed; auto|].
      split; [done|].
      split; [rewrite Hext; by eapply rb_get_extra|].
      split; [done|]. by intros _.
    + intros k. apply is_Some_insert_existing. by rewrite Hitem.
    + intros k Hk. apply rb_get_insert_ne. by rewrite Hitem.
    + exists (stored_view item). unfold rb_archive.
      assert (rb_get py (<[mem_id item := (mem_content item, _item_to_metadata item)]> c)
                id = Ok (Some (stored_view item))) as Hread.
      { rewrite <- (rb_get_insert item c); try done.
        - unfold rb_get. by rewrite Hitem, strip_idemp.
        - by rewrite Hitem, strip_idemp.
        - by rewrite Hitem. }
      rewrite Hread. cbn [stored_view mem_status]. rewrite Hs1.
      by rewrite bool_decide_eq_true_2.
Qed.

End MemoryStore.

Lemma rb_upsert_get_round_trip_witness :
  ∃ item c',
    rb_upsert sample_py 100 "mem-0" None "active" "global" "manual_note"
      " A note. " (Some "") 0 JNull None true sample_collection = (Ok item, c')
    ∧ rb_get sample_py c' (mem_id item) = Ok (Some (stored_view item))
    ∧ mem_content (stored_view item) = "A note."
    ∧ mem_source_run_id (stored_view item) = None
    ∧ rb_get sample_py c' "mem-1" = rb_get sample_py sample_collection "mem-1".
Proof.
  destruct (rb_upsert sample_py 100 "mem-0" None "active" "global" "manual_note"
              " A note. " (Some "") 0 JNull None true sample_collection)
    as [[item|e] c'] eqn:Hup; [|vm_compute in Hup; discriminate Hup].
  exists item, c'. split; [done|].
  destruct (rb_upsert_get_round_trip sample_py 100 "mem-0" None "active" "global"
              "manual_note" " A note. " (Some "") 0 JNull None true
              sample_collection c' item eq_refl ltac:(done) Hup)
    as (Hget & Hcontent & _ & Hframe).
  split; [done|]. split; [done|].
  assert (item = mkMemoryItem "mem-0" "active" "global" "manual_note" "A note."
                   (Some "") 100 100 0 (JObj [])) as Hitem.
  { vm_compute in Hup. by injection Hup as <- _. }
  split; [by rewrite Hitem|].
  apply Hframe. by rewrite Hitem.
Defined.

Lemma rb_upsert_validation_witness :
  ∃ e, rb_upsert sample_py 100 "mem-0" None "active" "global" "manual_note"
         "  " None 1 (JObj []) None true sample_collection
       = (Raise e, sample_collection).
Proof.
  apply (rb_upsert_validation sample_py 100 "mem-0" None "active" "global"
           "manual_note" "  " None 1 (JObj []) None true sample_collection).
  right. right. right. reflexivity.
Defined.

Lemma rb_archive_soft_delete_witness :
  ∃ item c',
    rb_archive sample_py 200 "mem-0" "mem-1" None sample_collection = (Ok item, c')
    ∧ mem_status item = "archived"
    ∧ (∀ k, is_Some (c' !! k) ↔ is_Some (sample_collection !! k)).
Proof.
  destruct (rb_archive sample_py 200 "mem-0" "mem-1" None sample_collection)
    as [[item|e] c'] eqn:Harch; [|vm_compute in Harch; discriminate Harch].
  exists item, c'. split; [done|].
  destruct (rb_archive_soft_delete sample_py 200 300 "mem-0" "mem-0" "mem-1" None None
              sample_collection c' item Harch)
    as ((existing & _ & _ & Hst & _) & Hdom & _).
  done.
Defined.

(** ** Rollback of a delta *)

Section Rollback.
Context (py : PyLib) (conv : PyConv) (env : RBEnv).

Lemma rb_frame_refl (w : RBWorld) : rb_frame w w.
Proof. by repeat split. Qed.

Lemma rb_frame_trans (w1 w2 w3 : RBWorld) :
  rb_frame w1 w2 → rb_frame w2 w3 → rb_frame w1 w3.
Proof.
  intros (Hd1 & Hs1 & Hk1) (Hd2 & Hs2 & Hk2).
  split; [congruence|]. split; [congruence|]. auto.
Qed.

Lemma wbind_frame {A B} (m : W A) (k : A → W B) :
  (∀ w, rb_frame w (m w).2) → (∀ a w, rb_frame w (k a w).2) →
  ∀ w, rb_frame w (wbind m k w).2.
Proof.
  intros Hm Hk w. unfold wbind. specialize (Hm w).
  destruct (m w) as [[a|e] w1]; simpl in *; [|done].
  eapply rb_frame_trans; [done|]. apply Hk.
Qed.

Lemma wret_frame {A} (a : A) (w : RBWorld) : rb_frame w (wret a w).2.
Proof. apply rb_frame_refl. Qed.

Lemma wlift_frame {A} (r : Result A) (w : RBWorld) : rb_frame w (wlift r w).2.
Proof. apply rb_frame_refl. Qed.

Lemma wraise_frame {A} (e : Exn) (w : RBWorld) : rb_frame w (wraise (A:=A) e w).2.
Proof. apply rb_frame_refl. Qed.

Lemma next_call_frame (w : RBWorld) : rb_frame w (next_call w).2.
Proof. by repeat split. Qed.

Lemma w_rb_get_frame (id : string) (w : RBWorld) : rb_frame w (w_rb_get py id w).2.
Proof. apply rb_frame_refl. Qed.

Lemma rb_upsert_is_Some (utc_ts : Z) (new_uuid : string) (id : option string)
    (status role type content : string) (source_run_id : option string)
    (schema_version : Z) (extra : JSON) (now_ts : option Z) (preserve : bool)
    (c : Collection) (k : string) :
  is_Some (c !! k) →
  is_Some ((rb_upsert py utc_ts new_uuid id status role type content source_run_id
              schema_version extra now_ts preserve c).2 !! k).
Proof.
  intros Hk.
  destruct (rb_upsert py utc_ts new_uuid id status role type content source_run_id
              schema_version extra now_ts preserve c) as [[item|e] c'] eqn:Hup.
  - apply rb_upsert_Ok in Hup as (? & _ & _ & _ & _ & _ & _ & _ & _ & _ & _ & _ & _ & _ & _ & _ & ->).
    simpl. destruct (decide (mem_id item = k)) as [->|Hne].
    + rewrite lookup_insert_eq. by eexists.
    + by rewrite lookup_insert_ne.
  - apply rb_upsert_Raise in Hup as ->. done.
Qed.

Lemma w_rb_upsert_frame (id : option string) (status role type content : string)
    (source_run_id : option string) (schema_version : Z) (extra : JSON)
    (now_ts : option Z) (preserve : bool) (w : RBWorld) :
  rb_frame w (w_rb_upsert py env id status role type content source_run_id
                schema_version extra now_ts preserve w).2.
Proof.
  unfold w_rb_upsert, wbind, next_call. cbn [w_rb w_calls].
  match goal with |- context [rb_upsert ?a ?b ?c ?d ?e ?f ?g ?h ?i ?j ?k ?l ?m ?n] =>
    pose proof (λ x, rb_upsert_is_Some b c d e f g h i j k l m n x) as Hdom;
    destruct (rb_upsert a b c d e f g h i j k l m n) as [r c'] end.
  split; [done|]. split; [done|]. intros x Hx. by apply Hdom.
Qed.

Lemma rb_archive_is_Some (utc_ts : Z) (new_uuid id : string) (now_ts : option Z)
    (c : Collection) (k : string) :
  is_Some (c !! k) →
  is_Some ((rb_archive py utc_ts new_uuid id now_ts c).2 !! k).
Proof.
  intros Hk. unfold rb_archive.
  destruct (rb_get py c id) as [[existing|]|e]; [|done|done].
  case_bool_decide; [done|]. by apply rb_upsert_is_Some.
Qed.

Lemma w_rb_archive_frame (id : string) (w : RBWorld) :
  rb_frame w (w_rb_archive py env id w).2.
Proof.
  unfold w_rb_archive, wbind, next_call. cbn [w_rb w_calls].
  match goal with |- context [rb_archive ?a ?b ?c ?d ?e ?f] =>
    pose proof (λ x, rb_archive_is_Some b c d e f x) as Hdom;
    destruct (rb_archive a b c d e f) as [r c'] end.
  split; [done|]. split; [done|]. intros x Hx. by apply Hdom.
Qed.

Lemma append_mem_edit_log_frame (id actor : string) (reason : option string)
    (before after extra : JSON) (w : RBWorld) :
  rb_frame w (append_mem_edit_log env id actor reason before after extra w).2.
Proof.
  unfold append_mem_edit_log. case_bool_decide; [apply rb_frame_refl|].
  unfold wbind, next_call. cbn.
  destruct (w_mem_edit_log w !! _); by repeat split.
Qed.

Lemma _sync_rb_mem_index_frame (item : MemoryItem) (w : RBWorld) :
  rb_frame w (_sync_rb_mem_index item w).2.
Proof.
  unfold _sync_rb_mem_index, upsert_rb_mem_index.
  case_bool_decide; by repeat split.
Qed.

Lemma _restore_snapshot_frame (snapshot : list (string * JSON)) (actor reason : string)
    (w : RBWorld) :
  rb_frame w (_restore_snapshot py conv env snapshot actor reason w).2.
Proof.
  unfold _restore_snapshot. case_bool_decide; [apply rb_frame_refl|].
  revert w.
  repeat first
    [ apply wret_frame
    | apply wlift_frame
    | apply w_rb_get_frame
    | apply w_rb_upsert_frame
    | apply append_mem_edit_log_frame
    | apply _sync_rb_mem_index_frame
    | apply wbind_frame; [|intros ?]
    | intros ? ].
Qed.

Lemma rollback_op_frame (rollback_reason : string) (op : JSON) (w : RBWorld) :
  rb_frame w (rollback_op py conv env rollback_reason op w).2.
Proof.
  unfold rollback_op. destruct op as [| | | | |fields]; try apply rb_frame_refl.
  case_bool_decide; [apply rb_frame_refl|].
  case_bool_decide.
  { revert w. apply wbind_frame; [apply w_rb_get_frame|].
    intros [b|]; [|apply wret_frame].
    apply wbind_frame; [apply w_rb_archive_frame|]. intros after.
    apply wbind_frame; [apply append_mem_edit_log_frame|]. intros _.
    apply _sync_rb_mem_index_frame. }
  destruct (_ || _); [|apply rb_frame_refl].
  assert (∀ w, rb_frame w
            (wbind (w_rb_get py (strip (py_str py (get_or "mem_id" (JStr "") fields))))
               (λ before,
                match before with
                | Some b =>
                  if bool_decide
                       (strip (py_str py (get_or "op" (JStr "") fields)) = "archive")
                     && bool_decide (mem_status b = "archived")
                  then
                    wbind (w_rb_upsert py env (Some (mem_id b)) "active" (mem_role b)
                             (mem_type b) (mem_content b) (mem_source_run_id b)
                             (mem_schema_version b) (mem_extra b) None true)
                      (λ restored,
                       wbind (append_mem_edit_log env
                                (strip (py_str py (get_or "mem_id" (JStr "") fields)))
                                "rb_rollback" (Some rollback_reason)
                                (_memory_to_dict b) (_memory_to_dict restored) JNull)
                         (λ _, _sync_rb_mem_index restored))
                  else wret tt
                | None => wret tt
                end) w).2) as Hfallback.
  { apply wbind_frame; [apply w_rb_get_frame|].
    intros [b|]; [|apply wret_frame].
    destruct (_ && _); [|apply wret_frame].
    apply wbind_frame; [apply w_rb_upsert_frame|]. intros restored.
    apply wbind_frame; [apply append_mem_edit_log_frame|]. intros _.
    apply _sync_rb_mem_index_frame. }
  destruct (assoc_get "before" fields) as [[| | | | |snap]|]; try apply Hfallback.
  revert w. apply wbind_frame; [apply _restore_snapshot_frame|].
  intros _. apply wret_frame.
Qed.

Lemma rollback_ops_frame (rollback_reason : string) (ops : list JSON) (w : RBWorld) :
  rb_frame w (rollback_ops py conv env rollback_reason ops w).2.
Proof.
  revert w. induction ops as [|op ops IH]; intros w; [apply rb_frame_refl|].
  cbn [rollback_ops]. revert w.
  apply wbind_frame; [apply rollback_op_frame|]. intros _. apply IH.
Qed.

Lemma get_rb_delta_Some (w : RBWorld) (d did : string) (row : RBDeltaRow) :
  get_rb_delta w d = Some (did, row) →
  did = strip d ∧ did ≠ "" ∧ w_rb_deltas w !! did = Some row.
Proof.
  unfold get_rb_delta. case_bool_decide as Hd; [done|].
  destruct (w_rb_deltas w !! strip d) as [r|] eqn:Hr; [|done].
  by intros [= <- <-].
Qed.

Lemma list_rb_deltas_for_run_elem (w : RBWorld) (run_id k : string) (row : RBDeltaRow) :
  (k, row) ∈ list_rb_deltas_for_run w run_id ↔
  strip run_id ≠ "" ∧ w_rb_deltas w !! k = Some row ∧ delta_run_id row = strip run_id.
Proof.
  unfold list_rb_deltas_for_run. case_bool_decide as Hr.
  - rewrite elem_of_nil. naive_solver.
  - rewrite merge_sort_Permutation, list_elem_of_filter, elem_of_map_to_list.
    naive_solver.
Qed.

(** A rollback that succeeds leaves the delta marked [rolled_back],
    touches no other delta and removes no entry of the collection; a
    second rollback of the same delta returns its id and changes
    nothing. *)
Theorem rollback_rb_delta_idempotent (run_id : string) (delta_id reason reason' : option string)
    (w w' : RBWorld) (did : string) :
  (∀ k, is_Some (w_rb_deltas w !! k) → strip k = k) →
  rollback_rb_delta py conv env run_id delta_id reason w = (Ok did, w') →
  (∃ row, w_rb_deltas w' !! did = Some row
          ∧ delta_status row = "rolled_back"
          ∧ delta_run_id row = strip run_id)
  ∧ (∀ k, k ≠ did → w_rb_deltas w' !! k = w_rb_deltas w !! k)
  ∧ (∀ k, is_Some (w_rb w !! k) → is_Some (w_rb w' !! k))
  ∧ rollback_rb_delta py conv env run_id (Some did) reason' w' = (Ok did, w').
Proof.
  intros Hkeys. unfold rollback_rb_delta at 1.
  case_bool_decide as Hrid; [done|].
  unfold wbind at 1.
  destruct (choose_delta w (strip run_id) delta_id) as [[did0 row]|e] eqn:Hchoose;
    [|done].
  assert (did0 ≠ "" ∧ strip did0 = did0 ∧ w_rb_deltas w !! did0 = Some row
          ∧ delta_run_id row = strip run_id) as (Hne & Hstrip & Hrow & Hrun).
  { unfold choose_delta in Hchoose. destruct (none_if_empty delta_id) as [d|].
    - destruct (get_rb_delta w d) as [[k r]|] eqn:Hget; [|done].
      cbn [snd] in Hchoose. case_bool_decide as Hbel; [done|].
      injection Hchoose as <- <-.
      apply get_rb_delta_Some in Hget as (-> & ? & ?).
      split; [done|]. split; [by rewrite strip_idemp|].
      split; [done|]. by destruct (decide (delta_run_id r = strip run_id)).
    - destruct (filter _ _) as [|[k0 r0] rest] eqn:Hf; [done|].
      cbn [fst] in Hchoose.
      destruct (get_rb_delta w k0) as [[k r]|] eqn:Hget; [|done].
      injection Hchoose as <- <-.
      assert ((k0, r0) ∈ list_rb_deltas_for_run w (strip run_id)) as Hin.
      { assert ((k0, r0) ∈ filter (λ kv : string * RBDeltaRow,
                                       delta_status kv.2 = "applied")
                                    (list_rb_deltas_for_run w (strip run_id))) as Hin0
          by (rewrite Hf; left).
        by apply list_elem_of_filter in Hin0 as [_ ?]. }
      apply list_rb_deltas_for_run_elem in Hin as (_ & Hr0 & Hrun0).
      rewrite strip_idemp in Hrun0.
      apply get_rb_delta_Some in Hget as (-> & ? & Hk).
      assert (strip k0 = k0) as Hk0 by (apply Hkeys; by eexists).
      rewrite Hk0 in *. split; [done|]. split; [done|].
      split; [done|]. congruence. }
  cbn [fst snd].
  assert (∀ (w1 : RBWorld) (row' : RBDeltaRow),
            w_rb_deltas w1 !! did0 = Some row' → delta_status row' = "rolled_back" →
            delta_run_id row' = strip run_id →
            rollback_rb_delta py conv env run_id (Some did0) reason' w1 = (Ok did0, w1))
    as Hagain.
  { intros w1 row' Hw1 Hst Hrun'. unfold rollback_rb_delta.
    rewrite bool_decide_eq_false_2 by done. unfold wbind.
    unfold choose_delta, none_if_empty. rewrite bool_decide_eq_false_2 by done.
    unfold get_rb_delta. rewrite Hstrip.
    rewrite bool_decide_eq_false_2 by done. rewrite Hw1.
    cbn [fmap option_fmap option_map snd fst].
    rewrite bool_decide_eq_false_2 by (by intros []).
    by rewrite bool_decide_eq_true_2. }
  case_bool_decide as Hst.
  - intros [= <- <-]. split; [by exists row|]. split; [done|]. split; [done|].
    by eapply Hagain.
  - unfold wbind, w_append_event.
    match goal with |- context [rollback_ops ?a ?b ?c ?d ?e ?f] =>
      pose proof (rollback_ops_frame d e f) as (Hd & Hs & Hk);
      destruct (rollback_ops a b c d e f) as [[u|e1] w1] end; [|done].
    cbn [snd] in Hd, Hs, Hk. cbn [w_rb_deltas set_w_store w_rb] in Hd, Hk.
    unfold mark_rb_delta_rolled_back, wbind, next_call.
    rewrite Hstrip. rewrite bool_decide_eq_false_2 by done.
    intros [= <- <-].
    unfold set_w_store, set_w_rb_deltas.
    cbn [w_rb_deltas w_rb w_store w_mem_edit_log w_rb_mem_index w_calls]. rewrite Hd.
    split; [|split; [|split]].
    + eexists. rewrite lookup_alter_eq, Hrow. cbn. done.
    + intros k Hk'. by rewrite lookup_alter_ne.
    + done.
    + eapply Hagain.
      * cbn [w_rb_deltas].
        rewrite lookup_alter_eq, Hrow. cbn. done.
      * done.
      * done.
Qed.

Lemma stored_view_wf (s : MemoryItem) : wf_item s → stored_view s = s.
Proof.
  intros (_ & _ & _ & _ & _ & _ & _ & Hsrc & _ & Hsch & f & Hf).
  destruct s as [i st ro ty co src cr up sc ex]. unfold stored_view. cbn in *.
  subst ex. f_equal.
  - destruct src as [r|]; [|done]. destruct Hsrc as [Hr Hne].
    rewrite Hr. by rewrite bool_decide_eq_false_2.
  - by rewrite (proj2 (Z.eqb_neq _ _)).
Qed.

Lemma wf_item_with_created_at (t : Z) (s : MemoryItem) :
  wf_item s → wf_item (with_created_at t s).
Proof. done. Qed.

Lemma rb_get_stripped (c : Collection) (id : string) :
  rb_get py c (strip id) = rb_get py c id.
Proof. unfold rb_get. by rewrite strip_idemp. Qed.

(** Reading the snapshot of a well-formed item. *)
Lemma memory_fields_read (s : MemoryItem) :
  wf_item s →
  strip (py_str py (get_or "mem_id" (JStr "") (memory_fields s))) = mem_id s
  ∧ py_str py (get_or "status" (JStr "active") (memory_fields s)) = mem_status s
  ∧ py_str py (get_or "role" (JStr "global") (memory_fields s)) = mem_role s
  ∧ py_str py (get_or "type" (JStr "manual_note") (memory_fields s)) = mem_type s
  ∧ py_str py (get_or "content" (JStr "") (memory_fields s)) = mem_content s
  ∧ none_if_empty
      (Some (strip (py_str py (get_or "source_run_id" (JStr "") (memory_fields s)))))
    = mem_source_run_id s
  ∧ py_int py (get_or "schema_version" (JNum 1) (memory_fields s))
    = Some (mem_schema_version s)
  ∧ py_dict conv (get_or "extra" (JObj []) (memory_fields s)) = Ok (mem_extra s)
  ∧ py_float conv (get_or "updated_at" (JNum 0) (memory_fields s))
    = Ok (mem_updated_at s).
Proof.
  intros (Hid & Hidne & Hst & Hro & Hty & Hco & Hcone & Hsrc & Hup & Hsch & f & Hf).
  unfold get_or, memory_fields, _memory_to_dict. cbn [assoc_get].
  repeat first [ rewrite bool_decide_eq_true_2 by reflexivity
               | rewrite bool_decide_eq_false_2 by discriminate ].
  cbn [truthy].
  assert (∀ x : string, x ≠ "" → negb (bool_decide (x = "")) = true) as Hnb.
  { intros x Hx. by rewrite bool_decide_eq_false_2. }
  assert (∀ (x : string) (l : list string), x ∈ l → "" ∉ l → x ≠ "") as Hmem
    by (intros x l ? ? ->; done).
  rewrite (Hnb _ Hidne), (Hnb _ Hcone).
  rewrite (Hnb (mem_status s)), (Hnb (mem_role s)), (Hnb (mem_type s)).
  2:{ eapply Hmem; [done|]. unfold _RB_TYPES. set_solver. }
  2:{ eapply Hmem; [done|]. unfold _RB_ROLES. set_solver. }
  2:{ eapply Hmem; [done|]. unfold _RB_STATUSES. set_solver. }
  cbn [py_str]. split; [done|]. do 4 (split; [done|]).
  split.
  { destruct (mem_source_run_id s) as [r|]; cbn [json_opt_str truthy].
    - destruct Hsrc as [Hr Hrne]. rewrite (Hnb _ Hrne). cbn [py_str].
      rewrite Hr. unfold none_if_empty. by rewrite bool_decide_eq_false_2.
    - reflexivity. }
  split.
  { rewrite (proj2 (Z.eqb_neq _ _) Hsch). reflexivity. }
  split.
  { rewrite Hf. cbn [truthy]. destruct f as [|kv f]; reflexivity. }
  rewrite (proj2 (Z.eqb_neq _ _) Hup). reflexivity.
Qed.

(** Writing back the snapshot of a well-formed item. *)
Lemma rb_upsert_snapshot (utc_ts : Z) (new_uuid : string) (s : MemoryItem)
    (c : Collection) (cur : option MemoryItem) :
  wf_item s →
  rb_get py c (mem_id s) = Ok cur →
  let created := match cur with
                 | Some x => mem_created_at x
                 | None => mem_updated_at s
                 end in
  rb_upsert py utc_ts new_uuid (Some (mem_id s)) (mem_status s) (mem_role s)
    (mem_type s) (mem_content s) (mem_source_run_id s) (mem_schema_version s)
    (mem_extra s) (Some (mem_updated_at s)) true c
  = (Ok (with_created_at created s),
     <[mem_id s := (mem_content s, _item_to_metadata (with_created_at created s))]> c).
Proof.
  intros Hwf Hget created.
  pose proof Hwf as
    (Hid & Hidne & Hst & Hro & Hty & Hco & Hcone & Hsrc & Hup & Hsch & f & Hf).
  unfold rb_upsert. cbv [or_empty default from_option Datatypes.id].
  assert (or_str (mem_id s) new_uuid = mem_id s) as Hor
    by (unfold or_str; by rewrite bool_decide_eq_false_2).
  rewrite Hid, !Hor. rewrite Hget.
  unfold _parse_status, _parse_role, _parse_type.
  rewrite !strip_allowed by auto.
  rewrite !bool_decide_eq_true_2 by done. cbn [rbind mem_content mem_id].
  rewrite Hco. rewrite bool_decide_eq_false_2 by done.
  assert (strip <$> mem_source_run_id s = mem_source_run_id s) as ->.
  { destruct (mem_source_run_id s) as [r|]; [|done]. destruct Hsrc as [Hr _].
    simpl. by rewrite Hr. }
  assert (or_empty_dict (mem_extra s) = mem_extra s) as ->.
  { rewrite Hf. unfold or_empty_dict. by destruct f. }
  unfold with_created_at. subst created.
  destruct cur as [x|]; reflexivity.
Qed.

(** [_restore_snapshot] writes back the snapshot of a well-formed item
    as it is, whatever the item has become in between: after the call
    the item is read with the content, status, role, type, source run,
    schema version, extra and time of update of the snapshot, and with
    the creation time the item had just before the call; every other
    item is read as before, and no delta is touched. *)
Theorem restore_snapshot_exact (s : MemoryItem) (actor reason : string) (w : RBWorld)
    (cur : option MemoryItem) :
  wf_item s →
  rb_get py (w_rb w) (mem_id s) = Ok cur →
  w_mem_edit_log w !! env_new_id env "memedit" (S (w_calls w)) = None →
  let created := match cur with
                 | Some x => mem_created_at x
                 | None => mem_updated_at s
                 end in
  ∃ w',
    _restore_snapshot py conv env (memory_fields s) actor reason w
      = (Ok (with_created_at created s), w')
    ∧ rb_get py (w_rb w') (mem_id s) = Ok (Some (with_created_at created s))
    ∧ (∀ k, strip k ≠ mem_id s → rb_get py (w_rb w') k = rb_get py (w_rb w) k)
    ∧ w_rb_deltas w' = w_rb_deltas w.
Proof.
  intros Hwf Hget Hfresh created.
  pose proof (memory_fields_read s Hwf)
    as (Hmid & Hst & Hro & Hty & Hco & Hsrc & Hsch & Hext & Hupd).
  pose proof Hwf as (Hid & Hidne & _ & _ & _ & _ & _ & _ & Hup & _).
  unfold _restore_snapshot. rewrite Hmid.
  rewrite bool_decide_eq_false_2 by done.
  unfold wbind at 1. unfold w_rb_get at 1. rewrite Hget.
  rewrite Hsch. unfold wbind at 1, wlift at 1.
  rewrite Hext. unfold wbind at 1, wlift at 1.
  rewrite Hupd. unfold wbind at 1, wlift at 1.
  rewrite Hst, Hro, Hty, Hco, Hsrc.
  rewrite (proj2 (Z.eqb_neq _ _) Hup).
  unfold wbind at 1. unfold w_rb_upsert, wbind at 1, next_call.
  cbn [w_rb w_calls].
  rewrite (rb_upsert_snapshot _ _ s (w_rb w) cur Hwf Hget). fold created.
  unfold set_w_rb. cbn [w_store w_rb_deltas w_mem_edit_log w_rb_mem_index w_rb w_calls].
  unfold wbind at 1. unfold append_mem_edit_log.
  cbn [with_created_at mem_id]. rewrite Hid.
  rewrite bool_decide_eq_false_2 by done.
  unfold wbind at 1, next_call. cbn [w_calls w_mem_edit_log].
  rewrite Hfresh.
  unfold set_w_mem_edit_log.
  cbn [w_store w_rb_deltas w_mem_edit_log w_rb_mem_index w_rb w_calls].
  unfold wbind at 1. unfold _sync_rb_mem_index, upsert_rb_mem_index.
  cbn [with_created_at mem_id]. rewrite Hid. rewrite bool_decide_eq_false_2 by done.
  unfold wret, set_w_rb_mem_index.
  cbn [w_store w_rb_deltas w_mem_edit_log w_rb_mem_index w_rb w_calls].
  eexists. split; [reflexivity|]. cbn [w_rb w_rb_deltas].
  split; [|split; [|done]].
  - pose proof (wf_item_with_created_at created s Hwf) as Hwf'.
    rewrite <- (stored_view_wf _ Hwf') at 2.
    pose proof Hwf' as (? & ? & ? & ? & ? & _).
    apply (rb_get_insert py (with_created_at created s)); done.
  - intros k Hk. by apply rb_get_insert_ne.
Qed.

End Rollback.

Lemma sample_item_wf : wf_item sample_item.
Proof.
  unfold wf_item, sample_item, _RB_STATUSES, _RB_ROLES, _RB_TYPES. cbn.
  repeat split; try done; try set_solver.
Qed.

Lemma rollback_rb_delta_idempotent_witness :
  ∃ did w',
    rollback_rb_delta sample_py sample_conv sample_rb_env "run_a" None None
      sample_world_edited = (Ok did, w')
    ∧ rollback_rb_delta sample_py sample_conv sample_rb_env "run_a" (Some did)
        (Some "again") w' = (Ok did, w').
Proof.
  destruct (rollback_rb_delta sample_py sample_conv sample_rb_env "run_a" None None
              sample_world_edited) as [[did|e] w'] eqn:Hroll;
    [|vm_compute in Hroll; discriminate Hroll].
  exists did, w'. split; [done|].
  eapply (rollback_rb_delta_idempotent sample_py sample_conv sample_rb_env "run_a"
            None None (Some "again") sample_world_edited w' did); [|exact Hroll].
  intros k Hk. apply elem_of_dom in Hk.
  assert (dom (w_rb_deltas sample_world_edited) = {["rbd_2"]}) as Hdom
    by (vm_compute; reflexivity).
  rewrite Hdom in Hk. apply elem_of_singleton in Hk as ->. reflexivity.
Defined.

Lemma restore_snapshot_exact_witness :
  ∃ w',
    _restore_snapshot sample_py sample_conv sample_rb_env (memory_fields sample_item)
      "rb_rollback" "rollback_delta:rbd_2" sample_world_edited = (Ok sample_item, w')
    ∧ rb_get sample_py (w_rb w') "mem-1" = Ok (Some sample_item).
Proof.
  destruct (restore_snapshot_exact sample_py sample_conv sample_rb_env sample_item
              "rb_rollback" "rollback_delta:rbd_2" sample_world_edited
              (Some (mkMemoryItem "mem-1" "archived" "global" "manual_note"
                       "Edited by hand." (Some "run-1") 100 1003 1
                       (JObj [("edited", JBool true)]))))
    as (w' & Hrestore & Hget & _).
  - exact sample_item_wf.
  - vm_compute. reflexivity.
  - vm_compute. reflexivity.
  - exists w'. split; [exact Hrestore|exact Hget].
Defined.

(** ** Learning from a run *)

Section Learn.
Context (py : PyLib) (conv : PyConv) (env : RBEnv) (lenv : LearnEnv).

Lemma deltas_evolve_refl (D : gmap string RBDeltaRow) : deltas_evolve D D.
Proof.
  intros k. destruct (D !! k) as [r|] eqn:Hk; [|done].
  exists r. repeat split; auto.
Qed.

Lemma deltas_evolve_trans (D1 D2 D3 : gmap string RBDeltaRow) :
  deltas_evolve D1 D2 → deltas_evolve D2 D3 → deltas_evolve D1 D3.
Proof.
  intros H12 H23 k. specialize (H12 k). specialize (H23 k).
  destruct (D1 !! k) as [r1|].
  - destruct H12 as (r2 & Hr2 & Hrun & Hcr & Hops & Hst). rewrite Hr2 in H23.
    destruct H23 as (r3 & Hr3 & Hrun' & Hcr' & Hops' & Hst').
    exists r3. split; [done|]. split; [congruence|]. split; [congruence|].
    split; [congruence|]. destruct Hst' as [Hst'|Hst']; [|by right].
    rewrite Hst'. done.
  - by rewrite H12 in H23.
Qed.

Lemma deltas_evolve_rolled_back (D D' : gmap string RBDeltaRow) (k : string)
    (r : RBDeltaRow) :
  deltas_evolve D D' → D !! k = Some r → delta_status r = "rolled_back" →
  ∃ r', D' !! k = Some r' ∧ delta_status r' = "rolled_back".
Proof.
  intros Hev Hk Hst. specialize (Hev k). rewrite Hk in Hev.
  destruct Hev as (r' & Hr' & _ & _ & _ & [Hs|Hs]); exists r'; split; congruence.
Qed.

(** What a rollback does to the table of deltas. *)
Lemma rollback_rb_delta_deltas (run_id : string) (delta_id reason : option string)
    (w w' : RBWorld) (did : string) :
  rollback_rb_delta py conv env run_id delta_id reason w = (Ok did, w') →
  deltas_evolve (w_rb_deltas w) (w_rb_deltas w')
  ∧ (∃ row, choose_delta w (strip run_id) delta_id = Ok (did, row))
  ∧ (strip did = did →
     ∃ r', w_rb_deltas w' !! did = Some r' ∧ delta_status r' = "rolled_back").
Proof.
  unfold rollback_rb_delta. case_bool_decide as Hrid; [done|].
  unfold wbind at 1.
  destruct (choose_delta w (strip run_id) delta_id) as [[did0 row]|e] eqn:Hchoose;
    [|done].
  cbn [fst snd].
  assert (strip did0 = did0 → w_rb_deltas w !! did0 = Some row) as Hrow.
  { intros Hs. unfold choose_delta in Hchoose.
    destruct (none_if_empty delta_id) as [d|].
    - destruct (get_rb_delta w d) as [[k r]|] eqn:Hget; [|done].
      cbn [snd] in Hchoose. case_bool_decide; [done|].
      injection Hchoose as <- <-.
      by apply get_rb_delta_Some in Hget as (_ & _ & ?).
    - destruct (filter _ _) as [|[k0 r0] rest]; [done|].
      cbn [fst] in Hchoose.
      destruct (get_rb_delta w k0) as [[k r]|] eqn:Hget; [|done].
      injection Hchoose as <- <-.
      by apply get_rb_delta_Some in Hget as (_ & _ & ?). }
  case_bool_decide as Hst.
  - intros [= <- <-]. split; [apply deltas_evolve_refl|]. split; [by eexists|].
    intros Hs. exists row. split; [by apply Hrow|done].
  - unfold wbind, w_append_event.
    match goal with |- context [rollback_ops ?a ?b ?c ?d ?e ?f] =>
      pose proof (rollback_ops_frame a b c d e f) as (Hd & _ & _);
      destruct (rollback_ops a b c d e f) as [[u|e1] w1] end; [|done].
    cbn [snd] in Hd. cbn [w_rb_deltas set_w_store] in Hd.
    unfold mark_rb_delta_rolled_back, wbind, next_call.
    case_bool_decide as Hdid; [done|].
    intros [= <- <-].
    unfold set_w_store, set_w_rb_deltas.
    cbn [w_rb_deltas w_rb w_store w_mem_edit_log w_rb_mem_index w_calls]. rewrite Hd.
    split; [|split; [by eexists|]].
    + intros k. destruct (decide (k = strip did0)) as [->|Hne].
      * rewrite lookup_alter_eq.
        destruct (w_rb_deltas w !! strip did0) as [r|]; [|done].
        cbn. eexists. split; [done|]. cbn. repeat split; auto.
      * rewrite lookup_alter_ne by done.
        destruct (w_rb_deltas w !! k) as [r|]; [|done]. exists r. repeat split; auto.
    + intros Hs. rewrite Hs. rewrite lookup_alter_eq, (Hrow Hs). cbn.
      eexists. split; [done|]. done.
Qed.

Lemma rollback_deltas_spec (rid : string) (ids : list string) (w w' : RBWorld) :
  (∀ k, k ∈ ids → strip k = k ∧ k ≠ "") →
  rollback_deltas py conv env rid ids w = (Ok tt, w') →
  deltas_evolve (w_rb_deltas w) (w_rb_deltas w')
  ∧ ∀ k, k ∈ ids →
      ∃ r', w_rb_deltas w' !! k = Some r' ∧ delta_status r' = "rolled_back".
Proof.
  revert w. induction ids as [|did ids IH]; intros w Hids.
  { intros [= <-]. split; [apply deltas_evolve_refl|]. by intros k ?%elem_of_nil. }
  cbn [rollback_deltas]. unfold wbind.
  destruct (rollback_rb_delta py conv env rid (Some did) _ w) as [[did'|e] w1] eqn:Hroll;
    [|done].
  intros Hrest.
  apply rollback_rb_delta_deltas in Hroll as (Hev & (row & Hchoose) & Hrolled).
  destruct (Hids did) as [Hs Hne]; [left|].
  assert (did' = did) as ->.
  { unfold choose_delta, none_if_empty in Hchoose.
    rewrite bool_decide_eq_false_2 in Hchoose by done.
    destruct (get_rb_delta w did) as [[k r]|] eqn:Hget; [|done].
    cbn [snd] in Hchoose. case_bool_decide; [done|].
    injection Hchoose as <- <-.
    apply get_rb_delta_Some in Hget as (-> & _). done. }
  apply IH in Hrest as [Hev' Hall]; [|intros k Hk; apply Hids; by right].
  split; [by eapply deltas_evolve_trans|].
  intros k [->|Hk]%elem_of_cons; [|by apply Hall].
  destruct (Hrolled Hs) as (r' & Hr' & Hst').
  by eapply deltas_evolve_rolled_back.
Qed.

Lemma applied_delta_ids_elem (w : RBWorld) (rid k : string) :
  k ∈ applied_delta_ids w rid ↔
  ∃ r, strip rid ≠ "" ∧ w_rb_deltas w !! k = Some r
       ∧ delta_run_id r = strip rid ∧ delta_status r = "applied".
Proof.
  unfold applied_delta_ids. rewrite list_elem_of_fmap. split.
  - intros [[k' r] [-> [Hst Hin]%list_elem_of_filter]].
    apply list_rb_deltas_for_run_elem in Hin as (? & ? & ?). by exists r.
  - intros (r & ? & ? & ? & ?). exists (k, r). split; [done|].
    apply list_elem_of_filter. split; [done|].
    by apply list_rb_deltas_for_run_elem.
Qed.

(** The rollback that opens a pass leaves no applied delta of the run. *)
Lemma learn_rollback_spec (rid : string) (w w' : RBWorld) :
  (∀ k, is_Some (w_rb_deltas w !! k) → strip k = k ∧ k ≠ "") →
  learn_rollback py conv env rid w = (Ok tt, w') →
  deltas_evolve (w_rb_deltas w) (w_rb_deltas w')
  ∧ (∀ k r', w_rb_deltas w' !! k = Some r' → delta_run_id r' = strip rid →
             strip rid ≠ "" → delta_status r' ≠ "applied")
  ∧ applied_delta_ids w' rid = [].
Proof.
  intros Hkeys Hroll. unfold learn_rollback in Hroll.
  apply rollback_deltas_spec in Hroll as [Hev Hall].
  2:{ intros k (r & _ & Hk & _)%applied_delta_ids_elem. apply Hkeys. by eexists. }
  assert (∀ k r', w_rb_deltas w' !! k = Some r' → delta_run_id r' = strip rid →
                  strip rid ≠ "" → delta_status r' ≠ "applied") as Hnone.
  { intros k r' Hk' Hrun Hrid Hst.
    pose proof (Hev k) as Hevk.
    destruct (w_rb_deltas w !! k) as [r|] eqn:Hk; [|congruence].
    destruct Hevk as (r'' & Hr'' & Hrun' & _ & _ & Hst').
    assert (r'' = r') as -> by congruence.
    destruct Hst' as [Hst'|Hst']; [|congruence].
    destruct (Hall k) as (r2 & Hr2 & Hst2).
    { apply applied_delta_ids_elem. exists r. repeat split; congruence. }
    congruence. }
  split; [done|]. split; [done|].
  destruct (applied_delta_ids w' rid) as [|k rest] eqn:Hids; [done|].
  assert (k ∈ applied_delta_ids w' rid) as Hin by (rewrite Hids; left).
  apply applied_delta_ids_elem in Hin as (r & ? & ? & ? & ?).
  by destruct (Hnone k r).
Qed.

Lemma wbind_deltas {A B} (m : W A) (k : A → W B) :
  (∀ w, w_rb_deltas (m w).2 = w_rb_deltas w) →
  (∀ a w, w_rb_deltas (k a w).2 = w_rb_deltas w) →
  ∀ w, w_rb_deltas (wbind m k w).2 = w_rb_deltas w.
Proof.
  intros Hm Hk w. unfold wbind. specialize (Hm w).
  destruct (m w) as [[a|e] w1]; simpl in *; [|done].
  by rewrite Hk.
Qed.

Lemma llm_merge_step_deltas (proposal : list (string * JSON)) (content : string)
    (chosen_existing : MemoryItem) (w : RBWorld) :
  w_rb_deltas (llm_merge_step py lenv proposal content chosen_existing w).2
  = w_rb_deltas w.
Proof.
  unfold llm_merge_step. destruct (learn_llm lenv) as [llm|]; [|done].
  destruct (learn_dry_run lenv); [done|].
  destruct (llm_merge llm chosen_existing (JObj proposal)) as [evs reply].
  revert w. apply wbind_deltas; [done|]. intros _ w.
  destruct (extract_first_json_object py reply) as [[| | | | |obj]|[]]; try done.
  by case_bool_decide.
Qed.

Lemma merge_proposal_deltas (rid : string) (proposal : list (string * JSON))
    (content : string) (chosen_existing : MemoryItem) (w : RBWorld) :
  w_rb_deltas (merge_proposal py lenv rid proposal content chosen_existing w).2
  = w_rb_deltas w.
Proof.
  unfold merge_proposal. destruct (py_load _ _) as [existing_extra h0].
  revert w. apply wbind_deltas; [apply llm_merge_step_deltas|].
  intros [[merged_content merge_used] reply_extra] w.
  destruct merge_used; [done|].
  by destruct (py_setdefault_append _ _ _ _) as [[]|].
Qed.

Lemma consolidate_proposal_deltas (rid rb_job_id : string) (proposal : JSON)
    (w : RBWorld) :
  w_rb_deltas (consolidate_proposal py env lenv rid rb_job_id proposal w).2
  = w_rb_deltas w.
Proof.
  unfold consolidate_proposal. destruct proposal as [| | | | |fields]; try done.
  case_bool_decide; [done|].
  revert w. apply wbind_deltas; [done|]. intros dup_candidates.
  assert (∀ w role typ content extra dbg,
            w_rb_deltas
              (wbind (w_rb_upsert py env None "active" role typ content (Some rid) 1
                        extra None true)
                 (λ after,
                  wbind (_sync_rb_mem_index after)
                    (λ _,
                     wbind (append_mem_edit_log env (mem_id after) "rb_learn"
                              (Some ("learn_add:" ++ rb_job_id)) (JObj [])
                              (_memory_to_dict after)
                              (JObj [("near_duplicate_checked", dbg)]))
                       (λ _,
                        wret (Some (JObj [("op", JStr "add");
                                          ("mem_id", JStr (mem_id after));
                                          ("after", _memory_to_dict after);
                                          ("near_duplicate_checked", dbg)]))))) w).2
            = w_rb_deltas w) as Hadd.
  { intros w role typ content extra dbg. revert w.
    apply wbind_deltas; [intros w; apply w_rb_upsert_frame|]. intros after.
    apply wbind_deltas; [intros w; apply _sync_rb_mem_index_frame|]. intros _.
    apply wbind_deltas; [intros w; apply append_mem_edit_log_frame|]. by intros _. }
  destruct dup_candidates as [|[chosen [hid hdoc hmeta [[|]|] hdbg]] rest];
    try (intros w; apply Hadd).
  apply wbind_deltas; [apply merge_proposal_deltas|].
  intros [[[merged_content merged_extra] merge_used] before_extra].
  apply wbind_deltas; [intros w; apply w_rb_upsert_frame|]. intros after.
  apply wbind_deltas; [intros w; apply _sync_rb_mem_index_frame|]. intros _.
  apply wbind_deltas; [intros w; apply append_mem_edit_log_frame|]. by intros _.
Qed.

Lemma consolidate_deltas (rid rb_job_id : string) (proposals : list JSON)
    (w : RBWorld) :
  w_rb_deltas (consolidate py env lenv rid rb_job_id proposals w).2 = w_rb_deltas w.
Proof.
  revert w. induction proposals as [|p ps IH]; [done|].
  cbn [consolidate].
  apply wbind_deltas; [apply consolidate_proposal_deltas|]. intros op.
  apply wbind_deltas; [apply IH|]. by intros ops.
Qed.

Lemma extract_items_deltas (rid : string) (w : RBWorld) :
  w_rb_deltas (extract_items py lenv rid w).2 = w_rb_deltas w.
Proof.
  unfold extract_items. destruct (learn_dry_run lenv); [done|].
  destruct (learn_llm lenv) as [llm|]; [|done].
  destruct (llm_extract llm w) as [evs raw].
  revert w. apply wbind_deltas; [done|]. intros _ w.
  destruct raw as [raw_content|e]; [|done].
  destruct (extract_first_json_object py raw_content) as [[| | | | |obj]|[]]; try done.
  by destruct (assoc_get "items" obj) as [[]|].
Qed.

Lemma deltas_evolve_eq (D D' : gmap string RBDeltaRow) :
  D' = D → deltas_evolve D D'.
Proof. intros ->. apply deltas_evolve_refl. Qed.

Lemma wbind_evolve {A B} (m : W A) (k : A → W B) :
  (∀ w, deltas_evolve (w_rb_deltas w) (w_rb_deltas (m w).2)) →
  (∀ a w, deltas_evolve (w_rb_deltas w) (w_rb_deltas (k a w).2)) →
  ∀ w, deltas_evolve (w_rb_deltas w) (w_rb_deltas (wbind m k w).2).
Proof.
  intros Hm Hk w. unfold wbind. specialize (Hm w).
  destruct (m w) as [[a|e] w1]; simpl in *; [|done].
  eapply deltas_evolve_trans; [done|apply Hk].
Qed.

Lemma mark_rb_delta_rolled_back_evolve (did : string) (reason : option string)
    (w : RBWorld) :
  deltas_evolve (w_rb_deltas w)
    (w_rb_deltas (mark_rb_delta_rolled_back env did reason w).2).
Proof.
  unfold mark_rb_delta_rolled_back, wbind, next_call.
  case_bool_decide; [apply deltas_evolve_refl|].
  unfold set_w_rb_deltas.
  cbn [snd w_rb_deltas w_rb w_store w_mem_edit_log w_rb_mem_index w_calls].
  intros k. destruct (decide (k = strip did)) as [->|Hne].
  - rewrite lookup_alter_eq.
    destruct (w_rb_deltas w !! strip did) as [r|]; [|done].
    cbn. eexists. split; [done|]. cbn. repeat split; auto.
  - rewrite lookup_alter_ne by done.
    destruct (w_rb_deltas w !! k) as [r|]; [|done]. exists r. repeat split; auto.
Qed.

(** Whatever its result, a rollback adds no row to the table of deltas
    and removes none. *)
Lemma rollback_rb_delta_evolve (run_id : string) (delta_id reason : option string)
    (w : RBWorld) :
  deltas_evolve (w_rb_deltas w)
    (w_rb_deltas (rollback_rb_delta py conv env run_id delta_id reason w).2).
Proof.
  unfold rollback_rb_delta. case_bool_decide; [apply deltas_evolve_refl|].
  revert w. apply wbind_evolve; [intros w; apply deltas_evolve_refl|].
  intros [did row]. cbn [fst snd].
  case_bool_decide; [intros w; apply deltas_evolve_refl|].
  apply wbind_evolve; [intros w; apply deltas_evolve_refl|]. intros _.
  apply wbind_evolve.
  { intros w. apply deltas_evolve_eq. apply rollback_ops_frame. }
  intros _.
  apply wbind_evolve; [apply mark_rb_delta_rolled_back_evolve|]. intros _.
  apply wbind_evolve; [intros w; apply deltas_evolve_refl|]. intros _ w.
  apply deltas_evolve_refl.
Qed.

Lemma rollback_deltas_evolve (rid : string) (ids : list string) (w : RBWorld) :
  deltas_evolve (w_rb_deltas w)
    (w_rb_deltas (rollback_deltas py conv env rid ids w).2).
Proof.
  revert w. induction ids as [|did ids IH]; [intros w; apply deltas_evolve_refl|].
  cbn [rollback_deltas].
  apply wbind_evolve; [intros w; apply rollback_rb_delta_evolve|]. by intros _.
Qed.

(** What [learn_apply] does to the table of deltas: nothing when it
    raises; when it returns, one new row, with the ops of the
    consolidation. *)
Lemma learn_apply_deltas (rid rb_job_id : string) (w : RBWorld) :
  match learn_apply py env lenv rid rb_job_id w with
  | (Raise _, w') => w_rb_deltas w' = w_rb_deltas w
  | (Ok d, w') =>
    ∃ items w1 ops w2 row,
      extract_items py lenv rid w = (Ok items, w1)
      ∧ consolidate py env lenv rid rb_job_id items w1 = (Ok ops, w2)
      ∧ w_rb_deltas w !! d = None
      ∧ w_rb_deltas w' = <[d := row]> (w_rb_deltas w)
      ∧ delta_run_id row = strip rid
      ∧ delta_status row = "applied"
      ∧ delta_ops_json row = JArr ops
  end.
Proof.
  unfold learn_apply. unfold wbind at 1.
  pose proof (extract_items_deltas rid w) as Hex.
  destruct (extract_items py lenv rid w) as [[items|e] w1]; [|done].
  cbn [snd] in Hex. unfold wbind at 1.
  pose proof (consolidate_deltas rid rb_job_id items w1) as Hco.
  destruct (consolidate py env lenv rid rb_job_id items w1) as [[ops|e] w2] eqn:Hcons;
    [|cbn [snd] in Hco; congruence].
  cbn [snd] in Hco. unfold wbind at 1.
  unfold create_rb_delta. case_bool_decide; [cbn; congruence|].
  destruct (get_run (w_store w2) (strip rid)); [|cbn; congruence].
  unfold wbind at 1, next_call.
  cbn [w_rb_deltas w_rb w_store w_mem_edit_log w_rb_mem_index w_calls].
  destruct (w_rb_deltas w2 !! env_new_id env "rbd" (w_calls w2)) as [r|] eqn:Hfresh;
    [cbn; congruence|].
  unfold wbind, w_append_event, wret, set_w_store, set_w_rb_deltas.
  cbn [w_rb_deltas w_rb w_store w_mem_edit_log w_rb_mem_index w_calls].
  eexists items, w1, ops, w2, _.
  split; [done|]. split; [done|]. split; [congruence|].
  split; [by rewrite Hco, Hex|]. done.
Qed.

Lemma learn_unfold (run_id rb_job_id : string) (w : RBWorld) :
  strip run_id ≠ "" →
  is_Some (get_run (w_store w) (strip run_id)) →
  is_Some (learn_feedback lenv (strip run_id)) →
  learn_reasoningbank_for_run py conv env lenv run_id rb_job_id w
  = let w0 := (w_append_event (strip run_id) "rb_learn_snapshot"
                 (learn_snapshot_payload lenv (strip run_id) rb_job_id) w).2 in
    match learn_rollback py conv env (strip run_id) w0 with
    | (Ok _, w1) => learn_apply py env lenv (strip run_id) rb_job_id w1
    | (Raise e, w1) => (Raise e, w1)
    end.
Proof.
  intros Hrid [r Hrun] [f Hfb]. unfold learn_reasoningbank_for_run.
  rewrite bool_decide_eq_false_2 by done. rewrite Hrun, Hfb.
  unfold wbind at 1. unfold w_append_event at 1. cbn [snd]. unfold wbind at 1.
  by destruct (learn_rollback _ _ _ _ _) as [[[]|e] w1].
Qed.

Lemma learn_returns_inv (run_id rb_job_id : string) (w w' : RBWorld) (r : Result string) :
  learn_reasoningbank_for_run py conv env lenv run_id rb_job_id w = (r, w') →
  (w' = w ∧ ∃ e, r = Raise e)
  ∨ (strip run_id ≠ ""
     ∧ is_Some (get_run (w_store w) (strip run_id))
     ∧ is_Some (learn_feedback lenv (strip run_id))).
Proof.
  unfold learn_reasoningbank_for_run. case_bool_decide.
  { intros [= <- <-]. left. eauto. }
  destruct (get_run _ _); [|intros [= <- <-]; left; eauto].
  destruct (learn_feedback _ _); [|intros [= <- <-]; left; eauto].
  intros _. right. eauto.
Qed.

(** A pass that raises adds no row to the table of deltas. *)
Lemma learn_raise_evolve (run_id rb_job_id : string) (w w' : RBWorld) (e : Exn) :
  learn_reasoningbank_for_run py conv env lenv run_id rb_job_id w = (Raise e, w') →
  deltas_evolve (w_rb_deltas w) (w_rb_deltas w').
Proof.
  intros Hlearn.
  destruct (learn_returns_inv _ _ _ _ _ Hlearn) as [[-> _]|(Hrid & Hrun & Hfb)];
    [apply deltas_evolve_refl|].
  rewrite learn_unfold in Hlearn by done. cbv zeta in Hlearn.
  unfold w_append_event in Hlearn. cbn [snd] in Hlearn.
  match type of Hlearn with context [learn_rollback _ _ _ _ ?w0] =>
    pose proof (rollback_deltas_evolve (strip run_id)
                  (applied_delta_ids w0 (strip run_id)) w0) as Hev;
    fold (learn_rollback py conv env (strip run_id) w0) in Hev;
    destruct (learn_rollback py conv env (strip run_id) w0) as [[[]|e1] w1]
  end; cbn [snd] in Hev; cbn [w_rb_deltas set_w_store] in Hev.
  - pose proof (learn_apply_deltas (strip run_id) rb_job_id w1) as Happ.
    rewrite Hlearn in Happ. by rewrite Happ.
  - by injection Hlearn as <- <-.
Qed.

Lemma extract_items_rb (rid : string) (w : RBWorld) :
  w_rb (extract_items py lenv rid w).2 = w_rb w.
Proof.
  unfold extract_items. destruct (learn_dry_run lenv); [done|].
  destruct (learn_llm lenv) as [llm|]; [|done].
  destruct (llm_extract llm w) as [evs raw].
  unfold wbind, w_append_events. cbn [fst snd].
  destruct raw as [raw_content|e]; [|done].
  destruct (extract_first_json_object py raw_content) as [[| | | | |obj]|[]]; try done.
  by destruct (assoc_get "items" obj) as [[]|].
Qed.

(** C6. A learn pass that returns first rolls back every delta of the
    run that is applied: each of them is [rolled_back] afterwards and
    none is left applied when the extraction and the consolidation
    start; the extraction writes no memory, so that the consolidation
    is the first to change the memories after the rollback; and the
    pass then records exactly one new row of the table of deltas,
    applied and of the run, whose ops are those of the consolidation
    (none, possibly): the id returned is new, no other row appears or
    disappears, and the new delta is the only applied one of the run
    afterwards. *)
Theorem learn_records_one_delta (run_id rb_job_id : string) (w w' : RBWorld)
    (d : string) :
  (∀ k, is_Some (w_rb_deltas w !! k) → strip k = k ∧ k ≠ "") →
  learn_reasoningbank_for_run py conv env lenv run_id rb_job_id w = (Ok d, w') →
  let rid := strip run_id in
  ∃ w0 w1 items w2 ops w3 row,
    w_rb w0 = w_rb w ∧ w_rb_deltas w0 = w_rb_deltas w
    ∧ learn_rollback py conv env rid w0 = (Ok tt, w1)
    ∧ applied_delta_ids w1 rid = []
    ∧ (∀ k, k ∈ applied_delta_ids w rid →
         ∃ r, w_rb_deltas w1 !! k = Some r ∧ delta_status r = "rolled_back")
    ∧ extract_items py lenv rid w1 = (Ok items, w2)
    ∧ w_rb w2 = w_rb w1
    ∧ consolidate py env lenv rid rb_job_id items w2 = (Ok ops, w3)
    ∧ w_rb_deltas w !! d = None
    ∧ w_rb_deltas w' !! d = Some row
    ∧ delta_run_id row = rid
    ∧ delta_status row = "applied"
    ∧ delta_ops_json row = JArr ops
    ∧ deltas_evolve (w_rb_deltas w) (delete d (w_rb_deltas w'))
    ∧ (∀ k, k ∈ applied_delta_ids w' rid ↔ k = d)
    ∧ (∀ k, k ∈ applied_delta_ids w rid →
         ∃ r, w_rb_deltas w' !! k = Some r ∧ delta_status r = "rolled_back").
Proof.
  intros Hkeys Hlearn rid.
  destruct (learn_returns_inv _ _ _ _ _ Hlearn) as [[_ [e ?]]|(Hrid & Hrun & Hfb)];
    [done|].
  rewrite learn_unfold in Hlearn by done. cbv zeta in Hlearn. fold rid in Hlearn, Hrid.
  set (w0 := (w_append_event rid "rb_learn_snapshot"
                (learn_snapshot_payload lenv rid rb_job_id) w).2) in *.
  assert (w_rb w0 = w_rb w ∧ w_rb_deltas w0 = w_rb_deltas w) as [Hrb0 Hd0] by done.
  assert (applied_delta_ids w0 rid = applied_delta_ids w rid) as Hids0 by done.
  destruct (learn_rollback py conv env rid w0) as [[[]|e1] w1] eqn:Hroll; [|done].
  apply learn_rollback_spec in Hroll as Hspec; [|by rewrite Hd0].
  destruct Hspec as (Hev & Hnone & Hids).
  assert (∀ k, k ∈ applied_delta_ids w rid →
            ∃ r, w_rb_deltas w1 !! k = Some r ∧ delta_status r = "rolled_back")
    as Hrolled.
  { pose proof Hroll as Hroll'. unfold learn_rollback in Hroll'.
    apply rollback_deltas_spec in Hroll' as [_ Hall].
    - intros k Hk. apply Hall. by rewrite Hids0.
    - intros k (r & _ & Hk & _)%applied_delta_ids_elem. apply Hkeys.
      rewrite <- Hd0. by eexists. }
  assert (strip rid = rid) as Hsrid by apply strip_idemp.
  rewrite Hsrid in Hnone. rewrite Hd0 in Hev.
  pose proof (learn_apply_deltas rid rb_job_id w1) as Happ.
  rewrite Hlearn in Happ.
  destruct Happ as (items & w2 & ops & w3 & row & Hex & Hco & Hfresh & Hins & Hr & Hs & Ho).
  rewrite Hsrid in Hr.
  assert (w_rb w2 = w_rb w1) as Hrb2.
  { pose proof (extract_items_rb rid w1) as Hrb. by rewrite Hex in Hrb. }
  assert (w_rb_deltas w !! d = None) as Hfresh0.
  { specialize (Hev d). destruct (w_rb_deltas w !! d) as [r0|]; [|done].
    destruct Hev as (r' & Hr' & _). congruence. }
  exists w0, w1, items, w2, ops, w3, row.
  repeat (split; [done|]).
  split; [by rewrite Hins, lookup_insert_eq|].
  repeat (split; [done|]).
  split.
  { rewrite Hins. rewrite delete_insert_id by done. done. }
  split.
  - intros k. rewrite applied_delta_ids_elem, Hsrid. split.
    + intros (r & _ & Hk & Hrun' & Hst).
      destruct (decide (k = d)) as [|Hne]; [done|].
      rewrite Hins, lookup_insert_ne in Hk by done.
      by destruct (Hnone k r).
    + intros ->. exists row. by rewrite Hins, lookup_insert_eq.
  - intros k Hk. destruct (Hrolled k Hk) as (r & Hr1 & Hst).
    exists r. split; [|done]. rewrite Hins, lookup_insert_ne; [done|].
    intros ->. congruence.
Qed.

End Learn.

Lemma learn_records_one_delta_witness :
  let w' := (sample_llm_learn reply_items_none "run_a" "job_a" sample_world_c).2 in
  sample_llm_learn reply_items_none "run_a" "job_a" sample_world_c = (Ok "rbd_20", w')
  ∧ applied_delta_ids sample_world_c "run_a" = ["rbd_4"]
  ∧ (∀ k, k ∈ applied_delta_ids w' "run_a" ↔ k = "rbd_20")
  ∧ (∃ row, w_rb_deltas w' !! "rbd_20" = Some row
            ∧ delta_status row = "applied"
            ∧ delta_ops_json row = JArr [])
  ∧ ∃ r, w_rb_deltas w' !! "rbd_4" = Some r ∧ delta_status r = "rolled_back".
Proof.
  intros w'.
  assert (sample_llm_learn reply_items_none "run_a" "job_a" sample_world_c
          = (Ok "rbd_20", w')) as Hrun by (vm_compute; reflexivity).
  split; [exact Hrun|]. split; [vm_compute; reflexivity|].
  destruct (learn_records_one_delta sample_py_learn sample_conv sample_rb_env
              (sample_llm_env reply_items_none) "run_a" "job_a" sample_world_c w'
              "rbd_20")
    as (w0 & w1 & items & w2 & ops & w3 & row & _ & _ & _ & _ & _ & _ & _ & _ & _
        & Hrow & _ & Hst & _ & _ & Hids & Hrolled).
  - intros k Hk. apply elem_of_dom in Hk.
    assert (dom (w_rb_deltas sample_world_c) = {["rbd_4"; "rbd_9"; "rbd_14"]}) as Hdom
      by (vm_compute; reflexivity).
    rewrite Hdom in Hk.
    apply elem_of_union in Hk as [[->%elem_of_singleton| ->%elem_of_singleton]%elem_of_union
                                  | ->%elem_of_singleton];
      (split; [reflexivity|discriminate]).
  - exact Hrun.
  - split; [exact Hids|]. split.
    + exists row. split; [exact Hrow|]. split; [exact Hst|].
      assert (delta_ops_json <$> w_rb_deltas w' !! "rbd_20" = Some (JArr [])) as Hops
        by (vm_compute; reflexivity).
      rewrite Hrow in Hops. by injection Hops.
    + apply Hrolled. vm_compute. left.
Defined.

(** A pass that raises in the consolidation: the chat client proposes
    a memory and then one with a role that does not exist; the first
    is added to the collection, the second makes [upsert] raise, and
    the pass ends with the memory written and no row in the table of
    deltas.  A second pass of the same kind finds nothing to roll back
    and changes the memory the first one added: the two passes
    compound. *)
Lemma learn_failed_pass_counterexample :
  let pass := sample_llm_learn reply_items_bad_role "run_a" "job_a" in
  let w1 := (pass sample_world_empty).2 in
  let w2 := (pass w1).2 in
  (pass sample_world_empty).1 = Raise (ReasoningBankError "Invalid RB role: 'chemist'")
  ∧ map_to_list (w_rb sample_world_empty) = []
  ∧ (map_to_list (w_rb w1)).*1 = ["mem-u0"]
  ∧ map_to_list (w_rb_deltas w1) = []
  ∧ (pass w1).1 = Raise (ReasoningBankError "Invalid RB role: 'chemist'")
  ∧ map_to_list (w_rb_deltas w2) = []
  ∧ rb_get sample_py_learn (w_rb w2) "mem-u0" ≠ rb_get sample_py_learn (w_rb w1) "mem-u0".
Proof. vm_compute. repeat split. discriminate. Qed.

(** ** The snapshot taken by a merge *)

Section MergeSnapshot.

Context (py : PyLib) (lenv : LearnEnv).

Lemma py_load_app (fields : list (string * JSON)) (h : PyHeap) :
  ∃ hs, (py_load fields h).2 = (h ++ hs)%list.
Proof.
  revert h. induction fields as [|[k v] rest IH]; intros h.
  { exists []. by rewrite app_nil_r. }
  destruct v; cbn [py_load];
    try (destruct (IH h) as [hs Hhs]; destruct (py_load rest h) as [d h'];
         by exists hs).
  destruct (IH (h ++ [items])%list) as [hs Hhs].
  destruct (py_load rest (h ++ [items])%list) as [d h'].
  exists (items :: hs). cbn [snd] in *. by rewrite Hhs, <- app_assoc.
Qed.

(** A list under a key of a loaded dict is a list object of the heap
    that holds the items of the list. *)
Lemma py_load_get (k : string) (L : list JSON) (fields : list (string * JSON))
    (h : PyHeap) :
  assoc_get k fields = Some (JArr L) →
  ∃ r, py_dict_get k (py_load fields h).1 = Some (PyListRef r)
       ∧ (py_load fields h).2 !! r = Some L.
Proof.
  revert h. induction fields as [|[k' v] rest IH]; intros h; [done|].
  cbn [assoc_get]. case_bool_decide as Hk.
  - intros [= ->]. cbn [py_load].
    destruct (py_load_app rest (h ++ [L])%list) as [hs Hhs].
    destruct (py_load rest (h ++ [L])%list) as [d h']. cbn [fst snd py_dict_get] in *.
    rewrite bool_decide_eq_true_2 by done.
    exists (length h). split; [done|].
    rewrite Hhs, <- app_assoc. exact (list_lookup_middle h hs L _ eq_refl).
  - intros Hget.
    destruct v; cbn [py_load];
      try (destruct (IH h Hget) as (r & Hr & Hh);
           destruct (py_load rest h) as [d h']; cbn [fst snd py_dict_get] in *;
           rewrite bool_decide_eq_false_2 by done; by exists r).
    destruct (IH (h ++ [items])%list Hget) as (r & Hr & Hh).
    destruct (py_load rest (h ++ [items])%list) as [d h'].
    cbn [fst snd py_dict_get] in *.
    rewrite bool_decide_eq_false_2 by done. by exists r.
Qed.

Lemma py_dump_get (k : string) (r : nat) (d : PyDict) (h : PyHeap) :
  py_dict_get k d = Some (PyListRef r) →
  assoc_get k (py_dump h d) = Some (JArr (default [] (h !! r))).
Proof.
  induction d as [|[k' v] rest IH]; [done|].
  cbn [py_dict_get py_dump map assoc_get fst snd]. case_bool_decide.
  - by intros [= ->].
  - apply IH.
Qed.

(** C5, where the code departs from it. When a proposal is merged by
    the heuristic (no chat client, or a dry run) into a memory whose
    [extra] already holds a list [merged_from], the [extra] that is
    recorded as the state of the memory before the merge is the
    [extra] that the merge writes: its [merged_from] ends with the
    entry of the proposal, which the memory did not hold before. *)
Theorem heuristic_merge_snapshot_aliased (rid content : string)
    (proposal fields : list (string * JSON)) (L : list JSON)
    (chosen_existing : MemoryItem) (w : RBWorld) :
  learn_llm lenv = None ∨ learn_dry_run lenv = true →
  mem_extra chosen_existing = JObj fields →
  assoc_get "merged_from" fields = Some (JArr L) →
  ∃ merged_content merged,
    merge_proposal py lenv rid proposal content chosen_existing w
      = (Ok (merged_content, JObj merged, false, JObj merged), w)
    ∧ assoc_get "merged_from" merged
      = Some (JArr (L ++ [JObj [("source_run_id", JStr rid);
                                ("proposal", JStr content)]])).
Proof.
  intros Hheur Hextra Hget. unfold merge_proposal. rewrite Hextra.
  assert (or_empty_dict (JObj fields) = JObj fields) as ->.
  { by destruct fields. }
  destruct (py_load_get "merged_from" L fields [] Hget) as (r & Hr & Hh).
  destruct (py_load fields []) as [existing_extra h0]. cbn [fst snd] in Hr, Hh.
  assert (llm_merge_step py lenv proposal content chosen_existing w
          = (Ok (content, false, []), w)) as Hstep.
  { unfold llm_merge_step. destruct (learn_llm lenv) as [llm|]; [|done].
    destruct Hheur as [Hllm|Hdry]; [done|by rewrite Hdry]. }
  unfold wbind. rewrite Hstep. unfold py_setdefault_append, py_dict_copy.
  rewrite Hr. unfold wret. eexists _, _. split; [done|].
  rewrite (py_dump_get _ _ _ _ Hr).
  match goal with |- context [alter ?f r h0 !! r] =>
    pose proof (list_lookup_alter f (h0 : list (list JSON)) r) as Halter end.
  unfold PyHeap in *. rewrite Halter, decide_True, Hh by done. reflexivity.
Qed.

End MergeSnapshot.

Lemma heuristic_merge_snapshot_aliased_witness :
  let entry run := JObj [("source_run_id", JStr run);
                         ("proposal", JStr ("DRY RUN " ++ em_dash
                            ++ " synthetic orchestrator memory."
                            ++ nl ++ "Do not use for science."))] in
  ∃ item merged_content merged,
    rb_get sample_py (w_rb sample_world_b) "mem-u2" = Ok (Some item)
    ∧ json_get "merged_from" (mem_extra item) = Some (JArr [entry "run_b"])
    ∧ merge_proposal sample_py sample_learn_env "run_c" []
        ("DRY RUN " ++ em_dash ++ " synthetic orchestrator memory."
         ++ nl ++ "Do not use for science.") item sample_world_b
      = (Ok (merged_content, JObj merged, false, JObj merged), sample_world_b)
    ∧ assoc_get "merged_from" merged = Some (JArr [entry "run_b"; entry "run_c"]).
Proof.
  intros entry.
  destruct (rb_get sample_py (w_rb sample_world_b) "mem-u2") as [[item|]|e] eqn:Hitem;
    [|vm_compute in Hitem; discriminate Hitem..].
  assert (∃ fields, mem_extra item = JObj fields
                    ∧ assoc_get "merged_from" fields = Some (JArr [entry "run_b"]))
    as (fields & Hextra & Hget).
  { vm_compute in Hitem. injection Hitem as <-. eexists. split; reflexivity. }
  destruct (heuristic_merge_snapshot_aliased sample_py sample_learn_env "run_c"
              ("DRY RUN " ++ em_dash ++ " synthetic orchestrator memory."
               ++ nl ++ "Do not use for science.")
              [] fields [entry "run_b"] item sample_world_b)
    as (merged_content & merged & Hmerge & Hmf).
  - right. reflexivity.
  - exact Hextra.
  - exact Hget.
  - exists item, merged_content, merged. split; [reflexivity|].
    split; [by rewrite Hextra|]. split; [exact Hmerge|exact Hmf].
Defined.

(** The rollback of a pass that merged into a memory that had been
    merged into before: three dry-run passes for three runs, each
    merging its proposal for the orchestrator into the memory the
    first one added, and the rollback of the third.  The content, the
    status and the time of update of the memory are those it had after
    the second pass; its [extra] is not: it keeps the entry of the
    third pass. *)
Lemma rollback_after_merge_counterexample :
  let entry run := JObj [("source_run_id", JStr run);
                         ("proposal", JStr ("DRY RUN " ++ em_dash
                            ++ " synthetic orchestrator memory."
                            ++ nl ++ "Do not use for science."))] in
  let read w := match rb_get sample_py (w_rb w) "mem-u2" with
                | Ok (Some item) =>
                  Some (mem_content item, mem_status item, mem_updated_at item,
                        json_get "merged_from" (mem_extra item))
                | _ => None
                end in
  let content := "DRY RUN " ++ em_dash ++ " synthetic orchestrator memory."
                 ++ nl ++ "Do not use for science." in
  (sample_learn "run_c" "job_c" sample_world_b).1 = Ok "rbd_14"
  ∧ (rollback_rb_delta sample_py sample_conv sample_rb_env "run_c" None None
       sample_world_c).1 = Ok "rbd_14"
  ∧ read sample_world_b
    = Some (content, "active", 1007%Z, Some (JArr [entry "run_b"]))
  ∧ read sample_world_c
    = Some (content, "active", 1012%Z, Some (JArr [entry "run_b"; entry "run_c"]))
  ∧ read sample_world_c_rolled_back
    = Some (content, "active", 1007%Z, Some (JArr [entry "run_b"; entry "run_c"])).
Proof. vm_compute. repeat split. Qed.
(** ** Claiming learn jobs *)

Section ClaimLearnJob.

Lemma job_order_asc_total (a b : string * RBJobRow) :
  job_order_asc a b = true ∨ job_order_asc b a = true.
Proof.
  unfold job_order_asc.
  destruct (Z.ltb_spec (job_created_at a.2) (job_created_at b.2)); [by left|].
  destruct (Z.ltb_spec (job_created_at b.2) (job_created_at a.2)); [by right|].
  assert (job_created_at a.2 = job_created_at b.2) as -> by lia.
  rewrite Z.eqb_refl. simpl. apply String.leb_total.
Qed.

Lemma job_order_asc_trans (a b c : string * RBJobRow) :
  job_order_asc a b = true → job_order_asc b c = true → job_order_asc a c = true.
Proof.
  unfold job_order_asc.
  rewrite !orb_true_iff, !andb_true_iff, !Z.ltb_lt, !Z.eqb_eq.
  intros [?|[? ?]] [?|[? ?]]; try (left; lia).
  right. split; [lia|]. by eapply string_leb_trans.
Qed.

(** [claim_next_queued_rb_job] hands out the queued job that is least
    for (created_at, rb_job_id): when no job is queued it returns
    [None] and changes nothing; otherwise that job, and no other row of
    any table, changes: it becomes [running], with [started_at] set if
    it was not, and it is the row returned when its id is a stripped,
    non-empty text. *)
Theorem claim_next_queued_rb_job_fifo (ts : Z) (s : Store) :
  ((∀ j r, rb_jobs s !! j = Some r → job_status r ≠ "queued") →
   claim_next_queued_rb_job ts s = (None, s))
  ∧ ((∃ j r, rb_jobs s !! j = Some r ∧ job_status r = "queued") →
     ∃ j r,
       rb_jobs s !! j = Some r ∧ job_status r = "queued"
       ∧ (∀ j' r', rb_jobs s !! j' = Some r' → job_status r' = "queued" →
            job_created_at r < job_created_at r'
            ∨ (job_created_at r = job_created_at r' ∧ String.leb j j' = true))
       ∧ let running :=
           mkRBJobRow (job_run_id r) (job_kind r) (job_created_at r)
             (COALESCE (job_started_at r) (Some ts)) (job_ended_at r)
             "running" (job_error r) (job_extra r) in
         let s' := (claim_next_queued_rb_job ts s).2 in
         rb_jobs s' = <[j := running]> (rb_jobs s)
         ∧ runs s' = runs s ∧ batches s' = batches s
         ∧ idempotency_keys s' = idempotency_keys s ∧ events s' = events s
         ∧ (strip j = j → j ≠ "" →
            (claim_next_queued_rb_job ts s).1 = Some (j, running))).
Proof.
  split.
  - intros Hnone. unfold claim_next_queued_rb_job.
    destruct (filter (λ kv : string * RBJobRow, job_status kv.2 = "queued")
                (map_to_list (rb_jobs s))) as [|[j r] l] eqn:Hf; [done|].
    assert ((j, r) ∈ filter (λ kv : string * RBJobRow, job_status kv.2 = "queued")
              (map_to_list (rb_jobs s))) as Hin by (rewrite Hf; left).
    apply list_elem_of_filter in Hin as [Hq Hin%elem_of_map_to_list].
    by destruct (Hnone j r).
  - intros (j0 & r0 & Hj0 & Hq0). unfold claim_next_queued_rb_job.
    destruct (first_by job_order_asc _) as [[j r]|] eqn:Hfirst.
    + apply (first_by_Some _ job_order_asc_total job_order_asc_trans) in Hfirst
        as [Hin Hmin].
      apply list_elem_of_filter in Hin as [Hq Hin]. cbn [snd] in Hq.
      apply elem_of_map_to_list in Hin.
      exists j, r. split; [done|]. split; [done|]. split.
      { intros j' r' Hj' Hq'.
        assert (job_order_asc (j, r) (j', r') = true) as Hle.
        { apply Hmin. apply list_elem_of_filter. split; [done|].
          by apply elem_of_map_to_list. }
        unfold job_order_asc in Hle. cbn [fst snd] in Hle.
        apply orb_true_iff in Hle as [Hlt|[Heq Hleb]%andb_true_iff]; [left; lia|].
        right. split; [lia|done]. }
      cbn [fst]. rewrite Hin. rewrite bool_decide_eq_true_2 by done.
      cbn [fst snd]. repeat (split; [done|]).
      intros Hs Hne. unfold get_rb_job. rewrite Hs.
      rewrite bool_decide_eq_false_2 by done.
      cbn. by rewrite lookup_insert_eq.
    + apply first_by_None in Hfirst.
      assert ((j0, r0) ∈ filter (λ kv : string * RBJobRow, job_status kv.2 = "queued")
                (map_to_list (rb_jobs s))) as Hin.
      { apply list_elem_of_filter. split; [done|]. by apply elem_of_map_to_list. }
      rewrite Hfirst in Hin. by apply elem_of_nil in Hin.
Qed.

End ClaimLearnJob.

Lemma claim_next_queued_rb_job_fifo_witness :
  ∃ j r,
    rb_jobs sample_store_jobs !! j = Some r ∧ job_status r = "queued"
    ∧ (claim_next_queued_rb_job 60 sample_store_jobs).1
      = Some (j, mkRBJobRow (job_run_id r) (job_kind r) (job_created_at r)
                   (COALESCE (job_started_at r) (Some 60)) (job_ended_at r)
                   "running" (job_error r) (job_extra r)).
Proof.
  destruct (claim_next_queued_rb_job_fifo 60 sample_store_jobs) as [_ Hsome].
  destruct Hsome as (j & r & Hj & Hq & _ & _ & _ & _ & _ & _ & Hres).
  - exists "rbjob_2". vm_compute. eexists. split; reflexivity.
  - exists j, r. split; [exact Hj|]. split; [exact Hq|].
    assert (dom (rb_jobs sample_store_jobs) = {["rbjob_1"; "rbjob_2"]}) as Hdom
      by (vm_compute; reflexivity).
    apply elem_of_dom_2 in Hj. rewrite Hdom in Hj.
    apply elem_of_union in Hj as [->%elem_of_singleton| ->%elem_of_singleton];
      apply Hres; (reflexivity || discriminate).
Defined.

(** ** Reconciling runs after a restart *)

Section Reconcile.

Lemma fail_running_row_idemp (ts : Z) (reason : string) (r : RunRow) :
  fail_running_row ts reason (fail_running_row ts reason r)
  = fail_running_row ts reason r.
Proof.
  unfold fail_running_row.
  destruct (decide (run_status r = "running")) as [Hst|Hst].
  - rewrite (bool_decide_eq_true_2 _ Hst). cbn [run_status].
    by rewrite bool_decide_eq_false_2.
  - rewrite (bool_decide_eq_false_2 _ Hst). by rewrite bool_decide_eq_false_2.
Qed.

Lemma fail_running_row_status (ts : Z) (reason : string) (r : RunRow) :
  run_status (fail_running_row ts reason r) ≠ "running".
Proof. unfold fail_running_row. by case_bool_decide. Qed.

Lemma elem_of_running_run_ids (s : Store) (rid : string) :
  rid ∈ running_run_ids s ↔ ∃ r, runs s !! rid = Some r ∧ run_status r = "running".
Proof.
  unfold running_run_ids. rewrite list_elem_of_fmap. split.
  - intros [[k r] [-> [Hst Hin%elem_of_map_to_list]%list_elem_of_filter]]. by exists r.
  - intros (r & Hr & Hst). exists (rid, r). split; [done|].
    apply list_elem_of_filter. split; [done|]. by apply elem_of_map_to_list.
Qed.

Lemma NoDup_running_run_ids (s : Store) : NoDup (running_run_ids s).
Proof.
  unfold running_run_ids.
  assert ((filter (λ kv : string * RunRow, run_status kv.2 = "running")
             (map_to_list (runs s))).*1 `sublist_of` (map_to_list (runs s)).*1) as Hsub.
  { apply fmap_sublist, sublist_filter. }
  exact (sublist_NoDup _ _ (NoDup_fst_map_to_list (runs s)) Hsub).
Qed.

Lemma reconcile_fold (ts : Z) (reason : string) (ids : list string) (s : Store) :
  let s' := foldl (λ s run_id,
                append_event run_id "run_failed" (JObj [("error", JStr reason)])
                  (set_runs (alter (fail_running_row ts reason) run_id) s))
              s ids in
  (∀ rid, runs s' !! rid
          = if decide (rid ∈ ids) then fail_running_row ts reason <$> runs s !! rid
            else runs s !! rid)
  ∧ batches s' = batches s ∧ idempotency_keys s' = idempotency_keys s
  ∧ rb_jobs s' = rb_jobs s
  ∧ events s'
    = (events s
       ++ ((λ rid, mkEventRow rid "run_failed" (JObj [("error", JStr reason)]))
             <$> ids))%list.
Proof.
  revert s. induction ids as [|id ids IH]; intros s; cbn [foldl].
  { cbn. split; [|by rewrite app_nil_r]. intros rid.
    by rewrite decide_False by apply not_elem_of_nil. }
  destruct (IH (append_event id "run_failed" (JObj [("error", JStr reason)])
                  (set_runs (alter (fail_running_row ts reason) id) s)))
    as (Hruns & Hb & Hi & Hj & He).
  cbv zeta. split; [|repeat split; try done].
  - intros rid. rewrite Hruns. cbn [append_event set_runs runs].
    destruct (decide (rid = id)) as [->|Hne].
    + rewrite lookup_alter_eq. rewrite (decide_True (P := id ∈ id :: ids)) by left.
      destruct (decide (id ∈ ids)); [|done].
      destruct (runs s !! id) as [r|]; [|done]. cbn.
      by rewrite fail_running_row_idemp.
    + rewrite lookup_alter_ne by done.
      destruct (decide (rid ∈ ids)) as [Hin|Hnin].
      * by rewrite decide_True by by right.
      * rewrite decide_False; [done|]. by intros [?|?]%elem_of_cons.
  - rewrite He. cbn [append_event set_runs events fmap list_fmap].
    by rewrite <- app_assoc.
Qed.

(** [reconcile_running_runs] leaves no run [running]: the runs that
    were running are [failed], with the time and the reason put where
    no end time and no error were recorded, and each of them gets one
    [run_failed] event; the number returned counts them; every other
    run and every other table is as before, and a second call finds
    nothing to do. *)
Theorem reconcile_running_runs_spec (ts ts' : Z) (reason reason' : string) (s : Store) :
  let n := (reconcile_running_runs ts reason s).1 in
  let s' := (reconcile_running_runs ts reason s).2 in
  (∀ rid, runs s' !! rid = fail_running_row ts reason <$> runs s !! rid)
  ∧ (∀ rid r, runs s' !! rid = Some r → run_status r ≠ "running")
  ∧ n = length (running_run_ids s)
  ∧ NoDup (running_run_ids s)
  ∧ (∀ rid, rid ∈ running_run_ids s
            ↔ ∃ r, runs s !! rid = Some r ∧ run_status r = "running")
  ∧ events s'
    = (events s
       ++ ((λ rid, mkEventRow rid "run_failed" (JObj [("error", JStr reason)]))
             <$> running_run_ids s))%list
  ∧ batches s' = batches s ∧ idempotency_keys s' = idempotency_keys s
  ∧ rb_jobs s' = rb_jobs s
  ∧ reconcile_running_runs ts' reason' s' = (0%nat, s').
Proof.
  intros n s'.
  destruct (reconcile_fold ts reason (running_run_ids s) s) as (Hruns & Hb & Hi & Hj & He).
  fold s' in Hruns, Hb, Hi, Hj, He.
  assert (∀ rid, runs s' !! rid = fail_running_row ts reason <$> runs s !! rid) as Hall.
  { intros rid. rewrite Hruns. destruct (decide (rid ∈ running_run_ids s)) as [|Hnin]; [done|].
    destruct (runs s !! rid) as [r|] eqn:Hr; [|done]. cbn. f_equal.
    unfold fail_running_row. rewrite bool_decide_eq_false_2; [done|].
    intros Hst. apply Hnin. apply elem_of_running_run_ids. eauto. }
  assert (∀ rid r, runs s' !! rid = Some r → run_status r ≠ "running") as Hnone.
  { intros rid r. rewrite Hall. destruct (runs s !! rid) as [r0|]; [|done].
    intros [= <-]. apply fail_running_row_status. }
  repeat (split; [done || apply NoDup_running_run_ids || apply elem_of_running_run_ids|]).
  unfold reconcile_running_runs.
  assert (running_run_ids s' = []) as ->; [|done].
  destruct (running_run_ids s') as [|rid l] eqn:Hids; [done|].
  assert (rid ∈ running_run_ids s') as Hin by (rewrite Hids; left).
  apply elem_of_running_run_ids in Hin as (r & Hr & Hst). by destruct (Hnone rid r).
Qed.

End Reconcile.

(** ** Cancellation requests *)

Section Cancel.

Context (py : PyLib).

Lemma check_target_type_Ok (target_type : string) :
  target_type = "batch" ∨ target_type = "run" →
  check_target_type py target_type = Ok tt.
Proof. intros H. unfold check_target_type. by rewrite bool_decide_eq_true_2. Qed.

Lemma is_cancel_requested_true (target_type target_id : string) (t : CancelTable) :
  target_type = "batch" ∨ target_type = "run" →
  is_cancel_requested py target_type target_id t = Ok true
  ↔ ∃ k row, t !! k = Some row ∧ cancel_targets target_type target_id row
             ∧ (cancel_status row = "requested" ∨ cancel_status row = "acknowledged").
Proof.
  intros Hty. unfold is_cancel_requested. rewrite check_target_type_Ok by done.
  split.
  - intros [= Hb]. apply bool_decide_eq_true in Hb.
    destruct (filter _ _) as [|[k row] l] eqn:Hf; [done|].
    assert ((k, row) ∈ (k, row) :: l) as Hin by left.
    rewrite <- Hf in Hin.
    apply list_elem_of_filter in Hin as [[? ?] Hin%elem_of_map_to_list].
    by exists k, row.
  - intros (k & row & Hk & Htg & Hst). f_equal. apply bool_decide_eq_true.
    intros Hnil.
    assert ((k, row) ∈ filter (λ kv : string * CancelRow,
                cancel_targets target_type target_id kv.2
                ∧ (cancel_status kv.2 = "requested"
                   ∨ cancel_status kv.2 = "acknowledged")) (map_to_list t)) as Hin.
    { apply list_elem_of_filter. split; [done|]. by apply elem_of_map_to_list. }
    rewrite Hnil in Hin. by apply elem_of_nil in Hin.
Qed.

(** A row that makes a target cancelled keeps doing so, whatever is
    requested or acknowledged afterwards. *)
Lemma run_cancel_op_keeps (op : CancelOp) (t : CancelTable) (k : string)
    (row : CancelRow) (target_type target_id : string) :
  t !! k = Some row → cancel_targets target_type target_id row →
  cancel_status row = "requested" ∨ cancel_status row = "acknowledged" →
  ∃ row', run_cancel_op py op t !! k = Some row'
          ∧ cancel_targets target_type target_id row'
          ∧ (cancel_status row' = "requested" ∨ cancel_status row' = "acknowledged").
Proof.
  intros Hk Htg Hst. destruct op as [cid ts ty id reason|ty id]; cbn [run_cancel_op].
  - unfold request_cancel. destruct (check_target_type py ty); [|by exists row].
    destruct (t !! cid) eqn:Hcid; [by exists row|]. cbn [snd].
    exists row. rewrite lookup_insert_ne; [done|]. congruence.
  - unfold acknowledge_cancel. destruct (check_target_type py ty); [|by exists row].
    cbn [snd]. rewrite lookup_fmap, Hk. cbn. eexists. split; [done|].
    case_bool_decide; [|done]. cbn. split; [done|]. by right.
Qed.

(** A request for cancellation is never withdrawn: once
    [request_cancel] has returned for a target, [is_cancel_requested]
    answers [True] for it after any further requests and
    acknowledgements, for this target or for others. *)
Theorem cancel_request_persists (cancel_id : string) (ts : Z)
    (target_type target_id : string) (reason : option string)
    (ops : list CancelOp) (t t' : CancelTable) (cid : string) :
  request_cancel py cancel_id ts target_type target_id reason t = (Ok cid, t') →
  cid = cancel_id
  ∧ t !! cancel_id = None
  ∧ is_cancel_requested py target_type target_id (run_cancel_ops py ops t') = Ok true.
Proof.
  unfold request_cancel, check_target_type.
  case_bool_decide as Hty; [|done].
  destruct (t !! cancel_id) eqn:Hfresh; [done|]. intros [= <- <-].
  split; [done|]. split; [done|].
  apply is_cancel_requested_true; [done|].
  set (row := mkCancelRow ts target_type target_id "requested" reason).
  assert (∃ row', <[cancel_id := row]> t !! cancel_id = Some row'
                  ∧ cancel_targets target_type target_id row'
                  ∧ (cancel_status row' = "requested"
                     ∨ cancel_status row' = "acknowledged")) as Hinv.
  { exists row. rewrite lookup_insert_eq. repeat split. by left. }
  revert Hinv. generalize (<[cancel_id := row]> t). clear Hfresh.
  induction ops as [|op ops IH]; intros t0 (row' & Hk & Htg & Hst); cbn [run_cancel_ops foldl].
  - by exists cancel_id, row'.
  - apply IH. by eapply run_cancel_op_keeps.
Qed.

End Cancel.

Lemma reconcile_running_runs_spec_witness :
  (reconcile_running_runs 100 "server_restarted" sample_store_stuck).1 = 2%nat
  ∧ reconcile_running_runs 200 "again"
      (reconcile_running_runs 100 "server_restarted" sample_store_stuck).2
    = (0%nat, (reconcile_running_runs 100 "server_restarted" sample_store_stuck).2).
Proof.
  destruct (reconcile_running_runs_spec 100 200 "server_restarted" "again"
              sample_store_stuck) as (_ & _ & Hn & _ & _ & _ & _ & _ & _ & Hagain).
  split; [|exact Hagain]. rewrite Hn. vm_compute. reflexivity.
Defined.

Lemma cancel_request_persists_witness :
  is_cancel_requested sample_py "batch" "batch_1"
    (run_cancel_ops sample_py
       [OpAcknowledge "batch" "batch_1"; OpRequest "cancel_2" 6 "run" "run_a" None;
        OpAcknowledge "batch" "batch_1"]
       (request_cancel sample_py "cancel_1" 5 "batch" "batch_1" None ∅).2)
  = Ok true.
Proof.
  destruct (cancel_request_persists sample_py "cancel_1" 5 "batch" "batch_1" None
              [OpAcknowledge "batch" "batch_1"; OpRequest "cancel_2" 6 "run" "run_a" None;
               OpAcknowledge "batch" "batch_1"]
              ∅ (request_cancel sample_py "cancel_1" 5 "batch" "batch_1" None ∅).2
              "cancel_1") as (_ & _ & Hreq).
  - vm_compute. reflexivity.
  - exact Hreq.
Defined.

(** ** The deltas of a run, newest first *)

Section DeltaOrder.

#[local] Instance by_delta_newest_total : Total by_delta_newest.
Proof.
  intros a b. unfold by_delta_newest.
  destruct (Z.lt_trichotomy (delta_created_at a.2) (delta_created_at b.2))
    as [?|[Heq|?]]; [by right; left|..|by left; left].
  destruct (String.leb_total a.1 b.1); [right|left]; right; by rewrite Heq.
Qed.

#[local] Instance by_delta_newest_trans : Transitive by_delta_newest.
Proof.
  intros a b c. unfold by_delta_newest.
  intros [?|[? ?]] [?|[? ?]]; try (left; lia).
  right. split; [lia|]. by eapply string_leb_trans.
Qed.

Lemma StronglySorted_filter_head {A} (R : relation A) (P : A → Prop)
    `{!∀ x, Decision (P x)} (l : list A) (x : A) (rest : list A) :
  StronglySorted R l → filter P l = x :: rest → ∀ y, y ∈ rest → R x y.
Proof.
  induction 1 as [|a l Hsorted IH Hall]; [done|].
  rewrite filter_cons. destruct (decide (P a)) as [HP|HP]; [|exact IH].
  intros [= <- <-] y [_ Hy]%list_elem_of_filter.
  rewrite Forall_forall in Hall. by apply Hall.
Qed.

Lemma list_rb_deltas_for_run_sorted (w : RBWorld) (run_id : string) :
  StronglySorted by_delta_newest (list_rb_deltas_for_run w run_id).
Proof.
  unfold list_rb_deltas_for_run. case_bool_decide; [constructor|].
  apply StronglySorted_merge_sort; apply _.
Qed.

Lemma StronglySorted_lookup_lt {A} (R : relation A) (l : list A) (i j : nat)
    (x y : A) :
  StronglySorted R l → (i < j)%nat → l !! i = Some x → l !! j = Some y → R x y.
Proof.
  intros Hsorted. revert i j. induction Hsorted as [|a l Hsorted IH Hall];
    intros i j Hij Hi Hj; [done|].
  destruct j as [|j]; [lia|]. destruct i as [|i]; simpl in *.
  - injection Hi as <-. rewrite Forall_forall in Hall. apply Hall.
    by eapply list_elem_of_lookup_2.
  - apply (IH i j); [lia|done..].
Qed.

(** [list_rb_deltas_for_run] lists every delta of the run once, and
    no other (the run id is taken without the white space around it,
    and no delta is listed for an empty one); of two deltas listed,
    the one listed first was created later, or at the same time under
    the greater id. *)
Theorem list_rb_deltas_for_run_newest_first (w : RBWorld) (run_id : string) :
  let l := list_rb_deltas_for_run w run_id in
  (∀ i j k1 r1 k2 r2,
     (i < j)%nat → l !! i = Some (k1, r1) → l !! j = Some (k2, r2) →
     delta_created_at r2 < delta_created_at r1
     ∨ (delta_created_at r1 = delta_created_at r2
        ∧ String.leb k2 k1 = true ∧ k1 ≠ k2))
  ∧ NoDup l.*1
  ∧ (∀ k r, (k, r) ∈ l ↔
       strip run_id ≠ "" ∧ w_rb_deltas w !! k = Some r
       ∧ delta_run_id r = strip run_id).
Proof.
  intros l.
  assert (NoDup l.*1) as Hnd.
  { subst l. unfold list_rb_deltas_for_run. case_bool_decide; [constructor|].
    rewrite merge_sort_Permutation.
    assert ((filter (λ kv : string * RBDeltaRow, delta_run_id kv.2 = strip run_id)
               (map_to_list (w_rb_deltas w))).*1
            `sublist_of` (map_to_list (w_rb_deltas w)).*1) as Hsub.
    { apply fmap_sublist, sublist_filter. }
    exact (sublist_NoDup _ _ (NoDup_fst_map_to_list (w_rb_deltas w)) Hsub). }
  split; [|split; [done|]].
  - intros i j k1 r1 k2 r2 Hij Hi Hj.
    pose proof (StronglySorted_lookup_lt _ _ _ _ _ _
                  (list_rb_deltas_for_run_sorted w run_id) Hij Hi Hj) as Hord.
    destruct Hord as [Hlt|[Heq Hle]]; [by left|right]. simpl in *.
    split; [done|]. split; [done|]. intros ->.
    assert (i = j); [|lia].
    apply (NoDup_lookup _ _ _ k2 Hnd); rewrite list_lookup_fmap.
    + by rewrite Hi.
    + by rewrite Hj.
  - intros k r. apply list_rb_deltas_for_run_elem.
Qed.

Context (py : PyLib) (conv : PyConv) (env : RBEnv).

(** A rollback that names no delta takes the newest applied delta of
    the run: the delta it returns was applied, belongs to the run, no
    applied delta of the run is newer, and it is rolled back
    afterwards. *)
Theorem rollback_default_newest_applied (run_id : string) (reason : option string)
    (w w' : RBWorld) (did : string) :
  (∀ k, is_Some (w_rb_deltas w !! k) → strip k = k ∧ k ≠ "") →
  rollback_rb_delta py conv env run_id None reason w = (Ok did, w') →
  ∃ row row',
    w_rb_deltas w !! did = Some row
    ∧ delta_run_id row = strip run_id
    ∧ delta_status row = "applied"
    ∧ (∀ k r, w_rb_deltas w !! k = Some r → delta_run_id r = strip run_id →
              delta_status r = "applied" → k ≠ did →
              delta_created_at r < delta_created_at row
              ∨ (delta_created_at r = delta_created_at row ∧ String.leb k did = true))
    ∧ w_rb_deltas w' !! did = Some row'
    ∧ delta_status row' = "rolled_back".
Proof.
  intros Hkeys Hroll.
  assert (strip run_id ≠ "") as Hrid.
  { unfold rollback_rb_delta in Hroll. by case_bool_decide. }
  apply rollback_rb_delta_deltas in Hroll as (_ & (row & Hchoose) & Hrolled).
  unfold choose_delta in Hchoose. cbn [none_if_empty] in Hchoose.
  destruct (filter _ _) as [|[k0 r0] rest] eqn:Hf; [done|].
  cbn [fst] in Hchoose.
  assert ((k0, r0) ∈ filter (λ kv : string * RBDeltaRow, delta_status kv.2 = "applied")
            (list_rb_deltas_for_run w (strip run_id))) as Hin by (rewrite Hf; left).
  apply list_elem_of_filter in Hin as [Happlied Hin]. cbn [snd] in Happlied.
  apply list_rb_deltas_for_run_elem in Hin as (_ & Hk0 & Hrun0).
  rewrite strip_idemp in Hrun0.
  destruct (Hkeys k0) as [Hs0 Hne0]; [by eexists|].
  unfold get_rb_delta in Hchoose. rewrite Hs0 in Hchoose.
  rewrite bool_decide_eq_false_2, Hk0 in Hchoose by done.
  cbn in Hchoose. injection Hchoose as <- <-.
  destruct (Hrolled Hs0) as (row' & Hrow' & Hst').
  exists r0, row'. repeat (split; [done|]). split; [|done].
  intros k r Hk Hrun Hst Hne.
  assert (by_delta_newest (k0, r0) (k, r)) as Hle.
  { eapply (StronglySorted_filter_head by_delta_newest
              (λ kv : string * RBDeltaRow, delta_status kv.2 = "applied")
              (list_rb_deltas_for_run w (strip run_id)) (k0, r0) rest).
    - apply list_rb_deltas_for_run_sorted.
    - exact Hf.
    - assert ((k, r) ∈ filter (λ kv : string * RBDeltaRow, delta_status kv.2 = "applied")
                (list_rb_deltas_for_run w (strip run_id))) as Hin.
      { apply list_elem_of_filter. split; [done|].
        apply list_rb_deltas_for_run_elem. by rewrite strip_idemp. }
      rewrite Hf in Hin. apply elem_of_cons in Hin as [[= -> ->]|Hin]; done. }
  unfold by_delta_newest in Hle. cbn [fst snd] in Hle.
  destruct Hle as [?|[? ?]]; [by left|right]. by split.
Qed.

End DeltaOrder.

(** ** The JSON object of a reply *)

Section JsonExtract.

Context (py : PyLib).

Lemma append_nil_l (s : string) : "" ++ s = s.
Proof. reflexivity. Qed.

Lemma append_cons (c : ascii) (s t : string) : String c s ++ t = String c (s ++ t).
Proof. reflexivity. Qed.

Lemma find_char_app (c : ascii) (pre rest : string) :
  find_char c pre = None →
  find_char c (pre ++ String c rest) = Some (String.length pre).
Proof.
  induction pre as [|a pre IH]; rewrite ?append_nil_l, ?append_cons; simpl.
  - intros _. by rewrite bool_decide_eq_true_2.
  - case_bool_decide; [done|]. destruct (find_char c pre); [done|].
    intros _. by rewrite IH.
Qed.

Lemma rfind_char_app (c : ascii) (s post : string) :
  rfind_char c post = None →
  rfind_char c (s ++ String c post) = Some (String.length s).
Proof.
  intros Hpost. induction s as [|a s IH]; rewrite ?append_nil_l, ?append_cons; simpl.
  - rewrite Hpost. by rewrite bool_decide_eq_true_2.
  - by rewrite IH.
Qed.

Lemma substring_0_app (body post : string) :
  String.substring 0 (String.length body) (body ++ post) = body.
Proof.
  induction body as [|a body IH]; rewrite ?append_nil_l, ?append_cons; simpl.
  - by destruct post.
  - by rewrite IH.
Qed.

Lemma substring_app (pre body post : string) :
  String.substring (String.length pre) (String.length body) (pre ++ body ++ post)
  = body.
Proof.
  induction pre as [|a pre IH]; rewrite ?append_nil_l, ?append_cons; simpl.
  - apply substring_0_app.
  - exact IH.
Qed.

Lemma length_append (s t : string) :
  String.length (s ++ t) = (String.length s + String.length t)%nat.
Proof.
  induction s as [|a s IH]; rewrite ?append_nil_l, ?append_cons; simpl; [done|].
  by rewrite IH.
Qed.

Lemma append_assoc (s t u : string) : (s ++ t) ++ u = s ++ t ++ u.
Proof.
  induction s as [|a s IH]; rewrite ?append_nil_l, ?append_cons; [done|].
  by rewrite IH.
Qed.

(** The text around the object is ignored: when no brace opens before
    an object text [{...}] and none closes after it, the reply gives
    what [json.loads] makes of the object text alone, and its error
    when that is none; and a reply with no brace that opens, or none
    that closes, is refused without [json.loads] being asked. *)
Theorem extract_first_json_object_ignores_prose (pre mid post : string) :
  find_char "{" pre = None →
  rfind_char "}" post = None →
  extract_first_json_object py (pre ++ "{" ++ mid ++ "}" ++ post)
  = match json_loads py ("{" ++ mid ++ "}") with
    | Some v => Ok v
    | None => Raise (JSONExtractionError "Invalid JSON")
    end.
Proof.
  intros Hpre Hpost. unfold extract_first_json_object.
  change (pre ++ "{" ++ mid ++ "}" ++ post)
    with (pre ++ String "{" (mid ++ String "}" post)).
  rewrite (find_char_app _ _ _ Hpre).
  assert (pre ++ String "{" (mid ++ String "}" post)
          = (pre ++ String "{" mid) ++ String "}" post) as Hsplit.
  { rewrite append_assoc. done. }
  rewrite Hsplit at 1. rewrite (rfind_char_app _ _ _ Hpost).
  rewrite length_append. cbn [String.length].
  destruct (Nat.leb_spec (String.length pre + S (String.length mid))%nat
              (String.length pre)) as [Hle|_]; [exfalso; clear -Hle; lia|].
  assert (String.length pre + S (String.length mid) + 1 - String.length pre
          = String.length ("{" ++ mid ++ "}"))%nat as ->.
  { rewrite append_cons, append_nil_l. simpl String.length.
    rewrite length_append. simpl String.length. lia. }
  assert (pre ++ String "{" (mid ++ String "}" post)
          = pre ++ ("{" ++ mid ++ "}") ++ post) as ->.
  { repeat (rewrite append_cons || rewrite append_nil_l || rewrite append_assoc).
    reflexivity. }
  rewrite substring_app.
  assert (strip ("{" ++ mid ++ "}") = "{" ++ mid ++ "}") as ->; [|done].
  unfold strip. rewrite append_cons, append_nil_l.
  rewrite lstrip_ascii_head by (vm_compute; done || lia).
  change (String "{" (mid ++ "}")) with (String "{" mid ++ String "}" "").
  apply rstrip_snoc; vm_compute; done || lia.
Qed.

End JsonExtract.

Lemma extract_first_json_object_ignores_prose_witness :
  extract_first_json_object sample_py
    ("Here is the plan: " ++ "{" ++ "not json" ++ "}" ++ " Thanks.")
  = Raise (JSONExtractionError "Invalid JSON").
Proof.
  rewrite (extract_first_json_object_ignores_prose sample_py
             "Here is the plan: " "not json" " Thanks."); reflexivity.
Defined.

(** ** The window of the history *)

Section TrimHistory.

(** [_trim_history] keeps the first message and a suffix of the
    others: with a positive [max_rounds] at most [2 * max_rounds] of
    them, and all of them when they are no more than that; it never
    adds a message, changes nothing when [max_rounds] is not positive,
    and trimming twice is trimming once. *)
Theorem trim_history_window (history : list Message) (max_rounds : Z) :
  let trimmed := _trim_history history max_rounds in
  head trimmed = head history
  ∧ drop 1 trimmed `suffix_of` drop 1 history
  ∧ (0 < max_rounds →
     length (drop 1 trimmed)
     = Nat.min (length (drop 1 history)) (Z.to_nat (2 * max_rounds)))
  ∧ (max_rounds ≤ 0 → trimmed = history)
  ∧ _trim_history trimmed max_rounds = trimmed.
Proof.
  intros trimmed.
  assert (∀ h, _trim_history h max_rounds
               = if max_rounds <=? 0 then h
                 else (take 1 h
                       ++ drop (length (drop 1 h) - Z.to_nat (max_rounds * 2))
                            (drop 1 h))%list) as Hform.
  { intros h. unfold _trim_history. destruct (max_rounds <=? 0); [done|].
    destruct (Nat.leb_spec (length h) 1) as [Hlen|Hlen].
    - destruct h as [|x [|y h]]; cbn in *; [done|by destruct (_ - _)%nat|lia].
    - destruct (Nat.leb_spec (length (drop 1 h)) (Z.to_nat (max_rounds * 2))) as [Hle|Hgt];
        [|done].
      by replace (length (drop 1 h) - Z.to_nat (max_rounds * 2))%nat with 0%nat by lia. }
  subst trimmed. rewrite !Hform.
  destruct (Z.leb_spec max_rounds 0) as [Hmr|Hmr].
  { repeat split; try done. lia. }
  set (k := (length (drop 1 history) - Z.to_nat (max_rounds * 2))%nat).
  assert (drop 1 (take 1 history ++ drop k (drop 1 history))
          = drop k (drop 1 history)) as Hdrop.
  { destruct history as [|x h]; [by destruct k|]. done. }
  split; [|split; [|split; [|split]]].
  - destruct history as [|x h]; [by destruct k|]. done.
  - rewrite Hdrop. apply suffix_drop.
  - intros _. rewrite Hdrop, length_drop. subst k. lia.
  - lia.
  - rewrite Hdrop.
    assert (take 1 (take 1 history ++ drop k (drop 1 history)) = take 1 history) as ->.
    { destruct history as [|x h]; [by destruct k|]. done. }
    f_equal. rewrite length_drop.
    replace (length (drop 1 history) - k - Z.to_nat (max_rounds * 2))%nat with 0%nat
      by (subst k; lia).
    done.
Qed.

End TrimHistory.

(** ** The citations of a text *)

Section Citations.
Context (u : Unicode).

Lemma ordered_unique_spec (seen : gset string) (l : list string) :
  NoDup (ordered_unique seen l)
  ∧ ∀ x, x ∈ ordered_unique seen l ↔ x ∈ l ∧ x ∉ seen.
Proof.
  revert seen. induction l as [|a l IH]; intros seen; cbn [ordered_unique].
  { split; [constructor|]. intros x. rewrite elem_of_nil. naive_solver. }
  case_bool_decide as Ha.
  - destruct (IH seen) as [Hnd Hel]. split; [done|].
    intros x. rewrite Hel, elem_of_cons. naive_solver.
  - destruct (IH ({[a]} ∪ seen)) as [Hnd Hel]. split.
    + constructor; [|done]. rewrite Hel. set_solver.
    + intros x. rewrite !elem_of_cons, Hel. 
      destruct (decide (x = a)) as [->|]; set_solver.
Qed.

Lemma span_spec (p : ascii → bool) (s a b : string) :
  span p s = (a, b) →
  s = a ++ b ∧ (∀ c, c ∈ list_ascii_of_string a → p c = true)
  ∧ match b with String c _ => p c = false | EmptyString => True end.
Proof.
  revert a b. induction s as [|c s IH]; intros a b; cbn [span].
  { intros [= <- <-]. repeat split. intros c. cbn. by rewrite elem_of_nil. }
  destruct (p c) eqn:Hc.
  - destruct (span p s) as [a' b'] eqn:Hsp. intros [= <- <-].
    destruct (IH a' b' eq_refl) as (-> & Hall & Hb).
    repeat split; [|done]. intros c'. cbn. rewrite elem_of_cons.
    intros [->|?]; auto.
  - intros [= <- <-]. repeat split; [|done]. intros c'. cbn. by rewrite elem_of_nil.
Qed.

Lemma split_bytes_spec (n : nat) (s a b : string) :
  split_bytes n s = (a, b) → s = a ++ b ∧ split_bytes n a = (a, "").
Proof.
  revert s a b. induction n as [|n IH]; intros s a b; cbn [split_bytes].
  { intros [= <- <-]. by rewrite append_nil_l. }
  destruct s as [|c s]. { by intros [= <- <-]. }
  destruct (split_bytes n s) as [a' b'] eqn:Hsp. intros [= <- <-].
  destruct (IH s a' b' Hsp) as [-> Hidem].
  split; [by rewrite append_cons|]. cbn [split_bytes]. by rewrite Hidem.
Qed.

(** A character is not empty, and is one character. *)
Lemma next_char_spec (s ch rest : string) :
  next_char s = Some (ch, rest) →
  s = ch ++ rest ∧ ch ≠ "" ∧ next_char ch = Some (ch, "").
Proof.
  unfold next_char. destruct s as [|c s]; [done|]. intros [= Hsp].
  destruct (split_bytes_spec _ _ _ _ Hsp) as [Hs Hidem]. split; [done|].
  assert (∃ a, ch = String c a) as [a ->].
  { assert (∃ n, utf8_width c = S n) as [n Hw].
    { unfold utf8_width. repeat case_match; eauto. }
    rewrite Hw in Hsp. cbn [split_bytes] in Hsp.
    destruct (split_bytes n s) as [a' b']. injection Hsp as <- <-. eauto. }
  split; [done|]. by rewrite Hidem.
Qed.

Lemma span_chars_spec (p : string → bool) (fuel : nat) (s a b : string) :
  span_chars p fuel s = (a, b) →
  ∃ chs, a = foldr String.append "" chs ∧ s = a ++ b
         ∧ ∀ ch, ch ∈ chs → p ch = true ∧ next_char ch = Some (ch, "").
Proof.
  revert s a b. induction fuel as [|fuel IH]; intros s a b; cbn [span_chars].
  { intros [= <- <-]. exists []. rewrite append_nil_l. repeat split; by apply elem_of_nil in H. }
  destruct (next_char s) as [[ch rest]|] eqn:Hn.
  2:{ intros [= <- <-]. exists []. rewrite append_nil_l.
      repeat split; by apply elem_of_nil in H. }
  destruct (p ch) eqn:Hp.
  2:{ intros [= <- <-]. exists []. rewrite append_nil_l.
      repeat split; by apply elem_of_nil in H. }
  destruct (span_chars p fuel rest) as [a' b'] eqn:Hsp. intros [= <- <-].
  destruct (IH _ _ _ Hsp) as (chs & -> & Hrest & Hall).
  apply next_char_spec in Hn as (-> & Hne & Hone).
  exists (ch :: chs). split; [done|]. split.
  - rewrite Hrest at 1. by rewrite append_assoc.
  - intros ch' [->|Hin]%elem_of_cons; [done|by apply Hall].
Qed.

Lemma match_alias_token_spec (s a rest : string) :
  match_alias_token u s = Some (a, rest) →
  is_alias u a ∧ s = "[" ++ a ++ "]" ++ rest.
Proof.
  unfold match_alias_token. destruct s as [|c s1]; [done|].
  destruct (Ascii.eqb_spec c "["%char) as [->|Hc]; [|by destruct c as [[] [] [] [] [] [] [] []]].
  destruct (span is_upper s1) as [letters s2] eqn:H1.
  destruct (span_chars (is_decimal u) (String.length s2) s2) as [digits s3] eqn:H2.
  destruct s3 as [|c3 rest']; [done|].
  destruct (Ascii.eqb_spec c3 "]"%char) as [->|Hc3];
    [|by destruct c3 as [[] [] [] [] [] [] [] []]].
  destruct (bool_decide (letters ≠ "")) eqn:Hl; [|done].
  destruct (bool_decide (digits ≠ "")) eqn:Hd; [|done].
  cbn. intros [= <- <-].
  apply bool_decide_eq_true in Hl, Hd.
  apply span_spec in H1 as (-> & Hup & _).
  apply span_chars_spec in H2 as (chs & -> & Hs2 & Hdg).
  split.
  - exists letters, chs. split; [done|]. split; [done|]. split; [|done].
    intros ->. by apply Hd.
  - rewrite Hs2.
    repeat (rewrite append_cons || rewrite append_nil_l || rewrite append_assoc).
    reflexivity.
Qed.

Lemma alias_tokens_spec (fuel : nat) (s a : string) :
  a ∈ alias_tokens u fuel s →
  is_alias u a ∧ ∃ pre post, s = pre ++ "[" ++ a ++ "]" ++ post.
Proof.
  revert s. induction fuel as [|fuel IH]; intros s; cbn [alias_tokens].
  { by rewrite elem_of_nil. }
  destruct (next_char s) as [[ch s']|] eqn:Hn; [|by rewrite elem_of_nil].
  apply next_char_spec in Hn as (Hs & _ & _).
  destruct (match_alias_token u s) as [[a' rest]|] eqn:Hm.
  - apply match_alias_token_spec in Hm as [Hal Hs'].
    intros [->|Hin]%elem_of_cons.
    + split; [done|]. exists "", rest. by rewrite Hs'.
    + destruct (IH _ Hin) as (Ha & pre & post & ->). split; [done|].
      exists ("[" ++ a' ++ "]" ++ pre), post. rewrite Hs'.
      repeat (rewrite append_cons || rewrite append_nil_l || rewrite append_assoc).
      reflexivity.
  - intros Hin. destruct (IH _ Hin) as (Ha & pre & post & ->). split; [done|].
    exists (ch ++ pre), post. rewrite Hs. by rewrite append_assoc.
Qed.

(** [extract_citation_aliases] gives each alias once, and only
    aliases that the text holds between brackets: capital letters of
    ASCII followed by decimal digits of Unicode, at least one of
    each. *)
Theorem extract_citation_aliases_sound (text : string) :
  NoDup (extract_citation_aliases u text)
  ∧ ∀ a, a ∈ extract_citation_aliases u text →
      (∃ letters (digits : list string),
         a = letters ++ foldr String.append "" digits
         ∧ letters ≠ "" ∧ digits ≠ []
         ∧ (∀ c, c ∈ list_ascii_of_string letters → is_upper c = true)
         ∧ (∀ ch, ch ∈ digits →
              is_decimal u ch = true ∧ next_char ch = Some (ch, "")))
      ∧ ∃ pre post, text = pre ++ "[" ++ a ++ "]" ++ post.
Proof.
  unfold extract_citation_aliases.
  destruct (ordered_unique_spec ∅ (alias_tokens u (String.length text) text))
    as [Hnd Hel].
  split; [done|]. intros a [Hin _]%Hel. by apply alias_tokens_spec in Hin.
Qed.

End Citations.

(** The aliases of a text that cites [C1] twice and, with the
    Arabic-Indic digit one (U+0661), a second alias. *)
Lemma extract_citation_aliases_sound_witness :
  extract_citation_aliases sample_unicode
    ("see [C1], [C" ++ String (ascii_of_nat 217) (String (ascii_of_nat 161) "]")
     ++ ", [c2], [K] and [C1]")
  = ["C1"; "C" ++ String (ascii_of_nat 217) (String (ascii_of_nat 161) "")]
  ∧ NoDup (extract_citation_aliases sample_unicode
             ("see [C1], [C" ++ String (ascii_of_nat 217) (String (ascii_of_nat 161) "]")
              ++ ", [c2], [K] and [C1]")).
Proof.
  split; [vm_compute; reflexivity|].
  exact (proj1 (extract_citation_aliases_sound sample_unicode
                  ("see [C1], [C"
                   ++ String (ascii_of_nat 217) (String (ascii_of_nat 161) "]")
                   ++ ", [c2], [K] and [C1]"))).
Defined.

Lemma rollback_default_newest_applied_witness :
  ∃ row', w_rb_deltas sample_world_c_rolled_back !! "rbd_14" = Some row'
          ∧ delta_status row' = "rolled_back".
Proof.
  destruct (rollback_default_newest_applied sample_py sample_conv sample_rb_env
              "run_c" None sample_world_c sample_world_c_rolled_back "rbd_14")
    as (row & row' & _ & _ & _ & _ & Hrow' & Hst').
  - intros k Hk. apply elem_of_dom in Hk.
    assert (dom (w_rb_deltas sample_world_c) = {["rbd_4"; "rbd_9"; "rbd_14"]}) as Hdom
      by (vm_compute; reflexivity).
    rewrite Hdom in Hk.
    apply elem_of_union in Hk as [[->%elem_of_singleton| ->%elem_of_singleton]%elem_of_union
                                  | ->%elem_of_singleton];
      (split; [reflexivity|discriminate]).
  - vm_compute. reflexivity.
  - exists row'. split; [exact Hrow'|exact Hst'].
Defined.


(** The deltas of a run after its second learn pass, asked for under
    the run id between a no-break space and a space: the new delta,
    then the one the pass rolled back. *)
Lemma list_rb_deltas_for_run_newest_first_witness :
  let w' := (sample_llm_learn reply_items_none "run_a" "job_a" sample_world_c).2 in
  let run_id := String (ascii_of_nat 194) (String (ascii_of_nat 160) "run_a ") in
  (list_rb_deltas_for_run w' run_id).*1 = ["rbd_20"; "rbd_4"]
  ∧ (delta_status <$> (list_rb_deltas_for_run w' run_id).*2) = ["applied"; "rolled_back"]
  ∧ NoDup (list_rb_deltas_for_run w' run_id).*1.
Proof.
  intros w' run_id.
  split; [vm_compute; reflexivity|]. split; [vm_compute; reflexivity|].
  exact (proj1 (proj2 (list_rb_deltas_for_run_newest_first w' run_id))).
Defined.

Lemma learn_raise_evolve_witness :
  deltas_evolve (w_rb_deltas sample_world_a)
    (w_rb_deltas
       (sample_llm_learn reply_items_bad_role "run_a" "job_a" sample_world_a).2).
Proof.
  apply (learn_raise_evolve sample_py_learn sample_conv sample_rb_env
           (sample_llm_env reply_items_bad_role) "run_a" "job_a" sample_world_a
           (sample_llm_learn reply_items_bad_role "run_a" "job_a" sample_world_a).2
           (ReasoningBankError "Invalid RB role: 'chemist'")).
  vm_compute. reflexivity.
Defined.

(** ** The worker and cancellation *)

Section WorkerCancel.

Context (py : PyLib).

Lemma is_cancel_requested_Ok (target_type target_id : string) (t : CancelTable) :
  target_type = "batch" ∨ target_type = "run" →
  ∃ b, is_cancel_requested py target_type target_id t = Ok b.
Proof.
  intros Hty. unfold is_cancel_requested. rewrite check_target_type_Ok by done. eauto.
Qed.

(** Acknowledging changes no answer of [is_cancel_requested]. *)
Lemma acknowledge_cancel_answers (target_type target_id ty id : string)
    (t : CancelTable) :
  is_cancel_requested py ty id (acknowledge_cancel py target_type target_id t).2
  = is_cancel_requested py ty id t.
Proof.
  unfold acknowledge_cancel. destruct (check_target_type py target_type); [|done].
  cbn [snd]. unfold is_cancel_requested. destruct (check_target_type py ty); [|done].
  f_equal. apply bool_decide_ext.
  set (f := λ row : CancelRow,
              if bool_decide (cancel_targets target_type target_id row
                              ∧ cancel_status row = "requested")
              then mkCancelRow (cancel_created_at row) (cancel_target_type row)
                     (cancel_target_id row) "acknowledged" (cancel_reason row)
              else row).
  set (P := λ kv : string * CancelRow,
              cancel_targets ty id kv.2
              ∧ (cancel_status kv.2 = "requested" ∨ cancel_status kv.2 = "acknowledged")).
  assert (∀ row, P ("", f row) ↔ P ("", row)) as Hf.
  { intros row. unfold P, f, cancel_targets. cbn [snd].
    case_bool_decide as Hb; [|done]. cbn. destruct Hb as [_ Hst]. rewrite Hst.
    naive_solver. }
  assert (∀ m : CancelTable, (∃ k row, m !! k = Some row ∧ P (k, row))
                             ↔ filter P (map_to_list m) ≠ []) as Hex.
  { intros m. split.
    - intros (k & row & Hk & HP) Hnil.
      assert ((k, row) ∈ filter P (map_to_list m)) as Hin.
      { apply list_elem_of_filter. split; [done|]. by apply elem_of_map_to_list. }
      rewrite Hnil in Hin. by apply elem_of_nil in Hin.
    - intros Hne. destruct (filter P (map_to_list m)) as [|[k row] l] eqn:Hfl; [done|].
      assert ((k, row) ∈ filter P (map_to_list m)) as Hin by (rewrite Hfl; left).
      apply list_elem_of_filter in Hin as [HP Hin%elem_of_map_to_list]. eauto. }
  rewrite <- !Hex. split.
  - intros (k & row & Hk & HP). rewrite lookup_fmap in Hk.
    destruct (t !! k) as [row0|] eqn:Hk0; [|done]. injection Hk as <-.
    exists k, row0. split; [done|]. by apply (Hf row0).
  - intros (k & row & Hk & HP). exists k, (f row).
    rewrite lookup_fmap, Hk. split; [done|]. by apply (Hf row).
Qed.

Lemma cancel_check_true (ts : Z) (target_type target_id reason run_id : string)
    (db : WorkerDB) (r : RunRow) :
  target_type = "batch" ∨ target_type = "run" →
  runs (db_store db) !! run_id = Some r →
  is_cancel_requested py target_type target_id (db_cancel db) = Ok true →
  cancel_check py ts target_type target_id reason run_id db
  = (Ok true,
     mkWorkerDB
       (update_run_status ts run_id "canceled" None
          (append_event run_id "run_canceled" (JObj [("reason", JStr reason)])
             (db_store db)))
       (acknowledge_cancel py target_type target_id (db_cancel db)).2).
Proof.
  intros Hty Hr Hreq. unfold cancel_check. rewrite Hreq.
  unfold acknowledge_cancel. rewrite check_target_type_Ok by done.
  unfold append_event_fk. cbn [db_store db_cancel]. by rewrite Hr.
Qed.

Lemma cancel_check_false (ts : Z) (target_type target_id reason run_id : string)
    (db : WorkerDB) :
  is_cancel_requested py target_type target_id (db_cancel db) = Ok false →
  cancel_check py ts target_type target_id reason run_id db = (Ok false, db).
Proof. intros Hreq. unfold cancel_check. by rewrite Hreq. Qed.

Lemma execute_one_unfold (ts : Z)
    (body : string → string → WorkerDB → Result unit * WorkerDB)
    (run_id batch_id : string) (db : WorkerDB) (r : RunRow) (b : BatchRow) :
  runs (db_store db) !! run_id = Some r →
  batches (db_store db) !! batch_id = Some b →
  _execute_one py ts body run_id batch_id db
  = match cancel_check py ts "batch" batch_id "batch_cancel_requested" run_id db with
    | (Raise e, db1) => (Raise e, db1)
    | (Ok true, db1) => (Ok tt, db1)
    | (Ok false, db1) =>
      match cancel_check py ts "run" run_id "cancel_requested" run_id db1 with
      | (Raise e, db2) => (Raise e, db2)
      | (Ok true, db2) => (Ok tt, db2)
      | (Ok false, db2) => body run_id batch_id db2
      end
    end.
Proof. intros Hr Hb. unfold _execute_one, get_run, get_batch. by rewrite Hr, Hb. Qed.

Lemma execute_one_requested (ts : Z) (run_id batch_id : string) (db : WorkerDB)
    (r : RunRow) (b : BatchRow) :
  runs (db_store db) !! run_id = Some r →
  batches (db_store db) !! batch_id = Some b →
  is_cancel_requested py "batch" batch_id (db_cancel db) = Ok true
  ∨ is_cancel_requested py "run" run_id (db_cancel db) = Ok true →
  ∃ target_type target_id reason,
    ∀ body, _execute_one py ts body run_id batch_id db
            = (Ok tt, canceled_db py ts target_type target_id reason run_id db).
Proof.
  intros Hr Hb Hreq.
  destruct (is_cancel_requested_Ok "batch" batch_id (db_cancel db) (or_introl eq_refl))
    as [[|] Hbatch].
  - exists "batch", batch_id, "batch_cancel_requested". intros body.
    rewrite (execute_one_unfold _ _ _ _ _ r b) by done.
    by rewrite (cancel_check_true _ _ _ _ _ _ r) by (done || by left).
  - destruct Hreq as [?|Hrun]; [congruence|].
    exists "run", run_id, "cancel_requested". intros body.
    rewrite (execute_one_unfold _ _ _ _ _ r b) by done.
    rewrite cancel_check_false by done.
    by rewrite (cancel_check_true _ _ _ _ _ _ r) by (done || by right).
Qed.

Lemma canceled_db_runs (ts : Z) (target_type target_id reason run_id : string)
    (db : WorkerDB) (r : RunRow) :
  runs (db_store db) !! run_id = Some r →
  runs (db_store (canceled_db py ts target_type target_id reason run_id db))
  = <[run_id := mkRunRow (run_batch_id r) (run_index r) (run_created_at r)
                  (run_started_at r) (COALESCE (run_ended_at r) (Some ts))
                  "canceled" (run_error r)]> (runs (db_store db)).
Proof.
  intros Hs. unfold canceled_db, update_run_status, set_runs, append_event.
  cbn [runs db_store]. apply map_eq. intros k.
  destruct (decide (k = run_id)) as [->|Hne].
  - rewrite lookup_alter_eq, lookup_insert_eq, Hs. cbn. f_equal.
    unfold update_run_row. cbn. f_equal; by destruct (run_started_at r).
  - by rewrite lookup_alter_ne, lookup_insert_ne.
Qed.


Lemma elem_of_batch_statuses (s : Store) (batch_id st : string) :
  st ∈ (λ kv : string * RunRow, run_status kv.2) <$> list_runs_for_batch_rows s batch_id
  ↔ ∃ rid r, runs s !! rid = Some r ∧ run_batch_id r = batch_id ∧ run_status r = st.
Proof.
  unfold list_runs_for_batch_rows. rewrite list_elem_of_fmap. split.
  - intros [[rid r] [-> Hin]]. rewrite merge_sort_Permutation in Hin.
    apply list_elem_of_filter in Hin as [Hb Hin%elem_of_map_to_list]. by exists rid, r.
  - intros (rid & r & Hr & Hb & <-). exists (rid, r). split; [done|].
    rewrite merge_sort_Permutation. apply list_elem_of_filter.
    split; [done|]. by apply elem_of_map_to_list.
Qed.

(** One turn of the worker on a queue whose next run has a
    cancellation on record, for itself or for its batch: the run is
    claimed and canceled without being executed, whatever the body of
    a run and the handling of learn jobs would do; and when every
    other run of the batch has completed or was canceled, the turn
    leaves the batch [canceled]. *)
Theorem run_loop_turn_cancel (ts_claim ts_exec ts_fail ts_batch : Z)
    (exn_str exn_traceback : Exn → string) (db : WorkerDB)
    (rid : string) (r : RunRow) (b : BatchRow) :
  select_next_queued_run (db_store db) = Some (rid, r) →
  batches (db_store db) !! run_batch_id r = Some b →
  is_cancel_requested py "batch" (run_batch_id r) (db_cancel db) = Ok true
  ∨ is_cancel_requested py "run" rid (db_cancel db) = Ok true →
  ∃ db',
    (∀ body idle,
       run_loop_turn py ts_claim ts_exec ts_fail ts_batch exn_str exn_traceback
         body idle db = (Ok tt, db'))
    ∧ (∃ r', runs (db_store db') !! rid = Some r' ∧ run_status r' = "canceled"
             ∧ run_ended_at r' = COALESCE (run_ended_at r) (Some ts_exec))
    ∧ (∀ rid', rid' ≠ rid → runs (db_store db') !! rid' = runs (db_store db) !! rid')
    ∧ ((∀ rid' r', rid' ≠ rid → runs (db_store db) !! rid' = Some r' →
          run_batch_id r' = run_batch_id r →
          run_status r' = "completed" ∨ run_status r' = "canceled") →
       ∃ b', batches (db_store db') !! run_batch_id r = Some b'
             ∧ batch_status b' = "canceled").
Proof.
  intros Hsel Hb Hreq.
  pose proof (select_next_queued_run_Some _ _ _ Hsel) as (Hr & Hq & _).
  pose proof (claim_next_queued_run_Some ts_claim _ _ _ Hsel) as Hclaim.
  set (s1 := claimed_store ts_claim rid r (db_store db)) in *.
  assert (runs s1 = <[rid := running_row ts_claim r]> (runs (db_store db))) as Hruns1.
  { unfold s1, claimed_store. by rewrite runs_mark_batch_running. }
  assert (∃ b1, batches s1 !! run_batch_id r = Some b1) as [b1 Hb1].
  { unfold s1, claimed_store, mark_batch_running. cbn [batches set_runs]. rewrite Hb.
    case_bool_decide; cbn [batches set_batches set_runs].
    - rewrite lookup_insert_eq. eauto.
    - eauto. }
  set (db1 := mkWorkerDB s1 (db_cancel db)).
  destruct (execute_one_requested ts_exec rid (run_batch_id r) db1
              (running_row ts_claim r) b1)
    as (target_type & target_id & reason & Hexec).
  { cbn [db1 db_store]. by rewrite Hruns1, lookup_insert_eq. }
  { done. }
  { done. }
  set (db2 := canceled_db py ts_exec target_type target_id reason rid db1) in *.
  assert (runs (db_store db2)
          = <[rid := mkRunRow (run_batch_id r) (run_index r) (run_created_at r)
                       (COALESCE (run_started_at r) (Some ts_claim))
                       (COALESCE (run_ended_at r) (Some ts_exec))
                       "canceled" (run_error r)]> (runs (db_store db))) as Hruns2.
  { unfold db2. rewrite (canceled_db_runs _ _ _ _ _ _ (running_row ts_claim r)).
    - cbn [db1 db_store]. rewrite Hruns1. cbn [running_row]. by rewrite insert_insert_eq.
    - cbn [db1 db_store]. by rewrite Hruns1, lookup_insert_eq. }
  assert (batches (db_store db2) = batches s1) as Hbatches2 by done.
  set (s3 := update_batch_terminal_status_if_done ts_batch (run_batch_id r) (db_store db2)).
  assert (runs s3 = runs (db_store db2)) as Hruns3.
  { unfold s3, update_batch_terminal_status_if_done. by destruct (batch_terminal_status _). }
  exists (mkWorkerDB s3 (db_cancel db2)). split; [|split; [|split]].
  - intros body idle. unfold run_loop_turn. rewrite Hclaim. cbn [fst snd].
    fold db1. cbn [running_row run_batch_id]. by rewrite Hexec.
  - cbn [db_store]. rewrite Hruns3, Hruns2, lookup_insert_eq. eauto.
  - intros rid' Hne. cbn [db_store]. by rewrite Hruns3, Hruns2, lookup_insert_ne.
  - intros Hothers. cbn [db_store].
    assert (batch_terminal_status
              ((λ kv : string * RunRow, run_status kv.2)
                 <$> list_runs_for_batch_rows (db_store db2) (run_batch_id r))
            = Some "canceled") as Hdone.
    { set (statuses := (λ kv : string * RunRow, run_status kv.2)
                         <$> list_runs_for_batch_rows (db_store db2) (run_batch_id r)).
      assert (∀ st, st ∈ statuses → st = "completed" ∨ st = "canceled") as Hall.
      { intros st (rid' & r' & Hr' & Hb' & <-)%elem_of_batch_statuses.
        rewrite Hruns2 in Hr'. destruct (decide (rid' = rid)) as [->|Hne].
        - rewrite lookup_insert_eq in Hr'. injection Hr' as <-. by right.
        - rewrite lookup_insert_ne in Hr' by done. by eapply Hothers. }
      assert ("canceled" ∈ statuses) as Hin.
      { apply elem_of_batch_statuses. eexists rid, _. rewrite Hruns2, lookup_insert_eq.
        done. }
      rewrite batch_terminal_status_done.
      - rewrite bool_decide_eq_false_2; [by rewrite bool_decide_eq_true_2|].
        intros [?|?]%Hall; done.
      - intros Hnil. rewrite Hnil in Hin. by apply elem_of_nil in Hin.
      - apply Forall_forall. intros st [->| ->]%Hall; done. }
    unfold s3, update_batch_terminal_status_if_done. rewrite Hdone.
    unfold update_batch_status, set_batches. cbn [batches].
    rewrite lookup_alter_eq, Hbatches2, Hb1. cbn. eauto.
Qed.

End WorkerCancel.

Lemma run_loop_turn_cancel_witness :
  ∃ db',
    run_loop_turn sample_py 30 31 32 33 (λ _, "") (λ _, "")
      (λ _ _ db, (Raise (ValueError "never run"), db)) (λ db, (Ok tt, db))
      sample_db_cancel = (Ok tt, db')
    ∧ (∃ r', runs (db_store db') !! "run_b" = Some r' ∧ run_status r' = "canceled")
    ∧ (∃ b', batches (db_store db') !! "batch_1" = Some b'
             ∧ batch_status b' = "canceled").
Proof.
  destruct (run_loop_turn_cancel sample_py 30 31 32 33 (λ _, "") (λ _, "")
              sample_db_cancel "run_b"
              (mkRunRow "batch_1" 2 10 None None "queued" None)
              (mkBatchRow 10 (Some 11) None "request" 2 1 "running" (JObj []) None))
    as (db' & Hturn & (r' & Hr' & Hst & _) & _ & Hbatch).
  - vm_compute. reflexivity.
  - vm_compute. reflexivity.
  - left. vm_compute. reflexivity.
  - exists db'. split; [apply Hturn|]. split; [by exists r'|].
    apply Hbatch. intros rid' r0 Hne Hr0 _.
    assert (dom (runs (db_store sample_db_cancel)) = {["run_a"; "run_b"]}) as Hdom
      by (vm_compute; reflexivity).
    pose proof (elem_of_dom_2 _ _ _ Hr0) as Hin. rewrite Hdom in Hin.
    apply elem_of_union in Hin as [->%elem_of_singleton| ->%elem_of_singleton];
      [|done].
    assert (runs (db_store sample_db_cancel) !! "run_a"
            = Some (mkRunRow "batch_1" 1 10 (Some 11) (Some 12) "completed" None))
      as Ha by (vm_compute; reflexivity).
    rewrite Ha in Hr0. injection Hr0 as <-. by left.
Defined.

(** ** Learn jobs in the worker *)

Section LearnJob.

Context (py : PyLib) (conv : PyConv) (env : RBEnv).

Lemma rows_kept_refl (w : RBWorld) : rows_kept w w.
Proof. done. Qed.

Lemma rows_kept_trans (w1 w2 w3 : RBWorld) :
  rows_kept w1 w2 → rows_kept w2 w3 → rows_kept w1 w3.
Proof. unfold rows_kept. intros (?&?&?&?) (?&?&?&?). repeat split; congruence. Qed.

Lemma rb_frame_rows (w w' : RBWorld) : rb_frame w w' → rows_kept w w'.
Proof. intros (_ & Hs & _). unfold rows_kept. by rewrite Hs. Qed.

Lemma wbind_rows {A B} (m : W A) (k : A → W B) :
  (∀ w, rows_kept w (m w).2) → (∀ a w, rows_kept w (k a w).2) →
  ∀ w, rows_kept w (wbind m k w).2.
Proof.
  intros Hm Hk w. unfold wbind. specialize (Hm w).
  destruct (m w) as [[a|e] w1]; simpl in *; [|done].
  eapply rows_kept_trans; [done|]. apply Hk.
Qed.

Lemma w_append_event_rows (run_id ev : string) (payload : JSON) (w : RBWorld) :
  rows_kept w (w_append_event run_id ev payload w).2.
Proof. done. Qed.

Lemma w_append_events_rows (evs : list EventRow) (w : RBWorld) :
  rows_kept w (w_append_events evs w).2.
Proof. done. Qed.

Lemma rollback_rb_delta_rows (run_id : string) (delta_id reason : option string)
    (w : RBWorld) :
  rows_kept w (rollback_rb_delta py conv env run_id delta_id reason w).2.
Proof.
  unfold rollback_rb_delta. case_bool_decide; [done|].
  revert w. apply wbind_rows; [done|].
  intros [did row]. cbn [fst snd]. case_bool_decide; [done|].
  apply wbind_rows; [done|]. intros _.
  apply wbind_rows; [intros w; apply rb_frame_rows, rollback_ops_frame|]. intros _.
  apply wbind_rows.
  { intros w. unfold mark_rb_delta_rolled_back, wbind, next_call.
    by case_bool_decide. }
  intros _. apply wbind_rows; [done|]. by intros _.
Qed.

Lemma rollback_deltas_rows (rid : string) (ids : list string) (w : RBWorld) :
  rows_kept w (rollback_deltas py conv env rid ids w).2.
Proof.
  revert w. induction ids as [|did ids IH]; [done|]. cbn [rollback_deltas].
  apply wbind_rows; [intros w; apply rollback_rb_delta_rows|]. by intros _.
Qed.

Context (lenv : LearnEnv).

Lemma llm_merge_step_rows (proposal : list (string * JSON)) (content : string)
    (chosen_existing : MemoryItem) (w : RBWorld) :
  rows_kept w (llm_merge_step py lenv proposal content chosen_existing w).2.
Proof.
  unfold llm_merge_step. destruct (learn_llm lenv) as [llm|]; [|done].
  destruct (learn_dry_run lenv); [done|].
  destruct (llm_merge llm chosen_existing (JObj proposal)) as [evs reply].
  revert w. apply wbind_rows; [done|]. intros _ w.
  destruct (extract_first_json_object py reply) as [[| | | | |obj]|[]]; try done.
  by case_bool_decide.
Qed.

Lemma merge_proposal_rows (rid : string) (proposal : list (string * JSON))
    (content : string) (chosen_existing : MemoryItem) (w : RBWorld) :
  rows_kept w (merge_proposal py lenv rid proposal content chosen_existing w).2.
Proof.
  unfold merge_proposal. destruct (py_load _ _) as [existing_extra h0].
  revert w. apply wbind_rows; [apply llm_merge_step_rows|].
  intros [[merged_content merge_used] reply_extra] w.
  destruct merge_used; [done|].
  by destruct (py_setdefault_append _ _ _ _) as [[]|].
Qed.

Lemma consolidate_proposal_rows (rid rb_job_id : string) (proposal : JSON)
    (w : RBWorld) :
  rows_kept w (consolidate_proposal py env lenv rid rb_job_id proposal w).2.
Proof.
  unfold consolidate_proposal. destruct proposal as [| | | | |fields]; try done.
  case_bool_decide; [done|].
  revert w. apply wbind_rows; [done|]. intros dup_candidates.
  assert (∀ w role typ content extra dbg,
            rows_kept w
              (wbind (w_rb_upsert py env None "active" role typ content (Some rid) 1
                        extra None true)
                 (λ after,
                  wbind (_sync_rb_mem_index after)
                    (λ _,
                     wbind (append_mem_edit_log env (mem_id after) "rb_learn"
                              (Some ("learn_add:" ++ rb_job_id)) (JObj [])
                              (_memory_to_dict after)
                              (JObj [("near_duplicate_checked", dbg)]))
                       (λ _,
                        wret (Some (JObj [("op", JStr "add");
                                          ("mem_id", JStr (mem_id after));
                                          ("after", _memory_to_dict after);
                                          ("near_duplicate_checked", dbg)]))))) w).2)
    as Hadd.
  { intros w role typ content extra dbg. revert w.
    apply wbind_rows; [intros w; apply rb_frame_rows, w_rb_upsert_frame|]. intros after.
    apply wbind_rows; [intros w; apply rb_frame_rows, _sync_rb_mem_index_frame|].
    intros _.
    apply wbind_rows; [intros w; apply rb_frame_rows, append_mem_edit_log_frame|].
    by intros _. }
  destruct dup_candidates as [|[chosen [hid hdoc hmeta [[|]|] hdbg]] rest];
    try (intros w; apply Hadd).
  apply wbind_rows; [apply merge_proposal_rows|].
  intros [[[merged_content merged_extra] merge_used] before_extra].
  apply wbind_rows; [intros w; apply rb_frame_rows, w_rb_upsert_frame|]. intros after.
  apply wbind_rows; [intros w; apply rb_frame_rows, _sync_rb_mem_index_frame|]. intros _.
  apply wbind_rows; [intros w; apply rb_frame_rows, append_mem_edit_log_frame|].
  by intros _.
Qed.

Lemma consolidate_rows (rid rb_job_id : string) (proposals : list JSON) (w : RBWorld) :
  rows_kept w (consolidate py env lenv rid rb_job_id proposals w).2.
Proof.
  revert w. induction proposals as [|p ps IH]; [done|]. cbn [consolidate].
  apply wbind_rows; [apply consolidate_proposal_rows|]. intros op.
  apply wbind_rows; [apply IH|]. by intros ops.
Qed.

Lemma extract_items_rows (rid : string) (w : RBWorld) :
  rows_kept w (extract_items py lenv rid w).2.
Proof.
  unfold extract_items. destruct (learn_dry_run lenv); [done|].
  destruct (learn_llm lenv) as [llm|]; [|done].
  destruct (llm_extract llm w) as [evs raw].
  revert w. apply wbind_rows; [done|]. intros _ w.
  destruct raw as [raw_content|e]; [|done].
  destruct (extract_first_json_object py raw_content) as [[| | | | |obj]|[]]; try done.
  by destruct (assoc_get "items" obj) as [[]|].
Qed.

Lemma learn_apply_rows (rid rb_job_id : string) (w : RBWorld) :
  rows_kept w (learn_apply py env lenv rid rb_job_id w).2.
Proof.
  unfold learn_apply. revert w.
  apply wbind_rows; [apply extract_items_rows|]. intros items.
  apply wbind_rows; [apply consolidate_rows|]. intros ops.
  apply wbind_rows.
  { intros w. unfold create_rb_delta. case_bool_decide; [done|].
    destruct (get_run _ _); [|done]. unfold wbind, next_call.
    cbn [w_rb_deltas w_calls]. by destruct (_ !! _). }
  intros d. apply wbind_rows; [done|]. by intros _.
Qed.

(** A learn pass writes to the trace only, of the tables of [Store]. *)
Lemma learn_rows (run_id rb_job_id : string) (w : RBWorld) :
  rows_kept w (learn_reasoningbank_for_run py conv env lenv run_id rb_job_id w).2.
Proof.
  unfold learn_reasoningbank_for_run. case_bool_decide; [done|].
  destruct (get_run _ _); [|done]. destruct (learn_feedback _ _); [|done].
  revert w. apply wbind_rows; [done|]. intros _.
  apply wbind_rows; [intros w; apply rollback_deltas_rows|]. intros _.
  apply learn_apply_rows.
Qed.

End LearnJob.

Section LearnJobTurn.

Context (py : PyLib) (conv : PyConv) (env : RBEnv).

Lemma w_append_event_fk_Ok (run_id ev : string) (payload : JSON) (w : RBWorld)
    (r : RunRow) :
  runs (w_store w) !! run_id = Some r →
  w_append_event_fk run_id ev payload w
  = (Ok tt, set_w_store (append_event run_id ev payload) w).
Proof. intros Hr. unfold w_append_event_fk. by rewrite Hr. Qed.

Lemma w_update_rb_job_status_spec (j st : string) (err : option string)
    (w : RBWorld) (j0 : RBJobRow) :
  rb_jobs (w_store w) !! j = Some j0 →
  is_ended_status st = true →
  ∃ w' j',
    w_update_rb_job_status env j st err w = (Ok tt, w')
    ∧ rb_jobs (w_store w') !! j = Some j'
    ∧ job_status j' = st
    ∧ is_Some (job_ended_at j')
    ∧ (∀ k, k ≠ j → rb_jobs (w_store w') !! k = rb_jobs (w_store w) !! k)
    ∧ runs (w_store w') = runs (w_store w)
    ∧ w_rb_deltas w' = w_rb_deltas w.
Proof.
  intros Hj Hst.
  unfold w_update_rb_job_status, wbind, next_call.
  eexists _, _. split; [reflexivity|].
  unfold set_w_store, update_rb_job_status, set_rb_jobs.
  cbn [w_store w_calls w_rb_deltas runs rb_jobs].
  rewrite lookup_alter_eq, Hj. cbn [fmap option_fmap option_map].
  split; [reflexivity|]. split; [done|]. split.
  { cbn [job_ended_at]. rewrite Hst. destruct (job_ended_at j0); cbn; eauto. }
  split; [|done]. intros k Hk. by rewrite lookup_alter_ne.
Qed.

(** The end of every path of a job: an event for a run that exists,
    then the status of the job. *)
Lemma job_finish (run_id ev : string) (payload : JSON) (j st : string)
    (err : option string) (w0 w : RBWorld) (r : RunRow) (j0 : RBJobRow) :
  rows_kept w0 w →
  runs (w_store w0) !! run_id = Some r →
  rb_jobs (w_store w0) !! j = Some j0 →
  is_ended_status st = true →
  ∃ w' j',
    wbind (w_append_event_fk run_id ev payload)
          (λ _, w_update_rb_job_status env j st err) w = (Ok tt, w')
    ∧ rb_jobs (w_store w') !! j = Some j'
    ∧ job_status j' = st
    ∧ is_Some (job_ended_at j')
    ∧ (∀ k, k ≠ j → rb_jobs (w_store w') !! k = rb_jobs (w_store w0) !! k)
    ∧ runs (w_store w') = runs (w_store w0)
    ∧ w_rb_deltas w' = w_rb_deltas w.
Proof.
  intros (Hruns & _ & _ & Hjobs) Hr Hj Hst.
  unfold wbind. rewrite (w_append_event_fk_Ok _ _ _ _ r) by by rewrite Hruns.
  destruct (w_update_rb_job_status_spec j st err
              (set_w_store (append_event run_id ev payload) w) j0)
    as (w' & j' & Hup & Hj' & Hst' & Hend & Hothers & Hruns' & Hd); [|done|].
  { cbn. by rewrite Hjobs. }
  exists w', j'. split; [done|]. split; [done|]. split; [done|]. split; [done|].
  split; [|split].
  - intros k Hk. rewrite Hothers by done. cbn. by rewrite Hjobs.
  - rewrite Hruns'. cbn. done.
  - by rewrite Hd.
Qed.

(** A claimed learn job always ends: whatever happens while it is
    run, the turn of the worker returns and leaves the job [completed]
    or [failed], with an end time, touching no other job and no run
    (the run of the job being on record).  The job is [completed]
    exactly when it is of kind [learn], the store of memories could be
    opened and the learn pass returned: the table of deltas is then
    the one the pass left, with its new delta. *)
Theorem rb_job_turn_settles (jenv : JobEnv) (job : string * RBJobRow) (w : RBWorld)
    (r0 : RunRow) (j0 : RBJobRow) :
  runs (w_store w) !! job_run_id job.2 = Some r0 →
  rb_jobs (w_store w) !! job.1 = Some j0 →
  ∃ w' j',
    rb_job_turn py conv env jenv job w = (Ok tt, w')
    ∧ rb_jobs (w_store w') !! job.1 = Some j'
    ∧ (job_status j' = "completed" ∨ job_status j' = "failed")
    ∧ is_Some (job_ended_at j')
    ∧ (∀ k, k ≠ job.1 → rb_jobs (w_store w') !! k = rb_jobs (w_store w) !! k)
    ∧ runs (w_store w') = runs (w_store w)
    ∧ (job_status j' = "completed" →
       job_kind job.2 = "learn" ∧ job_rb_from_config jenv = None
       ∧ ∃ started d w1,
           job_started_payload jenv (w_store w) job = Ok started
           ∧ learn_reasoningbank_for_run py conv env (job_learn_env jenv)
               (job_run_id job.2) job.1
               (set_w_store (append_event (job_run_id job.2) "rb_job_started" started) w)
             = (Ok d, w1)
           ∧ w_rb_deltas w' = w_rb_deltas w1)
    ∧ (∀ started d w1,
         job_kind job.2 = "learn" → job_rb_from_config jenv = None →
         job_started_payload jenv (w_store w) job = Ok started →
         learn_reasoningbank_for_run py conv env (job_learn_env jenv)
           (job_run_id job.2) job.1
           (set_w_store (append_event (job_run_id job.2) "rb_job_started" started) w)
         = (Ok d, w1) →
         job_status j' = "completed").
Proof.
  intros Hrun Hjob. destruct job as [j row]. cbn [fst snd] in *.
  set (rid := job_run_id row) in *.
  assert (∀ ev payload st err w1,
            rows_kept w w1 → is_ended_status st = true →
            ∃ w' j',
              wbind (w_append_event_fk rid ev payload)
                    (λ _, w_update_rb_job_status env j st err) w1 = (Ok tt, w')
              ∧ rb_jobs (w_store w') !! j = Some j'
              ∧ job_status j' = st
              ∧ is_Some (job_ended_at j')
              ∧ (∀ k, k ≠ j → rb_jobs (w_store w') !! k = rb_jobs (w_store w) !! k)
              ∧ runs (w_store w') = runs (w_store w)
              ∧ w_rb_deltas w' = w_rb_deltas w1) as Hfinish.
  { intros ev payload st err w1 Hrows Hst. by eapply job_finish. }
  unfold rb_job_turn, _execute_rb_job. cbn [fst snd]. fold rid.
  destruct (job_started_payload jenv (w_store w) (j, row)) as [started|e] eqn:Hstart.
  2:{ destruct (Hfinish "rb_job_failed"
                  (JObj [("error", JStr ("rb_job_unhandled_exception: "
                                         ++ job_exn_str jenv e));
                         ("traceback", JStr (job_exn_traceback jenv e))])
                  "failed" (Some (job_exn_str jenv e)) w (rows_kept_refl w) eq_refl)
        as (w' & j' & Hturn & Hj' & Hst & Hend & Hothers & Hruns & _).
      exists w', j'. rewrite Hturn. repeat (split; [done || by right|]).
      rewrite Hst. split; [intros [=]|]. intros ? ? ? _ _ [=]. }
  unfold wbind at 1. rewrite (w_append_event_fk_Ok _ _ _ _ r0) by done.
  set (w1 := set_w_store (append_event rid "rb_job_started" started) w).
  assert (rows_kept w w1) as Hrows1 by done.
  case_bool_decide as Hkind.
  { destruct (Hfinish "rb_job_failed"
                (JObj [("rb_job_id", JStr j); ("kind", JStr (job_kind row));
                       ("error", JStr ("Unknown RB job kind: "
                                       ++ py_repr py (JStr (job_kind row))))])
                "failed" (Some ("Unknown kind: " ++ job_kind row)) w1 Hrows1 eq_refl)
      as (w' & j' & Hturn & Hj' & Hst & Hend & Hothers & Hruns & _).
    exists w', j'. rewrite Hturn. repeat (split; [done || by right|]).
    rewrite Hst. split; [intros [=]|]. by intros ? ? ? ?. }
  assert (job_kind row = "learn") as Hlearn by done.
  destruct (job_rb_from_config jenv) as [e|] eqn:Hcfg.
  { assert (∃ w' j',
              rb_job_turn py conv env jenv (j, row) w = (Ok tt, w')
              ∧ rb_jobs (w_store w') !! j = Some j'
              ∧ job_status j' = "failed"
              ∧ is_Some (job_ended_at j')
              ∧ (∀ k, k ≠ j → rb_jobs (w_store w') !! k = rb_jobs (w_store w) !! k)
              ∧ runs (w_store w') = runs (w_store w)) as (w' & j' & Hturn & Hrest).
    { unfold rb_job_turn, _execute_rb_job. cbn [fst snd]. fold rid. rewrite Hstart.
      unfold wbind at 1. rewrite (w_append_event_fk_Ok _ _ _ _ r0) by done. fold w1.
      rewrite bool_decide_eq_false_2 by (by intros ?). rewrite Hcfg.
      destruct e as [m|t|c m| |m|m|m|m|m|];
        try (unfold wraise;
             match goal with |- context [job_exn_str jenv ?e] =>
               destruct (Hfinish "rb_job_failed"
                           (JObj [("error", JStr ("rb_job_unhandled_exception: "
                                                  ++ job_exn_str jenv e));
                                  ("traceback", JStr (job_exn_traceback jenv e))])
                           "failed" (Some (job_exn_str jenv e)) w1 Hrows1 eq_refl)
                 as (w' & j' & Hturn & Hj' & Hst & Hend & Hothers & Hruns & _)
             end;
             exists w', j'; by rewrite Hturn).
      all: try (destruct (Hfinish "rb_job_failed"
                  (JObj ([("rb_job_id", JStr j); ("kind", JStr (job_kind row));
                          ("error", JStr (job_exn_str jenv (ReasoningBankError m)))]
                         ++ job_exn_missing jenv (ReasoningBankError m))%list)
                  "failed" (Some (job_exn_str jenv (ReasoningBankError m))) w1
                  Hrows1 eq_refl)
                  as (w' & j' & Hturn & Hj' & Hst & Hend & Hothers & Hruns & _);
                exists w', j'; by rewrite Hturn). }
    unfold rb_job_turn, _execute_rb_job in Hturn. cbn [fst snd] in Hturn.
    fold rid in Hturn. rewrite Hstart in Hturn.
    unfold wbind at 1 in Hturn.
    rewrite (w_append_event_fk_Ok _ _ _ _ r0) in Hturn by done. fold w1 in Hturn.
    rewrite bool_decide_eq_false_2 in Hturn by (by intros ?). rewrite Hcfg in Hturn.
    destruct Hrest as (Hj' & Hst & Hend & Hothers & Hruns).
    exists w', j'. rewrite Hturn. repeat (split; [done || by right|]).
    rewrite Hst. split; [intros [=]|]. intros ? ? ? _ [=]. }
  unfold wbind at 1. unfold safe_execute_rb_learn_job at 1. fold rid.
  pose proof (learn_rows py conv env (job_learn_env jenv) rid j w1) as Hrows2.
  destruct (learn_reasoningbank_for_run py conv env (job_learn_env jenv) rid j w1)
    as [[d|e] w2] eqn:Hpass; cbn [snd] in Hrows2.
  - destruct (Hfinish "rb_job_completed"
                (JObj [("rb_job_id", JStr j); ("kind", JStr (job_kind row));
                       ("delta_id", JStr d)])
                "completed" None w2 (rows_kept_trans _ _ _ Hrows1 Hrows2) eq_refl)
      as (w' & j' & Hturn & Hj' & Hst & Hend & Hothers & Hruns & Hd).
    exists w', j'. rewrite Hturn. repeat (split; [done || by left|]).
    rewrite Hst. split; [|done]. intros _. split; [done|]. split; [done|].
    by exists started, d, w2.
  - assert (runs (w_store w2) !! rid = Some r0) as Hrun2.
    { destruct Hrows2 as (-> & _). done. }
    unfold wbind at 1. rewrite (w_append_event_fk_Ok _ _ _ _ r0) by done.
    unfold wret.
    set (w3 := set_w_store (append_event rid "rb_learn_failed" _) w2).
    assert (rows_kept w w3) as Hrows3.
    { eapply rows_kept_trans; [exact Hrows1|]. eapply rows_kept_trans; [exact Hrows2|].
      done. }
    destruct (w_update_rb_job_status_spec j "failed" (Some "rb_learn_failed") w3 j0)
      as (w' & j' & Hup & Hj' & Hst & Hend & Hothers & Hruns & _); [|done|].
    { destruct Hrows3 as (_ & _ & _ & ->). done. }
    exists w', j'. rewrite Hup. split; [done|]. split; [done|].
    split; [by right|]. split; [done|]. split; [|split].
    + intros k Hk. rewrite Hothers by done. by destruct Hrows3 as (_ & _ & _ & ->).
    + rewrite Hruns. by destruct Hrows3 as (-> & _).
    + rewrite Hst. split; [intros [=]|]. intros st' d w1' _ _ Hst' Hpass'.
      assert (st' = started) as -> by congruence. fold rid w1 in Hpass'. congruence.
Qed.

End LearnJobTurn.
Lemma rb_job_turn_settles_witness :
  ∃ w' j',
    rb_job_turn sample_py sample_conv sample_rb_env (sample_job_env sample_learn_env)
      sample_job sample_job_world = (Ok tt, w')
    ∧ rb_jobs (w_store w') !! "rbjob_1" = Some j'
    ∧ job_status j' = "completed".
Proof.
  destruct (rb_job_turn_settles sample_py sample_conv sample_rb_env
              (sample_job_env sample_learn_env) sample_job sample_job_world
              (mkRunRow "batch_1" 1 10 (Some 11) (Some 12) "completed" None)
              sample_job.2)
    as (w' & j' & Hturn & Hj' & _ & _ & _ & _ & _ & Hdone).
  - vm_compute. reflexivity.
  - vm_compute. reflexivity.
  - exists w', j'. split; [exact Hturn|]. split; [exact Hj'|].
    destruct (learn_reasoningbank_for_run sample_py sample_conv sample_rb_env
                sample_learn_env "run_a" "rbjob_1"
                (set_w_store
                   (append_event "run_a" "rb_job_started"
                      (JObj [("rb_job_id", JStr "rbjob_1")])) sample_job_world))
      as [[d|e] w1] eqn:Hpass; [|vm_compute in Hpass; discriminate Hpass].
    apply (Hdone (JObj [("rb_job_id", JStr "rbjob_1")]) d w1);
      [reflexivity|reflexivity|reflexivity|exact Hpass].
Defined.

(** ** Undoing an addition, and deltas that are refused *)

Section RollbackAdd.

Context (py : PyLib) (conv : PyConv) (env : RBEnv).

Lemma append_mem_edit_log_rb (id actor : string) (reason : option string)
    (before after extra : JSON) (w : RBWorld) :
  w_rb (append_mem_edit_log env id actor reason before after extra w).2 = w_rb w.
Proof.
  unfold append_mem_edit_log. case_bool_decide; [done|].
  unfold wbind, next_call. cbn. by destruct (w_mem_edit_log w !! _).
Qed.

Lemma _sync_rb_mem_index_rb (item : MemoryItem) (w : RBWorld) :
  w_rb (_sync_rb_mem_index item w).2 = w_rb w.
Proof. unfold _sync_rb_mem_index, upsert_rb_mem_index. by case_bool_decide. Qed.

(** What [archive] leaves under the id of a memory it finds. *)
Lemma rb_archive_read (utc_ts : Z) (new_uuid id : string) (c c' : Collection)
    (b item : MemoryItem) :
  rb_get py c id = Ok (Some b) →
  rb_archive py utc_ts new_uuid id None c = (Ok item, c') →
  ∃ after,
    rb_get py c' id = Ok (Some after)
    ∧ mem_status after = "archived"
    ∧ mem_id after = mem_id b
    ∧ mem_role after = mem_role b
    ∧ mem_type after = mem_type b
    ∧ mem_created_at after = mem_created_at b
    ∧ strip (mem_content after) = strip (mem_content b)
    ∧ ∀ k, strip k ≠ strip id → rb_get py c' k = rb_get py c k.
Proof.
  intros Hget. unfold rb_archive. rewrite Hget.
  pose proof (rb_get_Some _ _ _ _ Hget) as (Hid & Hne & Hin & Hst & Hro & Hty).
  case_bool_decide as Harch.
  - intros [= <- <-]. exists b. by repeat split.
  - intros Hup.
    apply rb_upsert_Ok in Hup
      as (ex' & Hget' & Hmid & Hs1 & Hs2 & Hr1 & Hr2 & Ht1 & Ht2 & Hc1 & Hc2 & Hsrc
          & Hupd & Hcre & Hsch & Hext & ->).
    assert (mem_id item = strip id) as Hitem.
    { rewrite Hmid. cbv [or_empty default from_option Datatypes.id].
      rewrite Hid, strip_idemp.
      unfold or_str. by rewrite bool_decide_eq_false_2. }
    assert (ex' = Some b) as ->.
    { rewrite Hitem in Hget'. unfold rb_get in Hget', Hget.
      rewrite strip_idemp in Hget'. congruence. }
    exists (stored_view item). split.
    { rewrite <- (rb_get_stripped py _ id), <- Hitem.
      apply rb_get_insert; try done.
      - by rewrite Hitem, strip_idemp.
      - by rewrite Hitem. }
    cbn [stored_view mem_status mem_id mem_role mem_type mem_created_at mem_content].
    split; [done|]. split; [congruence|].
    split; [rewrite Hr1; apply (strip_allowed (mem_role b)); auto|].
    split; [rewrite Ht1; apply (strip_allowed (mem_type b)); auto|].
    split; [done|]. split; [by rewrite Hc1, strip_idemp|].
    intros k Hk. apply rb_get_insert_ne. by rewrite Hitem.
Qed.

(** The rollback of an [add] archives the memory that was added and
    deletes nothing: after it the memory is read with the status
    [archived] and with the identity, role, type and time of creation
    it had, its content up to blanks at its ends; every other memory
    is read as before and no delta is touched; and when the memory is
    no longer in the store, nothing at all is done. *)
Theorem rollback_add_archives (rollback_reason : string) (fields : list (string * JSON))
    (id : string) (w w' : RBWorld) :
  strip (py_str py (get_or "op" (JStr "") fields)) = "add" →
  strip (py_str py (get_or "mem_id" (JStr "") fields)) = id →
  id ≠ "" →
  rollback_op py conv env rollback_reason (JObj fields) w = (Ok tt, w') →
  match rb_get py (w_rb w) id with
  | Raise _ => False
  | Ok None => w' = w
  | Ok (Some b) =>
    ∃ after,
      rb_get py (w_rb w') id = Ok (Some after)
      ∧ mem_status after = "archived"
      ∧ mem_id after = mem_id b
      ∧ mem_role after = mem_role b
      ∧ mem_type after = mem_type b
      ∧ mem_created_at after = mem_created_at b
      ∧ strip (mem_content after) = strip (mem_content b)
      ∧ (∀ k, strip k ≠ id → rb_get py (w_rb w') k = rb_get py (w_rb w) k)
      ∧ w_rb_deltas w' = w_rb_deltas w
  end.
Proof.
  intros Hop Hid Hne. unfold rollback_op. rewrite Hop, Hid.
  rewrite (bool_decide_eq_false_2 _ Hne), bool_decide_eq_true_2 by done.
  unfold wbind at 1. unfold w_rb_get at 1.
  destruct (rb_get py (w_rb w) id) as [[b|]|e] eqn:Hget; [|by intros [= <-]|done].
  assert (strip id = id) as Hsid by (rewrite <- Hid; apply strip_idemp).
  unfold wbind at 1. unfold w_rb_archive at 1. unfold wbind at 1, next_call at 1.
  cbn [w_rb w_calls].
  destruct (rb_archive py (env_utc_ts env (w_calls w)) (env_new_uuid env (w_calls w)) id
              None (w_rb w)) as [[item|e] c'] eqn:Harch; [|done].
  destruct (rb_archive_read _ _ _ _ _ _ _ Hget Harch)
    as (after & Hread & Hst & Hmid & Hro & Hty & Hcr & Hco & Hothers).
  set (w1 := set_w_rb c' _).
  unfold wbind at 1.
  pose proof (append_mem_edit_log_rb id "rb_rollback" (Some rollback_reason)
                (_memory_to_dict b) (_memory_to_dict item) JNull w1) as Hrb2.
  pose proof (append_mem_edit_log_frame env id "rb_rollback" (Some rollback_reason)
                (_memory_to_dict b) (_memory_to_dict item) JNull w1) as (Hd2 & _).
  destruct (append_mem_edit_log env id "rb_rollback" (Some rollback_reason)
              (_memory_to_dict b) (_memory_to_dict item) JNull w1) as [[eid|e] w2];
    [|done].
  cbn [snd] in Hrb2, Hd2.
  pose proof (_sync_rb_mem_index_rb item w2) as Hrb3.
  pose proof (_sync_rb_mem_index_frame item w2) as (Hd3 & _).
  destruct (_sync_rb_mem_index item w2) as [[[]|e] w3]; [|done].
  cbn [snd] in Hrb3, Hd3. intros [= <-].
  rewrite Hrb3, Hrb2. cbn [w1 w_rb set_w_rb].
  exists after. repeat (split; [done|]). split.
  - intros k Hk. apply Hothers. by rewrite Hsid.
  - by rewrite Hd3, Hd2.
Qed.

(** A rollback that is refused changes nothing: with a blank run id,
    with the id of a delta that does not exist or that belongs to
    another run, and, when no delta is named, with no applied delta
    of the run, [rollback_rb_delta] raises [ValueError] and leaves the
    database and the store of memories as they are. *)
Theorem rollback_rb_delta_refused (run_id : string) (delta_id reason : option string)
    (w : RBWorld) :
  (strip run_id = "" →
   rollback_rb_delta py conv env run_id delta_id reason w
   = (Raise (ValueError "run_id is required."), w))
  ∧ (strip run_id ≠ "" →
     ∀ d, delta_id = Some d → strip d ≠ "" →
       match w_rb_deltas w !! strip d with
       | None =>
         rollback_rb_delta py conv env run_id delta_id reason w
         = (Raise (ValueError "delta not found"), w)
       | Some row =>
         delta_run_id row ≠ strip run_id →
         rollback_rb_delta py conv env run_id delta_id reason w
         = (Raise (ValueError "delta does not belong to run"), w)
       end)
  ∧ (strip run_id ≠ "" →
     none_if_empty delta_id = None →
     (∀ k row, w_rb_deltas w !! k = Some row → delta_run_id row = strip run_id →
               delta_status row ≠ "applied") →
     rollback_rb_delta py conv env run_id delta_id reason w
     = (Raise (ValueError "no applied delta to rollback"), w)).
Proof.
  split; [|split].
  - intros Hrid. unfold rollback_rb_delta. by rewrite bool_decide_eq_true_2.
  - intros Hrid d -> Hd. unfold rollback_rb_delta.
    rewrite bool_decide_eq_false_2 by done.
    unfold wbind, choose_delta, none_if_empty.
    assert (d ≠ "") as Hdne by (intros ->; by apply Hd).
    rewrite (bool_decide_eq_false_2 _ Hdne).
    unfold get_rb_delta. rewrite (bool_decide_eq_false_2 _ Hd).
    destruct (w_rb_deltas w !! strip d) as [row|]; [|done].
    intros Hrun. cbn. by rewrite bool_decide_eq_true_2.
  - intros Hrid Hnone Hnot. unfold rollback_rb_delta.
    rewrite bool_decide_eq_false_2 by done.
    unfold wbind, choose_delta. rewrite Hnone.
    destruct (filter _ _) as [|[k row] rest] eqn:Hf; [done|].
    assert ((k, row) ∈ filter (λ kv : string * RBDeltaRow, delta_status kv.2 = "applied")
              (list_rb_deltas_for_run w (strip run_id))) as Hin by (rewrite Hf; left).
    apply list_elem_of_filter in Hin as [Hst Hin].
    apply list_rb_deltas_for_run_elem in Hin as (_ & Hk & Hrun).
    rewrite strip_idemp in Hrun. by destruct (Hnot k row).
Qed.

End RollbackAdd.

Lemma rollback_add_archives_witness :
  ∃ w' after,
    rollback_op sample_py sample_conv sample_rb_env "rollback_delta:rbd_x"
      (JObj [("op", JStr "add"); ("mem_id", JStr "mem-1")]) sample_world0 = (Ok tt, w')
    ∧ rb_get sample_py (w_rb w') "mem-1" = Ok (Some after)
    ∧ mem_status after = "archived".
Proof.
  destruct (rollback_op sample_py sample_conv sample_rb_env "rollback_delta:rbd_x"
              (JObj [("op", JStr "add"); ("mem_id", JStr "mem-1")]) sample_world0)
    as [[[]|e] w'] eqn:Hroll; [|vm_compute in Hroll; discriminate Hroll].
  pose proof (rollback_add_archives sample_py sample_conv sample_rb_env
                "rollback_delta:rbd_x" [("op", JStr "add"); ("mem_id", JStr "mem-1")]
                "mem-1" sample_world0 w' eq_refl eq_refl ltac:(discriminate) Hroll)
    as Hspec.
  destruct (rb_get sample_py (w_rb sample_world0) "mem-1") as [[b|]|e] eqn:Hget;
    [|vm_compute in Hget; discriminate Hget..].
  destruct Hspec as (after & Hread & Hst & _).
  exists w', after. split; [reflexivity|]. split; [exact Hread|exact Hst].
Defined.

Lemma rollback_rb_delta_refused_witness :
  rollback_rb_delta sample_py sample_conv sample_rb_env "run_a" (Some "rbd_9") None
    sample_world_c
  = (Raise (ValueError "delta does not belong to run"), sample_world_c).
Proof.
  destruct (rollback_rb_delta_refused sample_py sample_conv sample_rb_env "run_a"
              (Some "rbd_9") None sample_world_c) as (_ & Hnamed & _).
  assert (strip "run_a" ≠ "") as Hrid by (vm_compute; discriminate).
  pose proof (Hnamed Hrid "rbd_9" eq_refl ltac:(vm_compute; discriminate)) as Hcase.
  destruct (w_rb_deltas sample_world_c !! strip "rbd_9") as [row|] eqn:Hrow;
    [|vm_compute in Hrow; discriminate Hrow].
  apply Hcase. vm_compute in Hrow. injection Hrow as <-. vm_compute. discriminate.
Defined.

(** ** Tool calls whose arguments are no object *)

Section ToolArgs.
Context (cfg : Config) (py : PyLib) (col : Collab).

(** A tool call whose arguments parse to a JSON value that is no
    object raises [AttributeError] in the branches that call
    [args.get] unguarded ([kb_get], [mem_get], and [mem_search] when a
    ReasoningBank is configured) and leaves the state as it is; the
    branches of [kb_list] and [mem_list] fall back on their default
    limit, [mem_search] without a ReasoningBank and a call of an
    unknown name answer with their observation, and the loop over the
    tool calls of the turn goes on after a call of an unknown name. *)
Theorem run_tool_args_no_object (name : string) (args : JSON) (gs : GenState) :
  (∀ f, args ≠ JObj f) →
  let rt := eng_rt (gen_eng gs) in
  ((name = "kb_get" ∨ name = "mem_get"
    ∨ (name = "mem_search" ∧ is_Some (rb_query col))) →
   run_tool cfg py col name args gs = (Raise (AttributeError "get"), gs))
  ∧ (name = "kb_list" →
     (run_tool cfg py col name args gs).1
     = Ok (obs_text cfg
             (ObsKbList (length (kb_all_aliased_chunks (rt_kb rt)))
                (clamp_limit None (kb_list_default_limit cfg) (kb_list_max_limit cfg))
                (py_take (clamp_limit None (kb_list_default_limit cfg)
                            (kb_list_max_limit cfg))
                         (kb_all_aliased_chunks (rt_kb rt))))))
  ∧ (name = "mem_list" →
     (run_tool cfg py col name args gs).1
     = Ok (obs_text cfg
             (ObsMemList (length (mem_all_items (rt_mem rt)))
                (clamp_limit None (mem_list_default_limit cfg) (mem_list_max_limit cfg))
                (py_take (clamp_limit None (mem_list_default_limit cfg)
                            (mem_list_max_limit cfg))
                         (mem_all_items (rt_mem rt))))))
  ∧ (name = "mem_search" → rb_query col = None →
     run_tool cfg py col name args gs = (Ok (obs_text cfg ObsRbNotConfigured), gs))
  ∧ (name ∉ ["kb_get"; "kb_list"; "mem_search"; "mem_get"; "mem_list"] →
     run_tool cfg py col name args gs = (Ok (obs_text cfg (ObsUnknownTool name)), gs))
  ∧ (∀ turn tc rest,
       strip (tc_name tc) ∉ ["kb_get"; "kb_list"; "mem_search"; "mem_get"; "mem_list"] →
       run_tool_calls cfg py col turn (tc :: rest) gs
       = run_tool_calls cfg py col turn rest
           (mkGenState (gen_eng gs)
              (gen_history gs
               ++ [MsgTool (if bool_decide (tc_id tc = "")
                            then "tool_call_" ++ pretty turn else tc_id tc)
                     (obs_text cfg (ObsUnknownTool (strip (tc_name tc))))])
              (format_errors gs) (opened_aliases gs) (opened_mem_ids gs))).
Proof.
  intros Hargs rt.
  assert (args_get args = Raise (AttributeError "get")) as Hget.
  { destruct args as [| | | | |f]; try done; by destruct (Hargs f). }
  assert (∀ k, arg_int py k args = None) as Hint.
  { intros k. destruct args as [| | | | |f]; try done; by destruct (Hargs f). }
  assert (∀ n a g,
            n ∉ ["kb_get"; "kb_list"; "mem_search"; "mem_get"; "mem_list"] →
            run_tool cfg py col n a g = (Ok (obs_text cfg (ObsUnknownTool n)), g))
    as Hunknown.
  { intros n a g Hn.
    assert (n ≠ "kb_get" ∧ n ≠ "kb_list" ∧ n ≠ "mem_search" ∧ n ≠ "mem_get"
            ∧ n ≠ "mem_list") as (? & ? & ? & ? & ?).
    { repeat split; intros ->; apply Hn; repeat constructor. }
    unfold run_tool. by rewrite !bool_decide_eq_false_2 by done. }
  split; [|split; [|split; [|split; [|split]]]].
  - intros [->|[->|[-> [q Hq]]]]; unfold run_tool.
    + rewrite bool_decide_eq_true_2 by done. by rewrite Hget.
    + rewrite !(bool_decide_eq_false_2 ("mem_get" = _)) by done.
      rewrite bool_decide_eq_true_2 by done. by rewrite Hget.
    + rewrite !(bool_decide_eq_false_2 ("mem_search" = _)) by done.
      rewrite bool_decide_eq_true_2 by done. by rewrite Hq, Hget.
  - intros ->. unfold run_tool.
    rewrite (bool_decide_eq_false_2 ("kb_list" = "kb_get")) by done.
    rewrite bool_decide_eq_true_2 by done. by rewrite Hint.
  - intros ->. unfold run_tool.
    rewrite !(bool_decide_eq_false_2 ("mem_list" = _)) by done.
    rewrite bool_decide_eq_true_2 by done. by rewrite Hint.
  - intros -> Hq. unfold run_tool.
    rewrite !(bool_decide_eq_false_2 ("mem_search" = _)) by done.
    rewrite bool_decide_eq_true_2 by done. by rewrite Hq.
  - apply Hunknown.
  - intros turn tc rest Hn. cbn [run_tool_calls]. by rewrite Hunknown.
Qed.

End ToolArgs.

(** Arguments that are the list [[1]]: [kb_get] raises, a tool that
    does not exist is answered and the next call of the turn, a
    [kb_list], is made. *)
Lemma run_tool_args_no_object_witness :
  run_tool sample_cfg sample_py (sample_col script_good) "kb_get" (JArr [JNum 1])
    sample_gen_state
  = (Raise (AttributeError "get"), sample_gen_state)
  ∧ run_tool sample_cfg sample_py (sample_col script_good) "frobnicate" (JArr [JNum 1])
      sample_gen_state
    = (Ok "observation", sample_gen_state)
  ∧ (∃ gs',
       run_tool_calls sample_cfg sample_py (sample_col script_good) 1
         [mkToolCall "" " frobnicate " "x"; mkToolCall "call_2" "kb_list" ""]
         sample_gen_state = (Ok tt, gs')
       ∧ gen_history gs'
         = [Msg "user" "GENERATE"; MsgTool "tool_call_1" "observation";
            MsgTool "call_2" "observation"]).
Proof.
  destruct (run_tool_args_no_object sample_cfg sample_py (sample_col script_good)
              "kb_get" (JArr [JNum 1]) sample_gen_state) as (Hraise & _);
    [by intros f|].
  destruct (run_tool_args_no_object sample_cfg sample_py (sample_col script_good)
              "frobnicate" (JArr [JNum 1]) sample_gen_state)
    as (_ & _ & _ & _ & Hunknown & Hloop); [by intros f|].
  split; [apply Hraise; by left|].
  split.
  - apply Hunknown. vm_compute. intros Hin.
    repeat (apply elem_of_cons in Hin as [Hin|Hin]; [discriminate Hin|]).
    by apply elem_of_nil in Hin.
  - eexists. split; [vm_compute; reflexivity|]. vm_compute. reflexivity.
Defined.
